(** * Tender-Radar: risk indicators, scoring engine and ingestion orchestrators

    A shallow embedding of
      - backend/app/features/indicators.py  (the sixteen indicators),
      - backend/app/features/engine.py      (weights, score, level, persistence),
      - backend/app/etl/incremental.py      (journal entries, soft delete, upserts),
      - backend/app/etl/backfill.py         (checkpointed page loaders),
      - backend/app/etl/client.py           (the paginate generator),
    together with the parts of backend/app/models/procurement.py they read.

    Conventions.
      - A [Numeric] or [float] value is a rational ([Q]); arithmetic on it is
        exact.  [round(x, 1)] is Python's round-half-to-even at one decimal.
      - A [DateTime] is a number of microseconds ([Z]); [timedelta.days] is the
        floor of the difference divided by one day.
      - A nullable column is an [option]; Python truthiness is written out
        ([None], [0], [0.0] and the empty string are falsy).
      - Code that can raise returns a [result]. *)

From Stdlib Require Import ZArith QArith Qround Qminmax List String Ascii Bool Lia Lqa.
From Stdlib Require Import DecimalString Sorting.Sorted Sorting.Permutation.
Import ListNotations.

Local Open Scope Z_scope.
Local Open Scope string_scope.

Set Implicit Arguments.
Set Warnings "-register-all".

(* ===================================================================== *)
(** ** Python values, exceptions and numeric primitives                  *)
(* ===================================================================== *)

Module Py.

Definition datetime := Z.

(** JSON-like values: evidence payloads, statement rows, journal fields. *)
Inductive pyval : Type :=
| VNone
| VBool (b : bool)
| VInt (z : Z)
| VNum (q : Q)
| VStr (s : string)
| VDate (d : datetime)            (* a datetime object *)
| VDateStr (d : datetime)         (* str(datetime) *)
| VRepr (v : pyval)               (* str(v) where the printer is not modelled *)
| VList (l : list pyval)
| VDict (d : list (string * pyval)).

Definition pydict := list (string * pyval).

Inductive exn : Type :=
| ZeroDivisionError
| ValueError
| TypeError
| AttributeError
| KeyError (k : string)
| TransportError               (* httpx error that survived the retries *)
| ProgrammingError (msg : string)
| IntegrityError
| CardinalityViolation
| OperationalError.            (* the database refused an execute/commit *)

Inductive result (A : Type) : Type :=
| Ok (a : A)
| Raise (e : exn).
Arguments Ok {A} a.
Arguments Raise {A} e.

Definition bind {A B} (r : result A) (k : A -> result B) : result B :=
  match r with
  | Ok a => k a
  | Raise e => Raise e
  end.

Definition is_ok {A} (r : result A) : bool :=
  match r with Ok _ => true | Raise _ => false end.

Declare Scope py_scope.
Delimit Scope py_scope with py.
Notation "x <- c ;; k" := (bind c (fun x => k))
  (at level 61, c at next level, right associativity) : py_scope.
Notation "' p <- c ;; k" := (bind c (fun x => let p := x in k))
  (at level 61, p pattern, c at next level, right associativity) : py_scope.

(** Truthiness of the values the code tests with [not x] / [x or y]. *)
Definition truthy_str (o : option string) : bool :=
  match o with Some s => negb (String.eqb s "") | None => false end.
Definition truthy_Z (o : option Z) : bool :=
  match o with Some z => negb (Z.eqb z 0) | None => false end.
Definition truthy_Q (o : option Q) : bool :=
  match o with Some q => negb (Qeq_bool q 0) | None => false end.
Definition truthy_bool (o : option bool) : bool :=
  match o with Some b => b | None => false end.
Definition truthy_date (o : option datetime) : bool :=
  match o with Some _ => true | None => false end.

(** [x or 0] on a nullable numeric. *)
Definition or0 (o : option Q) : Q :=
  match o with Some q => if Qeq_bool q 0 then 0%Q else q | None => 0%Q end.

(** Strict and weak comparisons as booleans. *)
Definition Qltb (a b : Q) : bool := negb (Qle_bool b a).
Definition Qleb (a b : Q) : bool := Qle_bool a b.

(** [a / b] on floats: raises when the divisor is zero. *)
Definition truediv (a b : Q) : result Q :=
  if Qeq_bool b 0 then Raise ZeroDivisionError else Ok (a / b)%Q.

(** Round half to even, to an integer. *)
Definition round_half_even (q : Q) : Z :=
  let f := Qfloor q in
  let r := (q - inject_Z f)%Q in
  if Qltb r (1 # 2) then f
  else if Qltb (1 # 2) r then f + 1
  else if Z.even f then f else f + 1.

(** [round(x, 1)]. *)
Definition round1 (q : Q) : Q := Qmake (round_half_even (q * 10)) 10.

(** [min(a, b)]: Python returns the first argument unless the second is
    strictly smaller. *)
Definition min (a b : Q) : Q := if Qltb b a then b else a.

(** [timedelta.days] and [timedelta.total_seconds()]. *)
Definition usec_per_day : Z := 86400000000.
Definition days (later earlier : datetime) : Z := (later - earlier) / usec_per_day.
Definition total_seconds (later earlier : datetime) : Q := Qmake (later - earlier) 1000000.

(** [str(n)] for an integer. *)
Definition str_of_Z (z : Z) : string := NilZero.string_of_int (Z.to_int z).

(** General truthiness, [x or y], and [str(x)]. *)
Definition truthy (v : pyval) : bool :=
  match v with
  | VNone => false
  | VBool b => b
  | VInt z => negb (Z.eqb z 0)
  | VNum q => negb (Qeq_bool q 0)
  | VStr s => negb (String.eqb s "")
  | VDate _ | VDateStr _ | VRepr _ => true
  | VList l => match l with [] => false | _ => true end
  | VDict d => match d with [] => false | _ => true end
  end.

Definition por (a b : pyval) : pyval := if truthy a then a else b.

Definition str (v : pyval) : pyval :=
  match v with
  | VStr s => VStr s
  | VInt z => VStr (str_of_Z z)
  | VNone => VStr "None"
  | VBool true => VStr "True"
  | VBool false => VStr "False"
  | VDate d => VDateStr d
  | other => VRepr other
  end.

(** [int(x)].  For a string: optional surrounding ASCII whitespace, an
    optional sign, decimal digits with single underscores between them. *)
Definition is_space (c : ascii) : bool :=
  let n := nat_of_ascii c in
  (Nat.eqb n 32 || (Nat.leb 9 n && Nat.leb n 13))%bool.

Fixpoint lstrip (s : string) : string :=
  match s with
  | String c r => if is_space c then lstrip r else s
  | EmptyString => EmptyString
  end.

Fixpoint rev_string (s acc : string) : string :=
  match s with
  | String c r => rev_string r (String c acc)
  | EmptyString => acc
  end.

Definition strip (s : string) : string :=
  rev_string (lstrip (rev_string (lstrip s) "")) "".

Definition digit_of (c : ascii) : option Z :=
  let n := nat_of_ascii c in
  if (Nat.leb 48 n && Nat.leb n 57)%bool then Some (Z.of_nat (n - 48)) else None.

Inductive digit_state := AtStart | AfterDigit | AfterUnderscore.

Fixpoint parse_digits (s : string) (acc : Z) (st : digit_state) : option Z :=
  match s with
  | EmptyString => match st with AfterDigit => Some acc | _ => None end
  | String c r =>
    match digit_of c with
    | Some d => parse_digits r (acc * 10 + d) AfterDigit
    | None =>
      if Ascii.eqb c "_"%char
      then match st with AfterDigit => parse_digits r acc AfterUnderscore | _ => None end
      else None
    end
  end.

Definition int_of_string (s : string) : option Z :=
  match strip s with
  | String "-"%char r => option_map Z.opp (parse_digits r 0 AtStart)
  | String "+"%char r => parse_digits r 0 AtStart
  | t => parse_digits t 0 AtStart
  end.

Definition to_int (v : pyval) : result Z :=
  match v with
  | VInt z => Ok z
  | VBool b => Ok (if b then 1 else 0)
  | VNum q => Ok (Z.quot (Qnum q) (Zpos (Qden q)))
  | VStr s => match int_of_string s with Some z => Ok z | None => Raise ValueError end
  | _ => Raise TypeError
  end.

End Py.

Import Py.
Local Open Scope py_scope.

(* ===================================================================== *)
(** ** The normalized store (models/procurement.py)                      *)
(* ===================================================================== *)

Module Model.

Record TrdBuy := {
  tb_id : Z;
  tb_start_date : option datetime;
  tb_end_date : option datetime;
  tb_last_update_at : option datetime;
  tb_is_deleted : bool }.

Record Lot := {
  lot_id : Z;
  lot_trd_buy_id : option Z;
  lot_amount : option Q;
  lot_customer_bin : option string;
  lot_dumping_flag : option bool;
  lot_is_deleted : bool }.

Record TrdApp := {
  app_id : Z;
  app_buy_id : option Z;
  app_supplier_biin : option string }.

Record Contract := {
  c_id : Z;
  c_trd_buy_id : option Z;
  c_customer_bin : option string;
  c_supplier_biin : option string;
  c_contract_sum_wnds : option Q;
  c_sign_date : option datetime;
  c_plan_exec_date : option datetime;
  c_parent_id : option Z;
  c_root_id : option Z;
  c_is_deleted : bool }.

Record Subject := {
  s_id : Z;
  s_bin : option string;
  s_iin : option string;
  s_name_ru : option string;
  s_regdate : option datetime;
  s_crdate : option datetime;
  s_phone : option string;
  s_email : option string;
  s_is_deleted : bool }.

Record Rnu := {
  r_id : Z;
  r_supplier_biin : option string;
  r_reason : option string;
  r_start_date : option datetime;
  r_system_id : option Z;
  r_is_active : bool }.

Record TreasuryPay := {
  p_id : Z;
  p_contract_id : option Z;
  p_pay_amount : option Q }.

(** [acts] is read by raw SQL in check_payment_without_act and has no model
    class: only the [contract_id] of each of its rows is kept. *)
Record Store := {
  trd_buy : list TrdBuy;
  lots : list Lot;
  trd_app : list TrdApp;
  contract : list Contract;
  subject : list Subject;
  rnu : list Rnu;
  treasury_pay : list TreasuryPay;
  acts : list Z }.

Definition empty_store : Store :=
  {| trd_buy := []; lots := []; trd_app := []; contract := []; subject := [];
     rnu := []; treasury_pay := []; acts := [] |}.

End Model.

Import Model.

(* ===================================================================== *)
(** ** SQL fragments shared by the queries                               *)
(* ===================================================================== *)

Module Sql.

(** [col == param] for a non-null parameter: a NULL column never matches. *)
Definition eqZ (col : option Z) (v : Z) : bool :=
  match col with Some c => Z.eqb c v | None => false end.
Definition eqS (col : option string) (v : string) : bool :=
  match col with Some c => String.eqb c v | None => false end.

(** [col == value] as SQLAlchemy renders it for a Python value that may be
    [None]: [col IS NULL] then. *)
Definition eqZ_or_null (col v : option Z) : bool :=
  match v with
  | Some x => eqZ col x
  | None => match col with None => true | Some _ => false end
  end.

Definition opt_eqb {A} (eqb : A -> A -> bool) (a b : option A) : bool :=
  match a, b with
  | Some x, Some y => eqb x y
  | None, None => true
  | _, _ => false
  end.

(** [.first()] / [.limit(1)]: the first row in table order. *)
Definition first {A} (l : list A) : option A := hd_error l.

(** [func.count(col)] over non-null values is the length of the list of
    selected rows when [col] is the primary key. *)
Definition count {A} (l : list A) : Z := Z.of_nat (List.length l).

(** [func.sum(col)]: NULLs are skipped; NULL when nothing is left. *)
Definition non_null {A} (l : list (option A)) : list A :=
  flat_map (fun o => match o with Some x => [x] | None => [] end) l.
Definition Qsum (l : list Q) : Q := fold_left Qplus l 0%Q.
Definition sum (l : list (option Q)) : option Q :=
  match non_null l with [] => None | xs => Some (Qsum xs) end.
(** [func.avg(col)]. *)
Definition avg (l : list (option Q)) : option Q :=
  match non_null l with
  | [] => None
  | xs => Some (Qsum xs / inject_Z (count xs))%Q
  end.

(** Distinct values, in order of first occurrence. *)
Fixpoint distinct {A} (eqb : A -> A -> bool) (l : list A) : list A :=
  match l with
  | [] => []
  | x :: r => x :: filter (fun y => negb (eqb x y)) (distinct eqb r)
  end.

Definition mem {A} (eqb : A -> A -> bool) (x : A) (l : list A) : bool :=
  existsb (eqb x) l.

(** [ORDER BY key] ascending, NULLS LAST (the PostgreSQL default), as a stable
    insertion sort over table order. *)
Definition date_le (a b : option datetime) : bool :=
  match a, b with
  | Some x, Some y => Z.leb x y
  | Some _, None => true
  | None, Some _ => false
  | None, None => true
  end.

Definition key_le {A} (key : A -> option datetime) (a b : A) : Prop :=
  date_le (key a) (key b) = true.

Fixpoint insert_by {A} (key : A -> option datetime) (x : A) (l : list A) : list A :=
  match l with
  | [] => [x]
  | y :: r => if date_le (key y) (key x) then y :: insert_by key x r else x :: l
  end.

Definition order_by {A} (key : A -> option datetime) (l : list A) : list A :=
  fold_left (fun acc x => insert_by key x acc) l [].

Definition limit {A} (n : nat) (l : list A) : list A := firstn n l.

End Sql.

(* ===================================================================== *)
(** ** The sixteen indicators (features/indicators.py)                   *)
(* ===================================================================== *)

Module Indicators.

(** The dict every indicator returns: [{flag, value, evidence}]. *)
Record ind_result := {
  flag : bool;
  value : option Q;
  evidence : pydict }.

(** [{"flag": False, "value": None, "evidence": {}}] *)
Definition empty_result : ind_result :=
  {| flag := false; value := None; evidence := [] |}.

(** [{"flag": False, "value": 0.0, "evidence": {}}] *)
Definition zero_result : ind_result :=
  {| flag := false; value := Some 0%Q; evidence := [] |}.

Definition VOptStr (o : option string) : pyval :=
  match o with Some s => VStr s | None => VNone end.
Definition VOptInt (o : option Z) : pyval :=
  match o with Some z => VInt z | None => VNone end.
Definition VOptBool (o : option bool) : pyval :=
  match o with Some b => VBool b | None => VNone end.

(** *** 1. SHORT_DEADLINE *)
Definition check_short_deadline (db : Store) (trd_buy_id : Z) : result ind_result :=
  match Sql.first (filter (fun t => Z.eqb (tb_id t) trd_buy_id) (trd_buy db)) with
  | None => Ok empty_result
  | Some row =>
    match tb_start_date row, tb_end_date row with
    | Some start_date, Some end_date =>
      let delta_days := days end_date start_date in
      Ok {| flag := Z.ltb delta_days 3;
            value := Some (inject_Z delta_days);
            evidence := [("start_date", VDateStr start_date);
                         ("end_date", VDateStr end_date);
                         ("deadline_days", VInt delta_days);
                         ("threshold", VInt 3)] |}
    | _, _ => Ok empty_result
    end
  end.

(** *** 2. FEW_BIDS *)
Definition check_few_bids (db : Store) (trd_buy_id : Z) : result ind_result :=
  let bid_count :=
    Sql.count (filter (fun a => Sql.eqZ (app_buy_id a) trd_buy_id) (trd_app db)) in
  Ok {| flag := Z.ltb 0 bid_count && Z.leb bid_count 2;
        value := Some (inject_Z bid_count);
        evidence := [("bid_count", VInt bid_count); ("threshold", VInt 2)] |}.

(** *** 3. LOT_SPLITTING *)
Definition lot_splitting_rows (db : Store) (trd_buy_id : Z) : list Lot :=
  filter (fun l => Sql.eqZ (lot_trd_buy_id l) trd_buy_id && negb (lot_is_deleted l))
         (lots db).

Definition check_lot_splitting (db : Store) (trd_buy_id : Z) : result ind_result :=
  let rows := lot_splitting_rows db trd_buy_id in
  let lot_count := Sql.count rows in
  let total_sum := or0 (Sql.sum (map lot_amount rows)) in
  let avg_amount := or0 (Sql.avg (map lot_amount rows)) in
  let flag := Z.ltb 5 lot_count && Qltb avg_amount 5000000 && Qltb 10000000 total_sum in
  Ok {| flag := flag;
        value := Some (inject_Z lot_count);
        evidence := [("lot_count", VInt lot_count);
                     ("total_sum", VNum total_sum);
                     ("avg_lot_amount", VNum avg_amount)] |}.

(** *** 4. RECURRING_WINNER *)
Definition check_recurring_winner (db : Store) (customer_bin supplier_biin : string)
  : result ind_result :=
  let total :=
    Sql.count (filter (fun c => Sql.eqS (c_customer_bin c) customer_bin
                                && negb (c_is_deleted c)) (contract db)) in
  if Z.eqb total 0 then Ok zero_result
  else
    let supplier_count :=
      Sql.count (filter (fun c => Sql.eqS (c_customer_bin c) customer_bin
                                  && Sql.eqS (c_supplier_biin c) supplier_biin
                                  && negb (c_is_deleted c)) (contract db)) in
    win_rate <- truediv (inject_Z supplier_count) (inject_Z total) ;;
    Ok {| flag := Qltb (7 # 10) win_rate && Z.leb 5 total;
          value := Some (round1 (win_rate * 100));
          evidence := [("customer_bin", VStr customer_bin);
                       ("supplier_biin", VStr supplier_biin);
                       ("supplier_contracts", VInt supplier_count);
                       ("total_contracts", VInt total);
                       ("win_rate_pct", VNum (round1 (win_rate * 100)));
                       ("threshold_pct", VInt 70)] |}.

(** *** 5. SUPPLIER_CONCENTRATION *)

(** [GROUP BY key ... ORDER BY cnt DESC LIMIT 1]: a group of maximal count, the
    earliest such group in table order. *)
Definition top_group {K} (groups : list (K * Z)) : option (K * Z) :=
  fold_left (fun best g =>
               match best with
               | None => Some g
               | Some b => if Z.ltb (snd b) (snd g) then Some g else Some b
               end) groups None.

Definition check_supplier_concentration (db : Store) (supplier_biin : string)
  : result ind_result :=
  let rows := filter (fun c => Sql.eqS (c_supplier_biin c) supplier_biin
                               && negb (c_is_deleted c)) (contract db) in
  let total := Sql.count rows in
  if Z.ltb total 5 then Ok zero_result
  else
    let keys := Sql.distinct (Sql.opt_eqb String.eqb) (map c_customer_bin rows) in
    let groups :=
      map (fun k => (k, Sql.count (filter (fun c => Sql.opt_eqb String.eqb k (c_customer_bin c))
                                          rows))) keys in
    match top_group groups with
    | None => Ok zero_result
    | Some (top_customer_bin, cnt) =>
      concentration <- truediv (inject_Z cnt) (inject_Z total) ;;
      Ok {| flag := Qltb (8 # 10) concentration;
            value := Some (round1 (concentration * 100));
            evidence := [("supplier_biin", VStr supplier_biin);
                         ("top_customer_bin", VOptStr top_customer_bin);
                         ("top_customer_contracts", VInt cnt);
                         ("total_contracts", VInt total);
                         ("concentration_pct", VNum (round1 (concentration * 100)))] |}
    end.

(** *** 6. ADDENDUM_VALUE_INCREASE *)
Definition contract_by_id (db : Store) (contract_id : Z) : option Contract :=
  Sql.first (filter (fun c => Z.eqb (c_id c) contract_id) (contract db)).

Definition check_addendum_value_increase (db : Store) (contract_id : Z)
  : result ind_result :=
  match contract_by_id db contract_id with
  | None => Ok empty_result
  | Some row =>
    if negb (truthy_Z (c_root_id row)) then Ok empty_result
    else
      match c_root_id row with
      | None => Ok empty_result
      | Some root_id =>
        match contract_by_id db root_id with
        | None => Ok empty_result
        | Some root =>
          if negb (truthy_Q (c_contract_sum_wnds root))
             || negb (truthy_Q (c_contract_sum_wnds row))
          then Ok empty_result
          else
            match c_contract_sum_wnds row, c_contract_sum_wnds root with
            | Some row_sum, Some root_sum =>
              increase_pct <- truediv (row_sum - root_sum) root_sum ;;
              Ok {| flag := Qltb (20 # 100) increase_pct;
                    value := Some (round1 (increase_pct * 100));
                    evidence := [("root_contract_id", VInt root_id);
                                 ("original_sum", VNum root_sum);
                                 ("current_sum", VNum row_sum);
                                 ("increase_pct", VNum (round1 (increase_pct * 100)));
                                 ("threshold_pct", VInt 20)] |}
            | _, _ => Ok empty_result
            end
        end
      end
  end.

(** *** 7. WIN_MIN_THEN_ADDENDUM *)
Definition check_win_min_then_addendum (db : Store) (contract_id : Z)
  : result ind_result :=
  match contract_by_id db contract_id with
  | None => Ok empty_result
  | Some contract =>
    if negb (truthy_Z (c_root_id contract)) then Ok empty_result
    else
      let children :=
        filter (fun c => Sql.eqZ (c_parent_id c) contract_id) (Model.contract db) in
      match Sql.first (Sql.order_by c_sign_date children) with
      | None => Ok empty_result
      | Some addendum =>
        match c_sign_date addendum, c_sign_date contract with
        | Some addendum_sign, Some contract_sign =>
          let days_to_addendum := days addendum_sign contract_sign in
          Ok {| flag := Z.leb days_to_addendum 30;
                value := Some (inject_Z days_to_addendum);
                evidence := [("contract_sign_date", VDateStr contract_sign);
                             ("addendum_sign_date", VDateStr addendum_sign);
                             ("days_to_addendum", VInt days_to_addendum);
                             ("addendum_sum", VNum (or0 (c_contract_sum_wnds addendum)))] |}
        | _, _ => Ok empty_result
        end
      end
  end.

(** *** 8. WEIRD_EXECUTION_TIME *)
Definition check_weird_execution_time (db : Store) (contract_id : Z)
  : result ind_result :=
  match contract_by_id db contract_id with
  | None => Ok empty_result
  | Some row =>
    match c_sign_date row, c_plan_exec_date row with
    | Some sign_date, Some plan_exec_date =>
      let exec_days := days plan_exec_date sign_date in
      Ok {| flag := Z.ltb exec_days 7 || Z.ltb 730 exec_days;
            value := Some (inject_Z exec_days);
            evidence := [("sign_date", VDateStr sign_date);
                         ("plan_exec_date", VDateStr plan_exec_date);
                         ("execution_days", VInt exec_days);
                         ("anomaly", VStr (if Z.ltb exec_days 7 then "too_short"
                                           else "too_long"))] |}
    | _, _ => Ok empty_result
    end
  end.

(** *** 9. RNU_FLAG *)
Definition check_rnu_flag (db : Store) (supplier_biin : string) : result ind_result :=
  match Sql.first (filter (fun r => Sql.eqS (r_supplier_biin r) supplier_biin
                                    && r_is_active r) (Model.rnu db)) with
  | Some rnu =>
    Ok {| flag := true;
          value := Some 1%Q;
          evidence := [("rnu_id", VInt (r_id rnu));
                       ("reason", VOptStr (r_reason rnu));
                       ("start_date", match r_start_date rnu with
                                      | Some d => VDateStr d
                                      | None => VStr "None"
                                      end);
                       ("system_id", VOptInt (r_system_id rnu))] |}
  | None => Ok {| flag := false; value := Some 0%Q; evidence := [] |}
  end.

(** *** 10. DUMPING_FLAG *)
Definition check_dumping_flag (db : Store) (lot_id : Z) : result ind_result :=
  match Sql.first (filter (fun l => Z.eqb (Model.lot_id l) lot_id) (lots db)) with
  | None => Ok empty_result
  | Some row =>
    Ok {| flag := truthy_bool (lot_dumping_flag row);
          value := Some (if truthy_bool (lot_dumping_flag row) then 1%Q else 0%Q);
          evidence := [("lot_id", VInt lot_id);
                       ("dumping_flag", VOptBool (lot_dumping_flag row));
                       ("lot_amount", VNum (or0 (lot_amount row)))] |}
  end.

(** *** 11. NEW_COMPANY_BIG_CONTRACT
    [now] is the value of [datetime.utcnow()] read by the call. *)
Definition check_new_company_big_contract
  (now : datetime) (db : Store) (supplier_biin : string) (contract_sum : Q)
  : result ind_result :=
  match Sql.first (filter (fun s => Sql.eqS (s_bin s) supplier_biin
                                    || Sql.eqS (s_iin s) supplier_biin) (subject db)) with
  | None => Ok empty_result
  | Some row =>
    match (match s_regdate row with Some d => Some d | None => s_crdate row end) with
    | None => Ok empty_result
    | Some reg_date =>
      let company_age_days := days now reg_date in
      Ok {| flag := Z.ltb company_age_days 365 && Qltb 10000000 contract_sum;
            value := Some (inject_Z company_age_days);
            evidence := [("supplier_biin", VStr supplier_biin);
                         ("company_name", VOptStr (s_name_ru row));
                         ("regdate", VDateStr reg_date);
                         ("company_age_days", VInt company_age_days);
                         ("contract_sum", VNum contract_sum);
                         ("threshold_sum", VInt 10000000)] |}
    end
  end.

(** *** 12. PAYMENT_WITHOUT_ACT *)
Definition check_payment_without_act (db : Store) (contract_id : Z) : result ind_result :=
  let pays := filter (fun p => Sql.eqZ (p_contract_id p) contract_id) (treasury_pay db) in
  let pay_count := Sql.count pays in
  let pay_sum := or0 (Sql.sum (map p_pay_amount pays)) in
  if Z.eqb pay_count 0 then Ok zero_result
  else
    let act_count := Sql.count (filter (Z.eqb contract_id) (acts db)) in
    Ok {| flag := Z.ltb 0 pay_count && Z.eqb act_count 0;
          value := Some pay_sum;
          evidence := [("contract_id", VInt contract_id);
                       ("payment_count", VInt pay_count);
                       ("total_paid", VNum pay_sum);
                       ("act_count", VInt act_count)] |}.

(** *** 13. HIGH_WIN_RATE_FEW_BIDS *)
Definition check_high_win_rate_few_bids (db : Store) (supplier_biin : string)
  : result ind_result :=
  let participated :=
    Sql.distinct Z.eqb
      (Sql.non_null (map app_buy_id
         (filter (fun a => Sql.eqS (app_supplier_biin a) supplier_biin) (trd_app db)))) in
  let total_participated := Sql.count participated in
  if Z.ltb total_participated 5 then Ok zero_result
  else
    let total_won :=
      Sql.count (Sql.distinct Z.eqb
        (Sql.non_null (map c_trd_buy_id
           (filter (fun c => Sql.eqS (c_supplier_biin c) supplier_biin
                             && negb (c_is_deleted c)) (contract db))))) in
    win_rate <- (if Z.ltb 0 total_participated
                 then truediv (inject_Z total_won) (inject_Z total_participated)
                 else Ok 0%Q) ;;
    let bid_counts :=
      map (fun b => Some (inject_Z
             (Sql.count (filter (fun a => Sql.eqZ (app_buy_id a) b) (trd_app db)))))
          participated in
    let avg_bids := or0 (Sql.avg bid_counts) in
    Ok {| flag := Qltb (9 # 10) win_rate && Qltb avg_bids 3;
          value := Some (round1 (win_rate * 100));
          evidence := [("supplier_biin", VStr supplier_biin);
                       ("total_participated", VInt total_participated);
                       ("total_won", VInt total_won);
                       ("win_rate_pct", VNum (round1 (win_rate * 100)));
                       ("avg_bids_per_tender", VNum (round1 avg_bids))] |}.

(** *** 14. CAROUSEL_PATTERN *)

(** The loop over [suppliers]: [seen] is the dedupe window, reset to the
    repeated supplier whenever a repeat is met. *)
Fixpoint count_rotations (suppliers seen : list (option string)) (rotations : Z) : Z :=
  match suppliers with
  | [] => rotations
  | s :: rest =>
    if Sql.mem (Sql.opt_eqb String.eqb) s seen
    then count_rotations rest [s] (rotations + 1)
    else count_rotations rest (s :: seen) rotations
  end.

Definition carousel_rows (db : Store) (customer_bin : string) : list Contract :=
  Sql.limit 50
    (Sql.order_by c_sign_date
       (filter (fun c => Sql.eqS (c_customer_bin c) customer_bin
                         && negb (c_is_deleted c)) (contract db))).

Definition check_carousel_pattern (db : Store) (customer_bin : string)
  : result ind_result :=
  let rows := carousel_rows db customer_bin in
  if Z.ltb (Sql.count rows) 6 then Ok zero_result
  else
    let suppliers := map c_supplier_biin rows in
    let unique_suppliers := Sql.distinct (Sql.opt_eqb String.eqb) suppliers in
    if Z.ltb (Sql.count unique_suppliers) 2 then Ok zero_result
    else
      let rotations := count_rotations suppliers [] 0 in
      Ok {| flag := Z.leb 2 rotations && Z.leb 2 (Sql.count unique_suppliers);
            value := Some (inject_Z rotations);
            evidence := [("customer_bin", VStr customer_bin);
                         ("unique_winners", VInt (Sql.count unique_suppliers));
                         ("rotation_count", VInt rotations);
                         ("winner_sequence", VList (map VOptStr (firstn 10 suppliers)))] |}.

(** *** 15. LAST_MINUTE_CHANGES *)
Definition check_last_minute_changes (db : Store) (trd_buy_id : Z) : result ind_result :=
  match Sql.first (filter (fun t => Z.eqb (tb_id t) trd_buy_id) (trd_buy db)) with
  | None => Ok empty_result
  | Some row =>
    match tb_end_date row, tb_last_update_at row with
    | Some end_date, Some last_update =>
      hours_before_deadline <- truediv (total_seconds end_date last_update) 3600 ;;
      Ok {| flag := Qltb 0 hours_before_deadline && Qltb hours_before_deadline 24;
            value := Some (round1 hours_before_deadline);
            evidence := [("end_date", VDateStr end_date);
                         ("last_update", VDateStr last_update);
                         ("hours_before_deadline", VNum (round1 hours_before_deadline))] |}
    | _, _ => Ok empty_result
    end
  end.

(** *** 16. COMMON_REQUISITES *)

(** [[x for x in set(xs) if xs.count(x) > 1]] *)
Definition repeated (xs : list string) : list string :=
  filter (fun x => Z.ltb 1 (Sql.count (filter (String.eqb x) xs)))
         (Sql.distinct String.eqb xs).

Definition truthy_strings (l : list (option string)) : list string :=
  flat_map (fun o => match o with
                     | Some s => if String.eqb s "" then [] else [s]
                     | None => []
                     end) l.

Definition check_common_requisites (db : Store) (trd_buy_id : Z) : result ind_result :=
  let biins :=
    truthy_strings
      (Sql.distinct (Sql.opt_eqb String.eqb)
         (map app_supplier_biin
            (filter (fun a => Sql.eqZ (app_buy_id a) trd_buy_id) (trd_app db)))) in
  if Z.ltb (Sql.count biins) 2 then Ok zero_result
  else
    let in_biins (o : option string) :=
      match o with Some s => Sql.mem String.eqb s biins | None => false end in
    let subjects := filter (fun s => in_biins (s_bin s) || in_biins (s_iin s)) (subject db) in
    let phones := truthy_strings (map s_phone subjects) in
    let emails := truthy_strings (map s_email subjects) in
    let common_phones := repeated phones in
    let common_emails := repeated emails in
    Ok {| flag := match common_phones, common_emails with [], [] => false | _, _ => true end;
          value := Some (inject_Z (Sql.count common_phones + Sql.count common_emails));
          evidence := [("bidder_count", VInt (Sql.count biins));
                       ("common_phones", VList (map VStr common_phones));
                       ("common_emails", VList (map VStr common_emails))] |}.

End Indicators.

Import Indicators.

(* ===================================================================== *)
(** ** PostgreSQL statements issued through SQLAlchemy Core               *)
(* ===================================================================== *)

Module Pg.

(** A row handed to [pg_insert(...).values(...)], and a stored row: a dict from
    column name to value.  A column absent from the dict is NULL. *)
Definition row := pydict.

Fixpoint get (c : string) (r : row) : option pyval :=
  match r with
  | [] => None
  | (k, v) :: rest => if String.eqb k c then Some v else get c rest
  end.

Fixpoint set (c : string) (v : pyval) (r : row) : row :=
  match r with
  | [] => [(c, v)]
  | (k, w) :: rest => if String.eqb k c then (k, v) :: rest else (k, w) :: set c v rest
  end.

(** A table with the part of its DDL the statements depend on: the column sets
    of its primary key and unique indexes, and its autoincrement column with
    the next value of the sequence. *)
Record table := {
  t_unique : list (list string);
  t_serial : option string;
  t_next : Z;
  t_rows : list row }.

Definition with_rows (t : table) (rows : list row) : table :=
  {| t_unique := t_unique t; t_serial := t_serial t; t_next := t_next t; t_rows := rows |}.

(** Equality of two key values in a unique index: NULL equals nothing. *)
Definition key_eqb (a b : pyval) : bool :=
  match a, b with
  | VInt x, VInt y => Z.eqb x y
  | VStr x, VStr y => String.eqb x y
  | VBool x, VBool y => Bool.eqb x y
  | VDate x, VDate y => Z.eqb x y
  | _, _ => false
  end.

Definition same_key (cols : list string) (a b : row) : bool :=
  forallb (fun c => match get c a, get c b with
                    | Some x, Some y => key_eqb x y
                    | _, _ => false
                    end) cols.

(** Index of the first stored row that collides with [r] on [cols]. *)
Fixpoint find_conflict (cols : list string) (r : row) (rows : list row) : option nat :=
  match rows with
  | [] => None
  | x :: rest =>
    if same_key cols r x then Some O
    else match find_conflict cols r rest with
         | Some i => Some (S i)
         | None => None
         end
  end.

Fixpoint update_nth (i : nat) (f : row -> row) (rows : list row) : list row :=
  match rows, i with
  | [], _ => []
  | x :: rest, O => f x :: rest
  | x :: rest, S j => x :: update_nth j f rest
  end.

(** The sequence is advanced for every proposed row that leaves the
    autoincrement column out. *)
Definition fill_serial (t : table) (r : row) : table * row :=
  match t_serial t with
  | Some c =>
    match get c r with
    | Some _ => (t, r)
    | None =>
      ({| t_unique := t_unique t; t_serial := t_serial t;
          t_next := t_next t + 1; t_rows := t_rows t |},
       (c, VInt (t_next t)) :: r)
    end
  | None => (t, r)
  end.

(** [INSERT ... ON CONFLICT DO NOTHING] without a conflict target: a proposed
    row that collides on any unique index is dropped. *)
Definition insert_do_nothing_1 (t : table) (r : row) : table :=
  let '(t1, r1) := fill_serial t r in
  if existsb (fun cols => match find_conflict cols r1 (t_rows t1) with
                          | Some _ => true
                          | None => false
                          end) (t_unique t1)
  then t1
  else with_rows t1 (t_rows t1 ++ [r1]).

Definition insert_do_nothing (values : list row) (t : table) : result table :=
  Ok (fold_left insert_do_nothing_1 values t).

(** The right-hand sides of [set_={...}]. *)
Inductive setexpr : Type :=
| Excluded (c : string)      (* stmt.excluded[c] *)
| Lit (v : pyval).

Definition eval_set (proposed : row) (e : setexpr) : pyval :=
  match e with
  | Excluded c => match get c proposed with Some v => v | None => VNone end
  | Lit v => v
  end.

Definition apply_set (set_ : list (string * setexpr)) (proposed existing : row) : row :=
  fold_left (fun r ce => set (fst ce) (eval_set proposed (snd ce)) r) set_ existing.

Definition same_columns (a b : list string) : bool :=
  forallb (fun c => Sql.mem String.eqb c b) a && forallb (fun c => Sql.mem String.eqb c a) b.

(** Arbiter inference: [ON CONFLICT (index_elements)] needs a primary key or
    unique index on exactly these columns, else PostgreSQL rejects the
    statement (SQLSTATE 42P10). *)
Definition has_arbiter (index_elements : list string) (t : table) : bool :=
  existsb (same_columns index_elements) (t_unique t).

(** One proposed row of [INSERT ... ON CONFLICT (index_elements) DO UPDATE SET
    set_].  [touched] lists the stored rows this command has already written:
    a second write to one of them is a cardinality violation; a collision on a
    unique index other than the arbiter is an integrity error. *)
Definition insert_do_update_1 (index_elements : list string)
  (set_ : list (string * setexpr)) (st : table * list nat) (r : row)
  : result (table * list nat) :=
  let '(t, touched) := st in
  let '(t1, r1) := fill_serial t r in
  match find_conflict index_elements r1 (t_rows t1) with
  | Some i =>
    if existsb (Nat.eqb i) touched then Raise CardinalityViolation
    else Ok (with_rows t1 (update_nth i (apply_set set_ r1) (t_rows t1)), i :: touched)
  | None =>
    if existsb (fun cols => match find_conflict cols r1 (t_rows t1) with
                            | Some _ => true
                            | None => false
                            end) (t_unique t1)
    then Raise IntegrityError
    else Ok (with_rows t1 (t_rows t1 ++ [r1]), List.length (t_rows t1) :: touched)
  end.

Fixpoint insert_do_update_rows (index_elements : list string)
  (set_ : list (string * setexpr)) (values : list row) (st : table * list nat)
  : result (table * list nat) :=
  match values with
  | [] => Ok st
  | r :: rest =>
    st1 <- insert_do_update_1 index_elements set_ st r ;;
    insert_do_update_rows index_elements set_ rest st1
  end.

Definition insert_do_update (index_elements : list string)
  (set_ : list (string * setexpr)) (values : list row) (t : table) : result table :=
  if has_arbiter index_elements t
  then st <- insert_do_update_rows index_elements set_ values (t, []) ;; Ok (fst st)
  else Raise (ProgrammingError
    "there is no unique or exclusion constraint matching the ON CONFLICT specification").

(** [UPDATE t SET assignments WHERE pred]. *)
Definition update_where (pred : row -> bool) (assignments : list (string * pyval))
  (t : table) : table :=
  with_rows t (map (fun r => if pred r
                             then fold_left (fun r cv => set (fst cv) (snd cv) r) assignments r
                             else r) (t_rows t)).

End Pg.

(* ===================================================================== *)
(** ** The feature engine (features/engine.py)                           *)
(* ===================================================================== *)

Module Engine.

(** What the engine reads and what it writes. *)
Record ScoreDb := {
  store : Store;
  risk_flags : Pg.table;
  risk_scores : Pg.table }.

(** The dict returned for a lot that exists. *)
Record lot_score := {
  ls_lot_id : Z;
  ls_score : Q;
  ls_level : string;
  ls_flags_triggered : Z }.

Section Config.

(** weights.yaml is not among the sources.  What the module reads from it is a
    parameter: [_CONFIG["indicators"]], a dict from indicator code to its
    weight and optional description, and the two thresholds. *)
Variable indicators_cfg : list (string * (Q * option string)).
Variable low_max medium_max : Q.

Definition WEIGHTS : list (string * Q) :=
  map (fun kv => (fst kv, fst (snd kv))) indicators_cfg.

Definition MAX_SCORE : Q := Sql.Qsum (map snd WEIGHTS).

(** [WEIGHTS.get(code, 0)] *)
Fixpoint lookup {A} (code : string) (d : list (string * A)) : option A :=
  match d with
  | [] => None
  | (k, v) :: rest => if String.eqb k code then Some v else lookup code rest
  end.

Definition weight_of (code : string) : Q :=
  match lookup code WEIGHTS with Some w => w | None => 0%Q end.

(** [_CONFIG["indicators"].get(code, {}).get("description", "")] *)
Definition description_of (code : string) : string :=
  match lookup code indicators_cfg with
  | Some (_, Some d) => d
  | _ => ""
  end.

Definition _normalize_score (raw : Q) : result Q :=
  q <- truediv raw MAX_SCORE ;;
  Ok (round1 (Py.min 100 (q * 100))).

Definition _get_level (score : Q) : string :=
  if Qleb score low_max then "LOW"
  else if Qleb score medium_max then "MEDIUM"
  else "HIGH".

(** The [flags] dict, in insertion order. *)
Definition evaluate_flags (now : datetime) (db : Store) (lot : Lot)
  (contract : option Contract) : result (list (string * ind_result)) :=
  dumping <- check_dumping_flag db (lot_id lot) ;;
  tender <-
    (match lot_trd_buy_id lot with
     | Some trd_buy_id =>
       if Z.eqb trd_buy_id 0 then Ok []
       else
         a <- check_short_deadline db trd_buy_id ;;
         b <- check_few_bids db trd_buy_id ;;
         c <- check_lot_splitting db trd_buy_id ;;
         d <- check_last_minute_changes db trd_buy_id ;;
         e <- check_common_requisites db trd_buy_id ;;
         Ok [("SHORT_DEADLINE", a); ("FEW_BIDS", b); ("LOT_SPLITTING", c);
             ("LAST_MINUTE_CHANGES", d); ("COMMON_REQUISITES", e)]
     | None => Ok []
     end) ;;
  customer <-
    (match lot_customer_bin lot, contract with
     | Some customer_bin, Some con =>
       match c_supplier_biin con with
       | Some supplier_biin =>
         if String.eqb customer_bin "" || String.eqb supplier_biin "" then Ok []
         else
           a <- check_recurring_winner db customer_bin supplier_biin ;;
           b <- check_carousel_pattern db customer_bin ;;
           Ok [("RECURRING_WINNER", a); ("CAROUSEL_PATTERN", b)]
       | None => Ok []
       end
     | _, _ => Ok []
     end) ;;
  supplier <-
    (match contract with
     | Some con =>
       match c_supplier_biin con with
       | Some supplier_biin =>
         if String.eqb supplier_biin "" then Ok []
         else
           a <- check_supplier_concentration db supplier_biin ;;
           b <- check_rnu_flag db supplier_biin ;;
           c <- check_high_win_rate_few_bids db supplier_biin ;;
           d <- check_new_company_big_contract now db supplier_biin
                  (or0 (c_contract_sum_wnds con)) ;;
           Ok [("SUPPLIER_CONCENTRATION", a); ("RNU_FLAG", b);
               ("HIGH_WIN_RATE_FEW_BIDS", c); ("NEW_COMPANY_BIG_CONTRACT", d)]
       | None => Ok []
       end
     | None => Ok []
     end) ;;
  contract_level <-
    (match contract with
     | Some con =>
       a <- check_addendum_value_increase db (c_id con) ;;
       b <- check_win_min_then_addendum db (c_id con) ;;
       c <- check_weird_execution_time db (c_id con) ;;
       d <- check_payment_without_act db (c_id con) ;;
       Ok [("ADDENDUM_VALUE_INCREASE", a); ("WIN_MIN_THEN_ADDENDUM", b);
           ("WEIRD_EXECUTION_TIME", c); ("PAYMENT_WITHOUT_ACT", d)]
     | None => Ok []
     end) ;;
  Ok ([("DUMPING_FLAG", dumping)] ++ tender ++ customer ++ supplier ++ contract_level)%list.

(** [sum(WEIGHTS.get(code, 0) * (1 if result.get("flag") else 0) for ...)] *)
Definition raw_score_of (flags : list (string * ind_result)) : Q :=
  Sql.Qsum (map (fun cr => (weight_of (fst cr) * (if flag (snd cr) then 1 else 0))%Q) flags).

(** [sorted(..., key=weight, reverse=True)]: stable, largest weight first. *)
Fixpoint insert_desc (x : string * ind_result) (l : list (string * ind_result))
  : list (string * ind_result) :=
  match l with
  | [] => [x]
  | y :: rest =>
    if Qltb (weight_of (fst y)) (weight_of (fst x)) then x :: l
    else y :: insert_desc x rest
  end.

Definition sorted_desc (l : list (string * ind_result)) : list (string * ind_result) :=
  fold_left (fun acc x => insert_desc x acc) l [].

Definition top_reasons_of (flags : list (string * ind_result)) : list pyval :=
  map (fun cr => VDict [("code", VStr (fst cr));
                        ("weight", VNum (weight_of (fst cr)));
                        ("evidence", VDict (evidence (snd cr)));
                        ("description", VStr (description_of (fst cr)))])
      (firstn 3 (sorted_desc (filter (fun cr => flag (snd cr)) flags))).

Definition flag_rows_of (now : datetime) (lot_id : Z) (flags : list (string * ind_result))
  : list Pg.row :=
  map (fun cr => [("entity_type", VStr "lot");
                  ("entity_id", VStr (str_of_Z lot_id));
                  ("indicator_code", VStr (fst cr));
                  ("flag_bool", VBool (flag (snd cr)));
                  ("value_numeric", match value (snd cr) with
                                    | Some v => VNum v
                                    | None => VNone
                                    end);
                  ("evidence_jsonb", VDict (evidence (snd cr)));
                  ("computed_at", VDate now)]) flags.

Definition score_row_of (now : datetime) (lot_id : Z) (score : Q) (level : string)
  (top_reasons : list pyval) : Pg.row :=
  [("entity_type", VStr "lot");
   ("entity_id", VStr (str_of_Z lot_id));
   ("score", VNum score);
   ("level", VStr level);
   ("top_reasons_jsonb", VList top_reasons);
   ("computed_at", VDate now)].

Definition score_conflict_set (now : datetime) (score : Q) (level : string)
  (top_reasons : list pyval) : list (string * Pg.setexpr) :=
  [("score", Pg.Lit (VNum score));
   ("level", Pg.Lit (VStr level));
   ("top_reasons_jsonb", Pg.Lit (VList top_reasons));
   ("computed_at", Pg.Lit (VDate now))].

(** The contract bound to the lot's tender: [.where(Contract.trd_buy_id ==
    lot.trd_buy_id, Contract.is_deleted == False).limit(1)]. *)
Definition contract_of_lot (db : Store) (lot : Lot) : option Contract :=
  Sql.first (filter (fun c => Sql.eqZ_or_null (c_trd_buy_id c) (lot_trd_buy_id lot)
                              && negb (c_is_deleted c)) (contract db)).

(** [t_ind] is the clock read inside check_new_company_big_contract, [now] the
    one taken before persisting.  A raise leaves the session uncommitted: the
    caller keeps the database it had. *)
Definition compute_lot_score (t_ind now : datetime) (db : ScoreDb) (lot_id : Z)
  : result (ScoreDb * option lot_score) :=
  match Sql.first (filter (fun l => Z.eqb (Model.lot_id l) lot_id) (lots (store db))) with
  | None => Ok (db, None)
  | Some lot =>
    let contract := contract_of_lot (store db) lot in
    flags <- evaluate_flags t_ind (store db) lot contract ;;
    let raw_score := raw_score_of flags in
    score <- _normalize_score raw_score ;;
    let level := _get_level score in
    let top_reasons := top_reasons_of flags in
    let flag_rows := flag_rows_of now lot_id flags in
    rf <- (match flag_rows with
           | [] => Ok (risk_flags db)
           | _ => Pg.insert_do_nothing flag_rows (risk_flags db)
           end) ;;
    rs <- Pg.insert_do_update ["entity_type"; "entity_id"]
            (score_conflict_set now score level top_reasons)
            [score_row_of now lot_id score level top_reasons]
            (risk_scores db) ;;
    Ok ({| store := store db; risk_flags := rf; risk_scores := rs |},
        Some {| ls_lot_id := lot_id; ls_score := score; ls_level := level;
                ls_flags_triggered := Sql.count top_reasons |})
  end.

(** [FeatureEngine.run]: the given ids, or (when the list is empty or absent)
    the first 10000 non-deleted lots; a failing lot is counted and skipped. *)
Record run_summary := {
  lots_processed : Z;
  run_errors : Z }.

Definition run (t_ind now : datetime) (db : ScoreDb) (entity_ids : list Z)
  : ScoreDb * run_summary :=
  let lot_ids :=
    match entity_ids with
    | [] => map Model.lot_id
              (Sql.limit (Z.to_nat 10000) (filter (fun l => negb (lot_is_deleted l)) (lots (store db))))
    | _ => entity_ids
    end in
  fold_left
    (fun st lot_id =>
       match compute_lot_score t_ind now (fst st) lot_id with
       | Ok (db1, _) =>
         (db1, {| lots_processed := lots_processed (snd st) + 1;
                  run_errors := run_errors (snd st) |})
       | Raise _ =>
         (fst st, {| lots_processed := lots_processed (snd st);
                     run_errors := run_errors (snd st) + 1 |})
       end)
    lot_ids
    (db, {| lots_processed := 0; run_errors := 0 |}).

End Config.

(** The two scoring tables as models/procurement.py and the initial migration
    declare them: an autoincrement primary key [id]; the indexes on
    [(entity_type, entity_id)] and [(entity_type, entity_id, indicator_code)]
    are plain [Index(...)], not unique. *)
Definition risk_flags_declared : Pg.table :=
  {| Pg.t_unique := [["id"]]; Pg.t_serial := Some "id"; Pg.t_next := 1; Pg.t_rows := [] |}.

Definition risk_scores_declared : Pg.table :=
  {| Pg.t_unique := [["id"]]; Pg.t_serial := Some "id"; Pg.t_next := 1; Pg.t_rows := [] |}.

(** The same table with the unique index the upsert names. *)
Definition risk_scores_keyed : Pg.table :=
  {| Pg.t_unique := [["id"]; ["entity_type"; "entity_id"]];
     Pg.t_serial := Some "id"; Pg.t_next := 1; Pg.t_rows := [] |}.

End Engine.

(* ===================================================================== *)
(** ** Ingestion: shared pieces (etl/backfill.py, etl/incremental.py)    *)
(* ===================================================================== *)

Module Etl.

(** An upstream payload object. *)
Definition item := pydict.

(** [item.get(k)], [item.get(k, d)] and [item[k]]. *)
Definition iget (k : string) (it : item) : pyval :=
  match Pg.get k it with Some v => v | None => VNone end.
Definition iget_d (k : string) (d : pyval) (it : item) : pyval :=
  match Pg.get k it with Some v => v | None => d end.
Definition iget_req (k : string) (it : item) : result pyval :=
  match Pg.get k it with Some v => Ok v | None => Raise (KeyError k) end.

(** The model classes the orchestrators write to. *)
Inductive model : Type :=
| TrdBuyT | LotT | TrdAppT | TrdAppLotT | ContractT | SubjectT | RnuT
| TreasuryPayT | EtlCursorT.

Record Database := {
  d_trd_buy : Pg.table;
  d_lots : Pg.table;
  d_trd_app : Pg.table;
  d_trd_app_lots : Pg.table;
  d_contract : Pg.table;
  d_subject : Pg.table;
  d_rnu : Pg.table;
  d_treasury_pay : Pg.table;
  d_etl_cursors : Pg.table }.

Definition table_of (m : model) (db : Database) : Pg.table :=
  match m with
  | TrdBuyT => d_trd_buy db
  | LotT => d_lots db
  | TrdAppT => d_trd_app db
  | TrdAppLotT => d_trd_app_lots db
  | ContractT => d_contract db
  | SubjectT => d_subject db
  | RnuT => d_rnu db
  | TreasuryPayT => d_treasury_pay db
  | EtlCursorT => d_etl_cursors db
  end.

Definition with_table (m : model) (t : Pg.table) (db : Database) : Database :=
  {| d_trd_buy := match m with TrdBuyT => t | _ => d_trd_buy db end;
     d_lots := match m with LotT => t | _ => d_lots db end;
     d_trd_app := match m with TrdAppT => t | _ => d_trd_app db end;
     d_trd_app_lots := match m with TrdAppLotT => t | _ => d_trd_app_lots db end;
     d_contract := match m with ContractT => t | _ => d_contract db end;
     d_subject := match m with SubjectT => t | _ => d_subject db end;
     d_rnu := match m with RnuT => t | _ => d_rnu db end;
     d_treasury_pay := match m with TreasuryPayT => t | _ => d_treasury_pay db end;
     d_etl_cursors := match m with EtlCursorT => t | _ => d_etl_cursors db end |}.

(** A table as the models declare it: primary key only. *)
Definition declared (pk : string) : Pg.table :=
  {| Pg.t_unique := [[pk]]; Pg.t_serial := None; Pg.t_next := 1; Pg.t_rows := [] |}.

Definition declared_database : Database :=
  {| d_trd_buy := declared "id"; d_lots := declared "id"; d_trd_app := declared "id";
     d_trd_app_lots := declared "id"; d_contract := declared "id";
     d_subject := declared "id"; d_rnu := declared "id";
     d_treasury_pay := declared "id"; d_etl_cursors := declared "source_name" |}.

(** [pg_insert(M).values(rows).on_conflict_do_update(index_elements=[...],
    set_={c: stmt.excluded[c] for c in cols})] *)
Record stmt := {
  st_model : model;
  st_index_elements : list string;
  st_conflict_set : list string;
  st_values : list Pg.row }.

Definition excluded (cols : list string) : list (string * Pg.setexpr) :=
  map (fun c => (c, Pg.Excluded c)) cols.

Definition execute (s : stmt) (db : Database) : result Database :=
  t <- Pg.insert_do_update (st_index_elements s) (excluded (st_conflict_set s))
         (st_values s) (table_of (st_model s) db) ;;
  Ok (with_table (st_model s) t db).

Fixpoint execute_all (ss : list stmt) (db : Database) : result Database :=
  match ss with
  | [] => Ok db
  | s :: rest => db1 <- execute s db ;; execute_all rest db1
  end.

Section Lib.

(** [datetime.fromisoformat(str(val).replace(" ", "T").split(".")[0])] and
    [float(val)], with [None] for the caught exception. *)
Variable parse_iso : pyval -> option datetime.
Variable to_float : pyval -> option Q.

Definition _parse_dt (val : pyval) : pyval :=
  if negb (truthy val) then VNone
  else match val with
       | VDate d => VDate d
       | _ => match parse_iso val with Some d => VDate d | None => VNone end
       end.

Definition _safe_decimal (val : pyval) : pyval :=
  match val with
  | VNone => VNone
  | _ => match to_float val with Some q => VNum q | None => VNone end
  end.

(** Column builders: [item.get(k)], [_parse_dt(item.get(src))],
    [_safe_decimal(item.get(k))], [item.get(k, d)]. *)
Definition col (it : item) (k : string) : string * pyval := (k, iget k it).
Definition col_dt (it : item) (k src : string) : string * pyval :=
  (k, _parse_dt (iget src it)).
Definition col_dec (it : item) (k : string) : string * pyval :=
  (k, _safe_decimal (iget k it)).
Definition col_d (it : item) (k : string) (d : pyval) : string * pyval :=
  (k, iget_d k d it).

(* --------------------------------------------------------------------- *)
(** *** Incremental: the four journal upserts                            *)
(* --------------------------------------------------------------------- *)

Definition inc_trd_buy_row (now : datetime) (it : item) : result Pg.row :=
  id <- iget_req "id" it ;;
  Ok [("id", id); col it "number_anno"; col it "name_ru"; col it "name_kz";
      col it "ref_trade_methods_id";
      col_dt it "publish_date" "publish_date"; col_dt it "start_date" "start_date";
      col_dt it "end_date" "end_date"; col_dec it "total_sum";
      col it "ref_buy_status_id"; col it "org_bin"; col it "system_id";
      ("last_update_at", VDate now); ("is_deleted", VBool false)].

Definition inc_trd_buy_conflict_set : list string :=
  ["ref_buy_status_id"; "total_sum"; "last_update_at"].

Definition _upsert_trd_buy (now : datetime) (db : Database) (it : item) : result Database :=
  r <- inc_trd_buy_row now it ;;
  execute {| st_model := TrdBuyT; st_index_elements := ["id"];
             st_conflict_set := inc_trd_buy_conflict_set; st_values := [r] |} db.

Definition inc_lot_row (now : datetime) (it : item) : result Pg.row :=
  id <- iget_req "id" it ;;
  Ok [("id", id);
      ("trd_buy_id", por (iget "trd_buy_id" it) (iget "buy_id" it));
      col it "name_ru"; col_dec it "amount"; col it "customer_bin";
      ("dumping_flag", VBool (truthy (iget_d "dumping_flag" (VBool false) it)));
      col it "ref_lot_status_id"; col it "system_id";
      ("last_update_at", VDate now); ("is_deleted", VBool false)].

Definition inc_lot_conflict_set : list string :=
  ["amount"; "ref_lot_status_id"; "dumping_flag"; "last_update_at"].

Definition _upsert_lot (now : datetime) (db : Database) (it : item) : result Database :=
  r <- inc_lot_row now it ;;
  execute {| st_model := LotT; st_index_elements := ["id"];
             st_conflict_set := inc_lot_conflict_set; st_values := [r] |} db.

Definition inc_contract_row (now : datetime) (it : item) : result Pg.row :=
  id <- iget_req "id" it ;;
  Ok [("id", id); col it "trd_buy_id"; col it "customer_bin"; col it "supplier_biin";
      col_dec it "contract_sum_wnds";
      ("sign_date", _parse_dt (por (iget "sign_date" it) (iget "crdate" it)));
      col_dt it "plan_exec_date" "plan_exec_date";
      col_dt it "fakt_exec_date" "fakt_exec_date"; col_dec it "fakt_sum";
      col it "ref_contract_status_id"; col it "parent_id"; col it "root_id";
      col it "system_id";
      ("last_update_at", VDate now); ("is_deleted", VBool false)].

Definition inc_contract_conflict_set : list string :=
  ["contract_sum_wnds"; "fakt_sum"; "fakt_exec_date"; "ref_contract_status_id";
   "last_update_at"].

Definition _upsert_contract (now : datetime) (db : Database) (it : item) : result Database :=
  r <- inc_contract_row now it ;;
  execute {| st_model := ContractT; st_index_elements := ["id"];
             st_conflict_set := inc_contract_conflict_set; st_values := [r] |} db.

Definition inc_subject_row (now : datetime) (it : item) : result Pg.row :=
  pid <- iget_req "pid" it ;;
  Ok [("id", pid); col it "bin"; col it "iin"; col it "name_ru";
      col_dt it "regdate" "regdate"; col_dt it "crdate" "crdate";
      col_d it "mark_small_employer" (VInt 0); col_d it "mark_resident" (VInt 1);
      col it "system_id";
      ("last_update_at", VDate now); ("is_deleted", VBool false)].

Definition inc_subject_conflict_set : list string :=
  ["name_ru"; "regdate"; "mark_small_employer"; "last_update_at"].

Definition _upsert_subject (now : datetime) (db : Database) (it : item) : result Database :=
  r <- inc_subject_row now it ;;
  execute {| st_model := SubjectT; st_index_elements := ["id"];
             st_conflict_set := inc_subject_conflict_set; st_values := [r] |} db.

(* --------------------------------------------------------------------- *)
(** *** Incremental: journal entries                                     *)
(* --------------------------------------------------------------------- *)

Definition is_str (v : pyval) (s : string) : bool :=
  match v with VStr x => String.eqb x s | _ => false end.

(** A dict lookup with a list or dict as key raises (unhashable). *)
Definition hashable (v : pyval) : bool :=
  match v with VList _ | VDict _ => false | _ => true end.

(** [model_map.get(entity_type)] in _soft_delete. *)
Definition model_map (entity_type : pyval) : result (option model) :=
  if negb (hashable entity_type) then Raise TypeError
  else if is_str entity_type "TrdBuy" then Ok (Some TrdBuyT)
  else if is_str entity_type "Lots" then Ok (Some LotT)
  else if is_str entity_type "Contract" then Ok (Some ContractT)
  else if is_str entity_type "Subject" then Ok (Some SubjectT)
  else Ok None.

(** [ENTITY_ENDPOINT_MAP.get(entity_type)] *)
Definition ENTITY_ENDPOINT_MAP (entity_type : pyval) : result (option string) :=
  if negb (hashable entity_type) then Raise TypeError
  else if is_str entity_type "TrdBuy" then Ok (Some "/v3/trd-buy")
  else if is_str entity_type "Lots" then Ok (Some "/v3/lots")
  else if is_str entity_type "TrdApp" then Ok (Some "/v3/trd-app")
  else if is_str entity_type "Contract" then Ok (Some "/v3/contract")
  else if is_str entity_type "Subject" then Ok (Some "/v3/subject/biin")
  else if is_str entity_type "Rnu" then Ok (Some "/v3/rnu")
  else Ok None.

(** [model.id == int(entity_id)] *)
Definition id_is (i : Z) (r : Pg.row) : bool :=
  match Pg.get "id" r with Some (VInt x) => Z.eqb x i | _ => false end.

Definition _soft_delete (now : datetime) (db : Database) (entity_type entity_id : pyval)
  : result Database :=
  m <- model_map entity_type ;;
  match m with
  | None => Ok db
  | Some model =>
    i <- to_int entity_id ;;
    Ok (with_table model
          (Pg.update_where (id_is i)
             [("is_deleted", VBool true); ("last_update_at", VDate now)]
             (table_of model db)) db)
  end.

(** [client.fetch_by_id(endpoint, obj_id)]: the object, [None] on 404, or the
    error that survived the retries. *)
Variable fetch_by_id : string -> pyval -> result (option item).

Definition _fetch_and_upsert (now : datetime) (db : Database)
  (entity_type entity_id : pyval) : result Database :=
  endpoint <- ENTITY_ENDPOINT_MAP entity_type ;;
  match endpoint with
  | None => Ok db
  | Some endpoint =>
    obj <- fetch_by_id endpoint entity_id ;;
    match obj with
    | None | Some [] => Ok db
    | Some obj =>
      if is_str entity_type "TrdBuy" then _upsert_trd_buy now db obj
      else if is_str entity_type "Lots" then _upsert_lot now db obj
      else if is_str entity_type "Contract" then _upsert_contract now db obj
      else if is_str entity_type "Subject" then _upsert_subject now db obj
      else Ok db
    end
  end.

Record summary := {
  processed : Z;
  updated : Z;
  deleted : Z;
  errors : Z }.

(** [entry] is whatever the journal list holds; [.get] exists on dicts only. *)
Definition _process_entry (now : datetime) (db : Database) (entry : pyval) (s : summary)
  : result (Database * summary) :=
  match entry with
  | VDict e =>
    let entity_type := por (iget "entity_type" e) (iget "object_type" e) in
    let entity_id := por (iget "entity_id" e) (iget "object_id" e) in
    let action := iget_d "action" (VStr "U") e in
    if negb (truthy entity_type) || negb (truthy entity_id) then Ok (db, s)
    else if is_str action "D" then
      db1 <- _soft_delete now db entity_type entity_id ;;
      Ok (db1, {| processed := processed s; updated := updated s;
                  deleted := deleted s + 1; errors := errors s |})
    else
      db1 <- _fetch_and_upsert now db entity_type entity_id ;;
      Ok (db1, {| processed := processed s; updated := updated s + 1;
                  deleted := deleted s; errors := errors s |})
  | _ => Raise AttributeError
  end.

(** The loop of [run]: a failing entry is counted and skipped. *)
Definition run_entries (now : datetime) (db : Database) (journal_entries : list pyval)
  : Database * summary :=
  fold_left
    (fun st entry =>
       match _process_entry now (fst st) entry (snd st) with
       | Ok (db1, s1) =>
         (db1, {| processed := processed s1 + 1; updated := updated s1;
                  deleted := deleted s1; errors := errors s1 |})
       | Raise _ =>
         (fst st, {| processed := processed (snd st); updated := updated (snd st);
                     deleted := deleted (snd st); errors := errors (snd st) + 1 |})
       end)
    journal_entries
    (db, {| processed := 0; updated := 0; deleted := 0; errors := 0 |}).

(* --------------------------------------------------------------------- *)
(** *** Backfill: rows and statements of the checkpointed loaders        *)
(* --------------------------------------------------------------------- *)

(** [rows.append({...})] for every item, stopping at the first raise. *)
Fixpoint build_rows (f : item -> result (option Pg.row)) (batch : list item)
  : result (list Pg.row) :=
  match batch with
  | [] => Ok []
  | it :: rest =>
    r <- f it ;;
    rs <- build_rows f rest ;;
    Ok (match r with Some x => x :: rs | None => rs end)
  end.

(** [datetime.fromisoformat(self.date_from) <= d <= datetime.fromisoformat(
    self.date_to)], the two bounds given already parsed. *)
Definition outside_window (date_from date_to : datetime) (d : pyval) : bool :=
  match d with
  | VDate x => negb (Z.leb date_from x && Z.leb x date_to)
  | _ => false
  end.

Definition bf_subject_row (it : item) : result (option Pg.row) :=
  pid <- iget_req "pid" it ;;
  Ok (Some
    [("id", pid); col it "bin"; col it "iin"; col it "inn"; col it "unp";
     col it "name_ru"; col it "name_kz"; col it "full_name_ru";
     col_dt it "regdate" "regdate"; col_dt it "crdate" "crdate";
     col it "year"; col it "type_supplier";
     col_d it "mark_small_employer" (VInt 0); col_d it "mark_resident" (VInt 1);
     col_d it "mark_patronymic_producer" (VInt 0);
     col_d it "mark_national_company" (VInt 0);
     col_d it "mark_world_company" (VInt 0); col_d it "mark_state_monopoly" (VInt 0);
     col_d it "mark_natural_monopoly" (VInt 0);
     col it "oked_list"; col it "krp_code"; col it "kse_code"; col it "ref_kopf_code";
     col_d it "qvazi" (VInt 0); col_d it "customer" (VInt 0);
     col_d it "supplier" (VInt 0); col_d it "organizer" (VInt 0);
     col_d it "is_single_org" (VInt 0);
     col it "email"; col it "phone"; col it "website";
     ("country_code", str (iget_d "country_code" (VStr "") it));
     col it "system_id"; col_dt it "last_update_at" "last_update_date";
     ("is_deleted", VBool false)]).

Definition bf_subject_conflict_set : list string :=
  ["name_ru"; "regdate"; "crdate"; "mark_small_employer"; "mark_resident";
   "email"; "phone"; "last_update_at"].

Definition bf_trd_buy_row (date_from date_to : datetime) (it : item)
  : result (option Pg.row) :=
  let pub_date := _parse_dt (iget "publish_date" it) in
  if outside_window date_from date_to pub_date then Ok None
  else
    id <- iget_req "id" it ;;
    Ok (Some
      [("id", id); col it "number_anno"; col it "name_ru"; col it "name_kz";
       col it "ref_trade_methods_id"; ("publish_date", pub_date);
       col_dt it "start_date" "start_date"; col_dt it "end_date" "end_date";
       col_dec it "total_sum"; col it "ref_buy_status_id"; col it "org_bin";
       col it "system_id"; col_d it "singl_org_sign" (VInt 0);
       col_d it "is_light_industry" (VInt 0); col_d it "is_construction_work" (VInt 0);
       col_dt it "last_update_at" "index_date"; ("is_deleted", VBool false)]).

Definition bf_trd_buy_conflict_set : list string :=
  ["ref_buy_status_id"; "total_sum"; "last_update_at"].

Definition bf_lot_row (it : item) : result (option Pg.row) :=
  id <- iget_req "id" it ;;
  Ok (Some
    [("id", id);
     ("trd_buy_id", por (iget "trd_buy_id" it) (iget "buy_id" it));
     ("lot_number", por (iget "lot_number" it) (str (iget_d "id" (VStr "") it)));
     col it "name_ru"; col it "name_kz"; col_dec it "amount"; col it "customer_bin";
     ("customer_name", iget "customer_name_ru" it);
     ("dumping_flag", VBool (truthy (iget_d "dumping_flag" (VBool false) it)));
     ("union_lots_flag", VBool (truthy (iget_d "union_lots_flag" (VBool false) it)));
     col it "ref_lot_status_id"; col_d it "singl_org_sign" (VInt 0);
     col_d it "is_light_industry" (VInt 0); col_d it "is_construction_work" (VInt 0);
     col_d it "disable_person_id" (VInt 0); col it "system_id";
     col_dt it "last_update_at" "index_date"; ("is_deleted", VBool false)]).

Definition bf_lot_conflict_set : list string :=
  ["amount"; "ref_lot_status_id"; "dumping_flag"; "last_update_at"].

Definition bf_contract_row (date_from date_to : datetime) (it : item)
  : result (option Pg.row) :=
  let sign_date := _parse_dt (por (iget "sign_date" it) (iget "crdate" it)) in
  if outside_window date_from date_to sign_date then Ok None
  else
    id <- iget_req "id" it ;;
    Ok (Some
      [("id", id); col it "trd_buy_id"; col it "contract_number";
       col it "contract_number_sys"; col it "trd_buy_number_anno";
       col it "customer_bin"; col it "supplier_biin"; col_dec it "contract_sum_wnds";
       ("sign_date", sign_date); col_dt it "plan_exec_date" "plan_exec_date";
       col_dt it "fakt_exec_date" "fakt_exec_date"; col_dec it "fakt_sum";
       col it "ref_contract_status_id"; col it "ref_contract_type_id";
       col it "parent_id"; col it "root_id"; col it "supplier_legal_address";
       col it "customer_legal_address"; col_d it "is_gu" (VInt 0);
       col it "exchange_rate"; col it "system_id";
       col_dt it "last_update_at" "last_update_date"; ("is_deleted", VBool false)]).

Definition bf_contract_conflict_set : list string :=
  ["contract_sum_wnds"; "fakt_sum"; "fakt_exec_date"; "ref_contract_status_id";
   "last_update_at"].

Definition bf_rnu_row (it : item) : result (option Pg.row) :=
  id <- iget_req "id" it ;;
  Ok (Some
    [("id", id); col it "pid";
     ("supplier_biin", por (iget "biin" it) (iget "iin" it));
     ("supplier_name_ru", iget "name_ru" it);
     col_dt it "start_date" "start_date"; col_dt it "end_date" "end_date";
     ("reason", por (iget "reason_ru" it) (iget "reason" it));
     col_d it "system_id" (VInt 3); ("is_active", VBool true)]).

Definition bf_treasury_pay_row (it : item) : result (option Pg.row) :=
  id <- iget_req "id" it ;;
  Ok (Some
    [("id", id); col it "nom_za"; col it "contract_id"; col_dt it "dt_reg" "dt_reg";
     col it "supplier"; col it "rnn_supplier"; col it "nom_dog";
     col_dt it "dt_dog" "dt_dog"; col it "item_description"; col_dec it "pay_amount";
     col_dt it "pay_date" "pay_date"; col it "ppn"; col it "espk"; col it "gu";
     col it "fin_source"; col_dt it "index_date" "index_date"; col it "system_id"]).

Definition bf_trd_app_row (it : item) : result (option Pg.row) :=
  id <- iget_req "id" it ;;
  Ok (Some
    [("id", id); col it "buy_id"; col it "supplier_id";
     ("supplier_biin", iget "supplier_bin_iin" it);
     col it "cr_fio"; col it "mod_fio"; col it "prot_id";
     ("prot_number", str (iget_d "prot_number" (VStr "") it));
     col_dt it "date_apply" "date_apply"; col it "system_id";
     col_dt it "last_update_at" "index_date"]).

(** [for al in item.get("app_lots", [])]: the elements must be dicts. *)
Fixpoint dicts_of (l : list pyval) : result (list item) :=
  match l with
  | [] => Ok []
  | VDict d :: rest => ds <- dicts_of rest ;; Ok (d :: ds)
  | _ :: _ => Raise TypeError
  end.

Definition app_lots_of (it : item) : result (list item) :=
  match iget_d "app_lots" (VList []) it with
  | VList l => dicts_of l
  | VDict [] | VStr "" => Ok []
  | _ => Raise TypeError
  end.

Definition bf_trd_app_lot_rows (it : item) : result (list Pg.row) :=
  als <- app_lots_of it ;;
  build_rows (fun al =>
                id <- iget_req "id" al ;;
                app_id <- iget_req "id" it ;;
                Ok (Some [("id", id); ("trd_app_id", app_id); col al "lot_id";
                          col al "status_id"; col_dec al "price"; col_dec al "amount";
                          col al "discount_value"; col_dec al "discount_price"])) als.

(** The statements a page gives rise to ([if rows:] guards each of them) and
    the amount added to [count]. *)
Definition one_upsert (m : model) (conflict_set : list string) (rows : list Pg.row)
  : list stmt * Z :=
  (match rows with
   | [] => []
   | _ => [{| st_model := m; st_index_elements := ["id"];
              st_conflict_set := conflict_set; st_values := rows |}]
   end, Sql.count rows).

Fixpoint trd_app_rows (batch : list item) : result (list Pg.row * list Pg.row) :=
  match batch with
  | [] => Ok ([], [])
  | it :: rest =>
    a <- bf_trd_app_row it ;;
    als <- bf_trd_app_lot_rows it ;;
    rs <- trd_app_rows rest ;;
    Ok ((match a with Some x => [x] | None => [] end) ++ fst rs, als ++ snd rs)%list
  end.

Definition trd_app_statements (batch : list item) : result (list stmt * Z) :=
  rs <- trd_app_rows batch ;;
  Ok ((match fst rs with
       | [] => []
       | _ => [{| st_model := TrdAppT; st_index_elements := ["id"];
                  st_conflict_set := ["last_update_at"]; st_values := fst rs |}]
       end ++
       match snd rs with
       | [] => []
       | _ => [{| st_model := TrdAppLotT; st_index_elements := ["id"];
                  st_conflict_set := ["status_id"; "price"; "amount"];
                  st_values := snd rs |}]
       end)%list, Sql.count (fst rs)).

(* --------------------------------------------------------------------- *)
(** *** The paginate generator (etl/client.py)                           *)
(* --------------------------------------------------------------------- *)

(** [data.get("items", [])] and [data.get("next_page", "")] of one reply. *)
Record response := {
  r_items : list item;
  r_next_page : string }.

Variable base_url : string.

Definition startswith_http (s : string) : bool := String.prefix "http" s.

(** The URL of the first request. *)
Definition first_url (endpoint : string) : string :=
  if startswith_http endpoint then endpoint else base_url ++ endpoint.

(** The generator run against the replies to its successive [_get] calls: the
    pairs it yields, and the error it raises after them if a call fails.  A
    page without items is not yielded; the loop ends at the first reply without
    a [next_page]. *)
Fixpoint paginate (replies : list (result response))
  : list (list item * string) * option exn :=
  match replies with
  | [] => ([], None)
  | Raise e :: _ => ([], Some e)
  | Ok data :: rest =>
    let next_page := r_next_page data in
    let next_url := if String.eqb next_page "" then "" else base_url ++ next_page in
    let yielded := match r_items data with
                   | [] => []
                   | items => [(items, next_url)]
                   end in
    if String.eqb next_page "" then (yielded, None)
    else let '(more, err) := paginate rest in ((yielded ++ more)%list, err)
  end.

(** [get_journal]: [items.extend(batch)] with [batch] the yielded pair. *)
Definition get_journal (replies : list (result response)) : result (list pyval) :=
  let '(pages, err) := paginate replies in
  match err with
  | Some e => Raise e
  | None =>
    Ok (flat_map (fun p => [VList (map VDict (fst p)); VStr (snd p)]) pages)
  end.

(** [_update_cursor]: the journal cursor is the end of the window. *)
Definition _update_cursor (now : datetime) (db : Database) (date_to : string)
  : result Database :=
  execute {| st_model := EtlCursorT; st_index_elements := ["source_name"];
             st_conflict_set := ["cursor_value"; "updated_at"];
             st_values := [[("source_name", VStr "journal");
                            ("cursor_value", VStr date_to);
                            ("updated_at", VDate now)]] |} db.

(** [IncrementalETL.run] without its run record: fetch the journal, process
    what the list holds, move the journal cursor.  [replies] are the replies
    to the page requests of [get_journal]. *)
Definition run (now : datetime) (db : Database) (date_to : string)
  (replies : list (result response)) : result (Database * summary) :=
  journal_entries <- get_journal replies ;;
  let st := run_entries now db journal_entries in
  db1 <- _update_cursor now (fst st) date_to ;;
  Ok (db1, snd st).

(* --------------------------------------------------------------------- *)
(** *** Backfill: cursors and the page loop                              *)
(* --------------------------------------------------------------------- *)

Definition source_is (source_name : string) (r : Pg.row) : bool :=
  match Pg.get "source_name" r with Some (VStr s) => String.eqb s source_name | _ => false end.

(** [db.get(EtlCursor, source_name)], then [cursor.cursor_value]. *)
Definition _get_cursor (db : Database) (source_name : string) : option pyval :=
  match find (source_is source_name) (Pg.t_rows (d_etl_cursors db)) with
  | Some r => Some (iget "cursor_value" r)
  | None => None
  end.

Definition _save_cursor (now : datetime) (db : Database) (source_name cursor_value : string)
  : result Database :=
  if String.eqb cursor_value "" then Ok db
  else
    execute {| st_model := EtlCursorT; st_index_elements := ["source_name"];
               st_conflict_set := ["cursor_value"; "updated_at"];
               st_values := [[("source_name", VStr source_name);
                              ("cursor_value", VStr cursor_value);
                              ("updated_at", VDate now)]] |} db.

(** What distinguishes the seven checkpointed loaders. *)
Record loader := {
  source : string;
  endpoint : string;
  statements : list item -> result (list stmt * Z);
  commit_without_rows : bool;      (* _load_trd_app commits unconditionally *)
  save_requires_rows : bool }.     (* _load_subjects saves inside [if rows:] *)

(** Database failures that do not come from the statements themselves. *)
Inductive fault : Type := NoFault | ExecuteFails | CommitFails | SaveCursorFails.

Definition fault_eqb (a b : fault) : bool :=
  match a, b with
  | NoFault, NoFault | ExecuteFails, ExecuteFails
  | CommitFails, CommitFails | SaveCursorFails, SaveCursorFails => true
  | _, _ => false
  end.

(** What reaches the database for good, in order. *)
Inductive event : Type :=
| Committed (k : nat)                      (* the upsert of page [k] *)
| CursorSaved (k : nat) (url : string).    (* the checkpoint taken after page [k] *)

(** One iteration of [async for batch, next_cursor in self.client.paginate(...)].
    Returns the database as committed so far, the events of the iteration and
    the number of rows counted, or the exception that ends the loader. *)
Definition load_page (L : loader) (now : datetime) (k : nat) (db : Database)
  (batch : list item) (next_cursor : string) (f : fault)
  : Database * list event * result Z :=
  match statements L batch with
  | Raise e => (db, [], Raise e)
  | Ok (stmts, n) =>
    let has_rows := match stmts with [] => false | _ => true end in
    let session : result (Database * list event) :=
      if has_rows || commit_without_rows L then
        db1 <- (if has_rows && fault_eqb f ExecuteFails then Raise OperationalError
                else execute_all stmts db) ;;
        if fault_eqb f CommitFails then Raise OperationalError
        else Ok (db1, [Committed k])
      else Ok (db, []) in
    match session with
    | Raise e => (db, [], Raise e)
    | Ok (db1, ev1) =>
      if negb (String.eqb next_cursor "") && (has_rows || negb (save_requires_rows L))
      then
        if fault_eqb f SaveCursorFails then (db1, ev1, Raise OperationalError)
        else match _save_cursor now db1 (source L) next_cursor with
             | Raise e => (db1, ev1, Raise e)
             | Ok db2 => (db2, (ev1 ++ [CursorSaved k next_cursor])%list, Ok n)
             end
      else (db1, ev1, Ok n)
    end
  end.

Fixpoint load_pages (L : loader) (now : datetime) (k : nat) (db : Database)
  (pages : list (list item * string)) (faults : list fault) (count : Z)
  : Database * list event * result Z :=
  match pages with
  | [] => (db, [], Ok count)
  | (batch, next_cursor) :: rest =>
    match load_page L now k db batch next_cursor (hd NoFault faults) with
    | (db1, ev, Ok n) =>
      let '(db2, ev2, r) := load_pages L now (S k) db1 rest (tl faults) (count + n) in
      (db2, (ev ++ ev2)%list, r)
    | (db1, ev, Raise e) => (db1, ev, Raise e)
    end
  end.

(** [endpoint = start_cursor if start_cursor else "/v3/..."] *)
Definition resume_endpoint (L : loader) (db : Database) : string :=
  match _get_cursor db (source L) with
  | Some (VStr c) => if String.eqb c "" then endpoint L else c
  | _ => endpoint L
  end.

(** A loader from its first line to its [return count].  [upstream] gives, for
    the first URL requested, the replies to the successive page requests. *)
Definition load (L : loader) (now : datetime) (db : Database)
  (upstream : string -> list (result response)) (faults : list fault)
  : Database * list event * result Z :=
  let '(pages, err) := paginate (upstream (first_url (resume_endpoint L db))) in
  match load_pages L now 0 db pages faults 0 with
  | (db1, ev, Ok n) => (db1, ev, match err with Some e => Raise e | None => Ok n end)
  | failed => failed
  end.

Definition subjects_loader : loader :=
  {| source := "backfill_subjects"; endpoint := "/v3/subject/all";
     statements := fun batch =>
       rows <- build_rows bf_subject_row batch ;;
       Ok (one_upsert SubjectT bf_subject_conflict_set rows);
     commit_without_rows := false; save_requires_rows := true |}.

Definition trd_buy_loader (date_from date_to : datetime) : loader :=
  {| source := "backfill_trd_buy"; endpoint := "/v3/trd-buy";
     statements := fun batch =>
       rows <- build_rows (bf_trd_buy_row date_from date_to) batch ;;
       Ok (one_upsert TrdBuyT bf_trd_buy_conflict_set rows);
     commit_without_rows := false; save_requires_rows := false |}.

Definition lots_loader : loader :=
  {| source := "backfill_lots"; endpoint := "/v3/lots";
     statements := fun batch =>
       rows <- build_rows bf_lot_row batch ;;
       Ok (one_upsert LotT bf_lot_conflict_set rows);
     commit_without_rows := false; save_requires_rows := false |}.

Definition trd_app_loader : loader :=
  {| source := "backfill_trd_app"; endpoint := "/v3/trd-app";
     statements := trd_app_statements;
     commit_without_rows := true; save_requires_rows := false |}.

Definition contracts_loader (date_from date_to : datetime) : loader :=
  {| source := "backfill_contracts"; endpoint := "/v3/contract";
     statements := fun batch =>
       rows <- build_rows (bf_contract_row date_from date_to) batch ;;
       Ok (one_upsert ContractT bf_contract_conflict_set rows);
     commit_without_rows := false; save_requires_rows := false |}.

Definition rnu_loader : loader :=
  {| source := "backfill_rnu"; endpoint := "/v3/rnu";
     statements := fun batch =>
       rows <- build_rows bf_rnu_row batch ;;
       Ok (one_upsert RnuT ["end_date"; "is_active"] rows);
     commit_without_rows := false; save_requires_rows := false |}.

Definition treasury_pay_loader : loader :=
  {| source := "backfill_treasury_pay"; endpoint := "/v3/treasury-pay";
     statements := fun batch =>
       rows <- build_rows bf_treasury_pay_row batch ;;
       Ok (one_upsert TreasuryPayT ["pay_amount"] rows);
     commit_without_rows := false; save_requires_rows := false |}.

Definition _load_subjects := load subjects_loader.
Definition _load_trd_buy (date_from date_to : datetime) := load (trd_buy_loader date_from date_to).
Definition _load_lots := load lots_loader.
Definition _load_trd_app := load trd_app_loader.
Definition _load_contracts (date_from date_to : datetime) :=
  load (contracts_loader date_from date_to).
Definition _load_rnu := load rnu_loader.
Definition _load_treasury_pay := load treasury_pay_loader.

End Lib.

End Etl.

(* ===================================================================== *)
(** ** The statements of the specification, in its own words            *)
(* ===================================================================== *)

Module Spec.

(** A sum that is null or zero. *)
Definition null_or_zero (o : option Q) : bool :=
  match o with
  | None => true
  | Some q => Qeq_bool q 0
  end.

(** "The contract row is absent, its root_id is unset, the root contract is
    absent, or either the contract's or the root's sum is null or zero." *)
Definition addendum_data_missing (db : Store) (contract_id : Z) : bool :=
  match contract_by_id db contract_id with
  | None => true
  | Some row =>
    match c_root_id row with
    | None => true
    | Some root_id =>
      Z.eqb root_id 0 ||
      match contract_by_id db root_id with
      | None => true
      | Some root =>
        null_or_zero (c_contract_sum_wnds row) || null_or_zero (c_contract_sum_wnds root)
      end
    end
  end.

(** The non-deleted lots of a tender, the amounts recorded on them, their
    total and their average. *)
Definition tender_lots (db : Store) (trd_buy_id : Z) : list Lot :=
  filter (fun l => negb (lot_is_deleted l)
                   && match lot_trd_buy_id l with
                      | Some t => Z.eqb t trd_buy_id
                      | None => false
                      end) (lots db).

Fixpoint amounts (ls : list Lot) : list Q :=
  match ls with
  | [] => []
  | l :: rest =>
    match lot_amount l with
    | Some a => a :: amounts rest
    | None => amounts rest
    end
  end.

Definition total (qs : list Q) : Q := fold_right Qplus 0%Q qs.

Definition average (qs : list Q) : Q :=
  match qs with
  | [] => 0%Q
  | _ => (total qs / inject_Z (Z.of_nat (List.length qs)))%Q
  end.

(** The non-deleted contracts of a customer. *)
Definition customer_contracts (db : Store) (customer_bin : string) : list Contract :=
  filter (fun c => negb (c_is_deleted c)
                   && match c_customer_bin c with
                      | Some b => String.eqb b customer_bin
                      | None => false
                      end) (contract db).

(** "The customer's last 50 non-deleted contracts in chronological order of
    sign date." *)
Definition last_n {A} (n : nat) (l : list A) : list A :=
  skipn (List.length l - n) l.

Definition last_50_contracts (db : Store) (customer_bin : string) : list Contract :=
  last_n 50 (Sql.order_by c_sign_date (customer_contracts db customer_bin)).

(** "Triggered exactly when the rotation counter reaches at least 2, there are
    at least 2 distinct suppliers overall, and the sample contains at least 6
    contracts; the returned value equals the rotation count." *)
Definition carousel_rule (sample : list Contract) : bool * Z :=
  let suppliers := map c_supplier_biin sample in
  let rotations := count_rotations suppliers [] 0 in
  (Z.leb 2 rotations
   && Z.leb 2 (Sql.count (Sql.distinct (Sql.opt_eqb String.eqb) suppliers))
   && Z.leb 6 (Sql.count sample),
   rotations).

(** "The linked data it reads is missing (no matching tender, lot, contract,
    subject, or required field)", indicator by indicator. *)
Definition tender (db : Store) (trd_buy_id : Z) : option TrdBuy :=
  Sql.first (filter (fun t => Z.eqb (tb_id t) trd_buy_id) (trd_buy db)).

Definition supplier_subject (db : Store) (supplier_biin : string) : option Subject :=
  Sql.first (filter (fun s => Sql.eqS (s_bin s) supplier_biin
                              || Sql.eqS (s_iin s) supplier_biin) (subject db)).

Definition supplier_contracts (db : Store) (supplier_biin : string) : list Contract :=
  filter (fun c => Sql.eqS (c_supplier_biin c) supplier_biin && negb (c_is_deleted c))
         (contract db).

Definition none_such {A} (p : A -> bool) (l : list A) : bool :=
  forallb (fun x => negb (p x)) l.

Definition missing_short_deadline (db : Store) (trd_buy_id : Z) : bool :=
  match tender db trd_buy_id with
  | None => true
  | Some t => match tb_start_date t, tb_end_date t with
              | Some _, Some _ => false
              | _, _ => true
              end
  end.

Definition missing_few_bids (db : Store) (trd_buy_id : Z) : bool :=
  none_such (fun a => Sql.eqZ (app_buy_id a) trd_buy_id) (trd_app db).

Definition missing_lot_splitting (db : Store) (trd_buy_id : Z) : bool :=
  match tender_lots db trd_buy_id with [] => true | _ => false end.

Definition missing_recurring_winner (db : Store) (customer_bin : string) : bool :=
  match customer_contracts db customer_bin with [] => true | _ => false end.

(** The customer has no live contract with the supplier. *)
Definition no_contract_between (db : Store) (customer_bin supplier_biin : string) : bool :=
  none_such (fun c => Sql.eqS (c_supplier_biin c) supplier_biin)
            (customer_contracts db customer_bin).

Definition missing_supplier_concentration (db : Store) (supplier_biin : string) : bool :=
  Nat.ltb (List.length (supplier_contracts db supplier_biin)) 5.

Definition missing_win_min_then_addendum (db : Store) (contract_id : Z) : bool :=
  match contract_by_id db contract_id with
  | None => true
  | Some c =>
    negb (truthy_Z (c_root_id c))
    || match Sql.first (Sql.order_by c_sign_date
                          (filter (fun x => Sql.eqZ (c_parent_id x) contract_id)
                                  (contract db))) with
       | None => true
       | Some a => match c_sign_date a, c_sign_date c with
                   | Some _, Some _ => false
                   | _, _ => true
                   end
       end
  end.

Definition missing_weird_execution_time (db : Store) (contract_id : Z) : bool :=
  match contract_by_id db contract_id with
  | None => true
  | Some c => match c_sign_date c, c_plan_exec_date c with
              | Some _, Some _ => false
              | _, _ => true
              end
  end.

Definition missing_rnu_flag (db : Store) (supplier_biin : string) : bool :=
  none_such (fun r => Sql.eqS (r_supplier_biin r) supplier_biin && r_is_active r) (rnu db).

Definition missing_dumping_flag (db : Store) (lot_id : Z) : bool :=
  none_such (fun l => Z.eqb (Model.lot_id l) lot_id) (lots db).

(** The lot is there, but its dumping_flag is not recorded. *)
Definition lot_of_id (db : Store) (lot_id : Z) : option Lot :=
  Sql.first (filter (fun l => Z.eqb (Model.lot_id l) lot_id) (lots db)).

Definition dumping_flag_unrecorded (db : Store) (lot_id : Z) : bool :=
  match lot_of_id db lot_id with
  | Some l => match lot_dumping_flag l with None => true | Some _ => false end
  | None => false
  end.

Definition missing_new_company (db : Store) (supplier_biin : string) : bool :=
  match supplier_subject db supplier_biin with
  | None => true
  | Some s => match s_regdate s, s_crdate s with
              | None, None => true
              | _, _ => false
              end
  end.

Definition missing_payment_without_act (db : Store) (contract_id : Z) : bool :=
  none_such (fun p => Sql.eqZ (p_contract_id p) contract_id) (treasury_pay db).

(** The tenders a supplier applied to; fewer than five of them; no live
    contract of the supplier. *)
Definition tenders_applied (db : Store) (supplier_biin : string) : list Z :=
  nodup Z.eq_dec
    (Sql.non_null
       (map app_buy_id
          (filter (fun a => Sql.eqS (app_supplier_biin a) supplier_biin) (trd_app db)))).

Definition missing_high_win_rate (db : Store) (supplier_biin : string) : bool :=
  Nat.ltb (List.length (tenders_applied db supplier_biin)) 5.

Definition no_contract_of_supplier (db : Store) (supplier_biin : string) : bool :=
  match supplier_contracts db supplier_biin with [] => true | _ => false end.

Definition missing_carousel (db : Store) (customer_bin : string) : bool :=
  Nat.ltb (List.length (customer_contracts db customer_bin)) 6.

Definition missing_last_minute_changes (db : Store) (trd_buy_id : Z) : bool :=
  match tender db trd_buy_id with
  | None => true
  | Some t => match tb_end_date t, tb_last_update_at t with
              | Some _, Some _ => false
              | _, _ => true
              end
  end.

(** The bidders of a tender: the different non-empty supplier ids on its
    applications.  Fewer than two of them; or no subject row of a bidder that
    carries a phone or an e-mail (no subject row at all included). *)
Definition bidders (db : Store) (trd_buy_id : Z) : list string :=
  nodup string_dec
    (truthy_strings
       (map app_supplier_biin
          (filter (fun a => Sql.eqZ (app_buy_id a) trd_buy_id) (trd_app db)))).

Definition missing_common_requisites (db : Store) (trd_buy_id : Z) : bool :=
  Nat.ltb (List.length (bidders db trd_buy_id)) 2.

Definition is_bidder (db : Store) (trd_buy_id : Z) (o : option string) : bool :=
  match o with
  | Some s => if in_dec string_dec s (bidders db trd_buy_id) then true else false
  | None => false
  end.

Definition bidder_subjects (db : Store) (trd_buy_id : Z) : list Subject :=
  filter (fun s => is_bidder db trd_buy_id (s_bin s) || is_bidder db trd_buy_id (s_iin s))
         (subject db).

Definition unrecorded (o : option string) : bool :=
  match o with
  | Some s => String.eqb s ""
  | None => true
  end.

Definition missing_bidder_contacts (db : Store) (trd_buy_id : Z) : bool :=
  forallb (fun s => unrecorded (s_phone s) && unrecorded (s_email s))
          (bidder_subjects db trd_buy_id).

(** What check_common_requisites returns when no bidder has contact data. *)
Definition common_requisites_nothing (db : Store) (trd_buy_id : Z) : ind_result :=
  {| flag := false; value := Some 0%Q;
     evidence := [("bidder_count", VInt (Z.of_nat (List.length (bidders db trd_buy_id))));
                  ("common_phones", VList []);
                  ("common_emails", VList [])] |}.

(** What check_few_bids and check_lot_splitting return on missing data. *)
Definition few_bids_nothing : ind_result :=
  {| flag := false; value := Some 0%Q;
     evidence := [("bid_count", VInt 0); ("threshold", VInt 2)] |}.

Definition lot_splitting_nothing : ind_result :=
  {| flag := false; value := Some 0%Q;
     evidence := [("lot_count", VInt 0); ("total_sum", VNum 0);
                  ("avg_lot_amount", VNum 0)] |}.

(** "Every entity type handled by both orchestrators", the set of columns
    each of them overwrites on conflict, and the identity columns: the primary
    id and the identifiers assigned upstream. *)
Definition shared_entity_types : list Etl.model :=
  [Etl.TrdBuyT; Etl.LotT; Etl.ContractT; Etl.SubjectT].

Definition incremental_conflict_set (m : Etl.model) : list string :=
  match m with
  | Etl.TrdBuyT => Etl.inc_trd_buy_conflict_set
  | Etl.LotT => Etl.inc_lot_conflict_set
  | Etl.ContractT => Etl.inc_contract_conflict_set
  | Etl.SubjectT => Etl.inc_subject_conflict_set
  | _ => []
  end.

Definition backfill_conflict_set (m : Etl.model) : list string :=
  match m with
  | Etl.TrdBuyT => Etl.bf_trd_buy_conflict_set
  | Etl.LotT => Etl.bf_lot_conflict_set
  | Etl.ContractT => Etl.bf_contract_conflict_set
  | Etl.SubjectT => Etl.bf_subject_conflict_set
  | _ => []
  end.

Definition identity_columns (m : Etl.model) : list string :=
  match m with
  | Etl.TrdBuyT => ["id"; "number_anno"; "org_bin"; "system_id"]
  | Etl.LotT => ["id"; "trd_buy_id"; "lot_number"; "customer_bin"; "system_id"]
  | Etl.ContractT => ["id"; "trd_buy_id"; "contract_number"; "contract_number_sys";
                      "customer_bin"; "supplier_biin"; "parent_id"; "root_id";
                      "system_id"]
  | Etl.SubjectT => ["id"; "bin"; "iin"; "inn"; "unp"; "system_id"]
  | _ => ["id"]
  end.

(** The journal upsert and the backfill loader of an entity type. *)
Definition incremental_upsert (parse_iso : pyval -> option datetime)
  (to_float : pyval -> option Q) (m : Etl.model)
  : datetime -> Etl.Database -> Etl.item -> result Etl.Database :=
  match m with
  | Etl.TrdBuyT => Etl._upsert_trd_buy parse_iso to_float
  | Etl.LotT => Etl._upsert_lot to_float
  | Etl.ContractT => Etl._upsert_contract parse_iso to_float
  | Etl.SubjectT => Etl._upsert_subject parse_iso
  | _ => fun _ db _ => Ok db
  end.

Definition backfill_statements (parse_iso : pyval -> option datetime)
  (to_float : pyval -> option Q) (date_from date_to : datetime) (m : Etl.model)
  : list Etl.item -> result (list Etl.stmt * Z) :=
  match m with
  | Etl.TrdBuyT => Etl.statements (Etl.trd_buy_loader parse_iso to_float date_from date_to)
  | Etl.LotT => Etl.statements (Etl.lots_loader parse_iso to_float)
  | Etl.ContractT =>
    Etl.statements (Etl.contracts_loader parse_iso to_float date_from date_to)
  | Etl.SubjectT => Etl.statements (Etl.subjects_loader parse_iso)
  | _ => fun _ => Ok ([], 0)
  end.

Definition subset (a b : list string) : bool :=
  forallb (fun c => Sql.mem String.eqb c b) a.

(** "Restricted to a narrower set": contained in the other set and not equal
    to it. *)
Definition strictly_narrower (a b : list string) : bool :=
  subset a b && negb (subset b a).

(** The statement either orchestrator issues for a batch of rows. *)
Definition upsert_statement (m : Etl.model) (conflict_set : list string)
  (values : list Pg.row) : Etl.stmt :=
  {| Etl.st_model := m; Etl.st_index_elements := ["id"];
     Etl.st_conflict_set := conflict_set; Etl.st_values := values |}.

(** Every row stored before is still there, in place, with the columns
    selected by [kept] unchanged. *)
Definition keeps (kept : string -> Prop) (before after : Pg.table) : Prop :=
  forall k x,
    nth_error (Pg.t_rows before) k = Some x ->
    exists x', nth_error (Pg.t_rows after) k = Some x'
               /\ forall c, kept c -> Pg.get c x' = Pg.get c x.

(** The seven checkpointed loaders of BackfillETL. *)
Definition checkpointed_loaders (parse_iso : pyval -> option datetime)
  (to_float : pyval -> option Q) (date_from date_to : datetime) : list Etl.loader :=
  [Etl.subjects_loader parse_iso;
   Etl.trd_buy_loader parse_iso to_float date_from date_to;
   Etl.lots_loader parse_iso to_float;
   Etl.trd_app_loader parse_iso to_float;
   Etl.contracts_loader parse_iso to_float date_from date_to;
   Etl.rnu_loader parse_iso;
   Etl.treasury_pay_loader parse_iso to_float].

(** No statement of the loader writes to etl_cursors. *)
Definition leaves_cursors_alone (L : Etl.loader) : Prop :=
  forall batch stmts n,
    Etl.statements L batch = Ok (stmts, n) ->
    Forall (fun s => Etl.st_model s <> Etl.EtlCursorT) stmts.

(** The checkpoint written last, if any. *)
Fixpoint last_saved (ev : list Etl.event) : option string :=
  match ev with
  | [] => None
  | Etl.CursorSaved _ url :: rest =>
    match last_saved rest with Some u => Some u | None => Some url end
  | Etl.Committed _ :: rest => last_saved rest
  end.

(** The pages whose upsert is committed, in order. *)
Fixpoint committed_pages (ev : list Etl.event) : list nat :=
  match ev with
  | [] => []
  | Etl.Committed k :: rest => k :: committed_pages rest
  | Etl.CursorSaved _ _ :: rest => committed_pages rest
  end.

(** A page that gives the loader something to commit. *)
Definition has_upsert (L : Etl.loader) (batch : list Etl.item) : bool :=
  match Etl.statements L batch with
  | Ok (_ :: _, _) => true
  | Ok ([], _) => Etl.commit_without_rows L
  | Raise _ => false
  end.

(** "The run summary's deleted count increments by 1 while the updated count
    is unaffected." *)
Definition bump_deleted (s : Etl.summary) : Etl.summary :=
  {| Etl.processed := Etl.processed s; Etl.updated := Etl.updated s;
     Etl.deleted := Etl.deleted s + 1; Etl.errors := Etl.errors s |}.

(** "At most one score row per (entity type, entity id)." *)
Definition score_key : list string := ["entity_type"; "entity_id"].

Definition one_row_per_key (t : Pg.table) : Prop :=
  forall i j x y,
    nth_error (Pg.t_rows t) i = Some x ->
    nth_error (Pg.t_rows t) j = Some y ->
    Pg.same_key score_key x y = true ->
    i = j.

(** "rawScore is the sum of configured weights of the triggered indicators." *)
Definition triggered_codes (flags : list (string * ind_result)) : list string :=
  map fst (filter (fun cr => flag (snd cr)) flags).

Definition raw_score (cfg : list (string * (Q * option string)))
  (flags : list (string * ind_result)) : Q :=
  total (map (Engine.weight_of cfg) (triggered_codes flags)).

End Spec.

(* ===================================================================== *)
(** ** Concrete stores and configurations used below                     *)
(* ===================================================================== *)

Module Examples.

Definition ok_of {A} (r : result A) : option A :=
  match r with Ok a => Some a | Raise _ => None end.

Definition day (n : Z) : datetime := n * usec_per_day.

Definition mk_contract (id : Z) (customer supplier : string) (sum : Q)
  (signed : Z) (parent root : option Z) (is_deleted : bool) : Contract :=
  {| c_id := id; c_trd_buy_id := Some id; c_customer_bin := Some customer;
     c_supplier_biin := Some supplier; c_contract_sum_wnds := Some sum;
     c_sign_date := Some (day signed); c_plan_exec_date := None;
     c_parent_id := parent; c_root_id := root; c_is_deleted := is_deleted |}.

Definition store_of_contracts (cs : list Contract) : Store :=
  {| trd_buy := []; lots := []; trd_app := []; contract := cs; subject := [];
     rnu := []; treasury_pay := []; acts := [] |}.

(** Lot 1 of tender 1, its dumping flag never recorded. *)
Definition unflagged_lot_store : Store :=
  {| trd_buy := [];
     lots := [{| lot_id := 1; lot_trd_buy_id := Some 1; lot_amount := Some 100%Q;
                 lot_customer_bin := Some "C"; lot_dumping_flag := None;
                 lot_is_deleted := false |}];
     trd_app := []; contract := []; subject := []; rnu := []; treasury_pay := [];
     acts := [] |}.

(** Two bidders on tender 1, neither of them in the subject table. *)
Definition two_bidders_store : Store :=
  {| trd_buy := []; lots := [];
     trd_app := [{| app_id := 1; app_buy_id := Some 1; app_supplier_biin := Some "A" |};
                 {| app_id := 2; app_buy_id := Some 1; app_supplier_biin := Some "B" |}];
     contract := []; subject := []; rnu := []; treasury_pay := []; acts := [] |}.

(** Five contracts of supplier "S", none of which names its customer. *)
Definition unnamed_customer_store : Store :=
  {| trd_buy := []; lots := []; trd_app := [];
     contract := map (fun i => {| c_id := Z.of_nat i; c_trd_buy_id := Some (Z.of_nat i);
                                  c_customer_bin := None; c_supplier_biin := Some "S";
                                  c_contract_sum_wnds := Some 100%Q;
                                  c_sign_date := Some (day (Z.of_nat i));
                                  c_plan_exec_date := None; c_parent_id := None;
                                  c_root_id := Some (Z.of_nat i);
                                  c_is_deleted := false |}) (seq 1 5);
     subject := []; rnu := []; treasury_pay := []; acts := [] |}.

(** Fifty-one contracts of customer "C": the oldest went to supplier "B", the
    fifty that followed to supplier "A". *)
Definition carousel_store : Store :=
  store_of_contracts
    (mk_contract 1 "C" "B" 100 1 None (Some 1) false
     :: map (fun i => mk_contract (Z.of_nat i) "C" "A" 100 (Z.of_nat i) None
                        (Some (Z.of_nat i)) false) (seq 2 50)).

(** Six contracts of customer "C", all won by supplier "A". *)
Definition single_supplier_store : Store :=
  store_of_contracts
    (map (fun i => mk_contract (Z.of_nat i) "C" "A" 100 (Z.of_nat i) None
                     (Some (Z.of_nat i)) false) (seq 1 6)).

(** Seven contracts of customer "C" rotating between "A", "B" and "C". *)
Definition rotating_store : Store :=
  store_of_contracts
    [mk_contract 1 "C" "A" 100 1 None (Some 1) false;
     mk_contract 2 "C" "B" 100 2 None (Some 2) false;
     mk_contract 3 "C" "C" 100 3 None (Some 3) false;
     mk_contract 4 "C" "A" 100 4 None (Some 4) false;
     mk_contract 5 "C" "B" 100 5 None (Some 5) false;
     mk_contract 6 "C" "C" 100 6 None (Some 6) false;
     mk_contract 7 "C" "A" 100 7 None (Some 7) false].

(** An addendum (contract 2, sum 125) whose root (contract 1, sum 100) has
    been soft-deleted, and the same store without the deleted row. *)
Definition deleted_root_store : Store :=
  store_of_contracts
    [mk_contract 1 "C" "S" 100 1 None (Some 1) true;
     mk_contract 2 "C" "S" 125 11 (Some 1) (Some 1) false].

Definition without_deleted_root_store : Store :=
  store_of_contracts
    [mk_contract 2 "C" "S" 125 11 (Some 1) (Some 1) false].

(** A contract (1) whose only addendum (2, signed ten days later) has been
    soft-deleted, and the same store without the deleted row. *)
Definition deleted_addendum_store : Store :=
  store_of_contracts
    [mk_contract 1 "C" "S" 100 1 None (Some 1) false;
     mk_contract 2 "C" "S" 125 11 (Some 1) (Some 1) true].

Definition without_deleted_addendum_store : Store :=
  store_of_contracts
    [mk_contract 1 "C" "S" 100 1 None (Some 1) false].

(** A lot without tender or customer whose dumping flag is set. *)
Definition dumping_lot : Lot :=
  {| lot_id := 1; lot_trd_buy_id := None; lot_amount := Some 100%Q;
     lot_customer_bin := None; lot_dumping_flag := Some true;
     lot_is_deleted := false |}.

Definition dumping_store : Store :=
  {| trd_buy := []; lots := [dumping_lot]; trd_app := []; contract := [];
     subject := []; rnu := []; treasury_pay := []; acts := [] |}.

(** The store with the scoring tables as declared, and with the unique index
    the upsert names. *)
Definition declared_db : Engine.ScoreDb :=
  {| Engine.store := dumping_store;
     Engine.risk_flags := Engine.risk_flags_declared;
     Engine.risk_scores := Engine.risk_scores_declared |}.

Definition keyed_db : Engine.ScoreDb :=
  {| Engine.store := dumping_store;
     Engine.risk_flags := Engine.risk_flags_declared;
     Engine.risk_scores := Engine.risk_scores_keyed |}.

(** Two weight tables: an ordinary one, and one with a negative weight whose
    total is still positive. *)
Definition cfg : list (string * (Q * option string)) :=
  [("DUMPING_FLAG", (10%Q, Some "price dumping"));
   ("SHORT_DEADLINE", (30%Q, None))].

Definition cfg_negative : list (string * (Q * option string)) :=
  [("DUMPING_FLAG", ((-1)%Q, None));
   ("SHORT_DEADLINE", (3%Q, None))].

Definition scored (r : result (Engine.ScoreDb * option Engine.lot_score))
  : option Engine.lot_score :=
  match r with
  | Ok (_, Some s) => Some s
  | _ => None
  end.

(** The journal entry of the specification's example and a database holding
    tender 5 and tender 6. *)
Definition delete_tender_5 : Etl.item :=
  [("entity_type", VStr "TrdBuy"); ("entity_id", VStr "5"); ("action", VStr "D")].

Definition tender_row (id : Z) : Pg.row :=
  [("id", VInt id); ("ref_buy_status_id", VInt 1); ("total_sum", VNum 100);
   ("last_update_at", VDate 0); ("is_deleted", VBool false)].

Definition two_tenders_db : Etl.Database :=
  Etl.with_table Etl.TrdBuyT
    (Pg.with_rows (Etl.declared "id") [tender_row 5; tender_row 6])
    Etl.declared_database.

Definition no_summary : Etl.summary :=
  {| Etl.processed := 0; Etl.updated := 0; Etl.deleted := 0; Etl.errors := 0 |}.

(** The upstream journal holding that single entry, in one page. *)
Definition journal_of_one_delete : list (result Etl.response) :=
  [Ok {| Etl.r_items := [delete_tender_5]; Etl.r_next_page := "" |}].

Definition is_deleted_of (db : Etl.Database) (k : nat) : option pyval :=
  match nth_error (Pg.t_rows (Etl.d_trd_buy db)) k with
  | Some r => Pg.get "is_deleted" r
  | None => None
  end.

(** An upstream that serves one page of tenders and then fails. *)
Definition tender_item (id : Z) : Etl.item :=
  [("id", VInt id); ("ref_buy_status_id", VInt 1); ("total_sum", VInt 100)].

Definition one_page_then_failure (url : string) : list (result Etl.response) :=
  [Ok {| Etl.r_items := [tender_item 1; tender_item 2];
         Etl.r_next_page := "/v3/trd-buy?page=next&search_after=2" |};
   Raise TransportError].

Definition no_parse (v : pyval) : option datetime := None.
Definition no_float (v : pyval) : option Q := None.
Definition not_found (endpoint : string) (id : pyval) : result (option Etl.item) :=
  Ok None.

End Examples.

(* ===================================================================== *)
(** ** Notions used to state the properties of the code                  *)
(* ===================================================================== *)

Module Props.

(** The store without its soft-deleted contracts and lots. *)
Definition purge (db : Store) : Store :=
  {| trd_buy := trd_buy db;
     lots := filter (fun l => negb (lot_is_deleted l)) (lots db);
     trd_app := trd_app db;
     contract := filter (fun c => negb (c_is_deleted c)) (contract db);
     subject := subject db; rnu := rnu db;
     treasury_pay := treasury_pay db; acts := acts db |}.

(** The tender, and the contract, an indicator looks up by id. *)
Definition tender_by_id (db : Store) (trd_buy_id : Z) : option TrdBuy :=
  Sql.first (filter (fun t => Z.eqb (tb_id t) trd_buy_id) (trd_buy db)).

(** The earliest addendum of a contract: [.where(Contract.parent_id ==
    contract_id).order_by(Contract.sign_date).limit(1)]. *)
Definition first_addendum (db : Store) (contract_id : Z) : option Contract :=
  Sql.first (Sql.order_by c_sign_date
               (filter (fun c => Sql.eqZ (c_parent_id c) contract_id) (contract db))).

(** The value stored under a key of an evidence dict. *)
Definition evidence_of (k : string) (r : ind_result) : option pyval :=
  Pg.get k (evidence r).

(** The lot the engine scores: [select(Lot).where(Lot.id == lot_id)]. *)
Definition lot_by_id (db : Store) (lot_id : Z) : option Lot :=
  Sql.first (filter (fun l => Z.eqb (Model.lot_id l) lot_id) (lots db)).

(** The guards of [compute_lot_score]: [if lot.trd_buy_id:],
    [lot.customer_bin], [contract and contract.supplier_biin]. *)
Definition has_tender (lot : Lot) : bool := truthy_Z (lot_trd_buy_id lot).
Definition has_customer (lot : Lot) : bool := truthy_str (lot_customer_bin lot).
Definition has_supplier (contract : option Contract) : bool :=
  match contract with
  | Some con => truthy_str (c_supplier_biin con)
  | None => false
  end.

Definition lot_codes : list string := ["DUMPING_FLAG"].
Definition tender_codes : list string :=
  ["SHORT_DEADLINE"; "FEW_BIDS"; "LOT_SPLITTING"; "LAST_MINUTE_CHANGES";
   "COMMON_REQUISITES"].
Definition customer_codes : list string := ["RECURRING_WINNER"; "CAROUSEL_PATTERN"].
Definition supplier_codes : list string :=
  ["SUPPLIER_CONCENTRATION"; "RNU_FLAG"; "HIGH_WIN_RATE_FEW_BIDS";
   "NEW_COMPANY_BIG_CONTRACT"].
Definition contract_codes : list string :=
  ["ADDENDUM_VALUE_INCREASE"; "WIN_MIN_THEN_ADDENDUM"; "WEIRD_EXECUTION_TIME";
   "PAYMENT_WITHOUT_ACT"].

(** The keys of the [flags] dict, in insertion order. *)
Definition evaluated_codes (lot : Lot) (contract : option Contract) : list string :=
  (lot_codes
   ++ (if has_tender lot then tender_codes else [])
   ++ (if has_customer lot && has_supplier contract then customer_codes else [])
   ++ (if has_supplier contract then supplier_codes else [])
   ++ (match contract with Some _ => contract_codes | None => [] end))%list.

(** The flags that are set, and the entry of [top_reasons] built from one. *)
Definition triggered (flags : list (string * ind_result)) : list (string * ind_result) :=
  filter (fun cr => flag (snd cr)) flags.

Definition reason_entry (cfg : list (string * (Q * option string)))
  (cr : string * ind_result) : pyval :=
  VDict [("code", VStr (fst cr));
         ("weight", VNum (Engine.weight_of cfg (fst cr)));
         ("evidence", VDict (evidence (snd cr)));
         ("description", VStr (Engine.description_of cfg (fst cr)))].

(** [a] weighs at least as much as [b]. *)
Definition heavier (cfg : list (string * (Q * option string)))
  (a b : string * ind_result) : Prop :=
  (Engine.weight_of cfg (fst b) <= Engine.weight_of cfg (fst a))%Q.


(** A table whose only unique index is its autoincrement primary key [id],
    with every stored id below the next value of the sequence. *)
Definition serial_fresh (t : Pg.table) : Prop :=
  Pg.t_unique t = [["id"]]
  /\ Pg.t_serial t = Some "id"
  /\ forall r, In r (Pg.t_rows t) ->
               exists x, Pg.get "id" r = Some (VInt x) /\ x < Pg.t_next t.

(** A date column of a proposed row: NULL, or a date inside the window. *)
Definition in_window (date_from date_to : datetime) (v : option pyval) : Prop :=
  match v with
  | Some VNone => True
  | Some (VDate d) => date_from <= d <= date_to
  | _ => False
  end.

(** The number of items in the pages a loader was handed. *)
Definition items_received (pages : list (list Etl.item * string)) : Z :=
  fold_right (fun p acc => Sql.count (fst p) + acc) 0 pages.

(** The tables each checkpointed loader issues statements for. *)
Definition loader_tables (parse_iso : pyval -> option datetime)
  (to_float : pyval -> option Q) (date_from date_to : datetime)
  : list (Etl.loader * list Etl.model) :=
  [(Etl.subjects_loader parse_iso, [Etl.SubjectT]);
   (Etl.trd_buy_loader parse_iso to_float date_from date_to, [Etl.TrdBuyT]);
   (Etl.lots_loader parse_iso to_float, [Etl.LotT]);
   (Etl.trd_app_loader parse_iso to_float, [Etl.TrdAppT; Etl.TrdAppLotT]);
   (Etl.contracts_loader parse_iso to_float date_from date_to, [Etl.ContractT]);
   (Etl.rnu_loader parse_iso, [Etl.RnuT]);
   (Etl.treasury_pay_loader parse_iso to_float, [Etl.TreasuryPayT])].

(** The loaders that keep every item of a page. *)
Definition unfiltered_loaders (parse_iso : pyval -> option datetime)
  (to_float : pyval -> option Q) : list Etl.loader :=
  [Etl.subjects_loader parse_iso; Etl.lots_loader parse_iso to_float;
   Etl.trd_app_loader parse_iso to_float; Etl.rnu_loader parse_iso;
   Etl.treasury_pay_loader parse_iso to_float].

(** Every statement of the loader goes to one of [models]. *)
Definition writes_only (models : list Etl.model) (L : Etl.loader) : Prop :=
  forall batch stmts n,
    Etl.statements L batch = Ok (stmts, n) ->
    Forall (fun s => In (Etl.st_model s) models) stmts.

(** The tables behind each key of the backfill summary. *)
Definition tables_of_key (key : string) : list Etl.model :=
  if String.eqb key "trd_buy" then [Etl.TrdBuyT]
  else if String.eqb key "lots" then [Etl.LotT]
  else if String.eqb key "trd_app" then [Etl.TrdAppT; Etl.TrdAppLotT]
  else if String.eqb key "contract" then [Etl.ContractT]
  else if String.eqb key "rnu" then [Etl.RnuT]
  else if String.eqb key "treasury_pay" then [Etl.TreasuryPayT]
  else [].

Definition summary_keys : list string :=
  ["trd_buy"; "lots"; "trd_app"; "contract"; "rnu"; "treasury_pay"].

(** The order of the three levels. *)
Definition level_rank (level : string) : Z :=
  if String.eqb level "LOW" then 0
  else if String.eqb level "MEDIUM" then 1
  else 2.

End Props.

(* ===================================================================== *)
(** ** The GraphQL generator (etl/client.py)                             *)
(* ===================================================================== *)

Module Client.

(** [v.get(k, default)]: only a dict has [get]. *)
Definition get_of (v : pyval) (k : string) (default : pyval) : result pyval :=
  match v with
  | VDict d => Ok (Etl.iget_d k default d)
  | _ => Raise AttributeError
  end.

(** [result.get("data", {}).get(data_key, [])] *)
Definition data_of (data_key : string) (reply : pyval) : result pyval :=
  data <- get_of reply "data" (VDict []) ;;
  get_of data data_key (VList []).

(** [result.get("extensions", {}).get("pageInfo", {})] *)
Definition page_info_of (reply : pyval) : result pyval :=
  extensions <- get_of reply "extensions" (VDict []) ;;
  get_of extensions "pageInfo" (VDict []).

(** [OWSClient.graphql_paginate] run against the replies to its successive
    [graphql] calls, starting with the variable [after]: the batches it
    yields, the [after] variable of every request that was answered, and the
    error it raises after them, if any.  The loop ends at the first reply
    without data, without [hasNextPage] or without [lastId]. *)
Fixpoint graphql_paginate_from (data_key : string) (after : pyval)
  (replies : list (result pyval)) : list pyval * list pyval * option exn :=
  match replies with
  | [] => ([], [], None)
  | Raise e :: _ => ([], [after], Some e)
  | Ok reply :: rest =>
    match data_of data_key reply with
    | Raise e => ([], [after], Some e)
    | Ok data =>
      if negb (truthy data) then ([], [after], None)
      else
        match page_info_of reply with
        | Raise e => ([data], [after], Some e)
        | Ok page_info =>
          match get_of page_info "hasNextPage" (VBool false) with
          | Raise e => ([data], [after], Some e)
          | Ok has_next =>
            if negb (truthy has_next) then ([data], [after], None)
            else
              match get_of page_info "lastId" VNone with
              | Raise e => ([data], [after], Some e)
              | Ok last_id =>
                if negb (truthy last_id) then ([data], [after], None)
                else
                  let '(batches, afters, err) :=
                    graphql_paginate_from data_key last_id rest in
                  (data :: batches, after :: afters, err)
              end
          end
        end
    end
  end.

(** [after = 0] before the first request. *)
Definition graphql_paginate (data_key : string) (replies : list (result pyval))
  : list pyval * list pyval * option exn :=
  graphql_paginate_from data_key (VInt 0) replies.

(** The [lastId] a reply carries, if it is well-formed. *)
Definition last_id_of (reply : result pyval) : option pyval :=
  match reply with
  | Ok r =>
    match page_info_of r with
    | Ok page_info =>
      match get_of page_info "lastId" VNone with
      | Ok v => Some v
      | Raise _ => None
      end
    | Raise _ => None
    end
  | Raise _ => None
  end.

(** What a run of the generator from [cursor] over [replies] must satisfy. *)
Definition follows_last_id (data_key : string) (replies : list (result pyval))
  (cursor : pyval) (out : list pyval * list pyval * option exn) : Prop :=
  Forall (fun b => truthy b = true) (fst (fst out))
  /\ (forall a, nth_error (snd (fst out)) 0 = Some a -> a = cursor)
  /\ (forall k a, nth_error (snd (fst out)) (S k) = Some a ->
        truthy a = true
        /\ exists reply, nth_error replies k = Some reply
                         /\ last_id_of reply = Some a)
  /\ (forall k b, nth_error (fst (fst out)) k = Some b ->
        exists reply, nth_error replies k = Some (Ok reply)
                      /\ data_of data_key reply = Ok b)
  /\ (List.length (fst (fst out)) <= List.length (snd (fst out))
      <= List.length (fst (fst out)) + 1)%nat
  /\ (List.length (snd (fst out)) <= List.length replies)%nat.

End Client.

(* ===================================================================== *)
(** ** BackfillETL.run and its run record (etl/backfill.py)               *)
(* ===================================================================== *)

Module Backfill.

(** The tables of the loaders, and the etl_runs table. *)
Record RunDb := {
  tables : Etl.Database;
  etl_runs : Pg.table }.

(** [db.add(row); await db.commit(); await db.refresh(row)]: a plain INSERT
    that returns the row as stored. *)
Definition add (r : Pg.row) (t : Pg.table) : result (Pg.table * Pg.row) :=
  let '(t1, r1) := Pg.fill_serial t r in
  if existsb (fun cols => match Pg.find_conflict cols r1 (Pg.t_rows t1) with
                          | Some _ => true
                          | None => false
                          end) (Pg.t_unique t1)
  then Raise IntegrityError
  else Ok (Pg.with_rows t1 (Pg.t_rows t1 ++ [r1]), r1).

(** [_start_run]: the new row and its id.  A row without id violates the
    primary key. *)
Definition _start_run (started : datetime) (date_from date_to : string)
  (runs : Pg.table) : result (Pg.table * Z) :=
  added <- add [("run_type", VStr "backfill");
                ("started_at", VDate started);
                ("status", VStr "running");
                ("summary_jsonb", VDict [("date_from", VStr date_from);
                                         ("date_to", VStr date_to)])] runs ;;
  match Pg.get "id" (snd added) with
  | Some (VInt run_id) => Ok (fst added, run_id)
  | _ => Raise IntegrityError
  end.

Definition _finish_run (finished : datetime) (run_id : Z) (status : string)
  (summary : pyval) (runs : Pg.table) : Pg.table :=
  Pg.update_where (Etl.id_is run_id)
    [("finished_at", VDate finished); ("status", VStr status);
     ("summary_jsonb", summary)] runs.

Section Run.

Variable parse_iso : pyval -> option datetime.
Variable to_float : pyval -> option Q.
Variable base_url : string.
(** [str(e)] *)
Variable str_of_exn : exn -> string.
(** [datetime.fromisoformat(self.date_from)] and [...(self.date_to)]. *)
Variables date_from date_to : datetime.

(** The loaders [run] calls, in order, with the summary key of each;
    [_load_subjects] is commented out there. *)
Definition steps : list (string * Etl.loader) :=
  [("trd_buy", Etl.trd_buy_loader parse_iso to_float date_from date_to);
   ("lots", Etl.lots_loader parse_iso to_float);
   ("trd_app", Etl.trd_app_loader parse_iso to_float);
   ("contract", Etl.contracts_loader parse_iso to_float date_from date_to);
   ("rnu", Etl.rnu_loader parse_iso);
   ("treasury_pay", Etl.treasury_pay_loader parse_iso to_float)].

(** The body of the [try]: the first loader that raises ends it.  Returns the
    tables as committed, the events of every loader that was started, and
    the summary or the exception. *)
Fixpoint run_loaders (todo : list (string * Etl.loader)) (now : datetime)
  (db : Etl.Database) (upstream : string -> list (result Etl.response))
  (faults : string -> list Etl.fault)
  : Etl.Database * list (string * list Etl.event) * result (list (string * Z)) :=
  match todo with
  | [] => (db, [], Ok [])
  | (key, L) :: rest =>
    match Etl.load base_url L now db upstream (faults key) with
    | (db1, ev, Ok n) =>
      let '(db2, evs, r) := run_loaders rest now db1 upstream faults in
      (db2, (key, ev) :: evs,
       match r with
       | Ok summary => Ok ((key, n) :: summary)
       | Raise e => Raise e
       end)
    | (db1, ev, Raise e) => (db1, [(key, ev)], Raise e)
    end
  end.

Definition summary_json (summary : list (string * Z)) : pyval :=
  VDict (map (fun kv => (fst kv, VInt (snd kv))) summary).

(** [BackfillETL.run].  [date_from_s] and [date_to_s] are the strings the
    run record keeps. *)
Definition run (started now finished : datetime) (date_from_s date_to_s : string)
  (db : RunDb) (upstream : string -> list (result Etl.response))
  (faults : string -> list Etl.fault)
  : RunDb * list (string * list Etl.event) * result (list (string * Z)) :=
  match _start_run started date_from_s date_to_s (etl_runs db) with
  | Raise e => (db, [], Raise e)
  | Ok (runs1, run_id) =>
    let '(tables1, evs, r) := run_loaders steps now (tables db) upstream faults in
    match r with
    | Ok summary =>
      ({| tables := tables1;
          etl_runs := _finish_run finished run_id "success" (summary_json summary) runs1 |},
       evs, Ok summary)
    | Raise e =>
      ({| tables := tables1;
          etl_runs := _finish_run finished run_id "failed"
                        (VDict [("error", VStr (str_of_exn e))]) runs1 |},
       evs, Raise e)
    end
  end.

End Run.

(** etl_runs as declared: an autoincrement primary key. *)
Definition etl_runs_declared : Pg.table :=
  {| Pg.t_unique := [["id"]]; Pg.t_serial := Some "id"; Pg.t_next := 1; Pg.t_rows := [] |}.

End Backfill.

(* ===================================================================== *)
(** ** Further concrete stores                                           *)
(* ===================================================================== *)

Module Cases.

(** A tender open for two days and twenty-three hours. *)
Definition short_tender : TrdBuy :=
  {| tb_id := 1; tb_start_date := Some 0;
     tb_end_date := Some (3 * usec_per_day - 3600000000);
     tb_last_update_at := None; tb_is_deleted := false |}.

Definition short_tender_store : Store :=
  {| trd_buy := [short_tender]; lots := []; trd_app := []; contract := [];
     subject := []; rnu := []; treasury_pay := []; acts := [] |}.

(** A contract planned to be executed in thirty days. *)
Definition ordinary_contract : Contract :=
  {| c_id := 1; c_trd_buy_id := Some 1; c_customer_bin := Some "C";
     c_supplier_biin := Some "S"; c_contract_sum_wnds := Some 100%Q;
     c_sign_date := Some 0; c_plan_exec_date := Some (30 * usec_per_day);
     c_parent_id := None; c_root_id := Some 1; c_is_deleted := false |}.

Definition ordinary_contract_store : Store :=
  Examples.store_of_contracts [ordinary_contract].

(** An addendum of contract 1 signed five days after it, and the same
    contract recorded without a root id. *)
Definition quick_addendum : Contract :=
  {| c_id := 2; c_trd_buy_id := Some 1; c_customer_bin := Some "C";
     c_supplier_biin := Some "S"; c_contract_sum_wnds := Some 100%Q;
     c_sign_date := Some (5 * usec_per_day); c_plan_exec_date := None;
     c_parent_id := Some 1; c_root_id := Some 1; c_is_deleted := false |}.

Definition rootless_contract : Contract :=
  {| c_id := 1; c_trd_buy_id := Some 1; c_customer_bin := Some "C";
     c_supplier_biin := Some "S"; c_contract_sum_wnds := Some 100%Q;
     c_sign_date := Some 0; c_plan_exec_date := Some (30 * usec_per_day);
     c_parent_id := None; c_root_id := None; c_is_deleted := false |}.

Definition quick_addendum_store : Store :=
  Examples.store_of_contracts [ordinary_contract; quick_addendum].

Definition rootless_store : Store :=
  Examples.store_of_contracts [rootless_contract; quick_addendum].

(** A lot without tender, customer or dumping flag, in a database whose
    scoring tables carry the unique index the score upsert names. *)
Definition quiet_lot : Lot :=
  {| lot_id := 1; lot_trd_buy_id := None; lot_amount := Some 100%Q;
     lot_customer_bin := None; lot_dumping_flag := Some false;
     lot_is_deleted := false |}.

Definition quiet_db : Engine.ScoreDb :=
  {| Engine.store :=
       {| trd_buy := []; lots := [quiet_lot]; trd_app := []; contract := [];
          subject := []; rnu := []; treasury_pay := []; acts := [] |};
     Engine.risk_flags := Engine.risk_flags_declared;
     Engine.risk_scores := Engine.risk_scores_keyed |}.

(** A weight table whose weights sum to zero. *)
Definition cfg_zero : list (string * (Q * option string)) :=
  [("DUMPING_FLAG", (5%Q, None)); ("SHORT_DEADLINE", ((-5)%Q, None))].

(** A journal of two pages, and an upstream that knows every object. *)
Definition update_rnu_7 : Etl.item :=
  [("entity_type", VStr "Rnu"); ("entity_id", VStr "7"); ("action", VStr "U")].

Definition journal_of_two_pages : list (result Etl.response) :=
  [Ok {| Etl.r_items := [Examples.delete_tender_5]; Etl.r_next_page := "/v3/journal?page=2" |};
   Ok {| Etl.r_items := [update_rnu_7]; Etl.r_next_page := "" |}].

Definition found (endpoint : string) (id : pyval) : result (option Etl.item) :=
  Ok (Some [("id", id); ("is_active", VBool false)]).

(** Two GraphQL replies: a page that announces a next one, and an empty
    page. *)
Definition graphql_page (ids : list Z) (has_next : bool) (last_id : Z) : pyval :=
  VDict [("data", VDict [("Lots", VList (map VInt ids))]);
         ("extensions",
          VDict [("pageInfo", VDict [("hasNextPage", VBool has_next);
                                     ("lastId", VInt last_id)])])].

Definition graphql_replies : list (result pyval) :=
  [Ok (graphql_page [1; 2] true 2); Ok (graphql_page [3] true 3);
   Ok (graphql_page [] false 0); Ok (graphql_page [9] true 9)].

(** An upstream that serves three lots in two pages. *)
Definition lot_item (id : Z) : Etl.item :=
  [("id", VInt id); ("trd_buy_id", VInt 1); ("amount", VInt 100)].

Definition two_lot_pages (url : string) : list (result Etl.response) :=
  [Ok {| Etl.r_items := [lot_item 1; lot_item 2];
         Etl.r_next_page := "/v3/lots?page=next&search_after=2" |};
   Ok {| Etl.r_items := [lot_item 3]; Etl.r_next_page := "" |}].

(** A run database with empty declared tables, and a rendering of
    exceptions. *)
Definition empty_run_db : Backfill.RunDb :=
  {| Backfill.tables := Etl.declared_database;
     Backfill.etl_runs := Backfill.etl_runs_declared |}.

Definition exn_text (e : exn) : string :=
  match e with
  | TransportError => "transport error"
  | _ => "error"
  end.

Definition no_faults (key : string) : list Etl.fault := [].

End Cases.

(* ===================================================================== *)
(** ** Facts about the numeric primitives                                *)
(* ===================================================================== *)

Module PyFacts.

Lemma Qltb_lt (a b : Q) : Qltb a b = true <-> (a < b)%Q.
Proof.
  unfold Qltb. rewrite negb_true_iff. split; intro H.
  - apply Qnot_le_lt. intro Hle. apply Qle_bool_iff in Hle. congruence.
  - destruct (Qle_bool b a) eqn:E; [|reflexivity].
    apply Qle_bool_iff in E. exfalso. exact (Qlt_not_le _ _ H E).
Qed.

Lemma Qltb_ge (a b : Q) : Qltb a b = false <-> (b <= a)%Q.
Proof.
  unfold Qltb. rewrite negb_false_iff. apply Qle_bool_iff.
Qed.

Lemma Qleb_le (a b : Q) : Qleb a b = true <-> (a <= b)%Q.
Proof. apply Qle_bool_iff. Qed.

Lemma Qleb_gt (a b : Q) : Qleb a b = false <-> (b < a)%Q.
Proof.
  unfold Qleb. split; intro H.
  - apply Qnot_le_lt. intro Hle. apply Qle_bool_iff in Hle. congruence.
  - destruct (Qle_bool a b) eqn:E; [|reflexivity].
    apply Qle_bool_iff in E. exfalso. exact (Qlt_not_le _ _ H E).
Qed.

Lemma Qeq_bool_false (a b : Q) : Qeq_bool a b = false <-> ~ (a == b)%Q.
Proof.
  split; intro H.
  - intro E. apply Qeq_bool_iff in E. congruence.
  - destruct (Qeq_bool a b) eqn:E; [|reflexivity].
    apply Qeq_bool_iff in E. contradiction.
Qed.

Lemma or0_some (q : Q) : (or0 (Some q) == q)%Q.
Proof.
  unfold or0. destruct (Qeq_bool q 0) eqn:E; [|reflexivity].
  apply Qeq_bool_iff in E. symmetry. exact E.
Qed.

Lemma truediv_ok (a b : Q) : ~ (b == 0)%Q -> truediv a b = Ok (a / b)%Q.
Proof.
  intro H. unfold truediv. apply Qeq_bool_false in H. rewrite H. reflexivity.
Qed.

Lemma Qsum_from (l : list Q) (a : Q) : (fold_left Qplus l a == a + fold_right Qplus 0 l)%Q.
Proof.
  revert a. induction l as [|x l IH]; intro a; simpl.
  - ring.
  - rewrite IH. ring.
Qed.

Lemma Qsum_total (l : list Q) : (Sql.Qsum l == fold_right Qplus 0 l)%Q.
Proof. unfold Sql.Qsum. rewrite Qsum_from. ring. Qed.

End PyFacts.

(* ===================================================================== *)
(** ** Indicators: the addendum increase and lot splitting               *)
(* ===================================================================== *)

Module IndicatorFacts.

Import PyFacts.

(** The early returns of check_addendum_value_increase. *)
Lemma addendum_missing_empty (db : Store) (contract_id : Z) :
  Spec.addendum_data_missing db contract_id = true ->
  check_addendum_value_increase db contract_id = Ok empty_result.
Proof.
  unfold check_addendum_value_increase, Spec.addendum_data_missing, Spec.null_or_zero,
    truthy_Z, truthy_Q.
  destruct (contract_by_id db contract_id) as [row|]; [|reflexivity].
  destruct (c_root_id row) as [root_id|]; [|reflexivity].
  destruct (Z.eqb root_id 0); [reflexivity|]. cbn [negb orb].
  destruct (contract_by_id db root_id) as [root|]; [|reflexivity].
  destruct (c_contract_sum_wnds root) as [root_sum|],
           (c_contract_sum_wnds row) as [row_sum|]; simpl; try reflexivity.
  - destruct (Qeq_bool root_sum 0), (Qeq_bool row_sum 0); simpl;
      try reflexivity; discriminate.
  - destruct (Qeq_bool root_sum 0); reflexivity.
Qed.

(** C10. check_addendum_value_increase always returns (it never raises, so
    its division never meets a zero divisor); when the contract row is absent,
    its root_id unset, the root absent, or one of the two sums null or zero, it
    returns not-triggered with a null value and empty evidence; otherwise the
    division is evaluated, with a root sum different from zero. *)
Theorem C10_addendum_never_divides_by_zero (db : Store) (contract_id : Z) :
  (exists r, check_addendum_value_increase db contract_id = Ok r)
  /\ (Spec.addendum_data_missing db contract_id = true ->
      check_addendum_value_increase db contract_id = Ok empty_result)
  /\ (Spec.addendum_data_missing db contract_id = false ->
      exists row root_id root row_sum root_sum,
        contract_by_id db contract_id = Some row
        /\ c_root_id row = Some root_id
        /\ contract_by_id db root_id = Some root
        /\ c_contract_sum_wnds row = Some row_sum
        /\ c_contract_sum_wnds root = Some root_sum
        /\ ~ (root_sum == 0)%Q
        /\ truediv (row_sum - root_sum) root_sum = Ok ((row_sum - root_sum) / root_sum)%Q
        /\ exists r, check_addendum_value_increase db contract_id = Ok r
                     /\ value r = Some (round1 ((row_sum - root_sum) / root_sum * 100))).
Proof.
  unfold check_addendum_value_increase, Spec.addendum_data_missing.
  destruct (contract_by_id db contract_id) as [row|] eqn:Hrow.
  2:{ repeat split; eauto; discriminate. }
  destruct (c_root_id row) as [root_id|] eqn:Hroot; simpl.
  2:{ repeat split; eauto; discriminate. }
  destruct (Z.eqb root_id 0) eqn:Hz; simpl.
  { repeat split; eauto; discriminate. }
  destruct (contract_by_id db root_id) as [root|] eqn:Hr.
  2:{ repeat split; eauto; discriminate. }
  destruct (c_contract_sum_wnds root) as [root_sum|] eqn:Hrs; simpl.
  2:{ rewrite orb_true_r. repeat split; eauto; discriminate. }
  destruct (c_contract_sum_wnds row) as [row_sum|] eqn:Hws; simpl.
  2:{ rewrite orb_true_r. repeat split; eauto; discriminate. }
  destruct (Qeq_bool root_sum 0) eqn:E1; simpl.
  { rewrite orb_true_r. repeat split; eauto; discriminate. }
  destruct (Qeq_bool row_sum 0) eqn:E2; simpl.
  { repeat split; eauto; discriminate. }
  assert (Hnz : ~ (root_sum == 0)%Q) by (apply Qeq_bool_false; exact E1).
  rewrite (truediv_ok _ Hnz). simpl.
  split; [eauto|]. split; [discriminate|].
  intros _. exists row, root_id, root, row_sum, root_sum.
  repeat split; auto using truediv_ok. eexists; split; reflexivity.
Qed.

(** An addendum whose root row is absent; an addendum 25 percent above its
    root. *)
Lemma C10_witness :
  check_addendum_value_increase Examples.without_deleted_root_store 2 = Ok empty_result
  /\ exists r, check_addendum_value_increase Examples.deleted_root_store 2 = Ok r
               /\ value r = Some (250 # 10).
Proof.
  split.
  - apply (proj1 (proj2 (C10_addendum_never_divides_by_zero
                           Examples.without_deleted_root_store 2))). reflexivity.
  - destruct (proj2 (proj2 (C10_addendum_never_divides_by_zero
                              Examples.deleted_root_store 2)) eq_refl)
      as (row & root_id & root & row_sum & root_sum & H1 & H2 & H3 & H4 & H5 & _ & _ & r & Hr & Hv).
    exists r. split; [exact Hr|]. rewrite Hv.
    vm_compute in H1. inversion H1; subst row; clear H1.
    vm_compute in H2. inversion H2; subst root_id; clear H2.
    vm_compute in H3. inversion H3; subst root; clear H3.
    vm_compute in H4. inversion H4; subst row_sum; clear H4.
    vm_compute in H5. inversion H5; subst root_sum; clear H5.
    reflexivity.
Defined.

Lemma lot_splitting_rows_spec (db : Store) (trd_buy_id : Z) :
  lot_splitting_rows db trd_buy_id = Spec.tender_lots db trd_buy_id.
Proof.
  unfold lot_splitting_rows, Spec.tender_lots. apply filter_ext.
  intro l. unfold Sql.eqZ. apply andb_comm.
Qed.

Lemma non_null_amounts (ls : list Lot) :
  Sql.non_null (map lot_amount ls) = Spec.amounts ls.
Proof.
  induction ls as [|l ls IH]; simpl; [reflexivity|].
  unfold Sql.non_null in *. simpl. rewrite IH. destruct (lot_amount l); reflexivity.
Qed.

Lemma sum_total (l : list (option Q)) :
  (or0 (Sql.sum l) == Spec.total (Sql.non_null l))%Q.
Proof.
  unfold Sql.sum. destruct (Sql.non_null l) as [|x xs] eqn:E.
  - reflexivity.
  - rewrite or0_some. apply Qsum_total.
Qed.

Lemma avg_average (l : list (option Q)) :
  (or0 (Sql.avg l) == Spec.average (Sql.non_null l))%Q.
Proof.
  unfold Sql.avg, Spec.average. destruct (Sql.non_null l) as [|x xs] eqn:E.
  - reflexivity.
  - rewrite or0_some. unfold Sql.count. rewrite Qsum_total. reflexivity.
Qed.

(** C2. check_lot_splitting is triggered exactly when the tender has more
    than 5 non-deleted lots, the average of the amounts recorded on them is
    below 5,000,000 and their total exceeds 10,000,000; the value it returns is
    always the number of these lots. *)
Theorem C2_lot_splitting_rule (db : Store) (trd_buy_id : Z) :
  let ls := Spec.tender_lots db trd_buy_id in
  let lot_count := Z.of_nat (List.length ls) in
  exists r,
    check_lot_splitting db trd_buy_id = Ok r
    /\ value r = Some (inject_Z lot_count)
    /\ (flag r = true <->
        (5 < lot_count)%Z
        /\ (Spec.average (Spec.amounts ls) < 5000000)%Q
        /\ (10000000 < Spec.total (Spec.amounts ls))%Q).
Proof.
  intros ls lot_count. unfold check_lot_splitting.
  rewrite lot_splitting_rows_spec. fold ls.
  eexists. split; [reflexivity|]. split; [reflexivity|].
  cbn [flag]. rewrite !andb_true_iff, Z.ltb_lt, !Qltb_lt.
  rewrite sum_total, avg_average, non_null_amounts.
  unfold Sql.count. fold lot_count. tauto.
Qed.

End IndicatorFacts.

(* ===================================================================== *)
(** ** ORDER BY: the sort is a sorted permutation                        *)
(* ===================================================================== *)

Module SqlFacts.

Section OrderBy.

Context {A : Type} (key : A -> option datetime).

Lemma date_le_total (a b : option datetime) :
  Sql.date_le a b = false -> Sql.date_le b a = true.
Proof.
  destruct a, b; simpl; try congruence.
  rewrite Z.leb_gt, Z.leb_le. lia.
Qed.

Lemma date_le_trans (a b c : option datetime) :
  Sql.date_le a b = true -> Sql.date_le b c = true -> Sql.date_le a c = true.
Proof.
  destruct a, b, c; simpl; try congruence.
  rewrite !Z.leb_le. lia.
Qed.

Lemma insert_by_perm (x : A) (l : list A) :
  Permutation (Sql.insert_by key x l) (x :: l).
Proof.
  induction l as [|y l IH]; simpl; [reflexivity|].
  destruct (Sql.date_le (key y) (key x)).
  - rewrite IH. apply perm_swap.
  - reflexivity.
Qed.

Lemma insert_by_hd (x y : A) (l : list A) :
  (Sql.key_le key) y x -> HdRel (Sql.key_le key) y l -> HdRel (Sql.key_le key) y (Sql.insert_by key x l).
Proof.
  intros Hyx H. destruct l as [|z l]; simpl.
  - constructor. exact Hyx.
  - inversion H; subst. destruct (Sql.date_le (key z) (key x)); constructor; assumption.
Qed.

Lemma insert_by_sorted (x : A) (l : list A) :
  Sorted (Sql.key_le key) l -> Sorted (Sql.key_le key) (Sql.insert_by key x l).
Proof.
  induction 1 as [|y l Hs IH Hd]; simpl.
  - repeat constructor.
  - destruct (Sql.date_le (key y) (key x)) eqn:E.
    + constructor; [exact IH|]. apply insert_by_hd; assumption.
    + constructor; [constructor; assumption|].
      constructor. apply date_le_total. exact E.
Qed.

Lemma fold_insert_perm (l acc : list A) :
  Permutation (fold_left (fun acc x => Sql.insert_by key x acc) l acc) (acc ++ l).
Proof.
  revert acc. induction l as [|x l IH]; intro acc; simpl.
  - rewrite app_nil_r. reflexivity.
  - rewrite IH. rewrite insert_by_perm. apply Permutation_middle.
Qed.

Lemma fold_insert_sorted (l acc : list A) :
  Sorted (Sql.key_le key) acc ->
  Sorted (Sql.key_le key) (fold_left (fun acc x => Sql.insert_by key x acc) l acc).
Proof.
  revert acc. induction l as [|x l IH]; intros acc H; simpl; [exact H|].
  apply IH. apply insert_by_sorted. exact H.
Qed.

Lemma order_by_perm (l : list A) : Permutation (Sql.order_by key l) l.
Proof. unfold Sql.order_by. apply (fold_insert_perm l []). Qed.

Lemma order_by_sorted (l : list A) : StronglySorted (Sql.key_le key) (Sql.order_by key l).
Proof.
  apply Sorted_StronglySorted.
  - intros a b c. apply date_le_trans.
  - unfold Sql.order_by. apply fold_insert_sorted. constructor.
Qed.

End OrderBy.

Section Distinct.

Context {A : Type} (eqb : A -> A -> bool).
Hypothesis eqb_eq : forall a b, eqb a b = true <-> a = b.

Lemma In_distinct (y : A) (l : list A) : In y (Sql.distinct eqb l) <-> In y l.
Proof.
  induction l as [|x r IH]; simpl; [tauto|].
  rewrite filter_In, IH, negb_true_iff.
  destruct (eqb x y) eqn:E.
  - apply eqb_eq in E. subst. intuition congruence.
  - assert (x <> y) by (intro Hxy; apply eqb_eq in Hxy; congruence). tauto.
Qed.

(** The list of distinct values has two entries or more exactly when the list
    holds two different values. *)
Lemma distinct_two (l : list A) :
  (2 <= Sql.count (Sql.distinct eqb l))%Z <->
  exists a b, In a l /\ In b l /\ a <> b.
Proof.
  unfold Sql.count. destruct l as [|x r]; simpl.
  - split; [lia|]. intros (a & b & [] & _).
  - destruct (filter (fun y => negb (eqb x y)) (Sql.distinct eqb r)) as [|y f] eqn:E.
    + split; [simpl; lia|]. intros (a & b & Ha & Hb & Hab). exfalso.
      assert (Hall : forall z, In z r -> z = x).
      { intros z Hz. destruct (eqb x z) eqn:Ez; [apply eqb_eq in Ez; congruence|].
        assert (Hin : In z (filter (fun y => negb (eqb x y)) (Sql.distinct eqb r))).
        { apply filter_In. split; [apply In_distinct; exact Hz|]. rewrite Ez. reflexivity. }
        rewrite E in Hin. destruct Hin. }
      assert (a = x) by (destruct Ha; [congruence|auto]).
      assert (b = x) by (destruct Hb; [congruence|auto]).
      congruence.
    + split; [|simpl; lia]. intros _.
      assert (Hin : In y (filter (fun y => negb (eqb x y)) (Sql.distinct eqb r)))
        by (rewrite E; left; reflexivity).
      apply filter_In in Hin. destruct Hin as [Hin Hne].
      apply (proj1 (In_distinct y r)) in Hin. apply negb_true_iff in Hne.
      exists x, y. split; [left; reflexivity|]. split; [right; exact Hin|].
      intro Hxy. apply eqb_eq in Hxy. congruence.
Qed.

End Distinct.

Lemma opt_string_eqb_eq (a b : option string) :
  Sql.opt_eqb String.eqb a b = true <-> a = b.
Proof.
  destruct a as [x|], b as [y|]; simpl; try (split; congruence).
  rewrite String.eqb_eq. split; congruence.
Qed.

End SqlFacts.

(* ===================================================================== *)
(** ** Indicators: the carousel pattern                                  *)
(* ===================================================================== *)

Module CarouselFacts.

Import PyFacts SqlFacts.

Lemma carousel_rows_spec (db : Store) (customer_bin : string) :
  carousel_rows db customer_bin =
  firstn 50 (Sql.order_by c_sign_date (Spec.customer_contracts db customer_bin)).
Proof.
  unfold carousel_rows, Sql.limit, Spec.customer_contracts. do 2 f_equal.
  apply filter_ext. intro c. unfold Sql.eqS. apply andb_comm.
Qed.

(** C3, as the specification words it, fails: with fifty-one contracts the
    code samples the fifty OLDEST ones (B, then A forty-nine times: triggered,
    48 rotations), while the fifty most recent ones all went to A. *)
Lemma C3_counterexample_oldest_fifty :
  option_map flag (Examples.ok_of (check_carousel_pattern Examples.carousel_store "C"))
    = Some true
  /\ option_map value (Examples.ok_of (check_carousel_pattern Examples.carousel_store "C"))
    = Some (Some 48%Q)
  /\ fst (Spec.carousel_rule (Spec.last_50_contracts Examples.carousel_store "C")) = false.
Proof. vm_compute. repeat split. Qed.

(** C3, second defect of the wording: below the minimum sample of distinct
    suppliers the value is 0.0, not the rotation count (5 here). *)
Lemma carousel_value_is_zero_on_early_return :
  option_map value
    (Examples.ok_of (check_carousel_pattern Examples.single_supplier_store "C"))
    = Some (Some 0%Q)
  /\ snd (Spec.carousel_rule (Spec.last_50_contracts Examples.single_supplier_store "C"))
    = 5%Z.
Proof. vm_compute. repeat split. Qed.

(** C3, amended. check_carousel_pattern sorts the customer's non-deleted
    contracts by ascending sign date (NULLs last) and keeps the FIRST fifty.
    It is triggered exactly when the rotation counter over that sample is at
    least 2, the sample holds two different suppliers and has at least 6
    contracts; its value is the rotation count when the sample has at least 6
    contracts and two different suppliers, and 0.0 otherwise. *)
Theorem C3_carousel_first_fifty (db : Store) (customer_bin : string) :
  let chronological :=
    Sql.order_by c_sign_date (Spec.customer_contracts db customer_bin) in
  let sample := firstn 50 chronological in
  let suppliers := map c_supplier_biin sample in
  let rotations := count_rotations suppliers [] 0 in
  Permutation chronological (Spec.customer_contracts db customer_bin)
  /\ StronglySorted (Sql.key_le c_sign_date) chronological
  /\ exists r,
       check_carousel_pattern db customer_bin = Ok r
       /\ (flag r = true <->
           (2 <= rotations)%Z
           /\ (exists a b, In a suppliers /\ In b suppliers /\ a <> b)
           /\ (6 <= List.length sample)%nat)
       /\ ((6 <= List.length sample)%nat ->
           (exists a b, In a suppliers /\ In b suppliers /\ a <> b) ->
           value r = Some (inject_Z rotations))
       /\ ((List.length sample < 6)%nat
           \/ ~ (exists a b, In a suppliers /\ In b suppliers /\ a <> b) ->
           value r = Some 0%Q /\ flag r = false).
Proof.
  intros chronological sample suppliers rotations.
  split; [apply order_by_perm|]. split; [apply order_by_sorted|].
  unfold check_carousel_pattern. rewrite carousel_rows_spec.
  fold chronological. fold sample. fold suppliers. fold rotations.
  pose proof (distinct_two (Sql.opt_eqb String.eqb) opt_string_eqb_eq suppliers) as Hd.
  unfold Sql.count at 1.
  destruct (Z.ltb (Z.of_nat (List.length sample)) 6) eqn:Hlen.
  - apply Z.ltb_lt in Hlen.
    eexists. split; [reflexivity|]. simpl.
    split; [split; [discriminate|intros (_ & _ & H); lia]|].
    split; [intros H; lia|]. auto.
  - apply Z.ltb_ge in Hlen.
    destruct (Z.ltb (Sql.count (Sql.distinct (Sql.opt_eqb String.eqb) suppliers)) 2) eqn:Hw.
    + apply Z.ltb_lt in Hw.
      assert (Hno : ~ (exists a b, In a suppliers /\ In b suppliers /\ a <> b))
        by (intro H; apply Hd in H; lia).
      eexists. split; [reflexivity|]. simpl.
      split; [split; [discriminate|intros (_ & H & _); contradiction]|].
      split; [intros _ H; contradiction|]. auto.
    + apply Z.ltb_ge in Hw.
      assert (Hyes : exists a b, In a suppliers /\ In b suppliers /\ a <> b)
        by (apply Hd; exact Hw).
      eexists. split; [reflexivity|]. cbn [flag value].
      rewrite andb_true_iff, !Z.leb_le.
      split; [split; [intros [H _]; repeat split; auto; lia|intros (H & _ & _); split; auto]|].
      split; [reflexivity|].
      intros [H|H]; [lia|contradiction].
Qed.

(** A customer whose seven contracts rotate between three suppliers. *)
Lemma C3_carousel_first_fifty_witness :
  option_map flag (Examples.ok_of (check_carousel_pattern Examples.rotating_store "C"))
    = Some true.
Proof.
  destruct (C3_carousel_first_fifty Examples.rotating_store "C") as (_ & _ & r & Hr & Hflag & _).
  rewrite Hr. simpl. f_equal. apply Hflag.
  split; [vm_compute; discriminate|].
  split; [|vm_compute; lia].
  exists (Some "A"), (Some "B"). vm_compute. intuition congruence.
Defined.

End CarouselFacts.

(* ===================================================================== *)
(** ** Soft-deleted rows                                                 *)
(* ===================================================================== *)

Module SoftDeleteFacts.

(** The aggregate queries filter on [is_deleted == False]: a soft-deleted
    contract added anywhere in the table changes nothing for
    check_recurring_winner. *)
Lemma recurring_winner_ignores_deleted (db : Store) (before after : list Contract)
  (c : Contract) (customer supplier : string) :
  contract db = (before ++ after)%list ->
  c_is_deleted c = true ->
  check_recurring_winner
    {| trd_buy := trd_buy db; lots := lots db; trd_app := trd_app db;
       contract := (before ++ c :: after)%list; subject := subject db; rnu := rnu db;
       treasury_pay := treasury_pay db; acts := acts db |} customer supplier
  = check_recurring_winner db customer supplier.
Proof.
  intros Hdb Hdel. unfold check_recurring_winner. cbn [contract]. rewrite Hdb.
  rewrite !filter_app. cbn [filter]. rewrite Hdel. cbn [negb].
  rewrite !andb_false_r. reflexivity.
Qed.

(** C5 on the failing input.  The by-id lookups do not filter: with a
    soft-deleted root contract in the table check_addendum_value_increase is
    triggered (25 percent), without that row it is not; likewise a soft-deleted
    addendum triggers check_win_min_then_addendum. *)
Theorem C5_deleted_rows_are_read :
  option_map flag (Examples.ok_of
    (check_addendum_value_increase Examples.deleted_root_store 2)) = Some true
  /\ option_map value (Examples.ok_of
    (check_addendum_value_increase Examples.deleted_root_store 2)) = Some (Some (250 # 10))
  /\ check_addendum_value_increase Examples.without_deleted_root_store 2 = Ok empty_result
  /\ option_map flag (Examples.ok_of
    (check_win_min_then_addendum Examples.deleted_addendum_store 1)) = Some true
  /\ check_win_min_then_addendum Examples.without_deleted_addendum_store 1
     = Ok empty_result.
Proof. vm_compute. repeat split. Qed.

End SoftDeleteFacts.

(* ===================================================================== *)
(** ** Statements: rows, conflicts, upserts                              *)
(* ===================================================================== *)

Module PgFacts.

Lemma bind_ok {A B} (r : result A) (k : A -> result B) (b : B) :
  bind r k = Ok b -> exists a, r = Ok a /\ k a = Ok b.
Proof. destruct r as [a|e]; simpl; [eauto|discriminate]. Qed.

Lemma get_set_same (c : string) (v : pyval) (r : Pg.row) :
  Pg.get c (Pg.set c v r) = Some v.
Proof.
  induction r as [|[k w] r IH]; simpl.
  - rewrite String.eqb_refl. reflexivity.
  - destruct (String.eqb k c) eqn:E; simpl; rewrite E; auto.
Qed.

Lemma get_set_other (c k : string) (v : pyval) (r : Pg.row) :
  k <> c -> Pg.get k (Pg.set c v r) = Pg.get k r.
Proof.
  intro Hne. induction r as [|[j w] r IH]; simpl.
  - destruct (String.eqb c k) eqn:E; [apply String.eqb_eq in E; congruence|reflexivity].
  - destruct (String.eqb j c) eqn:E; simpl.
    + apply String.eqb_eq in E. subst j.
      destruct (String.eqb c k) eqn:E2; [apply String.eqb_eq in E2; congruence|reflexivity].
    + destruct (String.eqb j k); auto.
Qed.

Lemma fill_serial_spec (t : Pg.table) (r : Pg.row) :
  Pg.t_rows (fst (Pg.fill_serial t r)) = Pg.t_rows t
  /\ Pg.t_unique (fst (Pg.fill_serial t r)) = Pg.t_unique t
  /\ Pg.t_serial (fst (Pg.fill_serial t r)) = Pg.t_serial t
  /\ forall k v, Pg.get k r = Some v -> Pg.get k (snd (Pg.fill_serial t r)) = Some v.
Proof.
  unfold Pg.fill_serial. destruct (Pg.t_serial t) as [c|] eqn:Hs; simpl; auto.
  destruct (Pg.get c r) eqn:Hc; simpl; auto.
  repeat split; auto. intros k v Hk.
  destruct (String.eqb c k) eqn:E; [|exact Hk].
  apply String.eqb_eq in E. congruence.
Qed.

Lemma find_conflict_nth (cols : list string) (r : Pg.row) (rows : list Pg.row) (i : nat) :
  Pg.find_conflict cols r rows = Some i ->
  exists x, nth_error rows i = Some x /\ Pg.same_key cols r x = true.
Proof.
  revert i. induction rows as [|y rows IH]; simpl; intros i H; [discriminate|].
  destruct (Pg.same_key cols r y) eqn:E.
  - inversion H; subst. exists y. auto.
  - destruct (Pg.find_conflict cols r rows) as [j|]; [|discriminate].
    inversion H; subst. simpl. apply IH. reflexivity.
Qed.

Lemma find_conflict_none (cols : list string) (r : Pg.row) (rows : list Pg.row) :
  Pg.find_conflict cols r rows = None ->
  forall x, In x rows -> Pg.same_key cols r x = false.
Proof.
  induction rows as [|y rows IH]; simpl; intros H x Hx; [contradiction|].
  destruct (Pg.same_key cols r y) eqn:E; [discriminate|].
  destruct (Pg.find_conflict cols r rows) as [j|]; [discriminate|].
  destruct Hx as [->|Hx]; auto.
Qed.

Lemma nth_update_nth (i : nat) (f : Pg.row -> Pg.row) (rows : list Pg.row) (x : Pg.row) :
  nth_error rows i = Some x -> nth_error (Pg.update_nth i f rows) i = Some (f x).
Proof.
  revert i. induction rows as [|y rows IH]; intros [|i]; simpl; try discriminate.
  - intro H. inversion H. reflexivity.
  - apply IH.
Qed.

Lemma nth_update_nth_other (i j : nat) (f : Pg.row -> Pg.row) (rows : list Pg.row) :
  i <> j -> nth_error (Pg.update_nth i f rows) j = nth_error rows j.
Proof.
  revert i j. induction rows as [|y rows IH]; intros [|i] [|j] H; simpl; auto.
  - congruence.
Qed.

Lemma length_update_nth (i : nat) (f : Pg.row -> Pg.row) (rows : list Pg.row) :
  List.length (Pg.update_nth i f rows) = List.length rows.
Proof.
  revert i. induction rows as [|y rows IH]; intros [|i]; simpl; auto.
Qed.

Lemma key_eqb_str (s : string) (b : pyval) : Pg.key_eqb (VStr s) b = true -> b = VStr s.
Proof.
  destruct b; simpl; try discriminate. intro H. apply String.eqb_eq in H. congruence.
Qed.

Lemma key_eqb_int (z : Z) (b : pyval) : Pg.key_eqb (VInt z) b = true -> b = VInt z.
Proof.
  destruct b; simpl; try discriminate. intro H. apply Z.eqb_eq in H. congruence.
Qed.

(** Without a primary key or unique index on the conflict target the
    statement is rejected, whatever the rows. *)
Lemma insert_do_update_needs_arbiter (index_elements : list string)
  (set_ : list (string * Pg.setexpr)) (values : list Pg.row) (t t' : Pg.table) :
  Pg.insert_do_update index_elements set_ values t = Ok t' ->
  Pg.has_arbiter index_elements t = true.
Proof.
  unfold Pg.insert_do_update. destruct (Pg.has_arbiter index_elements t); [auto|discriminate].
Qed.



End PgFacts.

(* ===================================================================== *)
(** ** The engine: score and level                                       *)
(* ===================================================================== *)

Module EngineFacts.

Import PyFacts PgFacts.

Lemma Qltb_comp (a a' b b' : Q) : (a == a')%Q -> (b == b')%Q -> Qltb a b = Qltb a' b'.
Proof. intros Ha Hb. unfold Qltb. rewrite Ha, Hb. reflexivity. Qed.

Lemma round_half_even_comp (p q : Q) : (p == q)%Q -> round_half_even p = round_half_even q.
Proof.
  intro H. unfold round_half_even.
  assert (Hf : Qfloor p = Qfloor q) by (rewrite H; reflexivity).
  rewrite Hf.
  assert (Hr : (p - inject_Z (Qfloor q) == q - inject_Z (Qfloor q))%Q) by (rewrite H; reflexivity).
  rewrite (Qltb_comp Hr (Qeq_refl (1 # 2))).
  rewrite (Qltb_comp (Qeq_refl (1 # 2)) Hr).
  reflexivity.
Qed.

Lemma round1_comp (p q : Q) : (p == q)%Q -> round1 p = round1 q.
Proof.
  intro H. unfold round1. f_equal. apply round_half_even_comp. rewrite H. reflexivity.
Qed.

Lemma min_comp (a p q : Q) : (p == q)%Q -> (Py.min a p == Py.min a q)%Q.
Proof.
  intro H. unfold Py.min. rewrite (Qltb_comp H (Qeq_refl a)).
  destruct (Qltb q a); [exact H|reflexivity].
Qed.

(** Rounding to an integer does not cross an integer bound. *)
Lemma round_half_even_lower (q : Q) (a : Z) :
  (inject_Z a <= q)%Q -> (a <= round_half_even q)%Z.
Proof.
  intro Ha. unfold round_half_even.
  assert (Haf : (a <= Qfloor q)%Z).
  { rewrite <- (Qfloor_Z a). apply Qfloor_resp_le. exact Ha. }
  destruct (Qltb (q - inject_Z (Qfloor q)) (1 # 2)); [lia|].
  destruct (Qltb (1 # 2) (q - inject_Z (Qfloor q))); [lia|].
  destruct (Z.even (Qfloor q)); lia.
Qed.

Lemma round_half_even_upper (q : Q) (b : Z) :
  (q <= inject_Z b)%Q -> (round_half_even q <= b)%Z.
Proof.
  intro Hb. unfold round_half_even.
  pose proof (Qfloor_le q) as Hfl.
  assert (Hfb : (Qfloor q <= b)%Z).
  { rewrite Zle_Qle. apply Qle_trans with q; assumption. }
  destruct (Qltb (q - inject_Z (Qfloor q)) (1 # 2)) eqn:E; [lia|].
  apply Qltb_ge in E.
  assert (Hlt : (Qfloor q < b)%Z).
  { destruct (Z.lt_ge_cases (Qfloor q) b) as [|Hge]; [assumption|exfalso].
    rewrite Zle_Qle in Hge. lra. }
  destruct (Qltb (1 # 2) (q - inject_Z (Qfloor q))); [lia|].
  destruct (Z.even (Qfloor q)); lia.
Qed.

Lemma round1_lower (q : Q) : (0 <= q)%Q -> (0 <= round1 q)%Q.
Proof.
  intro H. unfold round1.
  assert (Hz : (0 <= round_half_even (q * 10))%Z).
  { apply round_half_even_lower. change (inject_Z 0) with 0%Q. lra. }
  unfold Qle. simpl. lia.
Qed.

Lemma round1_upper (q : Q) : (q <= 100)%Q -> (round1 q <= 100)%Q.
Proof.
  intro H. unfold round1.
  assert (Hz : (round_half_even (q * 10) <= 1000)%Z).
  { apply round_half_even_upper. change (inject_Z 1000) with 1000%Q. lra. }
  unfold Qle. simpl. lia.
Qed.

Lemma min_100_upper (x : Q) : (Py.min 100 x <= 100)%Q.
Proof.
  unfold Py.min. destruct (Qltb x 100) eqn:E.
  - apply Qltb_lt in E. lra.
  - lra.
Qed.

Lemma min_100_lower (x : Q) : (0 <= x)%Q -> (0 <= Py.min 100 x)%Q.
Proof.
  intro H. unfold Py.min. destruct (Qltb x 100); lra.
Qed.

Lemma lookup_In {A} (code : string) (d : list (string * A)) (v : A) :
  Engine.lookup code d = Some v -> In (code, v) d.
Proof.
  induction d as [|[k w] d IH]; simpl; [discriminate|].
  destruct (String.eqb k code) eqn:E.
  - apply String.eqb_eq in E. intro H. inversion H; subst. left. reflexivity.
  - intro H. right. auto.
Qed.

Section Weights.

Variable cfg : list (string * (Q * option string)).
Hypothesis weights_nonneg : forall code w d, In (code, (w, d)) cfg -> (0 <= w)%Q.

Lemma weight_of_nonneg (code : string) : (0 <= Engine.weight_of cfg code)%Q.
Proof.
  unfold Engine.weight_of.
  destruct (Engine.lookup code (Engine.WEIGHTS cfg)) as [w|] eqn:E; [|lra].
  apply lookup_In in E. unfold Engine.WEIGHTS in E. apply in_map_iff in E.
  destruct E as ([k [w' d]] & Heq & Hin). simpl in Heq. inversion Heq; subst.
  eapply weights_nonneg. exact Hin.
Qed.

Lemma raw_score_nonneg (flags : list (string * ind_result)) :
  (0 <= Spec.raw_score cfg flags)%Q.
Proof.
  unfold Spec.raw_score. generalize (Spec.triggered_codes flags). intro codes.
  induction codes as [|c codes IH]; simpl; [lra|].
  pose proof (weight_of_nonneg c). lra.
Qed.

End Weights.

(** The generator expression of the code adds up to the sum of the weights
    of the triggered indicators. *)
Lemma raw_score_spec (cfg : list (string * (Q * option string)))
  (flags : list (string * ind_result)) :
  (Engine.raw_score_of cfg flags == Spec.raw_score cfg flags)%Q.
Proof.
  unfold Engine.raw_score_of, Spec.raw_score, Spec.triggered_codes.
  rewrite Qsum_total.
  induction flags as [|[code r] flags IH]; simpl; [reflexivity|].
  rewrite IH. destruct (flag r); simpl; ring.
Qed.

(** The row the score upsert leaves behind: inserted or updated, it carries
    the key of the lot and the score, level and top reasons just computed. *)
Lemma score_upsert_row (now : datetime) (lot_id : Z) (score : Q) (level : string)
  (top : list pyval) (t t' : Pg.table) :
  Pg.insert_do_update ["entity_type"; "entity_id"]
    (Engine.score_conflict_set now score level top)
    [Engine.score_row_of now lot_id score level top] t = Ok t' ->
  exists row,
    In row (Pg.t_rows t')
    /\ Pg.get "entity_type" row = Some (VStr "lot")
    /\ Pg.get "entity_id" row = Some (VStr (str_of_Z lot_id))
    /\ Pg.get "score" row = Some (VNum score)
    /\ Pg.get "level" row = Some (VStr level)
    /\ Pg.get "top_reasons_jsonb" row = Some (VList top).
Proof.
  unfold Pg.insert_do_update.
  destruct (Pg.has_arbiter _ t); [|discriminate].
  cbn [Pg.insert_do_update_rows]. unfold Pg.insert_do_update_1.
  pose proof (fill_serial_spec t (Engine.score_row_of now lot_id score level top))
    as (Hrows & _ & _ & Hget).
  destruct (Pg.fill_serial t _) as [t1 r1]. cbn [fst snd] in Hrows, Hget.
  assert (G1 : Pg.get "entity_type" r1 = Some (VStr "lot")) by (apply Hget; reflexivity).
  assert (G2 : Pg.get "entity_id" r1 = Some (VStr (str_of_Z lot_id)))
    by (apply Hget; reflexivity).
  assert (G3 : Pg.get "score" r1 = Some (VNum score)) by (apply Hget; reflexivity).
  assert (G4 : Pg.get "level" r1 = Some (VStr level)) by (apply Hget; reflexivity).
  assert (G5 : Pg.get "top_reasons_jsonb" r1 = Some (VList top)) by (apply Hget; reflexivity).
  destruct (Pg.find_conflict _ r1 (Pg.t_rows t1)) as [i|] eqn:Hc.
  - cbn [existsb bind]. intro H. inversion H; subst; clear H. cbn [fst Pg.with_rows Pg.t_rows].
    destruct (find_conflict_nth _ _ _ Hc) as (x & Hx & Hk).
    exists (Pg.apply_set (Engine.score_conflict_set now score level top) r1 x).
    split; [eapply nth_error_In; apply nth_update_nth; exact Hx|].
    unfold Pg.same_key in Hk. cbn [forallb] in Hk. rewrite G1, G2 in Hk.
    destruct (Pg.get "entity_type" x) as [a|] eqn:Ha; [|discriminate].
    destruct (Pg.get "entity_id" x) as [b|] eqn:Hb;
      [|rewrite andb_false_r in Hk; discriminate].
    rewrite !andb_true_iff in Hk. destruct Hk as (Hka & Hkb & _).
    apply key_eqb_str in Hka. apply key_eqb_str in Hkb. subst a b.
    unfold Pg.apply_set, Engine.score_conflict_set. cbn [fold_left fst snd Pg.eval_set].
    repeat split.
    + rewrite !get_set_other by discriminate. exact Ha.
    + rewrite !get_set_other by discriminate. exact Hb.
    + rewrite !get_set_other by discriminate. apply get_set_same.
    + rewrite !get_set_other by discriminate. apply get_set_same.
    + rewrite get_set_other by discriminate. apply get_set_same.
  - destruct (existsb _ _); cbn [bind]; [discriminate|].
    intro H. inversion H; subst; clear H. cbn [fst Pg.with_rows Pg.t_rows].
    exists r1. split; [apply in_or_app; right; left; reflexivity|]. auto.
Qed.

Lemma get_level_cases (low_max medium_max score : Q) :
  ((score <= low_max)%Q -> Engine._get_level low_max medium_max score = "LOW")
  /\ ((low_max < score)%Q -> (score <= medium_max)%Q ->
      Engine._get_level low_max medium_max score = "MEDIUM")
  /\ ((low_max < score)%Q -> (medium_max < score)%Q ->
      Engine._get_level low_max medium_max score = "HIGH").
Proof.
  unfold Engine._get_level. repeat split.
  - intro H. apply Qleb_le in H. rewrite H. reflexivity.
  - intros H1 H2. apply Qleb_gt in H1. apply Qleb_le in H2. rewrite H1, H2. reflexivity.
  - intros H1 H2. apply Qleb_gt in H1. apply Qleb_gt in H2. rewrite H1, H2. reflexivity.
Qed.

(** What a completed pass computed and wrote. *)
Lemma compute_lot_score_inv (cfg : list (string * (Q * option string)))
  (low_max medium_max : Q) (t_ind now : datetime) (db db' : Engine.ScoreDb)
  (lot_id : Z) (ret : Engine.lot_score) :
  Engine.compute_lot_score cfg low_max medium_max t_ind now db lot_id = Ok (db', Some ret) ->
  exists lot flags q rf,
    Sql.first (filter (fun l => Z.eqb (Model.lot_id l) lot_id) (lots (Engine.store db)))
      = Some lot
    /\ Engine.evaluate_flags t_ind (Engine.store db) lot
         (Engine.contract_of_lot (Engine.store db) lot) = Ok flags
    /\ truediv (Engine.raw_score_of cfg flags) (Engine.MAX_SCORE cfg) = Ok q
    /\ Engine.ls_score ret = round1 (Py.min 100 (q * 100))
    /\ Engine.ls_level ret = Engine._get_level low_max medium_max (Engine.ls_score ret)
    /\ Engine.ls_lot_id ret = lot_id
    /\ Engine.store db' = Engine.store db
    /\ Engine.risk_flags db' = rf
    /\ (match Engine.flag_rows_of now lot_id flags with
         | [] => Ok (Engine.risk_flags db)
         | rows => Pg.insert_do_nothing rows (Engine.risk_flags db)
         end) = Ok rf
    /\ Pg.insert_do_update ["entity_type"; "entity_id"]
         (Engine.score_conflict_set now (Engine.ls_score ret) (Engine.ls_level ret)
            (Engine.top_reasons_of cfg flags))
         [Engine.score_row_of now lot_id (Engine.ls_score ret) (Engine.ls_level ret)
            (Engine.top_reasons_of cfg flags)]
         (Engine.risk_scores db) = Ok (Engine.risk_scores db').
Proof.
  unfold Engine.compute_lot_score.
  destruct (Sql.first _) as [lot|] eqn:Hlot; [|discriminate].
  intro H.
  apply bind_ok in H. destruct H as (flags & Hflags & H).
  apply bind_ok in H. destruct H as (score & Hscore & H).
  apply bind_ok in H. destruct H as (rf & Hrf & H).
  apply bind_ok in H. destruct H as (rs & Hrs & H).
  inversion H; subst; clear H. cbn.
  unfold Engine._normalize_score in Hscore.
  apply bind_ok in Hscore. destruct Hscore as (q & Hq & Hs). inversion Hs; subst; clear Hs.
  exists lot, flags, q, rf. repeat split; auto.
  destruct (Engine.flag_rows_of now lot_id flags); exact Hrf.
Qed.

(** C1, as worded, fails on the bound: the hypotheses of the claim (ordered
    thresholds, positive total weight) allow a negative weight, and the code
    only clamps from above.  With weights -1 and 3 (total 2) and a lot on which
    only the indicator of weight -1 is triggered the persisted score is
    -50.0. *)
Lemma C1_counterexample_negative_weight :
  (0 < Engine.MAX_SCORE Examples.cfg_negative)%Q
  /\ (0 <= 30 /\ 30 < 60 /\ 60 < 100)%Q
  /\ option_map Engine.ls_score
       (Examples.scored
          (Engine.compute_lot_score Examples.cfg_negative 30 60 0 0 Examples.keyed_db 1))
     = Some (-500 # 10)
  /\ ~ (0 <= -500 # 10)%Q.
Proof.
  split; [vm_compute; reflexivity|].
  split; [repeat split; vm_compute; congruence|].
  split; [vm_compute; reflexivity|].
  vm_compute. intro H. apply H. reflexivity.
Qed.

(** C1, amended.  For every lot scored by compute_lot_score the persisted
    score is round(min(100, rawScore / totalWeight * 100), 1), rawScore being
    the sum of the configured weights of the triggered indicators; the score is
    at most 100, and at least 0 provided no configured weight is negative; the
    level is a function of the score alone (LOW up to lowMax, MEDIUM up to
    mediumMax, HIGH above), so that score 0 gives LOW and score 100 gives HIGH.
    Thresholds are ordered 0 <= lowMax < mediumMax < 100 and the total weight
    is positive. *)
Theorem C1_score_and_level
  (cfg : list (string * (Q * option string))) (low_max medium_max : Q)
  (total_positive : (0 < Engine.MAX_SCORE cfg)%Q)
  (thresholds : (0 <= low_max /\ low_max < medium_max /\ medium_max < 100)%Q)
  (t_ind now : datetime) (db db' : Engine.ScoreDb) (lot_id : Z) (ret : Engine.lot_score)
  (scored : Engine.compute_lot_score cfg low_max medium_max t_ind now db lot_id
            = Ok (db', Some ret)) :
  exists lot flags,
    Sql.first (filter (fun l => Z.eqb (Model.lot_id l) lot_id) (lots (Engine.store db)))
      = Some lot
    /\ Engine.evaluate_flags t_ind (Engine.store db) lot
         (Engine.contract_of_lot (Engine.store db) lot) = Ok flags
    /\ Engine.ls_score ret
       = round1 (Py.min 100 (Spec.raw_score cfg flags / Engine.MAX_SCORE cfg * 100))
    /\ (Engine.ls_score ret <= 100)%Q
    /\ ((forall code w d, In (code, (w, d)) cfg -> (0 <= w)%Q) ->
        (0 <= Engine.ls_score ret)%Q)
    /\ ((Engine.ls_score ret <= low_max)%Q -> Engine.ls_level ret = "LOW")
    /\ ((low_max < Engine.ls_score ret)%Q -> (Engine.ls_score ret <= medium_max)%Q ->
        Engine.ls_level ret = "MEDIUM")
    /\ ((medium_max < Engine.ls_score ret)%Q -> Engine.ls_level ret = "HIGH")
    /\ ((Engine.ls_score ret == 0)%Q -> Engine.ls_level ret = "LOW")
    /\ ((Engine.ls_score ret == 100)%Q -> Engine.ls_level ret = "HIGH")
    /\ exists row,
         In row (Pg.t_rows (Engine.risk_scores db'))
         /\ Pg.get "entity_type" row = Some (VStr "lot")
         /\ Pg.get "entity_id" row = Some (VStr (str_of_Z lot_id))
         /\ Pg.get "score" row = Some (VNum (Engine.ls_score ret))
         /\ Pg.get "level" row = Some (VStr (Engine.ls_level ret)).
Proof.
  destruct (compute_lot_score_inv _ _ _ _ _ _ _ scored)
    as (lot & flags & q & rf & Hlot & Hflags & Hq & Hscore & Hlevel & _ & _ & _ & _ & Hrs).
  destruct thresholds as (Hlow & Hmed & Hhigh).
  exists lot, flags.
  assert (Hnz : ~ (Engine.MAX_SCORE cfg == 0)%Q) by lra.
  rewrite (truediv_ok _ Hnz) in Hq. inversion Hq; subst q; clear Hq.
  assert (Hraw : (Engine.raw_score_of cfg flags / Engine.MAX_SCORE cfg * 100
                  == Spec.raw_score cfg flags / Engine.MAX_SCORE cfg * 100)%Q)
    by (rewrite raw_score_spec; reflexivity).
  assert (Hformula : Engine.ls_score ret
            = round1 (Py.min 100 (Spec.raw_score cfg flags / Engine.MAX_SCORE cfg * 100))).
  { rewrite Hscore. apply round1_comp. apply min_comp. exact Hraw. }
  assert (Hupper : (Engine.ls_score ret <= 100)%Q).
  { rewrite Hformula. apply round1_upper. apply min_100_upper. }
  assert (Hlower : (forall code w d, In (code, (w, d)) cfg -> (0 <= w)%Q) ->
                   (0 <= Engine.ls_score ret)%Q).
  { intro weights_nonneg. rewrite Hformula. apply round1_lower. apply min_100_lower.
    pose proof (raw_score_nonneg cfg weights_nonneg flags) as Hr.
    apply Qmult_le_0_compat; [|lra].
    unfold Qdiv. apply Qmult_le_0_compat; [exact Hr|].
    apply Qlt_le_weak. apply Qinv_lt_0_compat. exact total_positive. }
  pose proof (get_level_cases low_max medium_max (Engine.ls_score ret)) as (HL & HM & HH).
  rewrite <- Hlevel in HL, HM, HH.
  split; [exact Hlot|]. split; [exact Hflags|]. split; [exact Hformula|].
  split; [exact Hupper|]. split; [exact Hlower|]. split; [exact HL|]. split; [exact HM|].
  split; [intro H; apply HH; lra|].
  split; [intro H; apply HL; lra|].
  split; [intro H; apply HH; lra|].
  destruct (score_upsert_row _ _ _ _ _ _ Hrs) as (row & Hin & G1 & G2 & G3 & G4 & _).
  exists row. auto.
Qed.

(** A lot with its dumping flag set, weights 10 and 30, thresholds 30 and 60:
    the pass completes and writes score 25.0, level LOW. *)
Lemma C1_score_and_level_witness :
  exists db' ret,
    Engine.compute_lot_score Examples.cfg 30 60 0 0 Examples.keyed_db 1 = Ok (db', Some ret)
    /\ (0 <= Engine.ls_score ret <= 100)%Q
    /\ Engine.ls_level ret = "LOW".
Proof.
  destruct (Engine.compute_lot_score Examples.cfg 30 60 0 0 Examples.keyed_db 1)
    as [[db' [ret|]]|e] eqn:E; try (vm_compute in E; discriminate).
  exists db', ret. split; [reflexivity|].
  assert (Hw : forall code w d, In (code, (w, d)) Examples.cfg -> (0 <= w)%Q).
  { intros code w d [H|[H|[]]]; inversion H; subst; vm_compute; discriminate. }
  assert (Ht : (0 < Engine.MAX_SCORE Examples.cfg)%Q) by (vm_compute; reflexivity).
  assert (Hth : (0 <= 30 /\ 30 < 60 /\ 60 < 100)%Q)
    by (repeat split; vm_compute; congruence).
  destruct (C1_score_and_level Examples.cfg Ht Hth 0 0 Examples.keyed_db 1 E)
    as (lot & flags & _ & _ & Hs & Hup & Hlo & HL & _).
  split; [split; [apply Hlo; exact Hw|exact Hup]|]. apply HL.
  vm_compute in E. inversion E; subst. vm_compute. discriminate.
Defined.

Lemma key_eqb_sym (a b : pyval) : Pg.key_eqb a b = Pg.key_eqb b a.
Proof.
  destruct a, b; cbn; try reflexivity;
    auto using Z.eqb_sym, String.eqb_sym.
  destruct b, b0; reflexivity.
Qed.

Lemma same_key_sym (cols : list string) (a b : Pg.row) :
  Pg.same_key cols a b = Pg.same_key cols b a.
Proof.
  unfold Pg.same_key. induction cols as [|c cols IH]; cbn; [reflexivity|].
  rewrite IH. destruct (Pg.get c a), (Pg.get c b); try reflexivity.
  rewrite key_eqb_sym. reflexivity.
Qed.

Lemma same_key_ext (cols : list string) (a a' b b' : Pg.row) :
  (forall c, In c cols -> Pg.get c a = Pg.get c a') ->
  (forall c, In c cols -> Pg.get c b = Pg.get c b') ->
  Pg.same_key cols a b = Pg.same_key cols a' b'.
Proof.
  unfold Pg.same_key. induction cols as [|c cols IH]; intros Ha Hb; cbn; [reflexivity|].
  rewrite (Ha c), (Hb c) by (left; reflexivity).
  rewrite IH; [reflexivity| |]; intros c' Hc'; [apply Ha|apply Hb]; right; exact Hc'.
Qed.

(** The conflict update of the score row does not touch the key. *)
Lemma score_update_keeps_key (now : datetime) (score : Q) (level : string)
  (top : list pyval) (proposed existing : Pg.row) (c : string) :
  In c Spec.score_key ->
  Pg.get c (Pg.apply_set (Engine.score_conflict_set now score level top) proposed existing)
  = Pg.get c existing.
Proof.
  intro Hc. unfold Pg.apply_set, Engine.score_conflict_set. cbn [fold_left fst snd].
  destruct Hc as [<-|[<-|[]]]; rewrite !get_set_other by discriminate; reflexivity.
Qed.

Lemma nth_update_nth_cases (i a : nat) (f : Pg.row -> Pg.row) (rows : list Pg.row)
  (x' : Pg.row) :
  nth_error (Pg.update_nth i f rows) a = Some x' ->
  exists x, nth_error rows a = Some x /\ (x' = x \/ x' = f x).
Proof.
  revert i a. induction rows as [|y rows IH]; intros [|i] [|a] H; cbn in *;
    try discriminate.
  - inversion H; subst. eauto.
  - eauto.
  - inversion H; subst. eauto.
  - apply (IH i a H).
Qed.

(** With the unique index in place the score upsert keeps at most one row per
    (entity type, entity id). *)
Lemma score_upsert_one_row_per_key (now : datetime) (lot_id : Z) (score : Q)
  (level : string) (top : list pyval) (t t' : Pg.table) :
  Spec.one_row_per_key t ->
  Pg.insert_do_update Spec.score_key
    (Engine.score_conflict_set now score level top)
    [Engine.score_row_of now lot_id score level top] t = Ok t' ->
  Spec.one_row_per_key t'.
Proof.
  intro Huniq. unfold Pg.insert_do_update.
  destruct (Pg.has_arbiter _ t); [|discriminate].
  cbn [Pg.insert_do_update_rows]. unfold Pg.insert_do_update_1.
  pose proof (fill_serial_spec t (Engine.score_row_of now lot_id score level top))
    as (Hrows & _).
  destruct (Pg.fill_serial t _) as [t1 r1]. cbn [fst] in Hrows.
  destruct (Pg.find_conflict Spec.score_key r1 (Pg.t_rows t1)) as [k|] eqn:Hc.
  - cbn [existsb bind]. intro H. inversion H; subst; clear H.
    intros i j x y Hx Hy Hsame. cbn [fst Pg.with_rows Pg.t_rows] in Hx, Hy.
    rewrite Hrows in Hx, Hy.
    destruct (nth_update_nth_cases _ _ _ _ Hx) as (x0 & Hx0 & Hxx).
    destruct (nth_update_nth_cases _ _ _ _ Hy) as (y0 & Hy0 & Hyy).
    apply (Huniq i j x0 y0 Hx0 Hy0). rewrite <- Hsame. symmetry.
    apply same_key_ext; intros c Hcol.
    + destruct Hxx as [->| ->]; [reflexivity|apply score_update_keeps_key; exact Hcol].
    + destruct Hyy as [->| ->]; [reflexivity|apply score_update_keeps_key; exact Hcol].
  - destruct (existsb _ (Pg.t_unique t1)); cbn [bind]; [discriminate|].
    intro H. inversion H; subst; clear H.
    pose proof (find_conflict_none _ _ _ Hc) as Hfresh. rewrite Hrows in Hfresh.
    intros i j x y Hx Hy Hsame. cbn [fst Pg.with_rows Pg.t_rows] in Hx, Hy.
    rewrite Hrows in Hx, Hy.
    assert (Hcase : forall a z, nth_error (Pg.t_rows t ++ [r1]) a = Some z ->
              (nth_error (Pg.t_rows t) a = Some z /\ In z (Pg.t_rows t))
              \/ (a = List.length (Pg.t_rows t) /\ z = r1)).
    { intros a z Hz. destruct (Nat.lt_ge_cases a (List.length (Pg.t_rows t))) as [Hlt|Hge].
      - left. rewrite nth_error_app1 in Hz by exact Hlt.
        split; [exact Hz|]. eapply nth_error_In. exact Hz.
      - right. rewrite nth_error_app2 in Hz by exact Hge.
        destruct (a - List.length (Pg.t_rows t))%nat as [|d] eqn:Hd; cbn in Hz.
        + inversion Hz. split; [lia|reflexivity].
        + destruct d; discriminate. }
    destruct (Hcase i x Hx) as [[Hx0 Hxin]|[-> ->]];
      destruct (Hcase j y Hy) as [[Hy0 Hyin]|[-> ->]].
    + apply (Huniq i j x y Hx0 Hy0 Hsame).
    + rewrite same_key_sym, (Hfresh x Hxin) in Hsame. discriminate.
    + rewrite (Hfresh y Hyin) in Hsame. discriminate.
    + reflexivity.
Qed.

(** A pass, and a whole recompute run, keep at most one score row per key. *)
Lemma compute_lot_score_one_row_per_key (cfg : list (string * (Q * option string)))
  (low_max medium_max : Q) (t_ind now : datetime) (db db' : Engine.ScoreDb)
  (lot_id : Z) (ret : option Engine.lot_score) :
  Spec.one_row_per_key (Engine.risk_scores db) ->
  Engine.compute_lot_score cfg low_max medium_max t_ind now db lot_id = Ok (db', ret) ->
  Spec.one_row_per_key (Engine.risk_scores db').
Proof.
  intros Huniq H. destruct ret as [ret|].
  - destruct (compute_lot_score_inv _ _ _ _ _ _ _ H)
      as (lot & flags & q & rf & ? & ? & ? & ? & ? & ? & ? & ? & ? & Hrs).
    eapply score_upsert_one_row_per_key; [exact Huniq|exact Hrs].
  - unfold Engine.compute_lot_score in H.
    destruct (Sql.first _) as [lot|]; [|inversion H; subst; exact Huniq].
    apply bind_ok in H. destruct H as (flags & _ & H).
    apply bind_ok in H. destruct H as (score & _ & H).
    apply bind_ok in H. destruct H as (rf & _ & H).
    apply bind_ok in H. destruct H as (rs & _ & H). discriminate.
Qed.

Lemma run_one_row_per_key (cfg : list (string * (Q * option string)))
  (low_max medium_max : Q) (t_ind now : datetime) (db : Engine.ScoreDb)
  (entity_ids : list Z) :
  Spec.one_row_per_key (Engine.risk_scores db) ->
  Spec.one_row_per_key
    (Engine.risk_scores (fst (Engine.run cfg low_max medium_max t_ind now db entity_ids))).
Proof.
  unfold Engine.run.
  generalize (match entity_ids with
              | [] => map Model.lot_id
                        (Sql.limit (Z.to_nat 10000)
                           (filter (fun l => negb (lot_is_deleted l))
                                   (lots (Engine.store db))))
              | _ :: _ => entity_ids
              end).
  generalize ({| Engine.lots_processed := 0; Engine.run_errors := 0 |}).
  intros s ids. revert db s. induction ids as [|id ids IH]; intros db s Huniq; cbn.
  - exact Huniq.
  - destruct (Engine.compute_lot_score cfg low_max medium_max t_ind now db id)
      as [[db1 r]|e] eqn:E; apply IH; cbn.
    + eapply compute_lot_score_one_row_per_key; eauto.
    + exact Huniq.
Qed.

(** With the scoring tables as they are declared no pass completes: the score
    upsert has no unique index to arbitrate on. *)
Lemma scoring_needs_unique_index (cfg : list (string * (Q * option string)))
  (low_max medium_max : Q) (t_ind now : datetime) (db db' : Engine.ScoreDb)
  (lot_id : Z) (ret : Engine.lot_score) :
  Engine.compute_lot_score cfg low_max medium_max t_ind now db lot_id = Ok (db', Some ret) ->
  Pg.has_arbiter ["entity_type"; "entity_id"] (Engine.risk_scores db) = true.
Proof.
  intro H. destruct (compute_lot_score_inv _ _ _ _ _ _ _ H)
    as (lot & flags & q & rf & ? & ? & ? & ? & ? & ? & ? & ? & ? & Hrs).
  eapply insert_do_update_needs_arbiter. exact Hrs.
Qed.

(** C7 on the failing input.  risk_scores is declared with a primary key on
    [id] and plain (non-unique) indexes only, so [ON CONFLICT (entity_type,
    entity_id)] finds no arbiter: scoring an existing lot raises at the score
    upsert and the pass persists nothing, neither flags nor score. *)
Theorem C7_score_upsert_has_no_arbiter :
  Pg.has_arbiter ["entity_type"; "entity_id"] Engine.risk_scores_declared = false
  /\ Engine.compute_lot_score Examples.cfg 30 60 0 0 Examples.declared_db 1
     = Raise (ProgrammingError
         "there is no unique or exclusion constraint matching the ON CONFLICT specification").
Proof. split; vm_compute; reflexivity. Qed.

End EngineFacts.

(* ===================================================================== *)
(** ** Indicators on missing linked data                                 *)
(* ===================================================================== *)

Module MissingDataFacts.

Import PyFacts SqlFacts.

Lemma none_such_filter {A} (p : A -> bool) (l : list A) :
  Spec.none_such p l = true -> filter p l = [].
Proof.
  unfold Spec.none_such. induction l as [|x l IH]; simpl; [reflexivity|].
  rewrite andb_true_iff, negb_true_iff. intros [Hx Hl].
  rewrite Hx. apply IH. exact Hl.
Qed.

Lemma filter_none {A} (p : A -> bool) (l : list A) :
  (forall x, In x l -> p x = false) -> filter p l = [].
Proof.
  induction l as [|x l IH]; intro H; simpl; [reflexivity|].
  rewrite (H x (or_introl eq_refl)). apply IH. intros y Hy. apply H. right. exact Hy.
Qed.

Lemma customer_filter_spec (db : Store) (customer_bin : string) :
  filter (fun c => Sql.eqS (c_customer_bin c) customer_bin && negb (c_is_deleted c))
         (contract db)
  = Spec.customer_contracts db customer_bin.
Proof.
  unfold Spec.customer_contracts. apply filter_ext. intro c. apply andb_comm.
Qed.

(** [DISTINCT] keeps each value once: it has as many entries as there are
    different values. *)
Lemma distinct_no_repeat {A} (eqb : A -> A -> bool)
  (eqb_eq : forall a b, eqb a b = true <-> a = b) (l : list A) :
  NoDup (Sql.distinct eqb l).
Proof.
  induction l as [|x l IH]; cbn [Sql.distinct]; constructor.
  - intro H. apply filter_In in H. destruct H as [_ H].
    rewrite (proj2 (eqb_eq x x) eq_refl) in H. discriminate.
  - apply NoDup_filter. exact IH.
Qed.

Lemma distinct_length_nodup {A} (eqb : A -> A -> bool)
  (eqb_eq : forall a b, eqb a b = true <-> a = b)
  (dec : forall x y : A, {x = y} + {x <> y}) (l : list A) :
  List.length (Sql.distinct eqb l) = List.length (nodup dec l).
Proof.
  apply Permutation_length. apply NoDup_Permutation.
  - apply distinct_no_repeat. exact eqb_eq.
  - apply NoDup_nodup.
  - intro x. rewrite (In_distinct eqb eqb_eq), nodup_In. tauto.
Qed.

(** Dropping the empty bidder names commutes with [DISTINCT]. *)
Lemma truthy_strings_cons (y : option string) (l : list (option string)) :
  truthy_strings (y :: l) = (truthy_strings [y] ++ truthy_strings l)%list.
Proof. unfold truthy_strings. cbn [flat_map]. rewrite app_nil_r. reflexivity. Qed.

Lemma truthy_strings_skip (p : option string -> bool) (l : list (option string)) :
  (forall y, p y = false -> truthy_strings [y] = []) ->
  truthy_strings (filter p l) = truthy_strings l.
Proof.
  intro H. induction l as [|y l IH]; [reflexivity|].
  cbn [filter]. destruct (p y) eqn:E.
  - rewrite (truthy_strings_cons y (filter p l)), (truthy_strings_cons y l), IH.
    reflexivity.
  - rewrite (truthy_strings_cons y l), (H y E), IH. reflexivity.
Qed.

Lemma truthy_strings_filter (s : string) (l : list (option string)) :
  truthy_strings (filter (fun y => negb (Sql.opt_eqb String.eqb (Some s) y)) l)
  = filter (fun z => negb (String.eqb s z)) (truthy_strings l).
Proof.
  induction l as [|y l IH]; [reflexivity|].
  cbn [filter]. rewrite (truthy_strings_cons y l), filter_app.
  destruct (negb (Sql.opt_eqb String.eqb (Some s) y)) eqn:E.
  - rewrite truthy_strings_cons, IH. f_equal.
    destruct y as [t|]; [|reflexivity]. cbn in E. cbn.
    destruct (String.eqb t ""); cbn; [reflexivity|]. rewrite E. reflexivity.
  - rewrite IH. destruct y as [t|]; [|discriminate E]. cbn in E. cbn.
    destruct (String.eqb t ""); cbn; [reflexivity|]. rewrite E. reflexivity.
Qed.

Lemma truthy_strings_distinct (l : list (option string)) :
  truthy_strings (Sql.distinct (Sql.opt_eqb String.eqb) l)
  = Sql.distinct String.eqb (truthy_strings l).
Proof.
  induction l as [|x l IH]; [reflexivity|].
  cbn [Sql.distinct]. rewrite truthy_strings_cons, (truthy_strings_cons x l).
  destruct x as [s|].
  - destruct (String.eqb s "") eqn:E.
    + assert (Hs : truthy_strings [Some s] = []) by (cbn; rewrite E; reflexivity).
      rewrite Hs. cbn [app]. rewrite truthy_strings_skip; [exact IH|].
      intros [t|] Hy; [|reflexivity].
      cbn in Hy. apply negb_false_iff in Hy. apply String.eqb_eq in Hy. subst t.
      exact Hs.
    + assert (Hs : truthy_strings [Some s] = [s]) by (cbn; rewrite E; reflexivity).
      rewrite Hs. cbn [app Sql.distinct]. rewrite truthy_strings_filter, IH. reflexivity.
  - change (truthy_strings [None]) with (@nil string). cbn [app].
    rewrite truthy_strings_skip; [exact IH|].
    intros [t|] Hy; [discriminate Hy|reflexivity].
Qed.

(** The bidders the code collects are the bidders of the tender. *)
Lemma biins_count (db : Store) (trd_buy_id : Z) :
  Sql.count
    (truthy_strings
       (Sql.distinct (Sql.opt_eqb String.eqb)
          (map app_supplier_biin
             (filter (fun a => Sql.eqZ (app_buy_id a) trd_buy_id) (trd_app db)))))
  = Z.of_nat (List.length (Spec.bidders db trd_buy_id)).
Proof.
  unfold Sql.count, Spec.bidders. rewrite truthy_strings_distinct.
  rewrite (distinct_length_nodup String.eqb String.eqb_eq string_dec). reflexivity.
Qed.

Lemma biins_mem (db : Store) (trd_buy_id : Z) (o : option string) :
  match o with
  | Some s =>
    Sql.mem String.eqb s
      (truthy_strings
         (Sql.distinct (Sql.opt_eqb String.eqb)
            (map app_supplier_biin
               (filter (fun a => Sql.eqZ (app_buy_id a) trd_buy_id) (trd_app db)))))
  | None => false
  end = Spec.is_bidder db trd_buy_id o.
Proof.
  destruct o as [s|]; [|reflexivity].
  unfold Spec.is_bidder, Spec.bidders, Sql.mem. rewrite truthy_strings_distinct.
  destruct (in_dec string_dec s _) as [Hin|Hout].
  - apply existsb_exists. exists s. split; [|apply String.eqb_refl].
    apply (proj2 (In_distinct String.eqb String.eqb_eq s _)).
    apply nodup_In in Hin. exact Hin.
  - destruct (existsb _ _) eqn:E; [|reflexivity].
    exfalso. apply Hout. apply existsb_exists in E. destruct E as (t & Ht & Est).
    apply String.eqb_eq in Est. subst t.
    apply nodup_In. exact (proj1 (In_distinct String.eqb String.eqb_eq s _) Ht).
Qed.

Lemma unrecorded_contacts (f : Subject -> option string) (l : list Subject) :
  forallb (fun s => Spec.unrecorded (f s)) l = true ->
  truthy_strings (map f l) = [].
Proof.
  induction l as [|x l IH]; [reflexivity|].
  cbn [forallb map]. rewrite andb_true_iff. intros [Hx Hl].
  rewrite truthy_strings_cons, (IH Hl), app_nil_r. unfold Spec.unrecorded in Hx.
  destruct (f x) as [t|]; [|reflexivity]. cbn. rewrite Hx. reflexivity.
Qed.

Lemma tenders_applied_count (db : Store) (supplier_biin : string) :
  Sql.count
    (Sql.distinct Z.eqb
       (Sql.non_null
          (map app_buy_id
             (filter (fun a => Sql.eqS (app_supplier_biin a) supplier_biin) (trd_app db)))))
  = Z.of_nat (List.length (Spec.tenders_applied db supplier_biin)).
Proof.
  unfold Sql.count, Spec.tenders_applied.
  rewrite (distinct_length_nodup Z.eqb Z.eqb_eq Z.eq_dec). reflexivity.
Qed.

(** A rate of zero wins: not above any positive threshold, and rounded to
    0.0. *)
Lemma zero_rate (total : Z) (threshold : Q) :
  total <> 0 -> (0 < threshold)%Q ->
  truediv (inject_Z 0) (inject_Z total) = Ok (inject_Z 0 / inject_Z total)%Q
  /\ Qltb threshold (inject_Z 0 / inject_Z total) = false
  /\ (round1 (inject_Z 0 / inject_Z total * 100) == 0)%Q.
Proof.
  intros Ht Hth.
  assert (Hz : (inject_Z 0 / inject_Z total == 0)%Q).
  { unfold Qdiv. apply Qmult_0_l. }
  split; [|split].
  - apply truediv_ok. intro H. apply Ht.
    unfold Qeq in H. cbn in H. lia.
  - apply Qltb_ge. rewrite Hz. apply Qlt_le_weak. exact Hth.
  - rewrite (@EngineFacts.round1_comp (inject_Z 0 / inject_Z total * 100) 0).
    + vm_compute. reflexivity.
    + rewrite Hz. reflexivity.
Qed.

(** C4, as worded, fails: with no application on the tender check_few_bids
    returns the value 0.0 and a non-empty evidence record, not a null value
    and empty evidence. *)
Lemma C4_counterexample_few_bids :
  check_few_bids empty_store 1 = Ok Spec.few_bids_nothing
  /\ value Spec.few_bids_nothing <> None
  /\ evidence Spec.few_bids_nothing <> [].
Proof. repeat split; discriminate. Qed.

(** Not every absent field is treated as missing data: five contracts of a
    supplier that name no customer are grouped as one customer, and
    check_supplier_concentration is triggered. *)
Lemma unnamed_customers_are_one_group :
  exists r, check_supplier_concentration Examples.unnamed_customer_store "S" = Ok r
            /\ flag r = true.
Proof. eexists. split; [vm_compute; reflexivity|reflexivity]. Qed.

(** C4, amended.  In each of the following cases of missing linked data the
    indicator returns (no exception) a result that is not triggered.
    Value null and evidence empty: the row is absent or an id, date or sum it
    needs is missing (short deadline, addendum value increase,
    win-minimum-then-addendum, weird execution time, new company, last-minute
    changes), and no lot (dumping).
    Value 0.0 and evidence empty: no contract of the customer (recurring
    winner), fewer than five contracts (supplier concentration), no active
    debarment row, no payment, fewer than five tenders applied to (high win
    rate), fewer than six contracts (carousel), fewer than two bidders (common
    requisites).
    Value 0.0 with an evidence record that is not empty: no application (few
    bids), no lot (lot splitting), a lot whose dumping flag is NULL (dumping),
    two bidders or more but no subject row of a bidder with a phone or an
    e-mail (common requisites), no contract of the supplier (recurring winner
    on a customer that has contracts, high win rate on a supplier with five
    tenders or more). *)
Theorem C4_missing_data_not_triggered (now : datetime) (db : Store) :
  (forall id, Spec.missing_short_deadline db id = true ->
     check_short_deadline db id = Ok empty_result)
  /\ (forall id, Spec.missing_few_bids db id = true ->
     check_few_bids db id = Ok Spec.few_bids_nothing)
  /\ (forall id, Spec.missing_lot_splitting db id = true ->
     check_lot_splitting db id = Ok Spec.lot_splitting_nothing)
  /\ (forall customer supplier, Spec.missing_recurring_winner db customer = true ->
     check_recurring_winner db customer supplier = Ok zero_result)
  /\ (forall supplier, Spec.missing_supplier_concentration db supplier = true ->
     check_supplier_concentration db supplier = Ok zero_result)
  /\ (forall id, Spec.addendum_data_missing db id = true ->
     check_addendum_value_increase db id = Ok empty_result)
  /\ (forall id, Spec.missing_win_min_then_addendum db id = true ->
     check_win_min_then_addendum db id = Ok empty_result)
  /\ (forall id, Spec.missing_weird_execution_time db id = true ->
     check_weird_execution_time db id = Ok empty_result)
  /\ (forall supplier, Spec.missing_rnu_flag db supplier = true ->
     check_rnu_flag db supplier = Ok zero_result)
  /\ (forall id, Spec.missing_dumping_flag db id = true ->
     check_dumping_flag db id = Ok empty_result)
  /\ (forall supplier sum, Spec.missing_new_company db supplier = true ->
     check_new_company_big_contract now db supplier sum = Ok empty_result)
  /\ (forall id, Spec.missing_payment_without_act db id = true ->
     check_payment_without_act db id = Ok zero_result)
  /\ (forall supplier, Spec.missing_high_win_rate db supplier = true ->
     check_high_win_rate_few_bids db supplier = Ok zero_result)
  /\ (forall customer, Spec.missing_carousel db customer = true ->
     check_carousel_pattern db customer = Ok zero_result)
  /\ (forall id, Spec.missing_last_minute_changes db id = true ->
     check_last_minute_changes db id = Ok empty_result)
  /\ (forall id, Spec.missing_common_requisites db id = true ->
     check_common_requisites db id = Ok zero_result)
  /\ (forall id, Spec.dumping_flag_unrecorded db id = true ->
     exists r, check_dumping_flag db id = Ok r
               /\ flag r = false
               /\ value r = Some 0%Q
               /\ Pg.get "lot_id" (evidence r) = Some (VInt id)
               /\ Pg.get "dumping_flag" (evidence r) = Some VNone)
  /\ (forall id, Spec.missing_common_requisites db id = false ->
     Spec.missing_bidder_contacts db id = true ->
     check_common_requisites db id = Ok (Spec.common_requisites_nothing db id))
  /\ (forall customer supplier, Spec.no_contract_between db customer supplier = true ->
     exists r v, check_recurring_winner db customer supplier = Ok r
                 /\ flag r = false
                 /\ value r = Some v /\ (v == 0)%Q
                 /\ (Spec.missing_recurring_winner db customer = false ->
                     Pg.get "supplier_contracts" (evidence r) = Some (VInt 0)))
  /\ (forall supplier, Spec.no_contract_of_supplier db supplier = true ->
     exists r v, check_high_win_rate_few_bids db supplier = Ok r
                 /\ flag r = false
                 /\ value r = Some v /\ (v == 0)%Q
                 /\ (Spec.missing_high_win_rate db supplier = false ->
                     Pg.get "total_won" (evidence r) = Some (VInt 0))).
Proof.
  repeat apply conj.
  - intros id. unfold Spec.missing_short_deadline, check_short_deadline, Spec.tender.
    destruct (Sql.first _) as [t|]; [|reflexivity].
    destruct (tb_start_date t), (tb_end_date t); congruence.
  - intros id H. unfold check_few_bids.
    rewrite (none_such_filter _ _ H). reflexivity.
  - intros id. unfold Spec.missing_lot_splitting, check_lot_splitting.
    rewrite IndicatorFacts.lot_splitting_rows_spec.
    destruct (Spec.tender_lots db id); [reflexivity|discriminate].
  - intros customer supplier. unfold Spec.missing_recurring_winner, check_recurring_winner.
    rewrite customer_filter_spec.
    destruct (Spec.customer_contracts db customer); [reflexivity|discriminate].
  - intros supplier. unfold Spec.missing_supplier_concentration, check_supplier_concentration.
    fold (Spec.supplier_contracts db supplier). unfold Sql.count at 1.
    intro H. apply Nat.ltb_lt in H.
    destruct (Z.ltb_spec (Z.of_nat (List.length (Spec.supplier_contracts db supplier))) 5);
      [reflexivity|lia].
  - intros id. apply IndicatorFacts.addendum_missing_empty.
  - intros id. unfold Spec.missing_win_min_then_addendum, check_win_min_then_addendum.
    destruct (contract_by_id db id) as [c|]; [|reflexivity].
    destruct (truthy_Z (c_root_id c)); simpl; [|reflexivity].
    destruct (Sql.first _) as [a|]; [|reflexivity].
    destruct (c_sign_date a), (c_sign_date c); congruence.
  - intros id. unfold Spec.missing_weird_execution_time, check_weird_execution_time.
    destruct (contract_by_id db id) as [c|]; [|reflexivity].
    destruct (c_sign_date c), (c_plan_exec_date c); congruence.
  - intros supplier H. unfold check_rnu_flag.
    rewrite (none_such_filter _ _ H). reflexivity.
  - intros id H. unfold check_dumping_flag.
    rewrite (none_such_filter _ _ H). reflexivity.
  - intros supplier sum. unfold Spec.missing_new_company, check_new_company_big_contract.
    fold (Spec.supplier_subject db supplier).
    destruct (Spec.supplier_subject db supplier) as [s|]; [|reflexivity].
    destruct (s_regdate s), (s_crdate s); congruence.
  - intros id H. unfold check_payment_without_act.
    rewrite (none_such_filter _ _ H). reflexivity.
  - intros supplier. unfold Spec.missing_high_win_rate, check_high_win_rate_few_bids.
    cbv zeta. rewrite tenders_applied_count. intro H. apply Nat.ltb_lt in H.
    destruct (Z.ltb_spec (Z.of_nat (List.length (Spec.tenders_applied db supplier))) 5);
      [reflexivity|lia].
  - intros customer. unfold Spec.missing_carousel, check_carousel_pattern.
    rewrite CarouselFacts.carousel_rows_spec. intro H. apply Nat.ltb_lt in H.
    unfold Sql.count at 1.
    assert (Hlen : (List.length (firstn 50 (Sql.order_by c_sign_date
                      (Spec.customer_contracts db customer))) < 6)%nat).
    { rewrite length_firstn.
      rewrite (Permutation_length (order_by_perm c_sign_date _)). lia. }
    destruct (Z.ltb_spec (Z.of_nat (List.length (firstn 50 (Sql.order_by c_sign_date
                      (Spec.customer_contracts db customer))))) 6); [reflexivity|lia].
  - intros id. unfold Spec.missing_last_minute_changes, check_last_minute_changes, Spec.tender.
    destruct (Sql.first _) as [t|]; [|reflexivity].
    destruct (tb_end_date t), (tb_last_update_at t); congruence.
  - intros id. unfold Spec.missing_common_requisites, check_common_requisites.
    cbv zeta. rewrite biins_count. intro H. apply Nat.ltb_lt in H.
    destruct (Z.ltb_spec (Z.of_nat (List.length (Spec.bidders db id))) 2);
      [reflexivity|lia].
  - intros id. unfold Spec.dumping_flag_unrecorded, Spec.lot_of_id, check_dumping_flag.
    destruct (Sql.first _) as [l|]; [|discriminate].
    destruct (lot_dumping_flag l); [discriminate|]. intros _.
    eexists. split; [reflexivity|]. cbn. repeat split.
  - intros id Hn Hc. unfold check_common_requisites. cbv zeta.
    rewrite !biins_count. unfold Spec.missing_common_requisites in Hn.
    apply Nat.ltb_ge in Hn.
    destruct (Z.ltb_spec (Z.of_nat (List.length (Spec.bidders db id))) 2); [lia|].
    rewrite (filter_ext _ (fun s => Spec.is_bidder db id (s_bin s)
                                    || Spec.is_bidder db id (s_iin s)))
      by (intro s; rewrite !biins_mem; reflexivity).
    fold (Spec.bidder_subjects db id).
    unfold Spec.missing_bidder_contacts in Hc. rewrite forallb_forall in Hc.
    rewrite (unrecorded_contacts s_phone (Spec.bidder_subjects db id)),
            (unrecorded_contacts s_email (Spec.bidder_subjects db id)).
    + reflexivity.
    + apply forallb_forall. intros s Hs. specialize (Hc s Hs).
      apply andb_true_iff in Hc. apply Hc.
    + apply forallb_forall. intros s Hs. specialize (Hc s Hs).
      apply andb_true_iff in Hc. apply Hc.
  - intros customer supplier H. unfold check_recurring_winner.
    rewrite customer_filter_spec.
    assert (Hs : filter (fun c => Sql.eqS (c_customer_bin c) customer
                                  && Sql.eqS (c_supplier_biin c) supplier
                                  && negb (c_is_deleted c)) (contract db) = []).
    { apply filter_none. intros c Hc.
      destruct (Sql.eqS (c_customer_bin c) customer && negb (c_is_deleted c)) eqn:E.
      - assert (Hin : In c (Spec.customer_contracts db customer)).
        { rewrite <- customer_filter_spec. apply filter_In. split; assumption. }
        unfold Spec.no_contract_between, Spec.none_such in H.
        rewrite forallb_forall in H. specialize (H c Hin).
        apply negb_true_iff in H. rewrite H. rewrite andb_false_r. reflexivity.
      - destruct (Sql.eqS (c_customer_bin c) customer), (c_is_deleted c),
          (Sql.eqS (c_supplier_biin c) supplier); cbn in *; congruence. }
    rewrite Hs.
    destruct (Z.eqb (Sql.count (Spec.customer_contracts db customer)) 0) eqn:Et.
    + exists zero_result, 0%Q. split; [reflexivity|]. split; [reflexivity|].
      split; [reflexivity|]. split; [reflexivity|].
      unfold Spec.missing_recurring_winner. apply Z.eqb_eq in Et. unfold Sql.count in Et.
      destruct (Spec.customer_contracts db customer); [discriminate|].
      cbn [List.length] in Et. lia.
    + apply Z.eqb_neq in Et.
      destruct (@zero_rate (Sql.count (Spec.customer_contracts db customer)) (7 # 10) Et
                  eq_refl) as (Hd & Hf & Hv).
      change (Sql.count (@nil Contract)) with 0.
      rewrite Hd. cbn [bind]. eexists. eexists. split; [reflexivity|].
      cbn [flag value evidence]. rewrite Hf.
      split; [reflexivity|]. split; [reflexivity|]. split; [exact Hv|].
      intros _. reflexivity.
  - intros supplier H. unfold check_high_win_rate_few_bids. cbv zeta.
    fold (Spec.supplier_contracts db supplier).
    unfold Spec.no_contract_of_supplier in H.
    destruct (Spec.supplier_contracts db supplier); [|discriminate].
    cbn [map Sql.non_null flat_map Sql.distinct].
    change (Sql.count (@nil Z)) with 0.
    rewrite !tenders_applied_count.
    destruct (Z.ltb_spec (Z.of_nat (List.length (Spec.tenders_applied db supplier))) 5)
      as [Hlt|Hge].
    + exists zero_result, 0%Q. split; [reflexivity|]. split; [reflexivity|].
      split; [reflexivity|]. split; [reflexivity|].
      unfold Spec.missing_high_win_rate. intro Hm. apply Nat.ltb_ge in Hm. lia.
    + assert (Hpos : Z.ltb 0 (Z.of_nat (List.length (Spec.tenders_applied db supplier)))
                     = true) by (apply Z.ltb_lt; lia).
      rewrite Hpos.
      assert (Hnz : Z.of_nat (List.length (Spec.tenders_applied db supplier)) <> 0) by lia.
      destruct (@zero_rate _ (9 # 10) Hnz eq_refl) as (Hd & Hf & Hv).
      rewrite Hd. cbn [bind]. eexists. eexists. split; [reflexivity|].
      cbn [flag value evidence]. rewrite Hf.
      split; [reflexivity|]. split; [reflexivity|]. split; [exact Hv|].
      intros _. reflexivity.
Qed.

(** On the empty store every indicator takes its missing-data branch; a lot
    without dumping flag and a tender whose two bidders are in no subject row
    give value 0.0 with an evidence record. *)
Lemma C4_missing_data_not_triggered_witness :
  check_short_deadline empty_store 1 = Ok empty_result
  /\ check_recurring_winner empty_store "C" "S" = Ok zero_result
  /\ check_common_requisites empty_store 1 = Ok zero_result
  /\ (exists r, check_dumping_flag Examples.unflagged_lot_store 1 = Ok r
                /\ flag r = false /\ value r = Some 0%Q
                /\ Pg.get "dumping_flag" (evidence r) = Some VNone)
  /\ check_common_requisites Examples.two_bidders_store 1
     = Ok {| flag := false; value := Some 0%Q;
             evidence := [("bidder_count", VInt 2); ("common_phones", VList []);
                          ("common_emails", VList [])] |}.
Proof.
  destruct (C4_missing_data_not_triggered 0 empty_store)
    as (H1 & _ & _ & H4 & _ & _ & _ & _ & _ & _ & _ & _ & _ & _ & _ & H16 & _).
  destruct (C4_missing_data_not_triggered 0 Examples.unflagged_lot_store)
    as (_ & _ & _ & _ & _ & _ & _ & _ & _ & _ & _ & _ & _ & _ & _ & _ & H17 & _).
  destruct (C4_missing_data_not_triggered 0 Examples.two_bidders_store)
    as (_ & _ & _ & _ & _ & _ & _ & _ & _ & _ & _ & _ & _ & _ & _ & _ & _ & H18 & _).
  split; [apply H1; reflexivity|].
  split; [apply (H4 "C" "S"); reflexivity|].
  split; [apply H16; reflexivity|].
  split.
  - destruct (H17 1 eq_refl) as (r & Hr & Hf & Hv & _ & Hd).
    exists r. split; [exact Hr|]. split; [exact Hf|]. split; [exact Hv|exact Hd].
  - rewrite (H18 1 eq_refl eq_refl). reflexivity.
Defined.

End MissingDataFacts.

(* ===================================================================== *)
(** ** Incremental: journal entries with action "D"                      *)
(* ===================================================================== *)

Module IncrementalFacts.

Import PgFacts.

Lemma table_of_with_table_same (m : Etl.model) (t : Pg.table) (db : Etl.Database) :
  Etl.table_of m (Etl.with_table m t db) = t.
Proof. destruct m; reflexivity. Qed.

Lemma table_of_with_table_other (m m' : Etl.model) (t : Pg.table) (db : Etl.Database) :
  m' <> m -> Etl.table_of m' (Etl.with_table m t db) = Etl.table_of m' db.
Proof. destruct m, m'; intro H; try reflexivity; congruence. Qed.

(** The row written by the soft delete. *)
Lemma soft_deleted_row (now : datetime) (r : Pg.row) :
  let r' := fold_left (fun r cv => Pg.set (fst cv) (snd cv) r)
              [("is_deleted", VBool true); ("last_update_at", VDate now)] r in
  Pg.get "is_deleted" r' = Some (VBool true)
  /\ Pg.get "last_update_at" r' = Some (VDate now)
  /\ forall c, c <> "is_deleted" -> c <> "last_update_at" -> Pg.get c r' = Pg.get c r.
Proof.
  cbn [fold_left fst snd]. repeat split.
  - rewrite get_set_other by discriminate. apply get_set_same.
  - apply get_set_same.
  - intros c H1 H2. rewrite !get_set_other by assumption. reflexivity.
Qed.

Section Entries.

Variable parse_iso : pyval -> option datetime.
Variable to_float : pyval -> option Q.
Variable fetch_by_id : string -> pyval -> result (option Etl.item).

(** _process_entry on a dict whose entity type and entity id resolve and
    whose action is "D": the deleted count of the summary goes up by one and
    the updated count stays.  When the type is one of TrdBuy, Lots, Contract,
    Subject (and the id reads as an integer), every row of that table with this
    id gets is_deleted = true and last_update_at = now, its other columns, the
    other rows and the other tables being left as they were; when the type is
    not recognized the database is unchanged. *)
Lemma process_entry_delete (now : datetime) (db : Etl.Database) (e : Etl.item)
  (s : Etl.summary) :
  let entity_type := por (Etl.iget "entity_type" e) (Etl.iget "object_type" e) in
  let entity_id := por (Etl.iget "entity_id" e) (Etl.iget "object_id" e) in
  truthy entity_type = true ->
  truthy entity_id = true ->
  Etl.iget_d "action" (VStr "U") e = VStr "D" ->
  (forall m i,
      Etl.model_map entity_type = Ok (Some m) ->
      to_int entity_id = Ok i ->
      exists db',
        Etl._process_entry parse_iso to_float fetch_by_id now db (VDict e) s
          = Ok (db', Spec.bump_deleted s)
        /\ (forall m', m' <> m -> Etl.table_of m' db' = Etl.table_of m' db)
        /\ List.length (Pg.t_rows (Etl.table_of m db'))
           = List.length (Pg.t_rows (Etl.table_of m db))
        /\ forall k r,
            nth_error (Pg.t_rows (Etl.table_of m db)) k = Some r ->
            (Etl.id_is i r = false ->
               nth_error (Pg.t_rows (Etl.table_of m db')) k = Some r)
            /\ (Etl.id_is i r = true ->
               exists r',
                 nth_error (Pg.t_rows (Etl.table_of m db')) k = Some r'
                 /\ Pg.get "is_deleted" r' = Some (VBool true)
                 /\ Pg.get "last_update_at" r' = Some (VDate now)
                 /\ forall c, c <> "is_deleted" -> c <> "last_update_at" ->
                              Pg.get c r' = Pg.get c r))
  /\ (Etl.model_map entity_type = Ok None ->
      Etl._process_entry parse_iso to_float fetch_by_id now db (VDict e) s
        = Ok (db, Spec.bump_deleted s)).
Proof.
  intros entity_type entity_id Htype Hid Haction.
  unfold Etl._process_entry. fold entity_type. fold entity_id.
  rewrite Htype, Hid, Haction. cbn [negb orb Etl.is_str].
  change (String.eqb "D" "D") with true. cbv iota.
  unfold Etl._soft_delete. split.
  - intros m i Hm Hi. rewrite Hm, Hi. cbn [bind].
    eexists. split; [reflexivity|].
    split; [intros m' Hne; apply table_of_with_table_other; exact Hne|].
    rewrite table_of_with_table_same. unfold Pg.update_where. cbn [Pg.with_rows Pg.t_rows].
    split; [apply length_map|].
    intros k r Hk. rewrite nth_error_map, Hk. cbn [option_map]. split.
    + intro Hno. rewrite Hno. reflexivity.
    + intro Hyes. rewrite Hyes. eexists. split; [reflexivity|].
      apply soft_deleted_row.
  - intro Hm. rewrite Hm. reflexivity.
Qed.

End Entries.

(** Handed to _process_entry directly, the entry of the specification's
    example marks tender 5 deleted, leaves tender 6, and counts one deletion
    and no update. *)
Lemma process_entry_delete_example :
  exists db',
    Etl._process_entry Examples.no_parse Examples.no_float Examples.not_found
      7 Examples.two_tenders_db (VDict Examples.delete_tender_5) Examples.no_summary
    = Ok (db', Spec.bump_deleted Examples.no_summary)
    /\ (exists r', nth_error (Pg.t_rows (Etl.d_trd_buy db')) 0 = Some r'
                   /\ Pg.get "is_deleted" r' = Some (VBool true)
                   /\ Pg.get "last_update_at" r' = Some (VDate 7))
    /\ nth_error (Pg.t_rows (Etl.d_trd_buy db')) 1 = Some (Examples.tender_row 6).
Proof.
  destruct (process_entry_delete Examples.no_parse Examples.no_float Examples.not_found
              7 Examples.two_tenders_db Examples.delete_tender_5 Examples.no_summary
              eq_refl eq_refl eq_refl) as [Hrec _].
  destruct (Hrec Etl.TrdBuyT 5 eq_refl eq_refl) as (db' & Hrun & _ & _ & Hrows).
  exists db'. split; [exact Hrun|]. split.
  - destruct (Hrows 0%nat (Examples.tender_row 5) eq_refl) as [_ Hyes].
    destruct (Hyes eq_refl) as (r' & H1 & H2 & H3 & _). exists r'. auto.
  - destruct (Hrows 1%nat (Examples.tender_row 6) eq_refl) as [Hno _].
    apply Hno. reflexivity.
Qed.

(** C6 on the failing input.  The upstream journal holds the entry
    {entity_type: "TrdBuy", entity_id: "5", action: "D"} and the database holds
    tender 5.  get_journal extends its list with the (items, next_url) pair
    that paginate yields, so [run] iterates over a list and a string instead of
    the entry; both raise on [.get] and are counted as errors.  Tender 5 keeps
    is_deleted = false, the deleted count stays 0 and errors becomes 2. *)
Theorem C6_journal_delete_is_not_applied :
  Etl.get_journal "https://ows" Examples.journal_of_one_delete
    = Ok [VList [VDict Examples.delete_tender_5]; VStr ""]
  /\ exists db',
       Etl.run Examples.no_parse Examples.no_float Examples.not_found "https://ows"
         7 Examples.two_tenders_db "2025-01-02" Examples.journal_of_one_delete
       = Ok (db', {| Etl.processed := 0; Etl.updated := 0;
                     Etl.deleted := 0; Etl.errors := 2 |})
       /\ Etl.d_trd_buy db' = Etl.d_trd_buy Examples.two_tenders_db
       /\ Examples.is_deleted_of db' 0 = Some (VBool false).
Proof.
  split; [reflexivity|].
  eexists. split; [vm_compute; reflexivity|]. split; reflexivity.
Qed.

End IncrementalFacts.

(* ===================================================================== *)
(** ** Upserts: what a conflict overwrites                               *)
(* ===================================================================== *)

Module UpsertFacts.

Import PgFacts.

Lemma keeps_refl (kept : string -> Prop) (t : Pg.table) : Spec.keeps kept t t.
Proof. intros k x H. exists x. auto. Qed.

Lemma keeps_trans (kept : string -> Prop) (a b c : Pg.table) :
  Spec.keeps kept a b -> Spec.keeps kept b c -> Spec.keeps kept a c.
Proof.
  intros Hab Hbc k x Hx.
  destruct (Hab k x Hx) as (y & Hy & Hxy).
  destruct (Hbc k y Hy) as (z & Hz & Hyz).
  exists z. split; [exact Hz|]. intros col Hc. rewrite Hyz, Hxy; auto.
Qed.

(** [set_ = {c: stmt.excluded[c] for c in cols}] writes columns of [cols] only. *)
Lemma apply_set_outside (cols : list string) (proposed existing : Pg.row) (c : string) :
  ~ In c cols ->
  Pg.get c (Pg.apply_set (Etl.excluded cols) proposed existing) = Pg.get c existing.
Proof.
  unfold Pg.apply_set, Etl.excluded. revert existing.
  induction cols as [|k cols IH]; intros existing Hc; cbn [map fold_left fst snd];
    [reflexivity|].
  rewrite IH by (intro H; apply Hc; right; exact H).
  apply get_set_other. intro H. apply Hc. left. congruence.
Qed.

(** ... and gives each of them the proposed value. *)
Lemma apply_set_inside (cols : list string) (proposed existing : Pg.row) (c : string) :
  In c cols ->
  Pg.get c (Pg.apply_set (Etl.excluded cols) proposed existing)
  = Some (match Pg.get c proposed with Some v => v | None => VNone end).
Proof.
  revert existing.
  induction cols as [|k cols IH]; intros existing Hc; [contradiction|].
  change (Pg.apply_set (Etl.excluded (k :: cols)) proposed existing)
    with (Pg.apply_set (Etl.excluded cols) proposed
            (Pg.set k (Pg.eval_set proposed (Pg.Excluded k)) existing)).
  destruct (in_dec string_dec c cols) as [Hin|Hout].
  - apply IH. exact Hin.
  - destruct Hc as [->|Hc]; [|contradiction].
    rewrite apply_set_outside by exact Hout. apply get_set_same.
Qed.

Lemma upsert_step_keeps (index_elements cols : list string)
  (t t' : Pg.table) (touched touched' : list nat) (r : Pg.row) :
  Pg.insert_do_update_1 index_elements (Etl.excluded cols) (t, touched) r
    = Ok (t', touched') ->
  Spec.keeps (fun c => ~ In c cols) t t'.
Proof.
  unfold Pg.insert_do_update_1.
  pose proof (fill_serial_spec t r) as (Hrows & _).
  destruct (Pg.fill_serial t r) as [t1 r1]. cbn [fst] in Hrows.
  destruct (Pg.find_conflict index_elements r1 (Pg.t_rows t1)) as [i|] eqn:Hc.
  - destruct (existsb (Nat.eqb i) touched); [discriminate|].
    intro H. inversion H; subst; clear H. intros k x Hx.
    cbn [Pg.with_rows Pg.t_rows]. rewrite <- Hrows in Hx.
    destruct (Nat.eq_dec i k) as [->|Hne].
    + exists (Pg.apply_set (Etl.excluded cols) r1 x).
      split; [apply nth_update_nth; exact Hx|].
      intros c Hout. apply apply_set_outside. exact Hout.
    + exists x. split; [|auto]. rewrite nth_update_nth_other by exact Hne. exact Hx.
  - destruct (existsb _ (Pg.t_unique t1)); [discriminate|].
    intro H. inversion H; subst; clear H. intros k x Hx.
    cbn [Pg.with_rows Pg.t_rows]. rewrite <- Hrows in Hx.
    exists x. split; [|auto].
    rewrite nth_error_app1; [exact Hx|]. apply nth_error_Some. congruence.
Qed.

Lemma upsert_rows_keep (index_elements cols : list string) (values : list Pg.row)
  (t t' : Pg.table) (touched touched' : list nat) :
  Pg.insert_do_update_rows index_elements (Etl.excluded cols) values (t, touched)
    = Ok (t', touched') ->
  Spec.keeps (fun c => ~ In c cols) t t'.
Proof.
  revert t touched. induction values as [|r values IH]; intros t touched; simpl.
  - intro H. inversion H; subst. apply keeps_refl.
  - intro H. apply bind_ok in H. destruct H as ([t1 touched1] & H1 & H2).
    eapply keeps_trans.
    + eapply upsert_step_keeps. exact H1.
    + eapply IH. exact H2.
Qed.

(** Executing an upsert leaves the other tables alone and, in its own table,
    every stored row in place with all columns outside the conflict set. *)
Lemma execute_keeps (s : Etl.stmt) (db db' : Etl.Database) :
  Etl.execute s db = Ok db' ->
  Spec.keeps (fun c => ~ In c (Etl.st_conflict_set s))
    (Etl.table_of (Etl.st_model s) db) (Etl.table_of (Etl.st_model s) db')
  /\ forall m, m <> Etl.st_model s -> Etl.table_of m db' = Etl.table_of m db.
Proof.
  unfold Etl.execute. intro H. apply bind_ok in H. destruct H as (t & Ht & H).
  inversion H; subst; clear H.
  rewrite IncrementalFacts.table_of_with_table_same.
  split; [|intros m Hm; apply IncrementalFacts.table_of_with_table_other; exact Hm].
  unfold Pg.insert_do_update in Ht.
  destruct (Pg.has_arbiter _ _); [|discriminate].
  apply bind_ok in Ht. destruct Ht as ([t1 touched1] & H1 & H2).
  inversion H2; subst; clear H2. eapply upsert_rows_keep. exact H1.
Qed.

Section Statements.

Variable parse_iso : pyval -> option datetime.
Variable to_float : pyval -> option Q.

(** The statements the four journal upserts issue. *)
Lemma incremental_statements (now : datetime) (db db' : Etl.Database) (it : Etl.item) :
  (Etl._upsert_trd_buy parse_iso to_float now db it = Ok db' ->
   exists r, Etl.execute (Spec.upsert_statement Etl.TrdBuyT
                            (Spec.incremental_conflict_set Etl.TrdBuyT) [r]) db = Ok db')
  /\ (Etl._upsert_lot to_float now db it = Ok db' ->
   exists r, Etl.execute (Spec.upsert_statement Etl.LotT
                            (Spec.incremental_conflict_set Etl.LotT) [r]) db = Ok db')
  /\ (Etl._upsert_contract parse_iso to_float now db it = Ok db' ->
   exists r, Etl.execute (Spec.upsert_statement Etl.ContractT
                            (Spec.incremental_conflict_set Etl.ContractT) [r]) db = Ok db')
  /\ (Etl._upsert_subject parse_iso now db it = Ok db' ->
   exists r, Etl.execute (Spec.upsert_statement Etl.SubjectT
                            (Spec.incremental_conflict_set Etl.SubjectT) [r]) db = Ok db').
Proof.
  repeat split; intro H; apply bind_ok in H; destruct H as (r & _ & H); exists r; exact H.
Qed.

Lemma one_upsert_statement (m : Etl.model) (cols : list string) (rows : list Pg.row) :
  Forall (fun s => exists values, s = Spec.upsert_statement m cols values)
         (fst (Etl.one_upsert m cols rows)).
Proof.
  unfold Etl.one_upsert. destruct rows as [|r rows]; cbn [fst]; constructor; [|constructor].
  eexists. reflexivity.
Qed.

(** The statements the four checkpointed backfill loaders issue for a page. *)
Lemma backfill_loader_statements (date_from date_to : datetime) (batch : list Etl.item)
  (stmts : list Etl.stmt) (n : Z) :
  (Etl.statements (Etl.trd_buy_loader parse_iso to_float date_from date_to) batch
     = Ok (stmts, n) ->
   Forall (fun s => exists values,
             s = Spec.upsert_statement Etl.TrdBuyT
                   (Spec.backfill_conflict_set Etl.TrdBuyT) values) stmts)
  /\ (Etl.statements (Etl.lots_loader parse_iso to_float) batch = Ok (stmts, n) ->
   Forall (fun s => exists values,
             s = Spec.upsert_statement Etl.LotT
                   (Spec.backfill_conflict_set Etl.LotT) values) stmts)
  /\ (Etl.statements (Etl.contracts_loader parse_iso to_float date_from date_to) batch
     = Ok (stmts, n) ->
   Forall (fun s => exists values,
             s = Spec.upsert_statement Etl.ContractT
                   (Spec.backfill_conflict_set Etl.ContractT) values) stmts)
  /\ (Etl.statements (Etl.subjects_loader parse_iso) batch = Ok (stmts, n) ->
   Forall (fun s => exists values,
             s = Spec.upsert_statement Etl.SubjectT
                   (Spec.backfill_conflict_set Etl.SubjectT) values) stmts).
Proof.
  repeat split; cbn [Etl.statements Etl.trd_buy_loader Etl.lots_loader
                     Etl.contracts_loader Etl.subjects_loader];
    intro H; apply bind_ok in H; destruct H as (rows & _ & H);
    inversion H; subst; apply one_upsert_statement.
Qed.

End Statements.

(** C8, as worded, fails: for TrdBuy (and likewise Lots and Contract) the
    journal upsert overwrites exactly the columns the backfill upsert
    overwrites, not a narrower set. *)
Lemma C8_counterexample_same_columns :
  Spec.incremental_conflict_set Etl.TrdBuyT = Spec.backfill_conflict_set Etl.TrdBuyT
  /\ Spec.strictly_narrower (Spec.incremental_conflict_set Etl.TrdBuyT)
       (Spec.backfill_conflict_set Etl.TrdBuyT) = false.
Proof. split; reflexivity. Qed.

Lemma execute_all_keeps (m : Etl.model) (cols : list string) (stmts : list Etl.stmt) :
  Forall (fun s => exists values, s = Spec.upsert_statement m cols values) stmts ->
  forall db db',
    Etl.execute_all stmts db = Ok db' ->
    Spec.keeps (fun c => ~ In c cols) (Etl.table_of m db) (Etl.table_of m db').
Proof.
  induction 1 as [|s stmts (values & ->) Hall IH]; intros db db' H; cbn in H.
  - inversion H; subst. apply keeps_refl.
  - apply bind_ok in H. destruct H as (db1 & H1 & H2).
    eapply keeps_trans; [|apply (IH _ _ H2)].
    apply execute_keeps in H1. apply H1.
Qed.

(** C8, amended.  For TrdBuy, Lots, Contract and Subject both orchestrators
    upsert on the primary key [id], and the columns the journal upsert
    overwrites on conflict are among those the backfill upsert overwrites: the
    same set for TrdBuy, Lots and Contract, a strictly narrower one for Subject
    only.  No identity column (the primary id, the upstream identifiers) is in
    either set, and either upsert (the journal upsert of one object, the
    statements a backfill page gives rise to) leaves every stored row in place
    with all columns outside its set, the identity columns among them,
    unchanged. *)
Theorem C8_conflict_sets (parse_iso : pyval -> option datetime)
  (to_float : pyval -> option Q) (date_from date_to : datetime)
  (m : Etl.model) (Hm : In m Spec.shared_entity_types) :
  Spec.subset (Spec.incremental_conflict_set m) (Spec.backfill_conflict_set m) = true
  /\ (Spec.strictly_narrower (Spec.incremental_conflict_set m)
        (Spec.backfill_conflict_set m) = true <-> m = Etl.SubjectT)
  /\ (m <> Etl.SubjectT ->
      Spec.incremental_conflict_set m = Spec.backfill_conflict_set m)
  /\ (forall c, In c (Spec.identity_columns m) ->
        ~ In c (Spec.incremental_conflict_set m)
        /\ ~ In c (Spec.backfill_conflict_set m))
  /\ (forall now db it db',
        Spec.incremental_upsert parse_iso to_float m now db it = Ok db' ->
        (exists r, Etl.execute (Spec.upsert_statement m
                                  (Spec.incremental_conflict_set m) [r]) db = Ok db')
        /\ Spec.keeps (fun c => ~ In c (Spec.incremental_conflict_set m))
             (Etl.table_of m db) (Etl.table_of m db')
        /\ Spec.keeps (fun c => In c (Spec.identity_columns m))
             (Etl.table_of m db) (Etl.table_of m db'))
  /\ (forall batch stmts n db db',
        Spec.backfill_statements parse_iso to_float date_from date_to m batch
          = Ok (stmts, n) ->
        Etl.execute_all stmts db = Ok db' ->
        Forall (fun s => exists values,
                  s = Spec.upsert_statement m (Spec.backfill_conflict_set m) values) stmts
        /\ Spec.keeps (fun c => ~ In c (Spec.backfill_conflict_set m))
             (Etl.table_of m db) (Etl.table_of m db')
        /\ Spec.keeps (fun c => In c (Spec.identity_columns m))
             (Etl.table_of m db) (Etl.table_of m db')).
Proof.
  assert (Hsets :
    Spec.subset (Spec.incremental_conflict_set m) (Spec.backfill_conflict_set m) = true
    /\ (Spec.strictly_narrower (Spec.incremental_conflict_set m)
          (Spec.backfill_conflict_set m) = true <-> m = Etl.SubjectT)
    /\ (m <> Etl.SubjectT ->
        Spec.incremental_conflict_set m = Spec.backfill_conflict_set m)
    /\ (forall c, In c (Spec.identity_columns m) ->
          ~ In c (Spec.incremental_conflict_set m)
          /\ ~ In c (Spec.backfill_conflict_set m))).
  { destruct Hm as [<-|[<-|[<-|[<-|[]]]]];
      (split; [reflexivity|]);
      (split; [split; [intro H; try reflexivity; vm_compute in H; discriminate
                      |intro H; try reflexivity; discriminate]|]);
      (split; [intro H; try reflexivity; congruence|]);
      intros c Hc; cbn in Hc;
      repeat (destruct Hc as [<-|Hc]; [split; intro H; cbn in H; intuition discriminate|]);
      contradiction. }
  destruct Hsets as (H1 & H2 & H3 & H4).
  assert (Hid : forall cols t t',
            cols = Spec.incremental_conflict_set m \/ cols = Spec.backfill_conflict_set m ->
            Spec.keeps (fun c => ~ In c cols) t t' ->
            Spec.keeps (fun c => In c (Spec.identity_columns m)) t t').
  { intros cols t t' Hcols Hkeep k x Hx. destruct (Hkeep k x Hx) as (x' & Hx' & Hsame).
    exists x'. split; [exact Hx'|]. intros c Hc. apply Hsame.
    destruct (H4 c Hc) as [Hi Hb]. destruct Hcols as [->| ->]; assumption. }
  split; [exact H1|]. split; [exact H2|]. split; [exact H3|]. split; [exact H4|].
  split.
  - intros now db it db' Hup.
    assert (Hstmt : exists r, Etl.execute (Spec.upsert_statement m
                       (Spec.incremental_conflict_set m) [r]) db = Ok db').
    { destruct (incremental_statements parse_iso to_float now db db' it)
        as (Ha & Hb & Hc & Hd).
      destruct Hm as [<-|[<-|[<-|[<-|[]]]]]; auto. }
    split; [exact Hstmt|]. destruct Hstmt as (r & Hexec).
    apply execute_keeps in Hexec. destruct Hexec as [Hkeep _].
    cbn [Spec.upsert_statement Etl.st_conflict_set Etl.st_model] in Hkeep.
    split; [exact Hkeep|]. eapply Hid; [left; reflexivity|exact Hkeep].
  - intros batch stmts n db db' Hst Hexec.
    assert (Hall : Forall (fun s => exists values,
                     s = Spec.upsert_statement m (Spec.backfill_conflict_set m) values)
                     stmts).
    { destruct (backfill_loader_statements parse_iso to_float date_from date_to batch stmts n)
        as (Ha & Hb & Hc & Hd).
      destruct Hm as [<-|[<-|[<-|[<-|[]]]]]; auto. }
    split; [exact Hall|].
    pose proof (execute_all_keeps Hall _ Hexec) as Hkeep.
    split; [exact Hkeep|]. eapply Hid; [right; reflexivity|exact Hkeep].
Qed.

(** Subject is the one type whose journal upsert is narrower; for TrdBuy the
    two sets coincide and the identifier [number_anno] is in neither. *)
Lemma C8_conflict_sets_witness :
  Spec.strictly_narrower (Spec.incremental_conflict_set Etl.SubjectT)
    (Spec.backfill_conflict_set Etl.SubjectT) = true
  /\ Spec.incremental_conflict_set Etl.TrdBuyT = Spec.backfill_conflict_set Etl.TrdBuyT
  /\ ~ In "number_anno" (Spec.backfill_conflict_set Etl.TrdBuyT).
Proof.
  assert (Hs : In Etl.SubjectT Spec.shared_entity_types)
    by (right; right; right; left; reflexivity).
  assert (Ht : In Etl.TrdBuyT Spec.shared_entity_types) by (left; reflexivity).
  split; [|split].
  - apply (proj1 (proj2 (C8_conflict_sets Examples.no_parse Examples.no_float 0 0 Hs))).
    reflexivity.
  - apply (proj1 (proj2 (proj2
             (C8_conflict_sets Examples.no_parse Examples.no_float 0 0 Ht)))).
    discriminate.
  - apply (proj1 (proj2 (proj2 (proj2
             (C8_conflict_sets Examples.no_parse Examples.no_float 0 0 Ht)))) "number_anno").
    right; left; reflexivity.
Defined.

End UpsertFacts.

(* ===================================================================== *)
(** ** Backfill: the checkpoint follows the commit                       *)
(* ===================================================================== *)

Module BackfillFacts.

Import PgFacts UpsertFacts.

Lemma same_key_source (r1 x : Pg.row) (src : string) :
  Pg.get "source_name" r1 = Some (VStr src) ->
  Pg.same_key ["source_name"] r1 x = Etl.source_is src x.
Proof.
  intro H. unfold Pg.same_key, Etl.source_is. cbn [forallb]. rewrite H.
  destruct (Pg.get "source_name" x) as [[]|]; cbn; try reflexivity.
  rewrite andb_true_r. apply String.eqb_sym.
Qed.

Lemma find_after_update (p : Pg.row -> bool) (cols : list string) (r : Pg.row)
  (f : Pg.row -> Pg.row) (rows : list Pg.row) :
  (forall x, Pg.same_key cols r x = p x) ->
  forall i x,
    Pg.find_conflict cols r rows = Some i ->
    nth_error rows i = Some x ->
    p (f x) = true ->
    find p (Pg.update_nth i f rows) = Some (f x).
Proof.
  intro Hp. induction rows as [|y rows IH]; intros i x Hc Hx Hfx; [discriminate|].
  cbn [Pg.find_conflict] in Hc. destruct (Pg.same_key cols r y) eqn:E.
  - inversion Hc; subst i. cbn in Hx. inversion Hx; subst y.
    cbn. rewrite Hfx. reflexivity.
  - destruct (Pg.find_conflict cols r rows) as [j|] eqn:Ej; [|discriminate].
    inversion Hc; subst i. cbn in Hx. cbn [Pg.update_nth find].
    rewrite <- Hp, E. apply (IH j x); auto.
Qed.

Lemma find_after_append (p : Pg.row -> bool) (cols : list string) (r r1 : Pg.row)
  (rows : list Pg.row) :
  (forall x, Pg.same_key cols r x = p x) ->
  Pg.find_conflict cols r rows = None ->
  p r1 = true ->
  find p (rows ++ [r1]) = Some r1.
Proof.
  intros Hp Hc Hr1. induction rows as [|y rows IH]; cbn.
  - rewrite Hr1. reflexivity.
  - cbn [Pg.find_conflict] in Hc. destruct (Pg.same_key cols r y) eqn:E; [discriminate|].
    rewrite <- Hp, E. apply IH.
    destruct (Pg.find_conflict cols r rows); [discriminate|reflexivity].
Qed.

(** After the checkpoint upsert the row of the source holds the new cursor. *)
Lemma cursor_upsert_lookup (now : datetime) (src url : string) (t t' : Pg.table) :
  Pg.insert_do_update ["source_name"] (Etl.excluded ["cursor_value"; "updated_at"])
    [[("source_name", VStr src); ("cursor_value", VStr url); ("updated_at", VDate now)]] t
    = Ok t' ->
  exists r, find (Etl.source_is src) (Pg.t_rows t') = Some r
            /\ Etl.iget "cursor_value" r = VStr url.
Proof.
  unfold Pg.insert_do_update.
  destruct (Pg.has_arbiter _ t); [|discriminate].
  cbn [Pg.insert_do_update_rows]. unfold Pg.insert_do_update_1.
  set (row := [("source_name", VStr src); ("cursor_value", VStr url);
               ("updated_at", VDate now)]).
  pose proof (fill_serial_spec t row) as (Hrows & _ & _ & Hget).
  destruct (Pg.fill_serial t row) as [t1 r1]. cbn [fst snd] in Hrows, Hget.
  assert (G1 : Pg.get "source_name" r1 = Some (VStr src)) by (apply Hget; reflexivity).
  assert (G2 : Pg.get "cursor_value" r1 = Some (VStr url)) by (apply Hget; reflexivity).
  pose proof (fun x => same_key_source r1 x G1) as Hp.
  destruct (Pg.find_conflict ["source_name"] r1 (Pg.t_rows t1)) as [i|] eqn:Hc.
  - cbn [existsb bind]. intro H. inversion H; subst; clear H.
    cbn [fst Pg.with_rows Pg.t_rows].
    destruct (find_conflict_nth _ _ _ Hc) as (x & Hx & Hk).
    set (f := Pg.apply_set (Etl.excluded ["cursor_value"; "updated_at"]) r1).
    assert (Hfx : Etl.source_is src (f x) = true).
    { rewrite Hp in Hk. unfold Etl.source_is in *. unfold f.
      rewrite apply_set_outside; [exact Hk|].
      cbn. intros [H|[H|[]]]; discriminate. }
    exists (f x). split.
    + eapply find_after_update; eauto.
    + unfold Etl.iget, f. rewrite apply_set_inside by (left; reflexivity).
      rewrite G2. reflexivity.
  - destruct (existsb _ (Pg.t_unique t1)); cbn [bind]; [discriminate|].
    intro H. inversion H; subst; clear H. cbn [fst Pg.with_rows Pg.t_rows].
    exists r1. split.
    + eapply find_after_append; eauto.
      unfold Etl.source_is. rewrite G1. apply String.eqb_refl.
    + unfold Etl.iget. rewrite G2. reflexivity.
Qed.

Lemma find_update_irrelevant (p : Pg.row -> bool) (f : Pg.row -> Pg.row)
  (rows : list Pg.row) :
  forall i x,
    nth_error rows i = Some x -> p x = false -> p (f x) = false ->
    find p (Pg.update_nth i f rows) = find p rows.
Proof.
  induction rows as [|y rows IH]; intros [|i] x Hx Hp Hf; cbn in *; try discriminate.
  - inversion Hx; subst. rewrite Hp, Hf. reflexivity.
  - rewrite (IH i x Hx Hp Hf). reflexivity.
Qed.

Lemma find_append_irrelevant (p : Pg.row -> bool) (rows : list Pg.row) (r1 : Pg.row) :
  p r1 = false -> find p (rows ++ [r1]) = find p rows.
Proof.
  intro H. induction rows as [|y rows IH]; cbn.
  - rewrite H. reflexivity.
  - rewrite IH. reflexivity.
Qed.

Lemma source_is_other (src src' : string) (x : Pg.row) :
  src' <> src -> Etl.source_is src x = true -> Etl.source_is src' x = false.
Proof.
  unfold Etl.source_is. intros Hne H.
  destruct (Pg.get "source_name" x) as [[]|]; try discriminate.
  apply String.eqb_eq in H. subst. apply String.eqb_neq. congruence.
Qed.

(** The checkpoint upsert of one source leaves the rows of the others. *)
Lemma cursor_upsert_other (now : datetime) (src src' url : string) (t t' : Pg.table) :
  Pg.insert_do_update ["source_name"] (Etl.excluded ["cursor_value"; "updated_at"])
    [[("source_name", VStr src); ("cursor_value", VStr url); ("updated_at", VDate now)]] t
    = Ok t' ->
  src' <> src ->
  find (Etl.source_is src') (Pg.t_rows t') = find (Etl.source_is src') (Pg.t_rows t).
Proof.
  unfold Pg.insert_do_update. intros H Hne. revert H.
  destruct (Pg.has_arbiter _ t); [|discriminate].
  cbn [Pg.insert_do_update_rows]. unfold Pg.insert_do_update_1.
  set (row := [("source_name", VStr src); ("cursor_value", VStr url);
               ("updated_at", VDate now)]).
  pose proof (fill_serial_spec t row) as (Hrows & _ & _ & Hget).
  destruct (Pg.fill_serial t row) as [t1 r1]. cbn [fst snd] in Hrows, Hget.
  assert (G1 : Pg.get "source_name" r1 = Some (VStr src)) by (apply Hget; reflexivity).
  pose proof (fun x => same_key_source r1 x G1) as Hp.
  rewrite <- Hrows.
  destruct (Pg.find_conflict ["source_name"] r1 (Pg.t_rows t1)) as [i|] eqn:Hc.
  - cbn [existsb bind]. intro H. inversion H; subst; clear H.
    cbn [fst Pg.with_rows Pg.t_rows].
    destruct (find_conflict_nth _ _ _ Hc) as (x & Hx & Hk). rewrite Hp in Hk.
    set (f := Pg.apply_set (Etl.excluded ["cursor_value"; "updated_at"]) r1).
    assert (Hfx : Etl.source_is src (f x) = true).
    { unfold Etl.source_is in *. unfold f.
      rewrite apply_set_outside; [exact Hk|].
      cbn. intros [H|[H|[]]]; discriminate. }
    apply (@find_update_irrelevant _ f _ i x Hx).
    + apply (@source_is_other src src' x Hne Hk).
    + apply (@source_is_other src src' (f x) Hne Hfx).
  - destruct (existsb _ (Pg.t_unique t1)); cbn [bind]; [discriminate|].
    intro H. inversion H; subst; clear H. cbn [fst Pg.with_rows Pg.t_rows].
    apply find_append_irrelevant.
    apply (@source_is_other src src' r1 Hne).
    unfold Etl.source_is. rewrite G1. apply String.eqb_refl.
Qed.

Lemma save_cursor_other (now : datetime) (db db' : Etl.Database) (src src' url : string) :
  Etl._save_cursor now db src url = Ok db' ->
  src' <> src ->
  Etl._get_cursor db' src' = Etl._get_cursor db src'.
Proof.
  unfold Etl._save_cursor. intros H Hne.
  destruct (String.eqb url ""); [inversion H; reflexivity|].
  unfold Etl.execute in H. cbn [Etl.st_model Etl.st_index_elements Etl.st_conflict_set
                                Etl.st_values Etl.table_of] in H.
  apply bind_ok in H. destruct H as (t & Ht & H). inversion H; subst; clear H.
  unfold Etl._get_cursor. cbn [Etl.with_table Etl.d_etl_cursors].
  rewrite (@cursor_upsert_other _ _ _ _ _ _ Ht Hne). reflexivity.
Qed.

Lemma save_cursor_spec (now : datetime) (db db' : Etl.Database) (src url : string) :
  Etl._save_cursor now db src url = Ok db' ->
  url <> "" ->
  Etl._get_cursor db' src = Some (VStr url)
  /\ forall m, m <> Etl.EtlCursorT -> Etl.table_of m db' = Etl.table_of m db.
Proof.
  unfold Etl._save_cursor. intros H Hne.
  destruct (String.eqb url "") eqn:E; [apply String.eqb_eq in E; contradiction|].
  unfold Etl.execute in H. cbn [Etl.st_model Etl.st_index_elements Etl.st_conflict_set
                                Etl.st_values Etl.table_of] in H.
  apply bind_ok in H. destruct H as (t & Ht & H). inversion H; subst; clear H.
  split.
  - unfold Etl._get_cursor. cbn [Etl.with_table Etl.d_etl_cursors].
    destruct (cursor_upsert_lookup _ _ _ _ Ht) as (r & Hr & Hv). rewrite Hr, Hv. reflexivity.
  - intros m Hm. apply IncrementalFacts.table_of_with_table_other. exact Hm.
Qed.

(** An empty next-cursor is not persisted. *)
Lemma save_cursor_empty (now : datetime) (db : Etl.Database) (src : string) :
  Etl._save_cursor now db src "" = Ok db.
Proof. reflexivity. Qed.

Lemma execute_all_cursors (stmts : list Etl.stmt) (db db' : Etl.Database) :
  Forall (fun s => Etl.st_model s <> Etl.EtlCursorT) stmts ->
  Etl.execute_all stmts db = Ok db' ->
  Etl.d_etl_cursors db' = Etl.d_etl_cursors db.
Proof.
  intro Hall. revert db. induction Hall as [|s stmts Hs Hall IH]; intros db H; cbn in H.
  - inversion H. reflexivity.
  - apply bind_ok in H. destruct H as (db1 & H1 & H2).
    rewrite (IH _ H2). apply execute_keeps in H1. destruct H1 as [_ Hother].
    apply (Hother Etl.EtlCursorT). congruence.
Qed.

Lemma get_cursor_same (db db' : Etl.Database) (src : string) :
  Etl.d_etl_cursors db' = Etl.d_etl_cursors db ->
  Etl._get_cursor db' src = Etl._get_cursor db src.
Proof. intro H. unfold Etl._get_cursor. rewrite H. reflexivity. Qed.

(** One iteration: at most one commit, then at most one checkpoint; the
    checkpoint is the page's own non-empty next-cursor; a page with something
    to commit either commits first or fails before writing anything. *)
Lemma load_page_spec (L : Etl.loader) (now : datetime) (k : nat) (db db1 : Etl.Database)
  (batch : list Etl.item) (next : string) (f : Etl.fault) (ev : list Etl.event)
  (out : result Z) :
  Spec.leaves_cursors_alone L ->
  Etl.load_page L now k db batch next f = (db1, ev, out) ->
  exists c s,
    ev = (c ++ s)%list
    /\ (c = [] \/ c = [Etl.Committed k])
    /\ (s = [] \/ (s = [Etl.CursorSaved k next] /\ next <> ""))
    /\ (Spec.has_upsert L batch = true ->
        c = [Etl.Committed k] \/ (ev = [] /\ is_ok out = false))
    /\ Etl._get_cursor db1 (Etl.source L)
       = match s with
         | [] => Etl._get_cursor db (Etl.source L)
         | _ => Some (VStr next)
         end.
Proof.
  intros HL H. unfold Etl.load_page in H. unfold Spec.has_upsert.
  destruct (Etl.statements L batch) as [[stmts n]|e] eqn:Hs.
  2:{ inversion H; subst. exists [], []. repeat split; auto; try discriminate. }
  pose proof (HL _ _ _ Hs) as Hmodels.
  set (has_rows := match stmts with [] => false | _ => true end) in *.
  assert (Hup : (match stmts with _ :: _ => true | [] => Etl.commit_without_rows L end)
                = has_rows || Etl.commit_without_rows L)
    by (destruct stmts; reflexivity).
  rewrite Hup. clear Hup.
  destruct (has_rows || Etl.commit_without_rows L) eqn:Hbr.
  - (* a session is opened *)
    destruct (has_rows && Etl.fault_eqb f Etl.ExecuteFails).
    { cbn in H. inversion H; subst. exists [], []. repeat split; auto; try discriminate. }
    destruct (Etl.execute_all stmts db) as [db2|e] eqn:Hex.
    2:{ cbn in H. inversion H; subst. exists [], []. repeat split; auto; try discriminate. }
    cbn [bind] in H.
    pose proof (@execute_all_cursors stmts db db2 Hmodels Hex) as Hcur.
    destruct (Etl.fault_eqb f Etl.CommitFails).
    { inversion H; subst. exists [], []. repeat split; auto; try discriminate. }
    destruct (negb (String.eqb next "") && (has_rows || negb (Etl.save_requires_rows L)))
      eqn:Hsave.
    + destruct (Etl.fault_eqb f Etl.SaveCursorFails).
      { inversion H; subst. exists [Etl.Committed k], []. repeat split; auto.
        apply get_cursor_same. exact Hcur. }
      destruct (Etl._save_cursor now db2 (Etl.source L) next) as [db3|e] eqn:Hsc.
      2:{ inversion H; subst. exists [Etl.Committed k], []. repeat split; auto.
          apply get_cursor_same. exact Hcur. }
      inversion H; subst.
      assert (Hne : next <> "").
      { apply andb_true_iff in Hsave. destruct Hsave as [Hn _].
        apply negb_true_iff in Hn. intro E. subst next. discriminate. }
      exists [Etl.Committed k], [Etl.CursorSaved k next]. repeat split; auto.
      apply (proj1 (@save_cursor_spec _ _ _ _ _ Hsc Hne)).
    + inversion H; subst. exists [Etl.Committed k], []. repeat split; auto.
      apply get_cursor_same. exact Hcur.
  - (* nothing to commit *)
    destruct (negb (String.eqb next "") && (has_rows || negb (Etl.save_requires_rows L)))
      eqn:Hsave.
    + destruct (Etl.fault_eqb f Etl.SaveCursorFails).
      { inversion H; subst. exists [], []. repeat split; auto; try discriminate. }
      destruct (Etl._save_cursor now db (Etl.source L) next) as [db3|e] eqn:Hsc.
      2:{ inversion H; subst. exists [], []. repeat split; auto; try discriminate. }
      inversion H; subst.
      assert (Hne : next <> "").
      { apply andb_true_iff in Hsave. destruct Hsave as [Hn _].
        apply negb_true_iff in Hn. intro E. subst next. discriminate. }
      exists [], [Etl.CursorSaved k next]. repeat split; auto; try discriminate.
      apply (proj1 (@save_cursor_spec _ _ _ _ _ Hsc Hne)).
    + inversion H; subst. exists [], []. repeat split; auto; try discriminate.
Qed.

(** One iteration leaves the cursors of the other sources as they were. *)
Lemma load_page_other_source (L : Etl.loader) (now : datetime) (k : nat)
  (db db1 : Etl.Database) (batch : list Etl.item) (next : string) (f : Etl.fault)
  (ev : list Etl.event) (out : result Z) (src' : string) :
  Spec.leaves_cursors_alone L ->
  Etl.load_page L now k db batch next f = (db1, ev, out) ->
  src' <> Etl.source L ->
  Etl._get_cursor db1 src' = Etl._get_cursor db src'.
Proof.
  intros HL H Hne. unfold Etl.load_page in H.
  destruct (Etl.statements L batch) as [[stmts n]|e] eqn:Hs.
  2:{ inversion H; subst. reflexivity. }
  pose proof (HL _ _ _ Hs) as Hmodels.
  set (has_rows := match stmts with [] => false | _ => true end) in *.
  assert (Hsession :
    forall d : Etl.Database,
      Etl._get_cursor d src' = Etl._get_cursor db src' ->
      forall evs,
      (if negb (String.eqb next "") && (has_rows || negb (Etl.save_requires_rows L))
       then if Etl.fault_eqb f Etl.SaveCursorFails
            then (d, evs, Raise OperationalError)
            else match Etl._save_cursor now d (Etl.source L) next with
                 | Ok db2 => (db2, (evs ++ [Etl.CursorSaved k next])%list, Ok n)
                 | Raise e => (d, evs, Raise e)
                 end
       else (d, evs, Ok n)) = (db1, ev, out) ->
      Etl._get_cursor db1 src' = Etl._get_cursor db src').
  { intros d Hd evs Hrest.
    destruct (negb (String.eqb next "") && (has_rows || negb (Etl.save_requires_rows L))).
    - destruct (Etl.fault_eqb f Etl.SaveCursorFails); [inversion Hrest; subst; exact Hd|].
      destruct (Etl._save_cursor now d (Etl.source L) next) as [db3|e] eqn:Hsc;
        inversion Hrest; subst; [|exact Hd].
      rewrite (@save_cursor_other _ _ _ _ _ _ Hsc Hne). exact Hd.
    - inversion Hrest; subst. exact Hd. }
  destruct (has_rows || Etl.commit_without_rows L).
  - destruct (has_rows && Etl.fault_eqb f Etl.ExecuteFails).
    { cbn in H. inversion H; subst. reflexivity. }
    destruct (Etl.execute_all stmts db) as [db2|e] eqn:Hex.
    2:{ cbn in H. inversion H; subst. reflexivity. }
    cbn [bind] in H.
    destruct (Etl.fault_eqb f Etl.CommitFails).
    { inversion H; subst. reflexivity. }
    refine (Hsession db2 _ _ H).
    apply get_cursor_same. apply (@execute_all_cursors stmts db db2 Hmodels Hex).
  - apply (Hsession db eq_refl _ H).
Qed.

Lemma load_pages_other_source (L : Etl.loader) (now : datetime) (src' : string)
  (pages : list (list Etl.item * string)) :
  Spec.leaves_cursors_alone L ->
  src' <> Etl.source L ->
  forall k0 db faults count db' ev out,
    Etl.load_pages L now k0 db pages faults count = (db', ev, out) ->
    Etl._get_cursor db' src' = Etl._get_cursor db src'.
Proof.
  intros HL Hne. induction pages as [|[batch0 next0] rest IH];
    intros k0 db faults count db' ev out H; cbn [Etl.load_pages] in H.
  - inversion H; subst. reflexivity.
  - destruct (Etl.load_page L now k0 db batch0 next0 (hd Etl.NoFault faults))
      as [[db1 evp] outp] eqn:Hp.
    pose proof (@load_page_other_source _ _ _ _ _ _ _ _ _ _ src' HL Hp Hne) as H1.
    destruct outp as [n|e].
    + destruct (Etl.load_pages L now (S k0) db1 rest (tl faults) (count + n))
        as [[db2 evr] r] eqn:Hr.
      inversion H; subst. rewrite (IH _ _ _ _ _ _ _ Hr). exact H1.
    + inversion H; subst. exact H1.
Qed.

Lemma split_app {A} (a b l1 l2 : list A) (x : A) :
  (a ++ b = l1 ++ x :: l2)%list ->
  (exists m, a = (l1 ++ x :: m)%list /\ l2 = (m ++ b)%list)
  \/ (exists m, l1 = (a ++ m)%list /\ b = (m ++ x :: l2)%list).
Proof.
  revert l1. induction a as [|y a IH]; intros l1 H.
  - right. exists l1. auto.
  - destruct l1 as [|z l1]; cbn in H; inversion H; subst.
    + left. exists a. auto.
    + destruct (IH l1 H2) as [(m & -> & ->)|(m & -> & ->)].
      * left. exists m. auto.
      * right. exists m. auto.
Qed.

Lemma last_saved_app (a b : list Etl.event) :
  Spec.last_saved (a ++ b)
  = match Spec.last_saved b with
    | Some u => Some u
    | None => Spec.last_saved a
    end.
Proof.
  induction a as [|[k|k url] a IH]; cbn.
  - destruct (Spec.last_saved b); reflexivity.
  - exact IH.
  - rewrite IH. destruct (Spec.last_saved b), (Spec.last_saved a); reflexivity.
Qed.

(** Where a checkpoint sits among the events of one iteration. *)
Lemma page_events_split (k0 k : nat) (next0 url : string)
  (c s ev1 m : list Etl.event) :
  (c = [] \/ c = [Etl.Committed k0]) ->
  (s = [] \/ (s = [Etl.CursorSaved k0 next0] /\ next0 <> "")) ->
  (c ++ s = ev1 ++ Etl.CursorSaved k url :: m)%list ->
  ev1 = c /\ k = k0 /\ url = next0 /\ m = [] /\ next0 <> "".
Proof.
  intros [->| ->] [->|[-> Hne]] H; cbn in H.
  - destruct ev1; discriminate.
  - destruct ev1 as [|e ev1]; cbn in H; inversion H; subst; auto.
    destruct ev1; discriminate.
  - destruct ev1 as [|e ev1]; cbn in H; inversion H; subst.
    destruct ev1; discriminate.
  - destruct ev1 as [|e ev1]; cbn in H; inversion H; subst.
    destruct ev1 as [|e ev1]; cbn in *; inversion H2; subst; auto.
    destruct ev1; discriminate.
Qed.

Section Loop.

Variable L : Etl.loader.
Hypothesis HL : Spec.leaves_cursors_alone L.
Variable now : datetime.

(** The loop.  Every checkpoint in the trace is the non-empty next-cursor of
    a page of the run, and stands after the commit of that page and of every
    earlier page that had something to commit; the cursor stored at the end is
    the last checkpoint of the trace, or the one found at the start. *)
Lemma load_pages_spec (pages : list (list Etl.item * string)) :
  forall (k0 : nat) (db : Etl.Database) (faults : list Etl.fault) (count : Z)
         (db' : Etl.Database) (ev : list Etl.event) (out : result Z),
  Etl.load_pages L now k0 db pages faults count = (db', ev, out) ->
  (forall ev1 k url ev2,
      ev = (ev1 ++ Etl.CursorSaved k url :: ev2)%list ->
      url <> ""
      /\ (k0 <= k)%nat
      /\ (exists batch, nth_error pages (k - k0) = Some (batch, url))
      /\ forall j batch next,
          (k0 <= j <= k)%nat ->
          nth_error pages (j - k0) = Some (batch, next) ->
          Spec.has_upsert L batch = true ->
          In (Etl.Committed j) ev1)
  /\ Etl._get_cursor db' (Etl.source L)
     = match Spec.last_saved ev with
       | Some u => Some (VStr u)
       | None => Etl._get_cursor db (Etl.source L)
       end.
Proof.
  induction pages as [|[batch0 next0] rest IH];
    intros k0 db faults count db' ev out H.
  - cbn in H. inversion H; subst. split; [|reflexivity].
    intros ev1 k url ev2 E. destruct ev1; discriminate.
  - cbn [Etl.load_pages] in H.
    destruct (Etl.load_page L now k0 db batch0 next0 (hd Etl.NoFault faults))
      as [[db1 evp] outp] eqn:Hp.
    destruct (@load_page_spec _ _ _ _ _ _ _ _ _ _ HL Hp) as (c & s & Hev & Hc & Hs & Hup & Hcur).
    assert (Hlast : Spec.last_saved evp
                    = match s with [] => None | _ => Some next0 end).
    { rewrite Hev, last_saved_app.
      destruct Hs as [->|[-> _]]; destruct Hc as [->| ->]; reflexivity. }
    assert (Hhere : forall ev1 k url m,
               evp = (ev1 ++ Etl.CursorSaved k url :: m)%list ->
               url <> "" /\ k = k0 /\ url = next0
               /\ (Spec.has_upsert L batch0 = true -> In (Etl.Committed k0) ev1)).
    { intros ev1 k url m E. rewrite Hev in E.
      destruct (@page_events_split _ _ _ _ _ _ _ _ Hc Hs E) as (-> & -> & -> & -> & Hne).
      repeat split; auto. intro Hu.
      destruct (Hup Hu) as [->|[Hnil _]]; [left; reflexivity|].
      rewrite Hev in Hnil. destruct Hc as [->| ->]; destruct Hs as [->|[-> _]];
        discriminate. }
    destruct outp as [n|e].
    + destruct (Etl.load_pages L now (S k0) db1 rest (tl faults) (count + n))
        as [[db2 evr] r] eqn:Hr.
      inversion H; subst db' ev out; clear H.
      destruct (IH _ _ _ _ _ _ _ Hr) as [IHa IHb].
      split.
      * intros ev1 k url ev2 E.
        destruct (@split_app _ _ _ _ _ _ E) as [(m & E1 & _)|(m & E1 & E2)].
        -- destruct (Hhere _ _ _ _ E1) as (Hne & -> & -> & Hcommitted).
           split; [exact Hne|]. split; [lia|].
           rewrite Nat.sub_diag. split; [exists batch0; reflexivity|].
           intros j batch next Hj Hnth Hu.
           assert (j = k0) by lia. subst j. rewrite Nat.sub_diag in Hnth.
           cbn in Hnth. inversion Hnth; subst. apply Hcommitted. exact Hu.
        -- destruct (IHa _ _ _ _ E2) as (Hne & Hk & (batch & Hb) & Hearlier).
           split; [exact Hne|]. split; [lia|].
           replace (k - k0)%nat with (S (k - S k0)) by lia.
           split; [exists batch; exact Hb|].
           intros j batch' next Hj Hnth Hu. subst ev1. apply in_or_app.
           destruct (Nat.eq_dec j k0) as [->|Hjk].
           ++ left. rewrite Nat.sub_diag in Hnth. cbn in Hnth. inversion Hnth; subst.
              destruct (Hup Hu) as [->|[_ Hfail]]; [|discriminate].
              left. reflexivity.
           ++ right. replace (j - k0)%nat with (S (j - S k0)) in Hnth by lia.
              cbn in Hnth. apply (Hearlier j batch' next); [lia|exact Hnth|exact Hu].
      * rewrite IHb, last_saved_app, Hcur, Hlast.
        destruct (Spec.last_saved evr); [reflexivity|].
        destruct s; reflexivity.
    + inversion H; subst db' ev out; clear H.
      split.
      * intros ev1 k url ev2 E.
        destruct (Hhere _ _ _ _ E) as (Hne & -> & -> & Hcommitted).
        split; [exact Hne|]. split; [lia|].
        rewrite Nat.sub_diag. split; [exists batch0; reflexivity|].
        intros j batch next Hj Hnth Hu.
        assert (j = k0) by lia. subst j. rewrite Nat.sub_diag in Hnth.
        cbn in Hnth. inversion Hnth; subst. apply Hcommitted. exact Hu.
      * rewrite Hcur, Hlast. destruct s; reflexivity.
Qed.

End Loop.

Lemma save_cursor_tables (now : datetime) (db db' : Etl.Database) (src url : string) :
  Etl._save_cursor now db src url = Ok db' ->
  forall m, m <> Etl.EtlCursorT -> Etl.table_of m db' = Etl.table_of m db.
Proof.
  unfold Etl._save_cursor. destruct (String.eqb url "").
  - intro H. inversion H. reflexivity.
  - unfold Etl.execute. intro H. apply bind_ok in H. destruct H as (t & _ & H).
    inversion H; subst. intros m Hm.
    apply IncrementalFacts.table_of_with_table_other. exact Hm.
Qed.

(** What a commit event stands for: the statements of the page have been
    executed on the database; without it the tables are as they were. *)
Lemma load_page_commit_anchor (L : Etl.loader) (now : datetime) (k : nat)
  (db db1 : Etl.Database) (batch : list Etl.item) (next : string) (f : Etl.fault)
  (ev : list Etl.event) (out : result Z) :
  Etl.load_page L now k db batch next f = (db1, ev, out) ->
  (In (Etl.Committed k) ev ->
   exists stmts n dbc,
     Etl.statements L batch = Ok (stmts, n)
     /\ Etl.execute_all stmts db = Ok dbc
     /\ forall m, m <> Etl.EtlCursorT -> Etl.table_of m db1 = Etl.table_of m dbc)
  /\ (~ In (Etl.Committed k) ev ->
      forall m, m <> Etl.EtlCursorT -> Etl.table_of m db1 = Etl.table_of m db).
Proof.
  intro H. unfold Etl.load_page in H.
  destruct (Etl.statements L batch) as [[stmts n]|e] eqn:Hs.
  2:{ inversion H; subst. split; [intros []|auto]. }
  set (has_rows := match stmts with [] => false | _ => true end) in *.
  pose proof (fun d d' => @save_cursor_tables now d d' (Etl.source L) next) as Hsaved.
  destruct (has_rows || Etl.commit_without_rows L).
  - destruct (has_rows && Etl.fault_eqb f Etl.ExecuteFails).
    { cbn in H. inversion H; subst. split; [intros []|auto]. }
    destruct (Etl.execute_all stmts db) as [db2|e] eqn:Hex.
    2:{ cbn in H. inversion H; subst. split; [intros []|auto]. }
    cbn [bind] in H.
    destruct (Etl.fault_eqb f Etl.CommitFails).
    { inversion H; subst. split; [intros []|auto]. }
    destruct (negb (String.eqb next "") && (has_rows || negb (Etl.save_requires_rows L))).
    + destruct (Etl.fault_eqb f Etl.SaveCursorFails).
      { inversion H; subst. split; [|intro Hn; exfalso; apply Hn; left; reflexivity].
        intros _. exists stmts, n, db1. auto. }
      destruct (Etl._save_cursor now db2 (Etl.source L) next) as [db3|e] eqn:Hsc.
      2:{ inversion H; subst. split; [|intro Hn; exfalso; apply Hn; left; reflexivity].
          intros _. exists stmts, n, db1. auto. }
      inversion H; subst. split; [|intro Hn; exfalso; apply Hn; left; reflexivity].
      intros _. exists stmts, n, db2. repeat split; auto; apply (Hsaved _ _ Hsc).
    + inversion H; subst. split; [|intro Hn; exfalso; apply Hn; left; reflexivity].
      intros _. exists stmts, n, db1. auto.
  - destruct (negb (String.eqb next "") && (has_rows || negb (Etl.save_requires_rows L))).
    + destruct (Etl.fault_eqb f Etl.SaveCursorFails).
      { inversion H; subst. split; [intros []|auto]. }
      destruct (Etl._save_cursor now db (Etl.source L) next) as [db3|e] eqn:Hsc.
      2:{ inversion H; subst. split; [intros []|auto]. }
      inversion H; subst. split.
      * intros [Habs|[]]. discriminate.
      * intros _. apply (Hsaved _ _ Hsc).
    + inversion H; subst. split; [intros []|auto].
Qed.

Section Loaders.

Variable parse_iso : pyval -> option datetime.
Variable to_float : pyval -> option Q.
Variable base_url : string.
Variable date_from date_to : datetime.

Lemma one_upsert_model (m : Etl.model) (cols : list string) (rows : list Pg.row) :
  m <> Etl.EtlCursorT ->
  Forall (fun s => Etl.st_model s <> Etl.EtlCursorT) (fst (Etl.one_upsert m cols rows)).
Proof.
  intro Hm. unfold Etl.one_upsert. destruct rows; cbn; repeat constructor. exact Hm.
Qed.

Lemma loaders_leave_cursors_alone (L : Etl.loader) :
  In L (Spec.checkpointed_loaders parse_iso to_float date_from date_to) ->
  Spec.leaves_cursors_alone L.
Proof.
  intros HL batch stmts n H.
  destruct HL as [<-|[<-|[<-|[<-|[<-|[<-|[<-|[]]]]]]]]; cbn in H;
    apply bind_ok in H; destruct H as (rows & _ & H); inversion H; subst;
    try (apply one_upsert_model; discriminate).
  destruct (fst rows), (snd rows); cbn; repeat constructor; cbn; discriminate.
Qed.

(** C9. In every checkpointed backfill loader, whatever the upstream
    replies and whichever database operation fails: a checkpoint is written
    only with the non-empty next-cursor of a page of this run, and only after
    the upsert of that page, and of every earlier page that had rows to
    upsert, has been committed; the cursor stored for the source when the
    loader returns or raises is the last checkpoint so written, or the cursor
    found at the start when none was; and the cursors of the other sources are
    left as they were. *)
Theorem C9_checkpoint_follows_commit (L : Etl.loader) (now : datetime)
  (db db' : Etl.Database) (upstream : string -> list (result Etl.response))
  (faults : list Etl.fault) (ev : list Etl.event) (out : result Z) :
  In L (Spec.checkpointed_loaders parse_iso to_float date_from date_to) ->
  Etl.load base_url L now db upstream faults = (db', ev, out) ->
  let pages :=
    fst (Etl.paginate base_url
           (upstream (Etl.first_url base_url (Etl.resume_endpoint L db)))) in
  (forall ev1 k url ev2,
      ev = (ev1 ++ Etl.CursorSaved k url :: ev2)%list ->
      url <> ""
      /\ (exists batch, nth_error pages k = Some (batch, url))
      /\ forall j batch next,
          (j <= k)%nat ->
          nth_error pages j = Some (batch, next) ->
          Spec.has_upsert L batch = true ->
          In (Etl.Committed j) ev1)
  /\ Etl._get_cursor db' (Etl.source L)
     = match Spec.last_saved ev with
       | Some u => Some (VStr u)
       | None => Etl._get_cursor db (Etl.source L)
       end
  /\ (forall src', src' <> Etl.source L ->
        Etl._get_cursor db' src' = Etl._get_cursor db src').
Proof.
  intros HL H pages.
  pose proof (loaders_leave_cursors_alone HL) as Halone.
  unfold Etl.load in H. subst pages.
  destruct (Etl.paginate base_url _) as [pages err]. cbn [fst].
  destruct (Etl.load_pages L now 0 db pages faults 0) as [[db1 ev1] r] eqn:Hloop.
  assert (Hsame : db' = db1 /\ ev = ev1) by (destruct r; inversion H; auto).
  destruct Hsame as [-> ->].
  destruct (@load_pages_spec L Halone now pages _ _ _ _ _ _ _ Hloop) as [Ha Hb].
  split; [|split; [exact Hb|]].
  2:{ intros src' Hne.
      apply (@load_pages_other_source L now src' pages Halone Hne _ _ _ _ _ _ _ Hloop). }
  intros ev0 k url ev2 E.
  destruct (Ha _ _ _ _ E) as (Hne & _ & Hpage & Hearlier).
  rewrite Nat.sub_0_r in Hpage.
  split; [exact Hne|]. split; [exact Hpage|].
  intros j batch next Hj Hnth Hu. apply (Hearlier j batch next); [lia| |exact Hu].
  rewrite Nat.sub_0_r. exact Hnth.
Qed.

End Loaders.

(** The tender loader against an upstream that serves one page and then
    fails: the run raises, the page is committed, and the stored cursor is the
    next-cursor of that page. *)
Lemma C9_checkpoint_follows_commit_witness :
  exists db' ev,
    Etl._load_trd_buy Examples.no_parse Examples.no_float "https://ows" 0 1000 5
      Etl.declared_database Examples.one_page_then_failure []
    = (db', ev, Raise TransportError)
    /\ ev = [Etl.Committed 0;
             Etl.CursorSaved 0 "https://ows/v3/trd-buy?page=next&search_after=2"]
    /\ Etl._get_cursor db' "backfill_trd_buy"
       = Some (VStr "https://ows/v3/trd-buy?page=next&search_after=2")
    /\ List.length (Pg.t_rows (Etl.d_trd_buy db')) = 2%nat.
Proof.
  destruct (Etl._load_trd_buy Examples.no_parse Examples.no_float "https://ows" 0 1000 5
              Etl.declared_database Examples.one_page_then_failure [])
    as [[db' ev] out] eqn:E.
  assert (HL : In (Etl.trd_buy_loader Examples.no_parse Examples.no_float 0 1000)
                  (Spec.checkpointed_loaders Examples.no_parse Examples.no_float 0 1000))
    by (right; left; reflexivity).
  destruct (@C9_checkpoint_follows_commit Examples.no_parse Examples.no_float
              "https://ows" 0 1000 _ 5 Etl.declared_database db'
              Examples.one_page_then_failure [] ev out HL E) as (_ & Hcur & _).
  assert (Hev : ev = [Etl.Committed 0;
                      Etl.CursorSaved 0 "https://ows/v3/trd-buy?page=next&search_after=2"]
                /\ out = Raise TransportError
                /\ List.length (Pg.t_rows (Etl.d_trd_buy db')) = 2%nat).
  { vm_compute in E. inversion E; subst. repeat split. }
  destruct Hev as (Hev & -> & Hlen).
  exists db', ev. split; [reflexivity|]. split; [exact Hev|]. split; [|exact Hlen].
  cbn [Etl.source Etl.trd_buy_loader] in Hcur.
  rewrite Hcur, Hev. reflexivity.
Defined.

End BackfillFacts.

(* ===================================================================== *)
(** ** Further properties of the indicators                              *)
(* ===================================================================== *)

Module IndicatorProps.

Import PyFacts SqlFacts.

Lemma inject_Z_nonzero (z : Z) : z <> 0 -> ~ (inject_Z z == 0)%Q.
Proof. intros H E. apply H. unfold Qeq in E. simpl in E. lia. Qed.

Lemma count_nonneg {A} (l : list A) : 0 <= Sql.count l.
Proof. unfold Sql.count. lia. Qed.

Lemma filter_narrow {A} (p q : A -> bool) (l : list A) :
  (forall x, p x = true -> q x = true) ->
  filter p (filter q l) = filter p l.
Proof.
  intro H. induction l as [|x l IH]; [reflexivity|].
  cbn [filter]. destruct (q x) eqn:Hq.
  - cbn [filter]. rewrite IH. reflexivity.
  - rewrite IH. destruct (p x) eqn:Hp; [|reflexivity].
    apply H in Hp. congruence.
Qed.

Lemma count_filter_le {A} (p q : A -> bool) (l : list A) :
  (forall x, p x = true -> q x = true) ->
  Sql.count (filter p l) <= Sql.count (filter q l).
Proof.
  intro H. unfold Sql.count. apply inj_le.
  induction l as [|x l IH]; [apply le_n|].
  cbn [filter]. destruct (p x) eqn:Hp.
  - rewrite (H _ Hp). cbn [List.length]. lia.
  - destruct (q x); cbn [List.length]; lia.
Qed.

Lemma count_filter_all {A} (p : A -> bool) (l : list A) :
  Sql.count (filter p l) <= Sql.count l.
Proof. unfold Sql.count. apply inj_le. apply filter_length_le. Qed.

Lemma ratio_bounds (a b : Z) :
  0 <= a <= b -> 0 < b -> (0 <= inject_Z a / inject_Z b * 100 <= 100)%Q.
Proof.
  intros [Ha Hab] Hb.
  assert (Hb' : (0 < inject_Z b)%Q)
    by (change 0%Q with (inject_Z 0); rewrite <- Zlt_Qlt; exact Hb).
  assert (H0 : (0 <= inject_Z a / inject_Z b)%Q).
  { apply Qle_shift_div_l; [exact Hb'|].
    change 0%Q with (inject_Z 0). rewrite <- inject_Z_mult, <- Zle_Qle. lia. }
  assert (H1 : (inject_Z a / inject_Z b <= 1)%Q).
  { apply Qle_shift_div_r; [exact Hb'|].
    change 1%Q with (inject_Z 1). rewrite <- inject_Z_mult, <- Zle_Qle. lia. }
  split; lra.
Qed.

(** The four indicators that divide. *)
Lemma recurring_winner_ok (db : Store) (customer supplier : string) :
  exists r, check_recurring_winner db customer supplier = Ok r.
Proof.
  unfold check_recurring_winner.
  destruct (Z.eqb _ 0) eqn:E; [eexists; reflexivity|].
  apply Z.eqb_neq in E.
  rewrite truediv_ok by (apply inject_Z_nonzero; exact E).
  cbn [bind]. eexists; reflexivity.
Qed.

Lemma top_group_from {K} (groups : list (K * Z)) :
  forall (best : option (K * Z)) (g : K * Z),
    fold_left (fun best g =>
                 match best with
                 | None => Some g
                 | Some b => if Z.ltb (snd b) (snd g) then Some g else Some b
                 end) groups best = Some g ->
    In g groups \/ best = Some g.
Proof.
  induction groups as [|x groups IH]; intros best g H; cbn [fold_left] in H.
  - right. exact H.
  - apply IH in H. destruct H as [H|H]; [left; right; exact H|].
    destruct best as [b|].
    + destruct (Z.ltb (snd b) (snd x)).
      * inversion H; subst. left. left. reflexivity.
      * right. exact H.
    + inversion H; subst. left. left. reflexivity.
Qed.

Lemma top_group_In {K} (groups : list (K * Z)) (g : K * Z) :
  top_group groups = Some g -> In g groups.
Proof.
  intro H. apply top_group_from in H. destruct H as [H|H]; [exact H|discriminate].
Qed.

Lemma supplier_concentration_ok (db : Store) (supplier : string) :
  exists r, check_supplier_concentration db supplier = Ok r.
Proof.
  unfold check_supplier_concentration.
  destruct (Z.ltb _ 5) eqn:E; [eexists; reflexivity|].
  apply Z.ltb_ge in E.
  destruct (top_group _) as [[k cnt]|]; [|eexists; reflexivity].
  rewrite truediv_ok by (apply inject_Z_nonzero; lia).
  cbn [bind]. eexists; reflexivity.
Qed.

Lemma addendum_value_increase_ok (db : Store) (contract_id : Z) :
  exists r, check_addendum_value_increase db contract_id = Ok r.
Proof.
  unfold check_addendum_value_increase.
  destruct (contract_by_id db contract_id) as [row|]; [|eexists; reflexivity].
  destruct (negb (truthy_Z (c_root_id row))); [eexists; reflexivity|].
  destruct (c_root_id row) as [root_id|]; [|eexists; reflexivity].
  destruct (contract_by_id db root_id) as [root|]; [|eexists; reflexivity].
  destruct (c_contract_sum_wnds root) as [root_sum|] eqn:Eroot;
    [|cbn; eexists; reflexivity].
  destruct (c_contract_sum_wnds row) as [row_sum|] eqn:Erow;
    [|cbn; rewrite orb_true_r; eexists; reflexivity].
  cbn [truthy_Q]. rewrite !negb_involutive.
  destruct (Qeq_bool root_sum 0) eqn:Ez; [eexists; reflexivity|].
  destruct (Qeq_bool row_sum 0); [eexists; reflexivity|].
  cbn [orb]. unfold truediv. rewrite Ez. cbn [bind]. eexists; reflexivity.
Qed.

Lemma high_win_rate_ok (db : Store) (supplier : string) :
  exists r, check_high_win_rate_few_bids db supplier = Ok r.
Proof.
  unfold check_high_win_rate_few_bids.
  destruct (Z.ltb _ 5) eqn:E; [eexists; reflexivity|].
  apply Z.ltb_ge in E.
  destruct (Z.ltb 0 _) eqn:E0.
  - rewrite truediv_ok by (apply inject_Z_nonzero; lia).
    cbn [bind]. eexists; reflexivity.
  - cbn [bind]. eexists; reflexivity.
Qed.

Lemma last_minute_changes_ok (db : Store) (trd_buy_id : Z) :
  exists r, check_last_minute_changes db trd_buy_id = Ok r.
Proof.
  unfold check_last_minute_changes.
  destruct (Sql.first _) as [row|]; [|eexists; reflexivity].
  destruct (tb_end_date row), (tb_last_update_at row); eexists; reflexivity.
Qed.

Lemma short_deadline_ok (db : Store) (id : Z) :
  exists r, check_short_deadline db id = Ok r.
Proof.
  unfold check_short_deadline. destruct (Sql.first _) as [row|]; [|eexists; reflexivity].
  destruct (tb_start_date row), (tb_end_date row); eexists; reflexivity.
Qed.

Lemma win_min_then_addendum_ok (db : Store) (id : Z) :
  exists r, check_win_min_then_addendum db id = Ok r.
Proof.
  unfold check_win_min_then_addendum.
  destruct (contract_by_id db id) as [c|]; [|eexists; reflexivity].
  destruct (negb _); [eexists; reflexivity|].
  destruct (Sql.first _) as [a|]; [|eexists; reflexivity].
  destruct (c_sign_date a), (c_sign_date c); eexists; reflexivity.
Qed.

Lemma weird_execution_time_ok (db : Store) (id : Z) :
  exists r, check_weird_execution_time db id = Ok r.
Proof.
  unfold check_weird_execution_time.
  destruct (contract_by_id db id) as [c|]; [|eexists; reflexivity].
  destruct (c_sign_date c), (c_plan_exec_date c); eexists; reflexivity.
Qed.

Lemma rnu_flag_ok (db : Store) (supplier : string) :
  exists r, check_rnu_flag db supplier = Ok r.
Proof. unfold check_rnu_flag. destruct (Sql.first _); eexists; reflexivity. Qed.

Lemma dumping_flag_ok (db : Store) (id : Z) :
  exists r, check_dumping_flag db id = Ok r.
Proof. unfold check_dumping_flag. destruct (Sql.first _); eexists; reflexivity. Qed.

Lemma new_company_ok (now : datetime) (db : Store) (supplier : string) (sum : Q) :
  exists r, check_new_company_big_contract now db supplier sum = Ok r.
Proof.
  unfold check_new_company_big_contract.
  destruct (Sql.first _) as [row|]; [|eexists; reflexivity].
  destruct (s_regdate row); [eexists; reflexivity|].
  destruct (s_crdate row); eexists; reflexivity.
Qed.

Lemma payment_without_act_ok (db : Store) (id : Z) :
  exists r, check_payment_without_act db id = Ok r.
Proof.
  unfold check_payment_without_act. destruct (Z.eqb _ 0); eexists; reflexivity.
Qed.

Lemma carousel_pattern_ok (db : Store) (customer : string) :
  exists r, check_carousel_pattern db customer = Ok r.
Proof.
  unfold check_carousel_pattern.
  destruct (Z.ltb _ 6); [eexists; reflexivity|].
  destruct (Z.ltb _ 2); eexists; reflexivity.
Qed.

Lemma common_requisites_ok (db : Store) (id : Z) :
  exists r, check_common_requisites db id = Ok r.
Proof.
  unfold check_common_requisites. destruct (Z.ltb _ 2); eexists; reflexivity.
Qed.

(** X1.  No indicator raises.  On every store and for every argument each of
    the sixteen indicators returns its result dict: the four divisions
    (win rate, concentration, addendum increase, hours before the deadline)
    are all guarded, so [ZeroDivisionError] cannot occur.
    [check_payment_without_act] is taken with the [acts] relation it reads
    by raw SQL present. *)
Theorem indicators_never_raise (now : datetime) (db : Store) :
  (forall id, exists r, check_short_deadline db id = Ok r)
  /\ (forall id, exists r, check_few_bids db id = Ok r)
  /\ (forall id, exists r, check_lot_splitting db id = Ok r)
  /\ (forall customer supplier, exists r,
        check_recurring_winner db customer supplier = Ok r)
  /\ (forall supplier, exists r, check_supplier_concentration db supplier = Ok r)
  /\ (forall id, exists r, check_addendum_value_increase db id = Ok r)
  /\ (forall id, exists r, check_win_min_then_addendum db id = Ok r)
  /\ (forall id, exists r, check_weird_execution_time db id = Ok r)
  /\ (forall supplier, exists r, check_rnu_flag db supplier = Ok r)
  /\ (forall id, exists r, check_dumping_flag db id = Ok r)
  /\ (forall supplier sum, exists r,
        check_new_company_big_contract now db supplier sum = Ok r)
  /\ (forall id, exists r, check_payment_without_act db id = Ok r)
  /\ (forall supplier, exists r, check_high_win_rate_few_bids db supplier = Ok r)
  /\ (forall customer, exists r, check_carousel_pattern db customer = Ok r)
  /\ (forall id, exists r, check_last_minute_changes db id = Ok r)
  /\ (forall id, exists r, check_common_requisites db id = Ok r).
Proof.
  repeat split; intros;
    first [ apply short_deadline_ok | apply recurring_winner_ok
          | apply supplier_concentration_ok | apply addendum_value_increase_ok
          | apply win_min_then_addendum_ok | apply weird_execution_time_ok
          | apply rnu_flag_ok | apply dumping_flag_ok | apply new_company_ok
          | apply payment_without_act_ok | apply high_win_rate_ok
          | apply carousel_pattern_ok | apply last_minute_changes_ok
          | apply common_requisites_ok | (eexists; reflexivity) ].
Qed.

(** X2.  The two percentage indicators stay in range.  Whatever the contract
    table holds, [check_recurring_winner] and [check_supplier_concentration]
    return a value between 0.0 and 100.0: the supplier's contracts are a part
    of the customer's, and the top customer's contracts a part of the
    supplier's, so neither share exceeds the whole. *)
Theorem percentages_within_bounds (db : Store) (customer supplier : string) :
  (exists r v, check_recurring_winner db customer supplier = Ok r
               /\ value r = Some v /\ (0 <= v <= 100)%Q)
  /\ (exists r v, check_supplier_concentration db supplier = Ok r
                  /\ value r = Some v /\ (0 <= v <= 100)%Q).
Proof.
  split.
  - unfold check_recurring_winner.
    destruct (Z.eqb _ 0) eqn:E.
    + exists zero_result, 0%Q. repeat split; try reflexivity; lra.
    + apply Z.eqb_neq in E.
      rewrite truediv_ok by (apply inject_Z_nonzero; exact E).
      cbn [bind]. eexists. eexists. split; [reflexivity|]. split; [reflexivity|].
      match goal with
      | |- (0 <= round1 (inject_Z ?a / inject_Z ?b * 100) <= 100)%Q =>
        assert (Hr : (0 <= inject_Z a / inject_Z b * 100 <= 100)%Q)
      end.
      { apply ratio_bounds.
        - split; [apply count_nonneg|].
          apply count_filter_le. intros x Hx.
          apply andb_true_iff in Hx. destruct Hx as [Hx Hd].
          apply andb_true_iff in Hx. destruct Hx as [Hc _].
          rewrite Hc, Hd. reflexivity.
        - pose proof (count_nonneg
            (filter (fun c => Sql.eqS (c_customer_bin c) customer
                              && negb (c_is_deleted c)) (contract db))). lia. }
      split; [apply EngineFacts.round1_lower|apply EngineFacts.round1_upper]; apply Hr.
  - unfold check_supplier_concentration.
    destruct (Z.ltb _ 5) eqn:E.
    + exists zero_result, 0%Q. repeat split; try reflexivity; lra.
    + apply Z.ltb_ge in E.
      destruct (top_group _) as [[k cnt]|] eqn:Etop.
      * apply top_group_In in Etop. apply in_map_iff in Etop.
        destruct Etop as (k0 & Hk & _). inversion Hk; subst k0 cnt. clear Hk.
        rewrite truediv_ok by (apply inject_Z_nonzero; lia).
        cbn [bind]. eexists. eexists. split; [reflexivity|]. split; [reflexivity|].
        match goal with
        | |- (0 <= round1 (inject_Z ?a / inject_Z ?b * 100) <= 100)%Q =>
          assert (Hr : (0 <= inject_Z a / inject_Z b * 100 <= 100)%Q)
        end.
        { apply ratio_bounds; [|lia].
          split; [apply count_nonneg|apply count_filter_all]. }
        split; [apply EngineFacts.round1_lower|apply EngineFacts.round1_upper]; apply Hr.
      * exists zero_result, 0%Q. repeat split; try reflexivity; lra.
Qed.

Ltac narrow :=
  rewrite ?filter_narrow
    by (let x := fresh in let H := fresh in
        intros x H; repeat (apply andb_true_iff in H; destruct H as [H ?]);
        assumption).

(** X3.  The aggregate indicators never read a soft-deleted row.  Removing
    every soft-deleted contract and lot from the store leaves the results of
    [check_recurring_winner], [check_supplier_concentration],
    [check_lot_splitting], [check_high_win_rate_few_bids] and
    [check_carousel_pattern] unchanged, flag, value and evidence alike. *)
Theorem aggregates_ignore_soft_deleted (db : Store) :
  (forall customer supplier,
      check_recurring_winner (Props.purge db) customer supplier
      = check_recurring_winner db customer supplier)
  /\ (forall supplier,
      check_supplier_concentration (Props.purge db) supplier
      = check_supplier_concentration db supplier)
  /\ (forall id, check_lot_splitting (Props.purge db) id = check_lot_splitting db id)
  /\ (forall supplier,
      check_high_win_rate_few_bids (Props.purge db) supplier
      = check_high_win_rate_few_bids db supplier)
  /\ (forall customer,
      check_carousel_pattern (Props.purge db) customer
      = check_carousel_pattern db customer).
Proof.
  repeat split; intros.
  - unfold check_recurring_winner, Props.purge. cbn [contract]. narrow. reflexivity.
  - unfold check_supplier_concentration, Props.purge. cbn [contract]. narrow. reflexivity.
  - unfold check_lot_splitting, lot_splitting_rows, Props.purge. cbn [lots].
    narrow. reflexivity.
  - unfold check_high_win_rate_few_bids, Props.purge. cbn [contract trd_app].
    narrow. reflexivity.
  - unfold check_carousel_pattern, carousel_rows, Props.purge. cbn [contract].
    narrow. reflexivity.
Qed.

Lemma days_lt (later earlier n : Z) :
  days later earlier < n <-> later - earlier < n * usec_per_day.
Proof.
  unfold days, usec_per_day. split; intro H.
  - Z.to_euclidean_division_equations. lia.
  - Z.to_euclidean_division_equations. lia.
Qed.

Lemma days_le (later earlier n : Z) :
  days later earlier <= n <-> later - earlier < (n + 1) * usec_per_day.
Proof.
  unfold days, usec_per_day. split; intro H.
  - Z.to_euclidean_division_equations. lia.
  - Z.to_euclidean_division_equations. lia.
Qed.

(** X4.  Deadlines are counted in whole elapsed days.  [timedelta.days]
    floors, so a tender is flagged by [check_short_deadline] exactly when its
    acceptance window is shorter than 72 hours (including an end before the
    start), and a contract that carries a root id is flagged by
    [check_win_min_then_addendum] exactly when its earliest addendum was
    signed less than 31 full days after it (an addendum dated before the
    contract included).  A contract without a root id (NULL or 0) is never
    flagged, whatever its addenda: the function returns its empty result. *)
Theorem deadlines_count_whole_days (db : Store) :
  (forall id row start_date end_date,
      Props.tender_by_id db id = Some row ->
      tb_start_date row = Some start_date ->
      tb_end_date row = Some end_date ->
      exists r, check_short_deadline db id = Ok r
                /\ (flag r = true <-> end_date - start_date < 3 * usec_per_day)
                /\ value r = Some (inject_Z ((end_date - start_date) / usec_per_day)))
  /\ (forall id con addendum signed addendum_signed,
      contract_by_id db id = Some con ->
      truthy_Z (c_root_id con) = true ->
      Props.first_addendum db id = Some addendum ->
      c_sign_date con = Some signed ->
      c_sign_date addendum = Some addendum_signed ->
      exists r, check_win_min_then_addendum db id = Ok r
                /\ (flag r = true <-> addendum_signed - signed < 31 * usec_per_day)
                /\ value r = Some (inject_Z ((addendum_signed - signed) / usec_per_day)))
  /\ (forall id con,
      contract_by_id db id = Some con ->
      truthy_Z (c_root_id con) = false ->
      check_win_min_then_addendum db id = Ok empty_result).
Proof.
  split; [|split].
  - intros id row s e Hrow Hs He.
    unfold check_short_deadline. unfold Props.tender_by_id in Hrow.
    rewrite Hrow, Hs, He. eexists. split; [reflexivity|].
    cbn [flag value]. split; [|reflexivity].
    rewrite Z.ltb_lt. apply days_lt.
  - intros id con a s sa Hcon Hroot Ha Hs Hsa.
    unfold check_win_min_then_addendum. unfold Props.first_addendum in Ha.
    rewrite Hcon, Hroot. cbn [negb]. rewrite Ha, Hs, Hsa.
    eexists. split; [reflexivity|].
    cbn [flag value]. split; [|reflexivity].
    rewrite Z.leb_le. apply days_le.
  - intros id con Hcon Hroot.
    unfold check_win_min_then_addendum. rewrite Hcon, Hroot. reflexivity.
Qed.

Lemma deadlines_count_whole_days_witness :
  (exists r, check_short_deadline Cases.short_tender_store 1 = Ok r
             /\ flag r = true /\ value r = Some 2%Q)
  /\ (exists r, check_win_min_then_addendum Cases.quick_addendum_store 1 = Ok r
                /\ flag r = true /\ value r = Some 5%Q)
  /\ check_win_min_then_addendum Cases.rootless_store 1 = Ok empty_result.
Proof.
  split; [|split].
  - destruct (proj1 (deadlines_count_whole_days Cases.short_tender_store)
                1 Cases.short_tender 0 (3 * usec_per_day - 3600000000)
                eq_refl eq_refl eq_refl) as (r & Hr & Hflag & Hval).
    exists r. split; [exact Hr|]. split.
    + apply Hflag. vm_compute. reflexivity.
    + rewrite Hval. reflexivity.
  - destruct (proj1 (proj2 (deadlines_count_whole_days Cases.quick_addendum_store))
                1 Cases.ordinary_contract Cases.quick_addendum 0 (5 * usec_per_day)
                eq_refl eq_refl eq_refl eq_refl eq_refl) as (r & Hr & Hflag & Hval).
    exists r. split; [exact Hr|]. split.
    + apply Hflag. vm_compute. reflexivity.
    + rewrite Hval. reflexivity.
  - exact (proj2 (proj2 (deadlines_count_whole_days Cases.rootless_store))
             1 Cases.rootless_contract eq_refl eq_refl).
Defined.

(** X5.  [check_weird_execution_time] on a contract with both dates: it is
    flagged exactly when the planned execution falls less than 7 full days
    after signing or at least 731 days after it, and the [anomaly] evidence
    is "too_short" in the first case and "too_long" in every other case, not
    flagged contracts included. *)
Theorem weird_execution_time_rule (db : Store) (id : Z) (row : Contract)
  (sign_date plan_exec_date : datetime) :
  contract_by_id db id = Some row ->
  c_sign_date row = Some sign_date ->
  c_plan_exec_date row = Some plan_exec_date ->
  exists r,
    check_weird_execution_time db id = Ok r
    /\ (flag r = true <->
        plan_exec_date - sign_date < 7 * usec_per_day
        \/ 731 * usec_per_day <= plan_exec_date - sign_date)
    /\ (plan_exec_date - sign_date < 7 * usec_per_day ->
        Props.evidence_of "anomaly" r = Some (VStr "too_short"))
    /\ (7 * usec_per_day <= plan_exec_date - sign_date ->
        Props.evidence_of "anomaly" r = Some (VStr "too_long")).
Proof.
  intros Hrow Hs Hp. unfold check_weird_execution_time.
  rewrite Hrow, Hs, Hp. eexists. split; [reflexivity|].
  cbn [flag]. unfold Props.evidence_of. cbn [evidence Pg.get String.eqb Ascii.eqb Bool.eqb].
  pose proof (days_lt plan_exec_date sign_date 7) as H7.
  pose proof (days_le plan_exec_date sign_date 730) as H730.
  change (730 + 1) with 731 in H730.
  repeat split.
  - intro H. apply orb_true_iff in H. destruct H as [H|H].
    + left. apply H7. apply Z.ltb_lt. exact H.
    + right. apply Z.ltb_lt in H. lia.
  - intros [H|H]; apply orb_true_iff.
    + left. apply Z.ltb_lt. apply H7. exact H.
    + right. apply Z.ltb_lt. lia.
  - intro H. apply H7 in H. apply Z.ltb_lt in H. rewrite H. reflexivity.
  - intro H. destruct (Z.ltb _ 7) eqn:E; [|reflexivity].
    apply Z.ltb_lt in E. apply H7 in E. lia.
Qed.

Lemma weird_execution_time_rule_witness :
  exists r, check_weird_execution_time Cases.ordinary_contract_store 1 = Ok r
            /\ flag r = false
            /\ Props.evidence_of "anomaly" r = Some (VStr "too_long").
Proof.
  destruct (@weird_execution_time_rule Cases.ordinary_contract_store 1
              Cases.ordinary_contract 0 (30 * usec_per_day)
              eq_refl eq_refl eq_refl) as (r & Hr & Hflag & _ & Hlong).
  exists r. split; [exact Hr|]. split.
  - destruct (flag r); [|reflexivity]. exfalso.
    destruct (proj1 Hflag eq_refl) as [E|E]; vm_compute in E;
      [discriminate E|apply E; reflexivity].
  - apply Hlong. vm_compute. discriminate.
Defined.

Lemma mem_opt_In (s : option string) (seen : list (option string)) :
  Sql.mem (Sql.opt_eqb String.eqb) s seen = true <-> In s seen.
Proof.
  unfold Sql.mem. rewrite existsb_exists. split.
  - intros (x & Hx & E). apply opt_string_eqb_eq in E. subst. exact Hx.
  - intro H. exists s. split; [exact H|]. apply opt_string_eqb_eq. reflexivity.
Qed.

Lemma count_rotations_bounds (l : list (option string)) :
  forall seen acc,
    acc <= count_rotations l seen acc <= acc + Z.of_nat (List.length l).
Proof.
  induction l as [|s l IH]; intros seen acc; cbn [count_rotations List.length].
  - lia.
  - destruct (Sql.mem _ s seen).
    + specialize (IH [s] (acc + 1)). lia.
    + specialize (IH (s :: seen) acc). lia.
Qed.

Lemma count_rotations_none (l : list (option string)) :
  forall seen acc,
    count_rotations l seen acc = acc
    <-> NoDup l /\ forall x, In x l -> ~ In x seen.
Proof.
  induction l as [|s l IH]; intros seen acc; cbn [count_rotations].
  - split; [intros _; split; [constructor|intros x []]|reflexivity].
  - destruct (Sql.mem _ s seen) eqn:E.
    + apply mem_opt_In in E. split.
      * intro H. pose proof (count_rotations_bounds l [s] (acc + 1)). lia.
      * intros [_ H]. exfalso. apply (H s); [left; reflexivity|exact E].
    + assert (Hs : ~ In s seen).
      { intro H. apply mem_opt_In in H. congruence. }
      rewrite IH. split.
      * intros [Hnd H]. split.
        -- constructor; [|exact Hnd]. intro Hin. apply (H s Hin). left. reflexivity.
        -- intros x [Hx|Hx]; [subst; exact Hs|].
           intro Hin. apply (H x Hx). right. exact Hin.
      * intros [Hnd H]. inversion Hnd; subst. split; [assumption|].
        intros x Hx [Hin|Hin].
        -- subst. contradiction.
        -- apply (H x); [right; exact Hx|exact Hin].
Qed.

(** X6.  The rotation counter of [check_carousel_pattern].  It is zero
    exactly when no supplier occurs twice in the sequence, and never exceeds
    the number of contracts minus one; so a customer whose sampled contracts
    all went to different suppliers is never flagged, however many suppliers
    took turns. *)
Theorem carousel_needs_a_repeat :
  (forall suppliers, count_rotations suppliers [] 0 = 0 <-> NoDup suppliers)
  /\ (forall s suppliers,
        0 <= count_rotations (s :: suppliers) [] 0 <= Z.of_nat (List.length suppliers))
  /\ (forall db customer r,
        check_carousel_pattern db customer = Ok r ->
        NoDup (map c_supplier_biin (carousel_rows db customer)) ->
        flag r = false /\ value r = Some 0%Q).
Proof.
  split; [|split].
  - intro l. rewrite count_rotations_none. split; [tauto|].
    intro H. split; [exact H|]. intros x _ [].
  - intros s l. cbn [count_rotations Sql.mem existsb].
    pose proof (count_rotations_bounds l [s] 0). lia.
  - intros db customer r H Hnd. unfold check_carousel_pattern in H.
    destruct (Z.ltb _ 6); [inversion H; subst; split; reflexivity|].
    destruct (Z.ltb _ 2); [inversion H; subst; split; reflexivity|].
    inversion H; subst; clear H. cbn [flag value].
    assert (E : count_rotations (map c_supplier_biin (carousel_rows db customer)) [] 0 = 0).
    { apply count_rotations_none. split; [exact Hnd|]. intros x _ []. }
    rewrite E. split; reflexivity.
Qed.

End IndicatorProps.

(* ===================================================================== *)
(** ** Further properties of the feature engine                          *)
(* ===================================================================== *)

Module EngineProps.

Import PyFacts PgFacts EngineFacts IndicatorProps.

Lemma few_bids_ok (db : Store) (id : Z) : exists r, check_few_bids db id = Ok r.
Proof. eexists; reflexivity. Qed.

Lemma lot_splitting_ok (db : Store) (id : Z) : exists r, check_lot_splitting db id = Ok r.
Proof. eexists; reflexivity. Qed.

Ltac indicator_step :=
  match goal with
  | |- context [bind (check_dumping_flag ?d ?i) _] =>
    destruct (dumping_flag_ok d i) as [? ->]
  | |- context [bind (check_short_deadline ?d ?i) _] =>
    destruct (short_deadline_ok d i) as [? ->]
  | |- context [bind (check_few_bids ?d ?i) _] =>
    destruct (few_bids_ok d i) as [? ->]
  | |- context [bind (check_lot_splitting ?d ?i) _] =>
    destruct (lot_splitting_ok d i) as [? ->]
  | |- context [bind (check_last_minute_changes ?d ?i) _] =>
    destruct (last_minute_changes_ok d i) as [? ->]
  | |- context [bind (check_common_requisites ?d ?i) _] =>
    destruct (common_requisites_ok d i) as [? ->]
  | |- context [bind (check_recurring_winner ?d ?c ?s) _] =>
    destruct (recurring_winner_ok d c s) as [? ->]
  | |- context [bind (check_carousel_pattern ?d ?c) _] =>
    destruct (carousel_pattern_ok d c) as [? ->]
  | |- context [bind (check_supplier_concentration ?d ?s) _] =>
    destruct (supplier_concentration_ok d s) as [? ->]
  | |- context [bind (check_rnu_flag ?d ?s) _] =>
    destruct (rnu_flag_ok d s) as [? ->]
  | |- context [bind (check_high_win_rate_few_bids ?d ?s) _] =>
    destruct (high_win_rate_ok d s) as [? ->]
  | |- context [bind (check_new_company_big_contract ?n ?d ?s ?q) _] =>
    destruct (new_company_ok n d s q) as [? ->]
  | |- context [bind (check_addendum_value_increase ?d ?i) _] =>
    destruct (addendum_value_increase_ok d i) as [? ->]
  | |- context [bind (check_win_min_then_addendum ?d ?i) _] =>
    destruct (win_min_then_addendum_ok d i) as [? ->]
  | |- context [bind (check_weird_execution_time ?d ?i) _] =>
    destruct (weird_execution_time_ok d i) as [? ->]
  | |- context [bind (check_payment_without_act ?d ?i) _] =>
    destruct (payment_without_act_ok d i) as [? ->]
  end; cbn [bind].

(** Which indicators the engine evaluates, and that none of them fails. *)
Lemma evaluate_flags_codes (now : datetime) (db : Store) (lot : Lot)
  (contract : option Contract) :
  exists flags,
    Engine.evaluate_flags now db lot contract = Ok flags
    /\ map fst flags = Props.evaluated_codes lot contract.
Proof.
  unfold Engine.evaluate_flags, Props.evaluated_codes, Props.has_tender,
    Props.has_customer, Props.has_supplier, truthy_Z, truthy_str.
  destruct (lot_trd_buy_id lot) as [t|]; [destruct (Z.eqb t 0)|];
    (destruct (lot_customer_bin lot) as [cb|]; [destruct (String.eqb cb "")|]);
    (destruct contract as [con|];
     [destruct (c_supplier_biin con) as [sb|]; [destruct (String.eqb sb "")|]|]);
    cbn [negb andb orb]; repeat indicator_step;
    (eexists; split; [reflexivity|reflexivity]).
Qed.

Lemma distinct_NoDup (l : list string) : NoDup (Sql.distinct String.eqb l).
Proof.
  induction l as [|x l IH]; cbn [Sql.distinct]; constructor.
  - intro H. apply filter_In in H. destruct H as [_ H].
    rewrite String.eqb_refl in H. discriminate.
  - apply NoDup_filter. exact IH.
Qed.

Lemma NoDup_by_distinct (l : list string) : Sql.distinct String.eqb l = l -> NoDup l.
Proof. intro H. rewrite <- H. apply distinct_NoDup. Qed.

(** X7.  Which indicators a pass evaluates.  [compute_lot_score] always
    evaluates DUMPING_FLAG; the five tender indicators when the lot has a
    tender id; RECURRING_WINNER and CAROUSEL_PATTERN when the lot has a
    customer and its contract a supplier; the four supplier indicators when
    the contract has a supplier; the four contract indicators when there is
    a contract.  The codes are pairwise distinct, between 1 and 16, and a
    lot whose tender has no live contract is scored on the lot and tender
    indicators only.  None of them raises, [check_payment_without_act] taken
    with the [acts] relation it reads present. *)
Theorem evaluated_indicators (now : datetime) (db : Store) (lot : Lot)
  (contract : option Contract) :
  exists flags,
    Engine.evaluate_flags now db lot contract = Ok flags
    /\ map fst flags = Props.evaluated_codes lot contract
    /\ NoDup (map fst flags)
    /\ (1 <= List.length flags <= 16)%nat
    /\ (contract = None ->
        incl (map fst flags) (Props.lot_codes ++ Props.tender_codes)).
Proof.
  destruct (evaluate_flags_codes now db lot contract) as (flags & Hflags & Hcodes).
  exists flags. split; [exact Hflags|]. split; [exact Hcodes|].
  assert (Hlen : List.length flags = List.length (Props.evaluated_codes lot contract))
    by (rewrite <- Hcodes; symmetry; apply length_map).
  rewrite Hlen, Hcodes. clear Hflags Hcodes Hlen.
  unfold Props.evaluated_codes, Props.has_supplier.
  split; [|split].
  - destruct (Props.has_tender lot), (Props.has_customer lot),
      contract as [con|]; try destruct (truthy_str (c_supplier_biin con));
      apply NoDup_by_distinct; vm_compute; reflexivity.
  - destruct (Props.has_tender lot), (Props.has_customer lot),
      contract as [con|]; try destruct (truthy_str (c_supplier_biin con));
      cbn; lia.
  - intro Hc. subst contract. rewrite andb_false_r.
    destruct (Props.has_tender lot); cbn [app].
    + rewrite !app_nil_r. apply incl_refl.
    + intros x Hx. apply in_or_app. left. exact Hx.
Qed.

Lemma evaluated_indicators_witness :
  exists flags,
    Engine.evaluate_flags 0 Examples.dumping_store Examples.dumping_lot None = Ok flags
    /\ map fst flags = ["DUMPING_FLAG"].
Proof.
  destruct (evaluated_indicators 0 Examples.dumping_store Examples.dumping_lot None)
    as (flags & Hflags & Hcodes & _).
  exists flags. split; [exact Hflags|]. rewrite Hcodes. reflexivity.
Defined.


Section RunLoop.

Variable cfg : list (string * (Q * option string)).
Variables low_max medium_max : Q.
Variables t_ind now : datetime.


End RunLoop.


Lemma scored_lot_inv (cfg : list (string * (Q * option string)))
  (low_max medium_max : Q) (t_ind now : datetime) (db db' : Engine.ScoreDb)
  (lot_id : Z) (ret : Engine.lot_score) :
  Engine.compute_lot_score cfg low_max medium_max t_ind now db lot_id = Ok (db', Some ret) ->
  exists lot flags q,
    Props.lot_by_id (Engine.store db) lot_id = Some lot
    /\ Engine.evaluate_flags t_ind (Engine.store db) lot
         (Engine.contract_of_lot (Engine.store db) lot) = Ok flags
    /\ truediv (Engine.raw_score_of cfg flags) (Engine.MAX_SCORE cfg) = Ok q
    /\ Engine.ls_score ret = round1 (Py.min 100 (q * 100))
    /\ Engine.ls_level ret = Engine._get_level low_max medium_max (Engine.ls_score ret)
    /\ Engine.ls_flags_triggered ret = Sql.count (Engine.top_reasons_of cfg flags)
    /\ (match Engine.flag_rows_of now lot_id flags with
        | [] => Ok (Engine.risk_flags db)
        | rows => Pg.insert_do_nothing rows (Engine.risk_flags db)
        end) = Ok (Engine.risk_flags db').
Proof.
  unfold Engine.compute_lot_score, Props.lot_by_id.
  destruct (Sql.first _) as [lot|] eqn:Hlot; [|discriminate].
  intro H.
  apply bind_ok in H. destruct H as (flags & Hflags & H).
  apply bind_ok in H. destruct H as (score & Hscore & H).
  apply bind_ok in H. destruct H as (rf & Hrf & H).
  apply bind_ok in H. destruct H as (rs & Hrs & H).
  inversion H; subst; clear H. cbn.
  unfold Engine._normalize_score in Hscore.
  apply bind_ok in Hscore. destruct Hscore as (q & Hq & Hs). inversion Hs; subst; clear Hs.
  exists lot, flags, q. repeat split; auto.
  destruct (Engine.flag_rows_of now lot_id flags); exact Hrf.
Qed.

Section TopReasons.

Variable cfg : list (string * (Q * option string)).

Lemma insert_desc_perm (x : string * ind_result) (l : list (string * ind_result)) :
  Permutation (Engine.insert_desc cfg x l) (x :: l).
Proof.
  induction l as [|y l IH]; cbn [Engine.insert_desc]; [apply Permutation_refl|].
  destruct (Qltb _ _); [apply Permutation_refl|].
  eapply Permutation_trans; [apply perm_skip; exact IH|apply perm_swap].
Qed.

Lemma insert_desc_sorted (x : string * ind_result) (l : list (string * ind_result)) :
  StronglySorted (Props.heavier cfg) l ->
  StronglySorted (Props.heavier cfg) (Engine.insert_desc cfg x l).
Proof.
  induction l as [|y l IH]; intro Hs; cbn [Engine.insert_desc].
  - constructor; constructor.
  - inversion Hs as [|? ? Hl Hy]; subst.
    destruct (Qltb _ _) eqn:E.
    + apply Qltb_lt in E. constructor; [exact Hs|].
      constructor; [unfold Props.heavier; apply Qlt_le_weak; exact E|].
      eapply Forall_impl; [|exact Hy].
      intros z Hz. unfold Props.heavier in *.
      eapply Qle_trans; [exact Hz|apply Qlt_le_weak; exact E].
    + apply Qltb_ge in E. constructor; [apply IH; exact Hl|].
      eapply Permutation_Forall; [apply Permutation_sym; apply insert_desc_perm|].
      constructor; [exact E|exact Hy].
Qed.

Lemma fold_insert_desc (l : list (string * ind_result)) :
  forall acc,
    StronglySorted (Props.heavier cfg) acc ->
    Permutation (fold_left (fun acc x => Engine.insert_desc cfg x acc) l acc) (acc ++ l)
    /\ StronglySorted (Props.heavier cfg)
         (fold_left (fun acc x => Engine.insert_desc cfg x acc) l acc).
Proof.
  induction l as [|x l IH]; intros acc Hacc; cbn [fold_left].
  - rewrite app_nil_r. split; [apply Permutation_refl|exact Hacc].
  - destruct (IH (Engine.insert_desc cfg x acc) (insert_desc_sorted x Hacc)) as [Hp Hs].
    split; [|exact Hs].
    eapply Permutation_trans; [exact Hp|].
    eapply Permutation_trans;
      [apply Permutation_app_tail; apply insert_desc_perm|].
    cbn [app]. apply Permutation_middle.
Qed.

Lemma sorted_app_inv {A} (R : A -> A -> Prop) (l1 l2 : list A) :
  StronglySorted R (l1 ++ l2) ->
  StronglySorted R l1 /\ forall a b, In a l1 -> In b l2 -> R a b.
Proof.
  induction l1 as [|x l1 IH]; cbn [app]; intro H.
  - split; [constructor|intros a b []].
  - inversion H as [|? ? Hl Hx]; subst. destruct (IH Hl) as [Hs Hr].
    split.
    + constructor; [exact Hs|].
      apply Forall_forall. intros z Hz. rewrite Forall_forall in Hx.
      apply Hx. apply in_or_app. left. exact Hz.
    + intros a b [Ha|Ha] Hb.
      * subst. rewrite Forall_forall in Hx. apply Hx. apply in_or_app. right. exact Hb.
      * apply Hr; assumption.
Qed.

(** X9.  The top reasons are the heaviest triggered indicators.  The list
    persisted as [top_reasons_jsonb] holds one entry per triggered flag,
    for at most three of them, by descending configured weight; every
    triggered indicator left out weighs no more than any one listed. *)
Theorem top_reasons_are_the_heaviest (flags : list (string * ind_result)) :
  exists top rest,
    Engine.top_reasons_of cfg flags = map (Props.reason_entry cfg) top
    /\ Permutation (top ++ rest) (Props.triggered flags)
    /\ List.length top = Nat.min 3 (List.length (Props.triggered flags))
    /\ StronglySorted (Props.heavier cfg) top
    /\ forall a b, In a top -> In b rest -> Props.heavier cfg a b.
Proof.
  destruct (@fold_insert_desc (Props.triggered flags) [] (SSorted_nil _)) as [Hp Hs].
  cbn [app] in Hp.
  exists (firstn 3 (Engine.sorted_desc cfg (Props.triggered flags))),
         (skipn 3 (Engine.sorted_desc cfg (Props.triggered flags))).
  split; [reflexivity|].
  rewrite firstn_skipn. unfold Engine.sorted_desc.
  split; [exact Hp|]. split.
  - rewrite length_firstn. rewrite (Permutation_length Hp). reflexivity.
  - apply sorted_app_inv. rewrite firstn_skipn. exact Hs.
Qed.

End TopReasons.

Lemma triggered_nil_raw (cfg : list (string * (Q * option string)))
  (flags : list (string * ind_result)) :
  Props.triggered flags = [] -> (Engine.raw_score_of cfg flags == 0)%Q.
Proof.
  intro H. rewrite raw_score_spec. unfold Spec.raw_score, Spec.triggered_codes.
  unfold Props.triggered in H. rewrite H. reflexivity.
Qed.

(** X10.  A lot on which no indicator is triggered.  When [low_max] is not
    negative, a completed pass over such a lot persists score 0.0 and level
    LOW: the risk_scores row of the lot holds them, with an empty list of
    top reasons; and the pass returns score 0.0, level LOW and
    flags_triggered = 0. *)
Theorem untriggered_lot_scores_zero (cfg : list (string * (Q * option string)))
  (low_max medium_max : Q) (t_ind now : datetime) (db db' : Engine.ScoreDb)
  (lot_id : Z) (ret : Engine.lot_score) (lot : Lot) (flags : list (string * ind_result)) :
  (0 <= low_max)%Q ->
  Props.lot_by_id (Engine.store db) lot_id = Some lot ->
  Engine.evaluate_flags t_ind (Engine.store db) lot
    (Engine.contract_of_lot (Engine.store db) lot) = Ok flags ->
  Props.triggered flags = [] ->
  Engine.compute_lot_score cfg low_max medium_max t_ind now db lot_id = Ok (db', Some ret) ->
  (Engine.ls_score ret == 0)%Q
  /\ Engine.ls_level ret = "LOW"
  /\ Engine.ls_flags_triggered ret = 0
  /\ exists row score,
       In row (Pg.t_rows (Engine.risk_scores db'))
       /\ Pg.get "entity_type" row = Some (VStr "lot")
       /\ Pg.get "entity_id" row = Some (VStr (str_of_Z lot_id))
       /\ Pg.get "score" row = Some (VNum score)
       /\ (score == 0)%Q
       /\ Pg.get "level" row = Some (VStr "LOW")
       /\ Pg.get "top_reasons_jsonb" row = Some (VList []).
Proof.
  intros Hlow Hlot Hflags Hnone H.
  destruct (scored_lot_inv _ _ _ _ _ _ _ H)
    as (lot' & flags' & q & Hlot' & Hflags' & Hq & Hscore & Hlevel & Hcount & _).
  destruct (EngineFacts.compute_lot_score_inv _ _ _ _ _ _ _ H)
    as (lot2 & flags2 & _ & _ & Hlot2 & Hflags2 & _ & _ & _ & _ & _ & _ & _ & Hrs).
  rewrite Hlot in Hlot'. inversion Hlot'; subst lot'. clear Hlot'.
  rewrite Hflags in Hflags'. inversion Hflags'; subst flags'. clear Hflags'.
  unfold Props.lot_by_id in Hlot. rewrite Hlot in Hlot2.
  inversion Hlot2; subst lot2. clear Hlot2.
  rewrite Hflags in Hflags2. inversion Hflags2; subst flags2. clear Hflags2.
  assert (Hq0 : (q == 0)%Q).
  { unfold truediv in Hq. destruct (Qeq_bool (Engine.MAX_SCORE cfg) 0) eqn:E; [discriminate|].
    inversion Hq; subst q. rewrite (triggered_nil_raw cfg flags Hnone).
    unfold Qdiv. apply Qmult_0_l. }
  assert (Hs : Engine.ls_score ret = round1 (Py.min 100 0)).
  { rewrite Hscore. apply round1_comp. apply min_comp. rewrite Hq0. reflexivity. }
  assert (Hz : (Engine.ls_score ret == 0)%Q) by (rewrite Hs; reflexivity).
  assert (HL : Engine.ls_level ret = "LOW").
  { rewrite Hlevel. apply get_level_cases. rewrite Hz. exact Hlow. }
  assert (Htop : Engine.top_reasons_of cfg flags = []).
  { unfold Engine.top_reasons_of. unfold Props.triggered in Hnone. rewrite Hnone.
    reflexivity. }
  split; [exact Hz|]. split; [exact HL|]. split.
  - rewrite Hcount, Htop. reflexivity.
  - destruct (EngineFacts.score_upsert_row _ _ _ _ _ _ Hrs)
      as (row & Hin & G1 & G2 & G3 & G4 & G5).
    exists row, (Engine.ls_score ret). rewrite HL in G4. rewrite Htop in G5.
    split; [exact Hin|]. split; [exact G1|]. split; [exact G2|]. split; [exact G3|].
    split; [exact Hz|]. split; [exact G4|exact G5].
Qed.

Lemma untriggered_lot_scores_zero_witness :
  exists db' ret row,
    Engine.compute_lot_score Examples.cfg 30 60 0 0 Cases.quiet_db 1 = Ok (db', Some ret)
    /\ (Engine.ls_score ret == 0)%Q
    /\ Engine.ls_level ret = "LOW"
    /\ Engine.ls_flags_triggered ret = 0
    /\ In row (Pg.t_rows (Engine.risk_scores db'))
    /\ Pg.get "level" row = Some (VStr "LOW").
Proof.
  destruct (Engine.compute_lot_score Examples.cfg 30 60 0 0 Cases.quiet_db 1)
    as [[db' [ret|]]|e] eqn:E; try (vm_compute in E; discriminate E).
  assert (Hlow : (0 <= 30)%Q) by (vm_compute; discriminate).
  destruct (@untriggered_lot_scores_zero Examples.cfg 30 60 0 0 Cases.quiet_db db' 1 ret
              Cases.quiet_lot _ Hlow eq_refl eq_refl eq_refl E)
    as (Hz & HL & Hc & row & score & Hin & _ & _ & _ & _ & Hlevel & _).
  exists db', ret, row. split; [reflexivity|].
  split; [exact Hz|]. split; [exact HL|]. split; [exact Hc|]. split; [exact Hin|exact Hlevel].
Defined.

Lemma zero_total_raises (cfg : list (string * (Q * option string)))
  (low_max medium_max : Q) (t_ind now : datetime) (db : Engine.ScoreDb)
  (lot_id : Z) (lot : Lot) :
  (Engine.MAX_SCORE cfg == 0)%Q ->
  Props.lot_by_id (Engine.store db) lot_id = Some lot ->
  Engine.compute_lot_score cfg low_max medium_max t_ind now db lot_id
  = Raise ZeroDivisionError.
Proof.
  intros Hz Hlot. unfold Engine.compute_lot_score. unfold Props.lot_by_id in Hlot.
  rewrite Hlot.
  destruct (evaluate_flags_codes t_ind (Engine.store db) lot
              (Engine.contract_of_lot (Engine.store db) lot)) as (flags & Hflags & _).
  rewrite Hflags. cbn [bind]. unfold Engine._normalize_score, truediv.
  apply Qeq_bool_iff in Hz. rewrite Hz. reflexivity.
Qed.

(** X11.  Weights that sum to zero.  [_normalize_score] divides by the total
    configured weight, so with a total of zero every pass over an existing
    lot raises [ZeroDivisionError] after the indicators have run and before
    anything is written; [FeatureEngine.run] then returns the database as it
    found it.  The [acts] relation read by [check_payment_without_act] is
    taken as present, so that the indicators themselves do not raise. *)
Theorem zero_total_weight_scores_nothing (cfg : list (string * (Q * option string)))
  (low_max medium_max : Q) (t_ind now : datetime) (db : Engine.ScoreDb) :
  (Engine.MAX_SCORE cfg == 0)%Q ->
  (forall lot_id lot,
      Props.lot_by_id (Engine.store db) lot_id = Some lot ->
      Engine.compute_lot_score cfg low_max medium_max t_ind now db lot_id
      = Raise ZeroDivisionError)
  /\ forall entity_ids,
       fst (Engine.run cfg low_max medium_max t_ind now db entity_ids) = db.
Proof.
  intro Hz. split.
  - intros lot_id lot Hlot. apply zero_total_raises with (lot := lot); assumption.
  - intro entity_ids. unfold Engine.run.
    generalize (match entity_ids with
                | [] => map Model.lot_id
                          (Sql.limit (Z.to_nat 10000)
                             (filter (fun l => negb (lot_is_deleted l))
                                     (lots (Engine.store db))))
                | _ :: _ => entity_ids
                end).
    generalize ({| Engine.lots_processed := 0; Engine.run_errors := 0 |}).
    intros s ids. revert s. induction ids as [|id ids IH]; intro s; cbn [fold_left fst snd].
    + reflexivity.
    + destruct (Props.lot_by_id (Engine.store db) id) as [lot|] eqn:Hlot.
      * rewrite (zero_total_raises cfg low_max medium_max t_ind now db id Hz Hlot).
        apply IH.
      * unfold Engine.compute_lot_score. unfold Props.lot_by_id in Hlot.
        rewrite Hlot. apply IH.
Qed.

Lemma zero_total_weight_scores_nothing_witness :
  Engine.compute_lot_score Cases.cfg_zero 30 60 0 0 Examples.keyed_db 1
  = Raise ZeroDivisionError
  /\ fst (Engine.run Cases.cfg_zero 30 60 0 0 Examples.keyed_db []) = Examples.keyed_db.
Proof.
  assert (Hz : (Engine.MAX_SCORE Cases.cfg_zero == 0)%Q) by reflexivity.
  destruct (@zero_total_weight_scores_nothing Cases.cfg_zero 30 60 0 0 Examples.keyed_db Hz)
    as [Hlot Hrun].
  split; [apply (Hlot 1 Examples.dumping_lot); reflexivity|apply Hrun].
Defined.

Lemma round_half_even_range (q : Q) :
  Qfloor q <= round_half_even q <= Qfloor q + 1.
Proof.
  unfold round_half_even.
  destruct (Qltb _ (1 # 2)); [lia|].
  destruct (Qltb (1 # 2) _); [lia|].
  destruct (Z.even _); lia.
Qed.

Lemma round_half_even_mono (p q : Q) :
  (p <= q)%Q -> round_half_even p <= round_half_even q.
Proof.
  intro Hpq.
  pose proof (Qfloor_resp_le _ _ Hpq) as Hf.
  pose proof (round_half_even_range p) as Hp.
  pose proof (round_half_even_range q) as Hq.
  destruct (Z.eq_dec (Qfloor p) (Qfloor q)) as [E|E]; [|lia].
  unfold round_half_even. rewrite <- E.
  assert (Hr : (p - inject_Z (Qfloor p) <= q - inject_Z (Qfloor p))%Q) by lra.
  destruct (Qltb (p - inject_Z (Qfloor p)) (1 # 2)) eqn:P1.
  - destruct (Qltb (q - inject_Z (Qfloor p)) (1 # 2)); [lia|].
    destruct (Qltb (1 # 2) (q - inject_Z (Qfloor p))); [lia|].
    destruct (Z.even _); lia.
  - apply Qltb_ge in P1.
    assert (Q1 : Qltb (q - inject_Z (Qfloor p)) (1 # 2) = false)
      by (apply Qltb_ge; lra).
    rewrite Q1.
    destruct (Qltb (1 # 2) (p - inject_Z (Qfloor p))) eqn:P2.
    + apply Qltb_lt in P2.
      assert (Q2 : Qltb (1 # 2) (q - inject_Z (Qfloor p)) = true)
        by (apply Qltb_lt; lra).
      rewrite Q2. lia.
    + destruct (Qltb (1 # 2) (q - inject_Z (Qfloor p))); [destruct (Z.even _); lia|].
      lia.
Qed.

Lemma round1_mono (p q : Q) : (p <= q)%Q -> (round1 p <= round1 q)%Q.
Proof.
  intro H. unfold round1, Qle. cbn [Qnum Qden].
  assert (Hm : round_half_even (p * 10) <= round_half_even (q * 10))
    by (apply round_half_even_mono; lra).
  nia.
Qed.

Lemma min_100_mono (p q : Q) : (p <= q)%Q -> (Py.min 100 p <= Py.min 100 q)%Q.
Proof.
  intro H. unfold Py.min.
  destruct (Qltb p 100) eqn:P; destruct (Qltb q 100) eqn:Q0;
    try apply Qltb_lt in P; try apply Qltb_ge in P;
    try apply Qltb_lt in Q0; try apply Qltb_ge in Q0; lra.
Qed.

(** X12.  Score and level are monotone.  With a positive total weight a
    larger raw weighted sum never gives a smaller normalised score, and with
    [low_max <= medium_max] a larger score never gives a lower level
    (LOW below MEDIUM below HIGH). *)
Theorem score_and_level_are_monotone (cfg : list (string * (Q * option string)))
  (low_max medium_max raw1 raw2 : Q) :
  (0 < Engine.MAX_SCORE cfg)%Q ->
  (low_max <= medium_max)%Q ->
  (raw1 <= raw2)%Q ->
  exists s1 s2,
    Engine._normalize_score cfg raw1 = Ok s1
    /\ Engine._normalize_score cfg raw2 = Ok s2
    /\ (s1 <= s2)%Q
    /\ Props.level_rank (Engine._get_level low_max medium_max s1)
       <= Props.level_rank (Engine._get_level low_max medium_max s2).
Proof.
  intros Hmax Hth Hraw.
  assert (Hnz : ~ (Engine.MAX_SCORE cfg == 0)%Q) by (intro E; rewrite E in Hmax; lra).
  unfold Engine._normalize_score. rewrite !truediv_ok by exact Hnz. cbn [bind].
  eexists. eexists. split; [reflexivity|]. split; [reflexivity|].
  assert (Hs : (round1 (Py.min 100 (raw1 / Engine.MAX_SCORE cfg * 100))
                <= round1 (Py.min 100 (raw2 / Engine.MAX_SCORE cfg * 100)))%Q).
  { apply round1_mono. apply min_100_mono.
    apply Qmult_le_compat_r; [|lra].
    unfold Qdiv. apply Qmult_le_compat_r; [exact Hraw|].
    apply Qlt_le_weak. apply Qinv_lt_0_compat. exact Hmax. }
  split; [exact Hs|].
  unfold Engine._get_level.
  destruct (Qleb (round1 (Py.min 100 (raw2 / Engine.MAX_SCORE cfg * 100))) low_max) eqn:L2.
  - apply Qleb_le in L2.
    assert (L1 : Qleb (round1 (Py.min 100 (raw1 / Engine.MAX_SCORE cfg * 100))) low_max = true)
      by (apply Qleb_le; lra).
    rewrite L1. reflexivity.
  - destruct (Qleb (round1 (Py.min 100 (raw2 / Engine.MAX_SCORE cfg * 100))) medium_max) eqn:M2.
    + apply Qleb_le in M2.
      destruct (Qleb (round1 (Py.min 100 (raw1 / Engine.MAX_SCORE cfg * 100))) low_max);
        [vm_compute; discriminate|].
      assert (M1 : Qleb (round1 (Py.min 100 (raw1 / Engine.MAX_SCORE cfg * 100))) medium_max
                   = true) by (apply Qleb_le; lra).
      rewrite M1. reflexivity.
    + destruct (Qleb (round1 (Py.min 100 (raw1 / Engine.MAX_SCORE cfg * 100))) low_max);
        [vm_compute; discriminate|].
      destruct (Qleb (round1 (Py.min 100 (raw1 / Engine.MAX_SCORE cfg * 100))) medium_max);
        vm_compute; discriminate.
Qed.

Lemma score_and_level_are_monotone_witness :
  exists s1 s2,
    Engine._normalize_score Examples.cfg 10 = Ok s1
    /\ Engine._normalize_score Examples.cfg 30 = Ok s2
    /\ (s1 <= s2)%Q
    /\ Props.level_rank (Engine._get_level 30 60 s1)
       <= Props.level_rank (Engine._get_level 30 60 s2).
Proof.
  apply (@score_and_level_are_monotone Examples.cfg 30 60 10 30);
    vm_compute; first [reflexivity|intro; discriminate].
Defined.

Lemma find_conflict_fresh (r : Pg.row) (rows : list Pg.row) (next : Z) :
  Pg.get "id" r = Some (VInt next) ->
  (forall x, In x rows -> exists i, Pg.get "id" x = Some (VInt i) /\ i < next) ->
  Pg.find_conflict ["id"] r rows = None.
Proof.
  intros Hr. induction rows as [|x rows IH]; intro H; cbn [Pg.find_conflict]; [reflexivity|].
  destruct (H x (or_introl eq_refl)) as (i & Hi & Hlt).
  unfold Pg.same_key. cbn [forallb]. rewrite Hr, Hi. cbn [Pg.key_eqb].
  replace (Z.eqb next i) with false by (symmetry; apply Z.eqb_neq; lia).
  cbn [andb]. rewrite IH; [reflexivity|].
  intros y Hy. apply H. right. exact Hy.
Qed.

Lemma insert_do_nothing_1_fresh (t : Pg.table) (r : Pg.row) :
  Props.serial_fresh t ->
  Pg.get "id" r = None ->
  Props.serial_fresh (Pg.insert_do_nothing_1 t r)
  /\ Pg.t_rows (Pg.insert_do_nothing_1 t r)
     = (Pg.t_rows t ++ [("id", VInt (Pg.t_next t)) :: r])%list.
Proof.
  intros (Hu & Hs & Hrows) Hr.
  unfold Pg.insert_do_nothing_1, Pg.fill_serial. rewrite Hs, Hr.
  cbn [Pg.t_rows Pg.t_unique]. rewrite Hu. cbn [existsb].
  rewrite (@find_conflict_fresh (("id", VInt (Pg.t_next t)) :: r) (Pg.t_rows t) (Pg.t_next t));
    [|reflexivity|exact Hrows].
  cbn [orb]. unfold Pg.with_rows. cbn [Pg.t_rows Pg.t_unique Pg.t_serial Pg.t_next].
  split; [|reflexivity].
  split; [reflexivity|]. split; [reflexivity|].
  cbn [Pg.t_rows Pg.t_next]. intros x Hx. apply in_app_or in Hx. destruct Hx as [Hx|[Hx|[]]].
  - destruct (Hrows x Hx) as (i & Hi & Hlt). exists i. split; [exact Hi|lia].
  - subst x. exists (Pg.t_next t). split; [reflexivity|lia].
Qed.

Lemma insert_do_nothing_fresh (rows : list Pg.row) :
  forall t,
    Props.serial_fresh t ->
    Forall (fun r => Pg.get "id" r = None) rows ->
    Props.serial_fresh (fold_left Pg.insert_do_nothing_1 rows t)
    /\ exists added,
         Pg.t_rows (fold_left Pg.insert_do_nothing_1 rows t) = (Pg.t_rows t ++ added)%list
         /\ Forall2 (fun a r => exists i, a = ("id", VInt i) :: r) added rows.
Proof.
  induction rows as [|r rows IH]; intros t Ht Hrows; cbn [fold_left].
  - split; [exact Ht|]. exists []. rewrite app_nil_r. split; [reflexivity|constructor].
  - inversion Hrows as [|? ? Hr Hrest]; subst.
    destruct (@insert_do_nothing_1_fresh t r Ht Hr) as [Ht1 Hrows1].
    destruct (IH _ Ht1 Hrest) as (Ht2 & added & Hadd & Hall).
    split; [exact Ht2|].
    exists ((("id", VInt (Pg.t_next t)) :: r) :: added). split.
    + rewrite Hadd, Hrows1, <- app_assoc. reflexivity.
    + constructor; [eexists; reflexivity|exact Hall].
Qed.

(** X13.  Every pass appends its flags.  On a risk_flags table as declared
    (unique on its autoincrement [id] only) a completed pass adds exactly
    one row per evaluated indicator, in evaluation order, each carrying the
    lot id, the indicator code, the flag and [computed_at]; no stored row is
    changed or dropped, and the table stays in that shape.  Scoring a lot
    again therefore adds a second set of flag rows beside the first. *)
Theorem every_pass_appends_its_flags (cfg : list (string * (Q * option string)))
  (low_max medium_max : Q) (t_ind now : datetime) (db db' : Engine.ScoreDb)
  (lot_id : Z) (ret : Engine.lot_score) :
  Props.serial_fresh (Engine.risk_flags db) ->
  Engine.compute_lot_score cfg low_max medium_max t_ind now db lot_id = Ok (db', Some ret) ->
  exists lot flags added,
    Props.lot_by_id (Engine.store db) lot_id = Some lot
    /\ Engine.evaluate_flags t_ind (Engine.store db) lot
         (Engine.contract_of_lot (Engine.store db) lot) = Ok flags
    /\ Pg.t_rows (Engine.risk_flags db')
       = (Pg.t_rows (Engine.risk_flags db) ++ added)%list
    /\ Forall2 (fun a cr =>
                  Pg.get "entity_type" a = Some (VStr "lot")
                  /\ Pg.get "entity_id" a = Some (VStr (str_of_Z lot_id))
                  /\ Pg.get "indicator_code" a = Some (VStr (fst cr))
                  /\ Pg.get "flag_bool" a = Some (VBool (flag (snd cr)))
                  /\ Pg.get "computed_at" a = Some (VDate now)) added flags
    /\ map fst flags
       = Props.evaluated_codes lot (Engine.contract_of_lot (Engine.store db) lot)
    /\ Props.serial_fresh (Engine.risk_flags db').
Proof.
  intros Hfresh H.
  destruct (scored_lot_inv _ _ _ _ _ _ _ H)
    as (lot & flags & q & Hlot & Hflags & _ & _ & _ & _ & Hins).
  destruct (evaluate_flags_codes t_ind (Engine.store db) lot
              (Engine.contract_of_lot (Engine.store db) lot)) as (flags' & Hflags' & Hcodes).
  rewrite Hflags in Hflags'. inversion Hflags'; subst flags'. clear Hflags'.
  assert (Hids : Forall (fun r => Pg.get "id" r = None) (Engine.flag_rows_of now lot_id flags)).
  { unfold Engine.flag_rows_of. apply Forall_forall. intros r Hr.
    apply in_map_iff in Hr. destruct Hr as (cr & <- & _). reflexivity. }
  destruct (@insert_do_nothing_fresh _ _ Hfresh Hids) as (Hfresh' & added & Hadd & Hall).
  assert (Hrf : fold_left Pg.insert_do_nothing_1 (Engine.flag_rows_of now lot_id flags)
                  (Engine.risk_flags db) = Engine.risk_flags db').
  { destruct (Engine.flag_rows_of now lot_id flags) eqn:E.
    - cbn [fold_left]. congruence.
    - unfold Pg.insert_do_nothing in Hins. congruence. }
  rewrite Hrf in *.
  exists lot, flags, added.
  split; [exact Hlot|]. split; [exact Hflags|]. split; [exact Hadd|].
  split; [|split; [exact Hcodes|exact Hfresh']].
  clear - Hall. unfold Engine.flag_rows_of in Hall.
  revert added Hall. induction flags as [|cr flags IH]; intros added Hall;
    inversion Hall as [|a ? ? ? (i & Ha) Hrest]; subst; constructor.
  - repeat split; reflexivity.
  - apply IH. exact Hrest.
Qed.

Lemma every_pass_appends_its_flags_witness :
  exists db' added,
    option_map fst
      (Examples.ok_of (Engine.compute_lot_score Examples.cfg 30 60 0 7 Examples.keyed_db 1))
      = Some db'
    /\ Pg.t_rows (Engine.risk_flags db') = added
    /\ map (Pg.get "indicator_code") added = [Some (VStr "DUMPING_FLAG")].
Proof.
  destruct (Engine.compute_lot_score Examples.cfg 30 60 0 7 Examples.keyed_db 1)
    as [[db' [ret|]]|e] eqn:E; try (vm_compute in E; discriminate E).
  assert (Hfresh : Props.serial_fresh (Engine.risk_flags Examples.keyed_db)).
  { split; [reflexivity|]. split; [reflexivity|]. intros r []. }
  destruct (@every_pass_appends_its_flags Examples.cfg 30 60 0 7 Examples.keyed_db db' 1 ret
              Hfresh E)
    as (lot & flags & added & Hlot & Hflags & Hrows & Hall & Hcodes & _).
  exists db', added. split; [reflexivity|]. split; [exact Hrows|].
  inversion Hlot; subst lot. vm_compute in Hcodes.
  destruct flags as [|cr [|? ?]]; try discriminate Hcodes.
  inversion Hall as [|a ? ? ? (_ & _ & Hcode & _) Hrest]; subst.
  inversion Hrest; subst. cbn [map]. rewrite Hcode.
  inversion Hcodes as [Hc]. reflexivity.
Defined.

End EngineProps.

(* ===================================================================== *)
(** ** Further properties of the incremental orchestrator                *)
(* ===================================================================== *)

Module JournalProps.

Import PgFacts IncrementalFacts UpsertFacts BackfillFacts.

Section Journal.

Variable parse_iso : pyval -> option datetime.
Variable to_float : pyval -> option Q.
Variable fetch_by_id : string -> pyval -> result (option Etl.item).
Variable base_url : string.

Lemma model_map_none (entity_type : pyval) :
  Etl.model_map entity_type = Ok None ->
  Etl.hashable entity_type = true
  /\ Etl.is_str entity_type "TrdBuy" = false
  /\ Etl.is_str entity_type "Lots" = false
  /\ Etl.is_str entity_type "Contract" = false
  /\ Etl.is_str entity_type "Subject" = false.
Proof.
  unfold Etl.model_map.
  destruct (Etl.hashable entity_type); cbn [negb]; [|discriminate].
  destruct (Etl.is_str entity_type "TrdBuy"); [discriminate|].
  destruct (Etl.is_str entity_type "Lots"); [discriminate|].
  destruct (Etl.is_str entity_type "Contract"); [discriminate|].
  destruct (Etl.is_str entity_type "Subject"); [discriminate|].
  intros _. repeat split.
Qed.

Lemma fetch_and_upsert_without_model (now : datetime) (db db' : Etl.Database)
  (entity_type entity_id : pyval) :
  Etl.model_map entity_type = Ok None ->
  Etl._fetch_and_upsert parse_iso to_float fetch_by_id now db entity_type entity_id = Ok db' ->
  db' = db.
Proof.
  intros Hm H. apply model_map_none in Hm. destruct Hm as (Hh & H1 & H2 & H3 & H4).
  unfold Etl._fetch_and_upsert in H.
  destruct (Etl.ENTITY_ENDPOINT_MAP entity_type) as [[endpoint|]|]; cbn [bind] in H;
    [|congruence|discriminate].
  destruct (fetch_by_id endpoint entity_id) as [[[|kv obj]|]|]; cbn [bind] in H;
    try congruence.
  rewrite H1, H2, H3, H4 in H. congruence.
Qed.

Lemma fetch_and_upsert_not_found (now : datetime) (db db' : Etl.Database)
  (entity_type entity_id : pyval) :
  (forall endpoint, fetch_by_id endpoint entity_id = Ok None) ->
  Etl._fetch_and_upsert parse_iso to_float fetch_by_id now db entity_type entity_id = Ok db' ->
  db' = db.
Proof.
  intros Hf H. unfold Etl._fetch_and_upsert in H.
  destruct (Etl.ENTITY_ENDPOINT_MAP entity_type) as [[endpoint|]|]; cbn [bind] in H;
    [|congruence|discriminate].
  rewrite Hf in H. cbn [bind] in H. congruence.
Qed.

(** X14.  An update entry that reaches no table.  For a journal entry whose
    action is not "D", [_process_entry] adds one to [updated] whenever it
    returns; yet it leaves every table as it was when the entity type has no
    upsert of its own (TrdApp and Rnu, which [ENTITY_ENDPOINT_MAP] lists,
    and any unknown type) or when the object is not found upstream. *)
Theorem update_entry_without_effect (now : datetime) (db db' : Etl.Database)
  (e : Etl.item) (s s' : Etl.summary) :
  let entity_type := por (Etl.iget "entity_type" e) (Etl.iget "object_type" e) in
  let entity_id := por (Etl.iget "entity_id" e) (Etl.iget "object_id" e) in
  truthy entity_type = true ->
  truthy entity_id = true ->
  Etl.is_str (Etl.iget_d "action" (VStr "U") e) "D" = false ->
  Etl.model_map entity_type = Ok None
    \/ (forall endpoint, fetch_by_id endpoint entity_id = Ok None) ->
  Etl._process_entry parse_iso to_float fetch_by_id now db (VDict e) s = Ok (db', s') ->
  db' = db
  /\ Etl.updated s' = Etl.updated s + 1
  /\ Etl.deleted s' = Etl.deleted s
  /\ Etl.processed s' = Etl.processed s
  /\ Etl.errors s' = Etl.errors s.
Proof.
  cbv zeta. intros Ht Hi Ha Hwhy H.
  unfold Etl._process_entry in H. rewrite Ht, Hi, Ha in H. cbn [negb orb] in H.
  apply bind_ok in H. destruct H as (db1 & Hdb1 & H). inversion H; subst; clear H.
  cbn [Etl.updated Etl.deleted Etl.processed Etl.errors].
  split; [|repeat split].
  destruct Hwhy as [Hm|Hf].
  - eapply fetch_and_upsert_without_model; eassumption.
  - eapply fetch_and_upsert_not_found; eassumption.
Qed.




End Journal.

Lemma update_entry_without_effect_witness :
  Etl._process_entry Examples.no_parse Examples.no_float Cases.found 7
    Examples.two_tenders_db (VDict Cases.update_rnu_7) Examples.no_summary
  = Ok (Examples.two_tenders_db,
        {| Etl.processed := 0; Etl.updated := 1; Etl.deleted := 0; Etl.errors := 0 |}).
Proof.
  destruct (Etl._process_entry Examples.no_parse Examples.no_float Cases.found 7
              Examples.two_tenders_db (VDict Cases.update_rnu_7) Examples.no_summary)
    as [[db' s']|e] eqn:E; [|vm_compute in E; discriminate E].
  destruct (@update_entry_without_effect Examples.no_parse Examples.no_float Cases.found 7
              Examples.two_tenders_db db' Cases.update_rnu_7 Examples.no_summary s'
              eq_refl eq_refl eq_refl (or_introl eq_refl) E)
    as (Hdb & Hu & Hd & Hp & He).
  subst db'. destruct s' as [p u d er].
  cbn [Etl.updated Etl.deleted Etl.processed Etl.errors Examples.no_summary] in *.
  subst. reflexivity.
Defined.

Section JournalRun.

Variable parse_iso : pyval -> option datetime.
Variable to_float : pyval -> option Q.
Variable fetch_by_id : string -> pyval -> result (option Etl.item).
Variable base_url : string.

Lemma run_entries_of_pages (now : datetime) (db : Etl.Database)
  (pages : list (list Etl.item * string)) :
  forall s : Etl.summary,
    fold_left
      (fun st entry =>
         match Etl._process_entry parse_iso to_float fetch_by_id now (fst st) entry (snd st) with
         | Ok (db1, s1) =>
           (db1, {| Etl.processed := Etl.processed s1 + 1; Etl.updated := Etl.updated s1;
                    Etl.deleted := Etl.deleted s1; Etl.errors := Etl.errors s1 |})
         | Raise _ =>
           (fst st, {| Etl.processed := Etl.processed (snd st);
                       Etl.updated := Etl.updated (snd st);
                       Etl.deleted := Etl.deleted (snd st);
                       Etl.errors := Etl.errors (snd st) + 1 |})
         end)
      (flat_map (fun p => [VList (map VDict (fst p)); VStr (snd p)]) pages) (db, s)
    = (db, {| Etl.processed := Etl.processed s; Etl.updated := Etl.updated s;
              Etl.deleted := Etl.deleted s;
              Etl.errors := Etl.errors s + 2 * Sql.count pages |}).
Proof.
  induction pages as [|p pages IH]; intro s.
  - cbn. destruct s. cbn. f_equal. f_equal. unfold Sql.count. cbn. lia.
  - cbn [flat_map app fold_left fst snd Etl._process_entry].
    rewrite IH. cbn [Etl.updated Etl.deleted Etl.processed Etl.errors].
    f_equal. f_equal. unfold Sql.count. cbn [List.length]. rewrite Nat2Z.inj_succ. lia.
Qed.

(** X16.  [IncrementalETL.run] applies no journal entry.  [get_journal]
    extends its list with each pair that [paginate] yields, so the list holds
    one list of items and one cursor string per non-empty page and never an
    entry dict.  Whatever the journal replies, a run that returns has
    processed, updated and deleted nothing, counts two errors per non-empty
    page, leaves every entity table untouched, and still moves the journal
    cursor to the end of the window. *)
Theorem journal_run_applies_no_entry (now : datetime) (db db' : Etl.Database)
  (date_to : string) (replies : list (result Etl.response)) (s : Etl.summary) :
  Etl.run parse_iso to_float fetch_by_id base_url now db date_to replies = Ok (db', s) ->
  Etl.processed s = 0 /\ Etl.updated s = 0 /\ Etl.deleted s = 0
  /\ Etl.errors s = 2 * Sql.count (fst (Etl.paginate base_url replies))
  /\ (forall m, m <> Etl.EtlCursorT -> Etl.table_of m db' = Etl.table_of m db)
  /\ Etl._get_cursor db' "journal" = Some (VStr date_to).
Proof.
  unfold Etl.run, Etl.get_journal. intro H.
  destruct (Etl.paginate base_url replies) as [pages [err|]]; cbn [bind] in H;
    [discriminate|].
  unfold Etl.run_entries in H. rewrite run_entries_of_pages in H.
  cbn [fst snd] in H. apply bind_ok in H. destruct H as (db1 & Hcur & H).
  inversion H; subst; clear H.
  cbn [Etl.updated Etl.deleted Etl.processed Etl.errors fst].
  repeat split.
  - intros m Hm. unfold Etl._update_cursor in Hcur.
    apply execute_keeps in Hcur. destruct Hcur as [_ Hother].
    apply Hother. exact Hm.
  - unfold Etl._update_cursor, Etl.execute in Hcur.
    cbn [Etl.st_model Etl.st_index_elements Etl.st_conflict_set Etl.st_values
         Etl.table_of] in Hcur.
    apply bind_ok in Hcur. destruct Hcur as (t & Ht & Hdb). inversion Hdb; subst; clear Hdb.
    apply cursor_upsert_lookup in Ht. destruct Ht as (r & Hfind & Hval).
    unfold Etl._get_cursor. cbn [Etl.with_table Etl.d_etl_cursors].
    rewrite Hfind, Hval. reflexivity.
Qed.

End JournalRun.

Lemma journal_run_applies_no_entry_witness :
  exists db',
    Etl.run Examples.no_parse Examples.no_float Cases.found "https://ows" 7
      Examples.two_tenders_db "2025-01-02" Cases.journal_of_two_pages
    = Ok (db', {| Etl.processed := 0; Etl.updated := 0; Etl.deleted := 0; Etl.errors := 4 |})
    /\ Etl.d_trd_buy db' = Etl.d_trd_buy Examples.two_tenders_db
    /\ Etl._get_cursor db' "journal" = Some (VStr "2025-01-02").
Proof.
  destruct (Etl.run Examples.no_parse Examples.no_float Cases.found "https://ows" 7
              Examples.two_tenders_db "2025-01-02" Cases.journal_of_two_pages)
    as [[db' s]|e] eqn:E; [|vm_compute in E; discriminate E].
  destruct (@journal_run_applies_no_entry Examples.no_parse Examples.no_float Cases.found
              "https://ows" 7 Examples.two_tenders_db db' "2025-01-02"
              Cases.journal_of_two_pages s E)
    as (Hp & Hu & Hd & He & Htables & Hcur).
  exists db'. split; [|split; [|exact Hcur]].
  - destruct s as [p u d er].
    cbn [Etl.updated Etl.deleted Etl.processed Etl.errors] in *. subst. reflexivity.
  - apply (Htables Etl.TrdBuyT). discriminate.
Defined.

Section Revive.

Variable parse_iso : pyval -> option datetime.
Variable to_float : pyval -> option Q.
Variables date_from date_to : datetime.

Lemma soft_delete_rows (now : datetime) (db db1 : Etl.Database) (entity_type : pyval)
  (i : Z) (m : Etl.model) :
  Etl.model_map entity_type = Ok (Some m) ->
  Etl._soft_delete now db entity_type (VInt i) = Ok db1 ->
  forall k r,
    nth_error (Pg.t_rows (Etl.table_of m db)) k = Some r ->
    Etl.id_is i r = true ->
    exists r1,
      nth_error (Pg.t_rows (Etl.table_of m db1)) k = Some r1
      /\ Pg.get "is_deleted" r1 = Some (VBool true)
      /\ Pg.get "id" r1 = Pg.get "id" r.
Proof.
  intros Hm H k r Hk Hid. unfold Etl._soft_delete in H. rewrite Hm in H.
  cbn [bind to_int] in H. inversion H; subst; clear H.
  rewrite table_of_with_table_same. unfold Pg.update_where, Pg.with_rows. cbn [Pg.t_rows].
  erewrite map_nth_error by exact Hk. rewrite Hid.
  eexists. split; [reflexivity|].
  destruct (soft_deleted_row now r) as (Hd & _ & Hother).
  split; [exact Hd|]. apply Hother; discriminate.
Qed.

Lemma incremental_upsert_keeps (m : Etl.model) (now : datetime) (db db' : Etl.Database)
  (it : Etl.item) :
  In m Spec.shared_entity_types ->
  Spec.incremental_upsert parse_iso to_float m now db it = Ok db' ->
  Spec.keeps (fun c => ~ In c (Spec.incremental_conflict_set m))
    (Etl.table_of m db) (Etl.table_of m db').
Proof.
  intros Hm H.
  destruct (incremental_statements parse_iso to_float now db db' it)
    as (H1 & H2 & H3 & H4).
  destruct Hm as [<-|[<-|[<-|[<-|[]]]]]; cbn [Spec.incremental_upsert] in H.
  - destruct (H1 H) as (r & Hr). apply execute_keeps in Hr. apply Hr.
  - destruct (H2 H) as (r & Hr). apply execute_keeps in Hr. apply Hr.
  - destruct (H3 H) as (r & Hr). apply execute_keeps in Hr. apply Hr.
  - destruct (H4 H) as (r & Hr). apply execute_keeps in Hr. apply Hr.
Qed.

Lemma backfill_statements_keep (m : Etl.model) (batch : list Etl.item)
  (stmts : list Etl.stmt) (n : Z) (db db' : Etl.Database) :
  In m Spec.shared_entity_types ->
  Spec.backfill_statements parse_iso to_float date_from date_to m batch = Ok (stmts, n) ->
  Etl.execute_all stmts db = Ok db' ->
  Spec.keeps (fun c => ~ In c (Spec.backfill_conflict_set m))
    (Etl.table_of m db) (Etl.table_of m db').
Proof.
  intros Hm H Hex.
  destruct (backfill_loader_statements parse_iso to_float date_from date_to batch stmts n)
    as (H1 & H2 & H3 & H4).
  destruct Hm as [<-|[<-|[<-|[<-|[]]]]]; cbn [Spec.backfill_statements] in H.
  - eapply execute_all_keeps; [apply H1; exact H|exact Hex].
  - eapply execute_all_keeps; [apply H2; exact H|exact Hex].
  - eapply execute_all_keeps; [apply H3; exact H|exact Hex].
  - eapply execute_all_keeps; [apply H4; exact H|exact Hex].
Qed.

Lemma flag_outside_conflict_sets (m : Etl.model) (c : string) :
  c = "is_deleted" \/ c = "id" ->
  ~ In c (Spec.incremental_conflict_set m) /\ ~ In c (Spec.backfill_conflict_set m).
Proof.
  intros [->| ->]; destruct m; split; cbn; intuition discriminate.
Qed.

(** X17.  A soft-deleted row stays deleted.  Neither orchestrator lists
    [is_deleted] among the columns it overwrites on conflict, although both
    propose it as False.  Once [_soft_delete] has marked the row of an id, a
    later journal upsert of that type and any later backfill page leave that
    row in place, with its id, still marked deleted: an object that
    reappears upstream is not revived. *)
Theorem soft_deleted_rows_stay_deleted (m : Etl.model) (now : datetime)
  (db db1 : Etl.Database) (entity_type : pyval) (i : Z) (k : nat) (r : Pg.row) :
  In m Spec.shared_entity_types ->
  Etl.model_map entity_type = Ok (Some m) ->
  Etl._soft_delete now db entity_type (VInt i) = Ok db1 ->
  nth_error (Pg.t_rows (Etl.table_of m db)) k = Some r ->
  Etl.id_is i r = true ->
  (forall now2 it db2,
      Spec.incremental_upsert parse_iso to_float m now2 db1 it = Ok db2 ->
      exists r2,
        nth_error (Pg.t_rows (Etl.table_of m db2)) k = Some r2
        /\ Pg.get "is_deleted" r2 = Some (VBool true)
        /\ Pg.get "id" r2 = Pg.get "id" r)
  /\ (forall batch stmts n db2,
      Spec.backfill_statements parse_iso to_float date_from date_to m batch
        = Ok (stmts, n) ->
      Etl.execute_all stmts db1 = Ok db2 ->
      exists r2,
        nth_error (Pg.t_rows (Etl.table_of m db2)) k = Some r2
        /\ Pg.get "is_deleted" r2 = Some (VBool true)
        /\ Pg.get "id" r2 = Pg.get "id" r).
Proof.
  intros Hm Hmap Hdel Hk Hid.
  destruct (@soft_delete_rows now db db1 entity_type i m Hmap Hdel k r Hk Hid)
    as (r1 & Hk1 & Hd1 & Hid1).
  split.
  - intros now2 it db2 Hup.
    destruct (@incremental_upsert_keeps m now2 db1 db2 it Hm Hup k r1 Hk1)
      as (r2 & Hk2 & Hkept).
    exists r2. split; [exact Hk2|].
    rewrite !Hkept; [split; assumption| |];
      apply (flag_outside_conflict_sets m); auto.
  - intros batch stmts n db2 Hst Hex.
    destruct (@backfill_statements_keep m batch stmts n db1 db2 Hm Hst Hex k r1 Hk1)
      as (r2 & Hk2 & Hkept).
    exists r2. split; [exact Hk2|].
    rewrite !Hkept; [split; assumption| |];
      apply (flag_outside_conflict_sets m); auto.
Qed.

End Revive.

Lemma soft_deleted_rows_stay_deleted_witness :
  exists db1 db2 r2,
    Etl._soft_delete 7 Examples.two_tenders_db (VStr "TrdBuy") (VInt 5) = Ok db1
    /\ Etl._upsert_trd_buy Examples.no_parse Examples.no_float 9 db1 (Examples.tender_item 5)
       = Ok db2
    /\ nth_error (Pg.t_rows (Etl.d_trd_buy db2)) 0 = Some r2
    /\ Pg.get "is_deleted" r2 = Some (VBool true).
Proof.
  destruct (Etl._soft_delete 7 Examples.two_tenders_db (VStr "TrdBuy") (VInt 5))
    as [db1|e] eqn:E1; [|vm_compute in E1; discriminate E1].
  destruct (Etl._upsert_trd_buy Examples.no_parse Examples.no_float 9 db1
              (Examples.tender_item 5)) as [db2|e] eqn:E2.
  - destruct (@soft_deleted_rows_stay_deleted Examples.no_parse Examples.no_float 0 0
                Etl.TrdBuyT 7 Examples.two_tenders_db db1 (VStr "TrdBuy") 5 0%nat
                (Examples.tender_row 5) (or_introl eq_refl) eq_refl E1 eq_refl eq_refl)
      as [Hinc _].
    destruct (Hinc 9 (Examples.tender_item 5) db2 E2) as (r2 & Hk & Hd & _).
    exists db1, db2, r2. repeat split; assumption.
  - exfalso. vm_compute in E1. inversion E1; subst db1. vm_compute in E2. discriminate E2.
Defined.

End JournalProps.

(* ===================================================================== *)
(** ** Further properties of the HTTP client's generators                *)
(* ===================================================================== *)

Module ClientProps.

Section Paginate.

Variable base_url : string.

(** What [paginate] yields for one reply. *)
Lemma paginate_cons (data : Etl.response) (rest : list (result Etl.response)) :
  Etl.paginate base_url (Ok data :: rest)
  = if String.eqb (Etl.r_next_page data) ""
    then (match Etl.r_items data with [] => [] | items => [(items, "")] end, None)
    else ((match Etl.r_items data with
           | [] => []
           | items => [(items, (base_url ++ Etl.r_next_page data)%string)]
           end ++ fst (Etl.paginate base_url rest))%list,
          snd (Etl.paginate base_url rest)).
Proof.
  cbn [Etl.paginate].
  destruct (String.eqb (Etl.r_next_page data) ""); [reflexivity|].
  destruct (Etl.paginate base_url rest) as [more err]. reflexivity.
Qed.

Lemma paginate_pairs (replies : list (result Etl.response)) :
  Forall (fun p =>
            fst p <> []
            /\ exists r, In (Ok r) replies
                         /\ fst p = Etl.r_items r
                         /\ snd p = if String.eqb (Etl.r_next_page r) "" then ""
                                    else base_url ++ Etl.r_next_page r)
         (fst (Etl.paginate base_url replies)).
Proof.
  induction replies as [|[data|e] rest IH]; [constructor|idtac|constructor].
  rewrite paginate_cons.
  assert (Hrest : Forall (fun p =>
            fst p <> []
            /\ exists r, In (Ok r) (Ok data :: rest)
                         /\ fst p = Etl.r_items r
                         /\ snd p = if String.eqb (Etl.r_next_page r) "" then ""
                                    else base_url ++ Etl.r_next_page r)
         (fst (Etl.paginate base_url rest))).
  { eapply Forall_impl; [|exact IH]. intros p (Hne & r & Hin & Hrest).
    split; [exact Hne|]. exists r. split; [right; exact Hin|exact Hrest]. }
  destruct (String.eqb (Etl.r_next_page data) "") eqn:E; cbn [fst];
    destruct (Etl.r_items data) as [|it items] eqn:Ei; cbn [app].
  - constructor.
  - constructor; [|constructor]. cbn [fst snd]. split; [discriminate|].
    exists data. rewrite Ei, E. repeat split. left. reflexivity.
  - exact Hrest.
  - constructor; [|exact Hrest]. cbn [fst snd]. split; [discriminate|].
    exists data. rewrite Ei, E. repeat split. left. reflexivity.
Qed.

Lemma append_not_empty (a b : string) : b <> "" -> (a ++ b)%string <> "".
Proof.
  intros Hb H. destruct a; cbn in H; [contradiction|discriminate].
Qed.

Lemma paginate_inner_cursors (replies : list (result Etl.response)) :
  Forall (fun p => snd p <> "") (removelast (fst (Etl.paginate base_url replies))).
Proof.
  induction replies as [|[data|e] rest IH]; [constructor|idtac|constructor].
  rewrite paginate_cons.
  destruct (String.eqb (Etl.r_next_page data) "") eqn:E; cbn [fst].
  - destruct (Etl.r_items data); constructor.
  - apply String.eqb_neq in E.
    destruct (Etl.r_items data) as [|it items]; cbn [app]; [exact IH|].
    destruct (fst (Etl.paginate base_url rest)) as [|q more] eqn:Em.
    + constructor.
    + change (Forall (fun p => snd p <> "")
                ((it :: items, (base_url ++ Etl.r_next_page data)%string)
                 :: removelast (q :: more))).
      constructor; [|exact IH].
      cbn [snd]. apply append_not_empty. exact E.
Qed.

Lemma paginate_stops (before after : list (result Etl.response)) (last : Etl.response) :
  Etl.r_next_page last = "" ->
  Etl.paginate base_url (before ++ Ok last :: after)
  = Etl.paginate base_url (before ++ [Ok last]).
Proof.
  intro Hlast. induction before as [|[data|e] before IH]; cbn [app].
  - rewrite !paginate_cons, Hlast. reflexivity.
  - rewrite !paginate_cons, IH. reflexivity.
  - reflexivity.
Qed.

Lemma paginate_error (replies : list (result Etl.response)) (e : exn) :
  snd (Etl.paginate base_url replies) = Some e -> In (Raise e) replies.
Proof.
  induction replies as [|[data|e'] rest IH]; intro H.
  - discriminate.
  - rewrite paginate_cons in H.
    destruct (String.eqb (Etl.r_next_page data) ""); cbn [snd] in H; [discriminate|].
    right. apply IH. exact H.
  - cbn in H. inversion H; subst. left. reflexivity.
Qed.

(** X18.  What [paginate] yields.  Every batch it yields is a non-empty
    [items] list of one of the replies, in order, paired with that reply's
    [next_page] prefixed by the base URL, or with the empty string when the
    reply has none.  Only the last pair can carry the empty cursor; the
    generator requests nothing after the first reply without [next_page];
    and the error it raises is that of a failed request. *)
Theorem paginate_yields_checkpoints (replies : list (result Etl.response)) :
  Forall (fun p =>
            fst p <> []
            /\ exists r, In (Ok r) replies
                         /\ fst p = Etl.r_items r
                         /\ snd p = if String.eqb (Etl.r_next_page r) "" then ""
                                    else base_url ++ Etl.r_next_page r)
         (fst (Etl.paginate base_url replies))
  /\ Forall (fun p => snd p <> "") (removelast (fst (Etl.paginate base_url replies)))
  /\ (List.length (fst (Etl.paginate base_url replies)) <= List.length replies)%nat
  /\ (forall before last after,
        replies = (before ++ Ok last :: after)%list ->
        Etl.r_next_page last = "" ->
        Etl.paginate base_url replies = Etl.paginate base_url (before ++ [Ok last]))
  /\ (forall e, snd (Etl.paginate base_url replies) = Some e -> In (Raise e) replies).
Proof.
  split; [apply paginate_pairs|]. split; [apply paginate_inner_cursors|].
  split; [|split].
  - induction replies as [|[data|e] rest IH]; [apply le_n|idtac|apply Nat.le_0_l].
    rewrite paginate_cons.
    destruct (String.eqb (Etl.r_next_page data) ""); cbn [fst];
      destruct (Etl.r_items data); cbn [app List.length]; lia.
  - intros before last after -> Hlast. apply paginate_stops. exact Hlast.
  - apply paginate_error.
Qed.

End Paginate.

Lemma follows_last_id_stop (data_key : string) (first : result pyval)
  (rest : list (result pyval)) (cursor : pyval) (batches : list pyval)
  (err : option exn) :
  batches = []
    \/ (exists data reply, batches = [data] /\ first = Ok reply
                           /\ Client.data_of data_key reply = Ok data
                           /\ truthy data = true) ->
  Client.follows_last_id data_key (first :: rest) cursor (batches, [cursor], err).
Proof.
  intro H. unfold Client.follows_last_id. cbn [fst snd].
  destruct H as [->|(data & reply & -> & -> & Hd & Ht)].
  - split; [constructor|]. split; [intros a Ha; cbn in Ha; congruence|].
    split; [intros k a Ha; destruct k; discriminate|].
    split; [intros k b Hb; destruct k; discriminate|].
    cbn [List.length]. lia.
  - split; [constructor; [exact Ht|constructor]|].
    split; [intros a Ha; cbn in Ha; congruence|].
    split; [intros k a Ha; destruct k; discriminate|].
    split.
    + intros k b Hb. destruct k as [|k]; [|destruct k; discriminate].
      cbn in Hb. inversion Hb; subst. exists reply. split; [reflexivity|exact Hd].
    + cbn [List.length]. lia.
Qed.

Lemma graphql_paginate_from_spec (data_key : string) (replies : list (result pyval)) :
  forall cursor,
    Client.follows_last_id data_key replies cursor
      (Client.graphql_paginate_from data_key cursor replies).
Proof.
  induction replies as [|[reply|e] rest IH]; intro cursor.
  - unfold Client.follows_last_id. cbn.
    split; [constructor|]. split; [discriminate|].
    split; [intros k a Ha; destruct k; discriminate|].
    split; [intros k b Hb; destruct k; discriminate|]. lia.
  - cbn [Client.graphql_paginate_from].
    destruct (Client.data_of data_key reply) as [data|e] eqn:Ed;
      [|apply follows_last_id_stop; left; reflexivity].
    destruct (truthy data) eqn:Et; cbn [negb];
      [|apply follows_last_id_stop; left; reflexivity].
    assert (Hone : forall err, Client.follows_last_id data_key (Ok reply :: rest) cursor
                                 ([data], [cursor], err)).
    { intro err. apply follows_last_id_stop. right. exists data, reply. auto. }
    destruct (Client.page_info_of reply) as [page_info|e] eqn:Ep; [|apply Hone].
    destruct (Client.get_of page_info "hasNextPage" (VBool false)) as [has_next|e];
      [|apply Hone].
    destruct (truthy has_next); cbn [negb]; [|apply Hone].
    destruct (Client.get_of page_info "lastId" VNone) as [last_id|e] eqn:El; [|apply Hone].
    destruct (truthy last_id) eqn:Etl; cbn [negb]; [|apply Hone].
    specialize (IH last_id). unfold Client.follows_last_id in IH.
    destruct (Client.graphql_paginate_from data_key last_id rest) as [[batches afters] err].
    unfold Client.follows_last_id. cbn [fst snd] in *.
    destruct IH as (Hb & H0 & HS & Hd & Hlen & Hlen2).
    split; [constructor; [exact Et|exact Hb]|].
    split; [intros a Ha; cbn in Ha; congruence|].
    split; [|split].
    + intros k a Ha. destruct k as [|k]; cbn [nth_error] in Ha.
      * apply H0 in Ha. subst a. split; [exact Etl|].
        exists (Ok reply). split; [reflexivity|].
        unfold Client.last_id_of. rewrite Ep, El. reflexivity.
      * apply HS in Ha. exact Ha.
    + intros k b Hk. destruct k as [|k]; cbn [nth_error] in Hk.
      * inversion Hk; subst. exists reply. split; [reflexivity|exact Ed].
      * apply Hd in Hk. exact Hk.
    + cbn [List.length]. lia.
  - cbn [Client.graphql_paginate_from]. apply follows_last_id_stop. left. reflexivity.
Qed.

(** X19.  [graphql_paginate] follows the [lastId] cursor.  The first
    request carries [after = 0]; every later request carries the non-empty
    [lastId] of the reply before it.  Every batch it yields is the non-empty
    data of the reply to the request of the same rank, and it stops at the
    first reply without data, without [hasNextPage] or without [lastId], so
    it sends at most one request more than it yields batches. *)
Theorem graphql_paginate_follows_last_id (data_key : string)
  (replies : list (result pyval)) :
  let out := Client.graphql_paginate data_key replies in
  let batches := fst (fst out) in
  let afters := snd (fst out) in
  Forall (fun b => truthy b = true) batches
  /\ (forall a, nth_error afters 0 = Some a -> a = VInt 0)
  /\ (forall k a, nth_error afters (S k) = Some a ->
        truthy a = true
        /\ exists reply, nth_error replies k = Some reply
                         /\ Client.last_id_of reply = Some a)
  /\ (forall k b, nth_error batches k = Some b ->
        exists reply, nth_error replies k = Some (Ok reply)
                      /\ Client.data_of data_key reply = Ok b)
  /\ (List.length batches <= List.length afters <= List.length batches + 1)%nat
  /\ (List.length afters <= List.length replies)%nat.
Proof.
  cbv zeta. unfold Client.graphql_paginate.
  pose proof (graphql_paginate_from_spec data_key replies (VInt 0)) as H.
  unfold Client.follows_last_id in H. exact H.
Qed.

Lemma graphql_paginate_follows_last_id_witness :
  Client.graphql_paginate "Lots" Cases.graphql_replies
  = ([VList [VInt 1; VInt 2]; VList [VInt 3]], [VInt 0; VInt 2; VInt 3], None)
  /\ (truthy (VInt 3) = true
      /\ exists reply, nth_error Cases.graphql_replies 1 = Some reply
                       /\ Client.last_id_of reply = Some (VInt 3)).
Proof.
  split; [reflexivity|].
  destruct (graphql_paginate_follows_last_id "Lots" Cases.graphql_replies)
    as (_ & _ & Hafter & _).
  apply (Hafter 1%nat (VInt 3)). reflexivity.
Defined.

End ClientProps.

(* ===================================================================== *)
(** ** Further properties of the backfill loaders                        *)
(* ===================================================================== *)

Module LoaderProps.

Import PgFacts IncrementalFacts UpsertFacts BackfillFacts.

Lemma prefix_app (p a b : string) :
  String.prefix p a = true -> String.prefix p (a ++ b) = true.
Proof.
  revert a. induction p as [|c p IH]; intros a H; [destruct (a ++ b)%string; reflexivity|].
  destruct a as [|c' a]; cbn in H; [discriminate|].
  cbn. destruct (Ascii.ascii_dec c c'); [|discriminate]. apply IH. exact H.
Qed.

Lemma last_saved_In (ev : list Etl.event) (u : string) :
  Spec.last_saved ev = Some u ->
  exists ev1 k ev2, ev = (ev1 ++ Etl.CursorSaved k u :: ev2)%list.
Proof.
  induction ev as [|[k|k url] ev IH]; cbn [Spec.last_saved]; intro H.
  - discriminate.
  - destruct (IH H) as (ev1 & k' & ev2 & ->).
    exists (Etl.Committed k :: ev1), k', ev2. reflexivity.
  - destruct (Spec.last_saved ev) as [u'|] eqn:E.
    + inversion H; subst u'. destruct (IH eq_refl) as (ev1 & k' & ev2 & ->).
      exists (Etl.CursorSaved k url :: ev1), k', ev2. reflexivity.
    + inversion H; subst. exists [], k, ev. reflexivity.
Qed.

Section Resume.

Variable parse_iso : pyval -> option datetime.
Variable to_float : pyval -> option Q.
Variable base_url : string.
Variables date_from date_to : datetime.

(** X20.  A loader resumes from its last checkpoint.  With a base URL that
    starts with "http", whatever a call of a checkpointed loader met and
    whether it returned or raised, the next call of that loader sends its
    first request to the last checkpoint the call saved, as it was saved; if
    it saved none, to the URL the call itself started from.  The cursor is
    never cleared, so after a complete load the next call starts at the last
    checkpoint, not at the first page. *)
Theorem loader_resumes_from_last_checkpoint (L : Etl.loader) (now : datetime)
  (db db' : Etl.Database) (upstream : string -> list (result Etl.response))
  (faults : list Etl.fault) (ev : list Etl.event) (out : result Z) :
  In L (Spec.checkpointed_loaders parse_iso to_float date_from date_to) ->
  String.prefix "http" base_url = true ->
  Etl.load base_url L now db upstream faults = (db', ev, out) ->
  Etl.first_url base_url (Etl.resume_endpoint L db')
  = match Spec.last_saved ev with
    | Some u => u
    | None => Etl.first_url base_url (Etl.resume_endpoint L db)
    end.
Proof.
  intros HL Hhttp H.
  pose proof (@loaders_leave_cursors_alone parse_iso to_float date_from date_to L HL)
    as Halone.
  unfold Etl.load in H.
  pose proof (ClientProps.paginate_pairs base_url
                (upstream (Etl.first_url base_url (Etl.resume_endpoint L db)))) as Hpairs.
  destruct (Etl.paginate base_url _) as [pages err]. cbn [fst] in Hpairs.
  destruct (Etl.load_pages L now 0 db pages faults 0) as [[db1 ev1] r] eqn:Hloop.
  assert (Hsame : db' = db1 /\ ev = ev1) by (destruct r; inversion H; auto).
  destruct Hsame as [-> ->].
  destruct (@load_pages_spec L Halone now pages _ _ _ _ _ _ _ Hloop) as [Ha Hb].
  destruct (Spec.last_saved ev1) as [u|] eqn:Hu.
  - destruct (last_saved_In _ Hu) as (e1 & k & e2 & E).
    destruct (Ha _ _ _ _ E) as (Hne & _ & (batch & Hpage) & _).
    apply nth_error_In in Hpage.
    rewrite Forall_forall in Hpairs. destruct (Hpairs _ Hpage) as (_ & r0 & _ & _ & Hcur).
    cbn [snd] in Hcur.
    destruct (String.eqb (Etl.r_next_page r0) ""); [contradiction|].
    unfold Etl.resume_endpoint. rewrite Hb.
    apply String.eqb_neq in Hne. rewrite Hne.
    unfold Etl.first_url, Etl.startswith_http.
    rewrite Hcur at 1. rewrite (@prefix_app "http" base_url _ Hhttp). reflexivity.
  - unfold Etl.resume_endpoint. rewrite Hb. reflexivity.
Qed.

End Resume.

Lemma loader_resumes_from_last_checkpoint_witness :
  exists db' ev,
    Etl._load_trd_buy Examples.no_parse Examples.no_float "https://ows" 0 1000 5
      Etl.declared_database Examples.one_page_then_failure []
    = (db', ev, Raise TransportError)
    /\ Etl.first_url "https://ows"
         (Etl.resume_endpoint (Etl.trd_buy_loader Examples.no_parse Examples.no_float 0 1000)
            db')
       = "https://ows/v3/trd-buy?page=next&search_after=2".
Proof.
  destruct (Etl._load_trd_buy Examples.no_parse Examples.no_float "https://ows" 0 1000 5
              Etl.declared_database Examples.one_page_then_failure [])
    as [[db' ev] out] eqn:E.
  pose proof (@loader_resumes_from_last_checkpoint Examples.no_parse Examples.no_float
                "https://ows" 0 1000
                (Etl.trd_buy_loader Examples.no_parse Examples.no_float 0 1000) 5
                Etl.declared_database db' Examples.one_page_then_failure [] ev out
                (or_intror (or_introl eq_refl)) eq_refl E) as H.
  vm_compute in E. inversion E; subst db' ev out. clear E.
  eexists. eexists. split; [reflexivity|]. exact H.
Defined.

Section Loaders.

Variable parse_iso : pyval -> option datetime.
Variable to_float : pyval -> option Q.
Variable base_url : string.
Variables date_from date_to : datetime.

Lemma parse_dt_shape (v : pyval) :
  Etl._parse_dt parse_iso v = VNone \/ exists d, Etl._parse_dt parse_iso v = VDate d.
Proof.
  unfold Etl._parse_dt. destruct (negb (truthy v)); [left; reflexivity|].
  destruct v; try (destruct (parse_iso _); [right; eexists; reflexivity|left; reflexivity]).
  right. eexists. reflexivity.
Qed.

Lemma kept_date_in_window (v : pyval) :
  Etl.outside_window date_from date_to (Etl._parse_dt parse_iso v) = false ->
  Props.in_window date_from date_to (Some (Etl._parse_dt parse_iso v)).
Proof.
  destruct (parse_dt_shape v) as [->|[d ->]]; cbn; [trivial|].
  intro H. apply negb_false_iff in H. apply andb_true_iff in H. lia.
Qed.

Lemma build_rows_spec (P : Pg.row -> Prop) (f : Etl.item -> result (option Pg.row))
  (batch : list Etl.item) :
  (forall it r, f it = Ok (Some r) -> P r) ->
  forall rows,
    Etl.build_rows f batch = Ok rows ->
    Forall P rows /\ 0 <= Sql.count rows <= Sql.count batch.
Proof.
  intro HP. unfold Sql.count.
  induction batch as [|it batch IH]; intros rows H; cbn [Etl.build_rows] in H.
  - inversion H; subst. split; [constructor|cbn; lia].
  - apply bind_ok in H. destruct H as (o & Ho & H).
    apply bind_ok in H. destruct H as (rs & Hrs & H). inversion H; subst; clear H.
    destruct (IH rs Hrs) as [Hall Hlen].
    destruct o as [r|]; cbn [List.length].
    + split; [constructor; [apply (HP it); exact Ho|exact Hall]|lia].
    + split; [exact Hall|lia].
Qed.

Lemma build_rows_all (f : Etl.item -> result (option Pg.row)) (batch : list Etl.item) :
  (forall it, f it <> Ok None) ->
  forall rows,
    Etl.build_rows f batch = Ok rows -> Sql.count rows = Sql.count batch.
Proof.
  intro Hf. unfold Sql.count.
  induction batch as [|it batch IH]; intros rows H; cbn [Etl.build_rows] in H.
  - inversion H; subst. reflexivity.
  - apply bind_ok in H. destruct H as (o & Ho & H).
    apply bind_ok in H. destruct H as (rs & Hrs & H). inversion H; subst; clear H.
    specialize (IH rs Hrs).
    destruct o as [r|]; [cbn [List.length]; lia|].
    exfalso. apply (Hf it). exact Ho.
Qed.

Lemma one_upsert_values (P : Pg.row -> Prop) (m : Etl.model) (cols : list string)
  (rows : list Pg.row) :
  Forall P rows ->
  Forall (fun s => Etl.st_model s = m /\ Forall P (Etl.st_values s))
         (fst (Etl.one_upsert m cols rows)).
Proof.
  intro H. unfold Etl.one_upsert. cbn [fst].
  destruct rows; constructor; [|constructor]. cbn. split; [reflexivity|exact H].
Qed.

(** X21.  The date window of the tender and contract loaders.  Every row
    [_load_trd_buy] proposes has a publish date inside
    [date_from .. date_to] or none at all (an item whose date is missing or
    cannot be parsed is loaded whatever the window), and likewise every row
    of [_load_contracts] for its sign date, taken from [sign_date] or else
    [crdate]; the number the page adds to the loader's count is the number
    of rows proposed, at most the number of items received. *)
Theorem backfill_window_filter (batch : list Etl.item) (stmts : list Etl.stmt) (n : Z) :
  (Etl.statements (Etl.trd_buy_loader parse_iso to_float date_from date_to) batch
     = Ok (stmts, n) ->
   Forall (fun s =>
             Etl.st_model s = Etl.TrdBuyT
             /\ Forall (fun r => Props.in_window date_from date_to (Pg.get "publish_date" r))
                       (Etl.st_values s)) stmts
   /\ 0 <= n <= Sql.count batch)
  /\ (Etl.statements (Etl.contracts_loader parse_iso to_float date_from date_to) batch
        = Ok (stmts, n) ->
      Forall (fun s =>
                Etl.st_model s = Etl.ContractT
                /\ Forall (fun r => Props.in_window date_from date_to (Pg.get "sign_date" r))
                          (Etl.st_values s)) stmts
      /\ 0 <= n <= Sql.count batch).
Proof.
  split; intro H; cbn [Etl.statements Etl.trd_buy_loader Etl.contracts_loader] in H;
    apply bind_ok in H; destruct H as (rows & Hrows & H); inversion H; subst; clear H.
  - eapply build_rows_spec in Hrows.
    + destruct Hrows as [Hall Hlen]. split; [|exact Hlen].
      apply one_upsert_values. exact Hall.
    + intros it r Hr. unfold Etl.bf_trd_buy_row in Hr.
      destruct (Etl.outside_window _ _ _) eqn:Ew; [discriminate|].
      apply bind_ok in Hr. destruct Hr as (id & _ & Hr). inversion Hr; subst; clear Hr.
      cbn. apply kept_date_in_window. exact Ew.
  - eapply build_rows_spec in Hrows.
    + destruct Hrows as [Hall Hlen]. split; [|exact Hlen].
      apply one_upsert_values. exact Hall.
    + intros it r Hr. unfold Etl.bf_contract_row in Hr.
      destruct (Etl.outside_window _ _ _) eqn:Ew; [discriminate|].
      apply bind_ok in Hr. destruct Hr as (id & _ & Hr). inversion Hr; subst; clear Hr.
      cbn. apply kept_date_in_window. exact Ew.
Qed.

End Loaders.

Lemma backfill_window_filter_witness :
  exists stmts,
    Etl.statements (Etl.trd_buy_loader Examples.no_parse Examples.no_float 0 1000)
      [Examples.tender_item 1] = Ok (stmts, 1)
    /\ Forall (fun s =>
                 Etl.st_model s = Etl.TrdBuyT
                 /\ Forall (fun r => Props.in_window 0 1000 (Pg.get "publish_date" r))
                           (Etl.st_values s)) stmts.
Proof.
  eexists. split; [reflexivity|].
  apply (proj1 (@backfill_window_filter Examples.no_parse Examples.no_float 0 1000
                  [Examples.tender_item 1] _ 1)).
  reflexivity.
Defined.

Section Counting.

Variable parse_iso : pyval -> option datetime.
Variable to_float : pyval -> option Q.
Variable base_url : string.
Variables date_from date_to : datetime.

Lemma load_page_count (L : Etl.loader) (now : datetime) (k : nat) (db db1 : Etl.Database)
  (batch : list Etl.item) (next : string) (f : Etl.fault) (ev : list Etl.event) (n : Z) :
  Etl.load_page L now k db batch next f = (db1, ev, Ok n) ->
  exists stmts, Etl.statements L batch = Ok (stmts, n).
Proof.
  unfold Etl.load_page.
  destruct (Etl.statements L batch) as [[stmts c]|e]; [|intro H; inversion H].
  intro H. exists stmts.
  repeat match type of H with
         | context [if ?b then _ else _] => destruct b
         | context [match ?x with Ok _ => _ | Raise _ => _ end] => destruct x
         | context [let (_, _) := ?x in _] => destruct x
         | context [bind ?x _] => destruct x; cbn [bind] in H
         end; inversion H; reflexivity.
Qed.

Lemma load_pages_count (L : Etl.loader) (now : datetime)
  (bound : list Etl.item -> Z -> Prop) :
  (forall batch stmts c, Etl.statements L batch = Ok (stmts, c) -> bound batch c) ->
  forall pages k db faults count db' ev n,
    Etl.load_pages L now k db pages faults count = (db', ev, Ok n) ->
    exists counts,
      Forall2 (fun p c => bound (fst p) c) pages counts
      /\ n = count + fold_right Z.add 0 counts.
Proof.
  intro Hbound. induction pages as [|[batch next] pages IH];
    intros k db faults count db' ev n H; cbn [Etl.load_pages] in H.
  - inversion H; subst. exists []. split; [constructor|cbn; lia].
  - destruct (Etl.load_page L now k db batch next (hd Etl.NoFault faults))
      as [[db1 ev1] [c|e]] eqn:Hpage; [|inversion H].
    destruct (Etl.load_pages L now (S k) db1 pages (tl faults) (count + c))
      as [[db2 ev2] r] eqn:Hrest.
    inversion H; subst; clear H.
    destruct (IH _ _ _ _ _ _ _ Hrest) as (counts & Hall & Hn).
    apply load_page_count in Hpage. destruct Hpage as (stmts & Hst).
    exists (c :: counts). split.
    + constructor; [cbn [fst]; eapply Hbound; exact Hst|exact Hall].
    + cbn [fold_right]. lia.
Qed.

Lemma trd_app_rows_count (batch : list Etl.item) (rs : list Pg.row * list Pg.row) :
  Etl.trd_app_rows parse_iso to_float batch = Ok rs ->
  Sql.count (fst rs) = Sql.count batch.
Proof.
  unfold Sql.count. revert rs.
  induction batch as [|it batch IH]; intros rs H; cbn [Etl.trd_app_rows] in H.
  - inversion H; subst. reflexivity.
  - apply bind_ok in H. destruct H as (a & Ha & H).
    apply bind_ok in H. destruct H as (als & _ & H).
    apply bind_ok in H. destruct H as (rest & Hrest & H). inversion H; subst; clear H.
    specialize (IH rest Hrest). cbn [fst].
    unfold Etl.bf_trd_app_row in Ha. apply bind_ok in Ha.
    destruct Ha as (id & _ & Ha). inversion Ha; subst.
    cbn [app List.length]. lia.
Qed.

Ltac never_skips :=
  let it := fresh in
  let H := fresh in
  let x := fresh in
  let Hx := fresh in
  intros it H;
  unfold Etl.bf_subject_row, Etl.bf_lot_row, Etl.bf_rnu_row, Etl.bf_treasury_pay_row in H;
  apply bind_ok in H; destruct H as (x & Hx & H); discriminate H.

Lemma page_count_bounds (L : Etl.loader) (batch : list Etl.item)
  (stmts : list Etl.stmt) (c : Z) :
  In L (Spec.checkpointed_loaders parse_iso to_float date_from date_to) ->
  Etl.statements L batch = Ok (stmts, c) ->
  0 <= c <= Sql.count batch
  /\ (In L (Props.unfiltered_loaders parse_iso to_float) -> c = Sql.count batch).
Proof.
  intros HL H.
  assert (Hany : forall f rows,
             Etl.build_rows f batch = Ok rows -> 0 <= Sql.count rows <= Sql.count batch).
  { intros f rows Hr.
    apply (@build_rows_spec (fun _ => True) f batch (fun _ _ _ => I) rows Hr). }
  destruct HL as [<-|[<-|[<-|[<-|[<-|[<-|[<-|[]]]]]]]];
    cbn [Etl.statements Etl.subjects_loader Etl.trd_buy_loader Etl.lots_loader
         Etl.trd_app_loader Etl.contracts_loader Etl.rnu_loader
         Etl.treasury_pay_loader] in H.
  - apply bind_ok in H. destruct H as (rows & Hrows & H). inversion H; subst; clear H.
    cbn [Etl.one_upsert snd]. split; [eapply Hany; exact Hrows|]. intros _.
    eapply build_rows_all; [|exact Hrows]. never_skips.
  - apply bind_ok in H. destruct H as (rows & Hrows & H). inversion H; subst; clear H.
    cbn [Etl.one_upsert snd]. split; [eapply Hany; exact Hrows|].
    intros [E|[E|[E|[E|[E|[]]]]]]; discriminate E.
  - apply bind_ok in H. destruct H as (rows & Hrows & H). inversion H; subst; clear H.
    cbn [Etl.one_upsert snd]. split; [eapply Hany; exact Hrows|]. intros _.
    eapply build_rows_all; [|exact Hrows]. never_skips.
  - unfold Etl.trd_app_statements in H.
    apply bind_ok in H. destruct H as (rs & Hrs & H). inversion H; subst; clear H.
    rewrite (trd_app_rows_count _ Hrs).
    split; [unfold Sql.count; lia|reflexivity].
  - apply bind_ok in H. destruct H as (rows & Hrows & H). inversion H; subst; clear H.
    cbn [Etl.one_upsert snd]. split; [eapply Hany; exact Hrows|].
    intros [E|[E|[E|[E|[E|[]]]]]]; discriminate E.
  - apply bind_ok in H. destruct H as (rows & Hrows & H). inversion H; subst; clear H.
    cbn [Etl.one_upsert snd]. split; [eapply Hany; exact Hrows|]. intros _.
    eapply build_rows_all; [|exact Hrows]. never_skips.
  - apply bind_ok in H. destruct H as (rows & Hrows & H). inversion H; subst; clear H.
    cbn [Etl.one_upsert snd]. split; [eapply Hany; exact Hrows|]. intros _.
    eapply build_rows_all; [|exact Hrows]. never_skips.
Qed.

(** X22.  What a loader's return value counts.  When a checkpointed loader
    returns, its count is the number of rows it proposed for upsert over all
    the pages it was handed: never more than the items received, and exactly
    the items received for the loaders that keep every item (subjects, lots,
    applications, RNU, treasury payments; [_load_trd_app] counts the
    applications, not their lots). *)
Theorem loader_count_is_rows_proposed (L : Etl.loader) (now : datetime)
  (db db' : Etl.Database) (upstream : string -> list (result Etl.response))
  (faults : list Etl.fault) (ev : list Etl.event) (n : Z) :
  In L (Spec.checkpointed_loaders parse_iso to_float date_from date_to) ->
  Etl.load base_url L now db upstream faults = (db', ev, Ok n) ->
  let pages :=
    fst (Etl.paginate base_url
           (upstream (Etl.first_url base_url (Etl.resume_endpoint L db)))) in
  0 <= n <= Props.items_received pages
  /\ (In L (Props.unfiltered_loaders parse_iso to_float) ->
      n = Props.items_received pages).
Proof.
  intros HL H pages. unfold Etl.load in H. subst pages.
  destruct (Etl.paginate base_url _) as [pages err]. cbn [fst].
  destruct (Etl.load_pages L now 0 db pages faults 0) as [[db1 ev1] [c|e]] eqn:Hloop;
    [|inversion H].
  assert (Hn : c = n) by (destruct err; inversion H; reflexivity). subst c.
  destruct (@load_pages_count L now
              (fun batch c =>
                 0 <= c <= Sql.count batch
                 /\ (In L (Props.unfiltered_loaders parse_iso to_float) ->
                     c = Sql.count batch))
              (fun batch stmts c Hst => @page_count_bounds L batch stmts c HL Hst)
              pages _ _ _ _ _ _ _ Hloop) as (counts & Hall & ->).
  clear Hloop H. cbn [Z.add].
  induction Hall as [|p c ps cs (Hc & Hfull) Hrest IH]; cbn [fold_right Props.items_received].
  - split; [lia|reflexivity].
  - fold (Props.items_received ps). destruct IH as [IH1 IH2].
    split; [lia|]. intro Hu. rewrite (Hfull Hu), (IH2 Hu). reflexivity.
Qed.

End Counting.

Lemma loader_count_is_rows_proposed_witness :
  exists db' ev,
    Etl._load_lots Examples.no_parse Examples.no_float "https://ows" 5
      Etl.declared_database Cases.two_lot_pages [] = (db', ev, Ok 3).
Proof.
  destruct (Etl._load_lots Examples.no_parse Examples.no_float "https://ows" 5
              Etl.declared_database Cases.two_lot_pages []) as [[db' ev] [n|e]] eqn:E;
    [|vm_compute in E; discriminate E].
  destruct (@loader_count_is_rows_proposed Examples.no_parse Examples.no_float
              "https://ows" 0 0 (Etl.lots_loader Examples.no_parse Examples.no_float) 5
              Etl.declared_database db' Cases.two_lot_pages [] ev n
              (or_intror (or_intror (or_introl eq_refl))) E) as [_ Hfull].
  exists db', ev. rewrite Hfull; [reflexivity|].
  right. left. reflexivity.
Defined.

Lemma event_eq_dec (a b : Etl.event) : {a = b} + {a <> b}.
Proof.
  decide equality; first [apply Nat.eq_dec|apply string_dec].
Qed.

Lemma execute_all_frame (models : list Etl.model) (stmts : list Etl.stmt) :
  Forall (fun s => In (Etl.st_model s) models) stmts ->
  forall db db',
    Etl.execute_all stmts db = Ok db' ->
    forall m, ~ In m models -> Etl.table_of m db' = Etl.table_of m db.
Proof.
  induction 1 as [|s stmts Hs Hrest IH]; intros db db' H m Hm; cbn [Etl.execute_all] in H.
  - inversion H; subst. reflexivity.
  - apply bind_ok in H. destruct H as (db1 & H1 & H).
    rewrite (IH _ _ H m Hm).
    apply execute_keeps in H1. destruct H1 as [_ Hother]. apply Hother.
    intro E. subst m. contradiction.
Qed.

Lemma load_page_frame (models : list Etl.model) (L : Etl.loader) (now : datetime)
  (k : nat) (db db1 : Etl.Database) (batch : list Etl.item) (next : string)
  (f : Etl.fault) (ev : list Etl.event) (out : result Z) :
  Props.writes_only models L ->
  Etl.load_page L now k db batch next f = (db1, ev, out) ->
  forall m, ~ In m models -> m <> Etl.EtlCursorT ->
            Etl.table_of m db1 = Etl.table_of m db.
Proof.
  intros Hw H m Hm Hc.
  destruct (load_page_commit_anchor _ _ _ _ _ _ _ H) as [Hyes Hno].
  destruct (in_dec event_eq_dec (Etl.Committed k) ev) as [Hin|Hin].
  - destruct (Hyes Hin) as (stmts & n & dbc & Hst & Hex & Hsame).
    rewrite (Hsame m Hc).
    eapply execute_all_frame; [eapply Hw; exact Hst|exact Hex|exact Hm].
  - apply Hno; assumption.
Qed.

Lemma load_pages_frame (models : list Etl.model) (L : Etl.loader) (now : datetime)
  (pages : list (list Etl.item * string)) :
  Props.writes_only models L ->
  forall k db faults count db' ev out,
    Etl.load_pages L now k db pages faults count = (db', ev, out) ->
    forall m, ~ In m models -> m <> Etl.EtlCursorT ->
              Etl.table_of m db' = Etl.table_of m db.
Proof.
  intro Hw. induction pages as [|[batch next] pages IH];
    intros k db faults count db' ev out H m Hm Hc; cbn [Etl.load_pages] in H.
  - inversion H; subst. reflexivity.
  - destruct (Etl.load_page L now k db batch next (hd Etl.NoFault faults))
      as [[db1 ev1] [c|e]] eqn:Hpage.
    + destruct (Etl.load_pages L now (S k) db1 pages (tl faults) (count + c))
        as [[db2 ev2] r] eqn:Hrest.
      inversion H; subst; clear H.
      rewrite (IH _ _ _ _ _ _ _ Hrest m Hm Hc).
      eapply load_page_frame; eassumption.
    + inversion H; subst; clear H. eapply load_page_frame; eassumption.
Qed.

Section Frame.

Variable parse_iso : pyval -> option datetime.
Variable to_float : pyval -> option Q.
Variable base_url : string.
Variables date_from date_to : datetime.

Lemma one_upsert_target (m : Etl.model) (cols : list string) (rows : list Pg.row) :
  Forall (fun s => In (Etl.st_model s) [m]) (fst (Etl.one_upsert m cols rows)).
Proof.
  unfold Etl.one_upsert. cbn [fst]. destruct rows; constructor; [|constructor].
  left. reflexivity.
Qed.

Lemma loader_writes_only (L : Etl.loader) (models : list Etl.model) :
  In (L, models) (Props.loader_tables parse_iso to_float date_from date_to) ->
  Props.writes_only models L.
Proof.
  intros HL batch stmts n H.
  destruct HL as [E|[E|[E|[E|[E|[E|[E|[]]]]]]]]; inversion E; subst; clear E;
    cbn [Etl.statements Etl.subjects_loader Etl.trd_buy_loader Etl.lots_loader
         Etl.trd_app_loader Etl.contracts_loader Etl.rnu_loader
         Etl.treasury_pay_loader] in H;
    try (apply bind_ok in H; destruct H as (rows & _ & H); inversion H; subst;
         apply one_upsert_target).
  unfold Etl.trd_app_statements in H.
  apply bind_ok in H. destruct H as (rs & _ & H). inversion H; subst; clear H.
  destruct (fst rs), (snd rs); cbn [app];
    repeat (apply Forall_cons || apply Forall_nil); cbn; auto.
Qed.

Lemma loader_is_checkpointed (L : Etl.loader) (models : list Etl.model) :
  In (L, models) (Props.loader_tables parse_iso to_float date_from date_to) ->
  In L (Spec.checkpointed_loaders parse_iso to_float date_from date_to).
Proof.
  intro H. apply (in_map fst) in H. exact H.
Qed.

Lemma load_frame (L : Etl.loader) (models : list Etl.model) (now : datetime)
  (db db' : Etl.Database) (upstream : string -> list (result Etl.response))
  (faults : list Etl.fault) (ev : list Etl.event) (out : result Z) :
  In (L, models) (Props.loader_tables parse_iso to_float date_from date_to) ->
  Etl.load base_url L now db upstream faults = (db', ev, out) ->
  (forall m, ~ In m models -> m <> Etl.EtlCursorT ->
             Etl.table_of m db' = Etl.table_of m db)
  /\ (forall src, src <> Etl.source L ->
                  Etl._get_cursor db' src = Etl._get_cursor db src).
Proof.
  intros HL H.
  pose proof (loader_writes_only HL) as Hw.
  pose proof (@loaders_leave_cursors_alone parse_iso to_float date_from date_to L
                (loader_is_checkpointed HL)) as Halone.
  unfold Etl.load in H.
  destruct (Etl.paginate base_url _) as [pages err].
  destruct (Etl.load_pages L now 0 db pages faults 0) as [[db1 ev1] r] eqn:Hloop.
  assert (Hsame : db' = db1) by (destruct r; inversion H; auto). subst db1.
  split.
  - intros m Hm Hc. eapply load_pages_frame; eassumption.
  - intros src Hsrc.
    apply (@load_pages_other_source L now src pages Halone Hsrc _ _ _ _ _ _ _ Hloop).
Qed.

(** X23.  A loader writes its own tables and its own cursor only.  Whatever
    the upstream replies and whatever fails, a checkpointed loader leaves
    every table other than the ones it upserts into (trd_app and
    trd_app_lots for [_load_trd_app], one table for each of the others)
    exactly as it found it, and the cursor of every other source unchanged. *)
Theorem loader_writes_only_its_tables (L : Etl.loader) (models : list Etl.model)
  (now : datetime) (db db' : Etl.Database)
  (upstream : string -> list (result Etl.response)) (faults : list Etl.fault)
  (ev : list Etl.event) (out : result Z) :
  In (L, models) (Props.loader_tables parse_iso to_float date_from date_to) ->
  Etl.load base_url L now db upstream faults = (db', ev, out) ->
  (forall m, ~ In m models -> m <> Etl.EtlCursorT ->
             Etl.table_of m db' = Etl.table_of m db)
  /\ (forall src, src <> Etl.source L ->
                  Etl._get_cursor db' src = Etl._get_cursor db src).
Proof.
  intros HL H.
  destruct (@load_frame L models now db db' upstream faults ev out HL H)
    as [Htables Hcursors].
  split; [exact Htables|exact Hcursors].
Qed.

End Frame.

Lemma loader_writes_only_its_tables_witness :
  exists db' ev out,
    Etl._load_lots Examples.no_parse Examples.no_float "https://ows" 5
      Examples.two_tenders_db Cases.two_lot_pages [] = (db', ev, out)
    /\ Etl.d_trd_buy db' = Etl.d_trd_buy Examples.two_tenders_db
    /\ List.length (Pg.t_rows (Etl.d_lots db')) = 3%nat.
Proof.
  destruct (Etl._load_lots Examples.no_parse Examples.no_float "https://ows" 5
              Examples.two_tenders_db Cases.two_lot_pages []) as [[db' ev] out] eqn:E.
  destruct (@loader_writes_only_its_tables Examples.no_parse Examples.no_float
              "https://ows" 0 0 (Etl.lots_loader Examples.no_parse Examples.no_float)
              [Etl.LotT] 5 Examples.two_tenders_db db' Cases.two_lot_pages [] ev out
              (or_intror (or_intror (or_introl eq_refl))) E) as [Htables _].
  exists db', ev, out. split; [reflexivity|]. split.
  - apply (Htables Etl.TrdBuyT); [intros [E1|[]]; discriminate E1|discriminate].
  - vm_compute in E. inversion E; subst. reflexivity.
Defined.

End LoaderProps.

(* ===================================================================== *)
(** ** Properties of BackfillETL.run                                     *)
(* ===================================================================== *)

Module BackfillRunProps.

Import PgFacts IncrementalFacts UpsertFacts BackfillFacts LoaderProps.

Lemma In_firstn {A} (n : nat) (l : list A) (x : A) : In x (firstn n l) -> In x l.
Proof.
  revert n. induction l as [|y l IH]; intros [|n] H; cbn in H; try contradiction.
  destruct H as [H|H]; [left; exact H|right; eapply IH; exact H].
Qed.

Section Run.

Variable parse_iso : pyval -> option datetime.
Variable to_float : pyval -> option Q.
Variable base_url : string.
Variable str_of_exn : exn -> string.
Variables date_from date_to : datetime.

Lemma run_loaders_spec (now : datetime) (upstream : string -> list (result Etl.response))
  (faults : string -> list Etl.fault) (todo : list (string * Etl.loader)) :
  Forall (fun kl => In (snd kl, Props.tables_of_key (fst kl))
                       (Props.loader_tables parse_iso to_float date_from date_to)) todo ->
  forall db db' evs out,
    Backfill.run_loaders base_url todo now db upstream faults = (db', evs, out) ->
    map fst evs = map fst (firstn (List.length evs) todo)
    /\ (forall summary, out = Ok summary ->
          map fst summary = map fst todo /\ map fst evs = map fst todo)
    /\ (forall m,
          (forall key L, In (key, L) (firstn (List.length evs) todo) ->
                         ~ In m (Props.tables_of_key key)) ->
          m <> Etl.EtlCursorT ->
          Etl.table_of m db' = Etl.table_of m db)
    /\ (forall src,
          (forall key L, In (key, L) (firstn (List.length evs) todo) ->
                         Etl.source L <> src) ->
          Etl._get_cursor db' src = Etl._get_cursor db src)
    /\ (forall e, out = Raise e ->
          exists done key L rest db0 ev,
            todo = (done ++ (key, L) :: rest)%list
            /\ map fst evs = (map fst done ++ [key])%list
            /\ Etl.load base_url L now db0 upstream (faults key) = (db', ev, Raise e)).
Proof.
  induction 1 as [|[key L] todo HL Hrest IH]; intros db db' evs out H;
    cbn [Backfill.run_loaders] in H.
  - inversion H; subst. cbn [List.length firstn map].
    split; [reflexivity|]. split; [|split; [|split]]; try (intros; reflexivity).
    + intros summary E. inversion E; subst. split; reflexivity.
    + intros e E. discriminate E.
  - cbn [fst snd] in HL.
    destruct (Etl.load base_url L now db upstream (faults key)) as [[db1 ev] [n|e]] eqn:Hload.
    + destruct (Backfill.run_loaders base_url todo now db1 upstream faults)
        as [[db2 evs2] r] eqn:Hloop.
      inversion H; subst; clear H.
      destruct (IH _ _ _ _ Hloop) as (Hkeys & Hdone & Htables & Hcursors & Hfail).
      destruct (@load_frame parse_iso to_float base_url date_from date_to L
                  (Props.tables_of_key key) now db db1 upstream (faults key) ev (Ok n)
                  HL Hload) as [Ht1 Hc1].
      cbn [List.length firstn map fst].
      split; [f_equal; exact Hkeys|]. split; [|split; [|split]].
      * intros summary E. destruct r as [s|e]; [|discriminate].
        inversion E; subst. destruct (Hdone s eq_refl) as [Hs Hev].
        cbn [map fst]. split; f_equal; assumption.
      * intros m Hm Hc. rewrite Htables; [| |exact Hc].
        -- apply Ht1; [|exact Hc]. apply (Hm key L). left. reflexivity.
        -- intros key' L' Hin. apply (Hm key' L'). right. exact Hin.
      * intros src Hsrc. rewrite Hcursors.
        -- apply Hc1. intro E. apply (Hsrc key L); [left; reflexivity|]. symmetry. exact E.
        -- intros key' L' Hin. apply (Hsrc key' L'). right. exact Hin.
      * intros e E. destruct r as [s|e']; [discriminate|]. inversion E; subst e'.
        destruct (Hfail e eq_refl) as (done & key' & L' & rest & db0 & ev' & -> & Hk & Hl).
        exists ((key, L) :: done), key', L', rest, db0, ev'.
        split; [reflexivity|]. split; [cbn [map fst app]; f_equal; exact Hk|exact Hl].
    + inversion H; subst; clear H.
      destruct (@load_frame parse_iso to_float base_url date_from date_to L
                  (Props.tables_of_key key) now db db' upstream (faults key) ev (Raise e)
                  HL Hload) as [Ht1 Hc1].
      cbn [List.length firstn map fst].
      split; [reflexivity|]. split; [intros summary E; discriminate|].
      split; [|split].
      * intros m Hm Hc. apply Ht1; [|exact Hc]. apply (Hm key L). left. reflexivity.
      * intros src Hsrc. apply Hc1. intro E.
        apply (Hsrc key L); [left; reflexivity|]. symmetry. exact E.
      * intros e' E. inversion E; subst e'.
        exists [], key, L, todo, db, ev. split; [reflexivity|]. split; [reflexivity|].
        exact Hload.
Qed.

Lemma steps_are_loaders :
  Forall (fun kl => In (snd kl, Props.tables_of_key (fst kl))
                       (Props.loader_tables parse_iso to_float date_from date_to))
         (Backfill.steps parse_iso to_float date_from date_to).
Proof.
  unfold Backfill.steps, Props.loader_tables.
  repeat (apply Forall_cons || apply Forall_nil); cbn; auto 10.
Qed.

Lemma steps_apart (key key' : string) (L L' : Etl.loader) :
  In (key, L) (Backfill.steps parse_iso to_float date_from date_to) ->
  In (key', L') (Backfill.steps parse_iso to_float date_from date_to) ->
  key' <> key ->
  (forall m, In m (Props.tables_of_key key) ->
             ~ In m (Props.tables_of_key key') /\ m <> Etl.EtlCursorT)
  /\ Etl.source L' <> Etl.source L.
Proof.
  intros H H' Hne.
  destruct H as [E|[E|[E|[E|[E|[E|[]]]]]]]; inversion E; subst; clear E;
    destruct H' as [E|[E|[E|[E|[E|[E|[]]]]]]]; inversion E; subst; clear E;
    try (exfalso; apply Hne; reflexivity);
    (split; [intros m Hm; cbn in Hm; cbn; intuition (subst; discriminate)
            |cbn; discriminate]).
Qed.

Lemma steps_tables_not_cursor (key : string) (L : Etl.loader) :
  In (key, L) (Backfill.steps parse_iso to_float date_from date_to) ->
  forall m, In m (Props.tables_of_key key) -> m <> Etl.EtlCursorT.
Proof.
  intro H.
  destruct H as [E|[E|[E|[E|[E|[E|[]]]]]]]; inversion E; subst; clear E;
    intros m Hm; cbn in Hm; intuition (subst; discriminate).
Qed.

Lemma steps_spare_subjects (key : string) (L : Etl.loader) :
  In (key, L) (Backfill.steps parse_iso to_float date_from date_to) ->
  ~ In Etl.SubjectT (Props.tables_of_key key)
  /\ Etl.source L <> "backfill_subjects".
Proof.
  intro H.
  destruct H as [E|[E|[E|[E|[E|[E|[]]]]]]]; inversion E; subst; clear E;
    (split; [cbn; intuition discriminate|cbn; discriminate]).
Qed.

(** X24.  [BackfillETL.run] runs its loaders in order and stops at the
    first failure.  The loaders started are the first ones of tenders,
    lots, applications, contracts, RNU, treasury payments, in that order;
    when the run returns, all six were, and the summary has their six keys.
    A loader that was not started has left no trace: its tables and its
    cursor are as before the run; when the run raises, the exception is
    that of the last loader started and the tables are as that loader left
    them.  Subjects are not loaded: no run changes the subject table or
    the subjects cursor. *)
Theorem backfill_run_in_order (started now finished : datetime)
  (date_from_s date_to_s : string) (db db' : Backfill.RunDb)
  (upstream : string -> list (result Etl.response)) (faults : string -> list Etl.fault)
  (evs : list (string * list Etl.event)) (out : result (list (string * Z))) :
  Backfill.run parse_iso to_float base_url str_of_exn date_from date_to
    started now finished date_from_s date_to_s db upstream faults = (db', evs, out) ->
  map fst evs = firstn (List.length evs) Props.summary_keys
  /\ (forall summary, out = Ok summary ->
        map fst summary = Props.summary_keys /\ map fst evs = Props.summary_keys)
  /\ (forall key L,
        In (key, L) (Backfill.steps parse_iso to_float date_from date_to) ->
        ~ In key (map fst evs) ->
        (forall m, In m (Props.tables_of_key key) ->
                   Etl.table_of m (Backfill.tables db')
                   = Etl.table_of m (Backfill.tables db))
        /\ Etl._get_cursor (Backfill.tables db') (Etl.source L)
           = Etl._get_cursor (Backfill.tables db) (Etl.source L))
  /\ (forall e, out = Raise e ->
        evs = []
        \/ exists done key L rest db0 ev,
             Backfill.steps parse_iso to_float date_from date_to
             = (done ++ (key, L) :: rest)%list
             /\ map fst evs = (map fst done ++ [key])%list
             /\ Etl.load base_url L now db0 upstream (faults key)
                = (Backfill.tables db', ev, Raise e))
  /\ Etl.d_subject (Backfill.tables db') = Etl.d_subject (Backfill.tables db)
  /\ Etl._get_cursor (Backfill.tables db') "backfill_subjects"
     = Etl._get_cursor (Backfill.tables db) "backfill_subjects".
Proof.
  intro H. unfold Backfill.run in H.
  destruct (Backfill._start_run started date_from_s date_to_s (Backfill.etl_runs db))
    as [[runs1 run_id]|e].
  2:{ inversion H; subst. cbn [List.length firstn map].
      split; [reflexivity|]. split; [intros summary E; discriminate E|].
      split; [intros key L _ _; split; [intros; reflexivity|reflexivity]|].
      split; [intros e' _; left; reflexivity|].
      split; reflexivity. }
  destruct (Backfill.run_loaders base_url
              (Backfill.steps parse_iso to_float date_from date_to) now
              (Backfill.tables db) upstream faults) as [[tables1 evs1] r] eqn:Hloop.
  destruct (@run_loaders_spec now upstream faults _ steps_are_loaders _ _ _ _ Hloop)
    as (Hkeys & Hdone & Htables & Hcursors & Hfail).
  assert (Hout : Backfill.tables db' = tables1 /\ evs = evs1 /\ out = r)
    by (destruct r; inversion H; subst; auto).
  destruct Hout as (Hdb & -> & ->). rewrite Hdb. clear H Hdb.
  assert (Hkeys' : map fst evs1 = firstn (List.length evs1) Props.summary_keys).
  { rewrite Hkeys. rewrite <- firstn_map. reflexivity. }
  split; [exact Hkeys'|]. split; [exact Hdone|]. split; [|split; [|split]].
  - intros key L Hin Hnot. split.
    + intros m Hm. apply Htables.
      * intros key' L' Hin'.
        assert (Hne : key' <> key).
        { intro E. subst key'. apply Hnot. rewrite Hkeys.
          apply (in_map fst) in Hin'. exact Hin'. }
        apply In_firstn in Hin'.
        destruct (steps_apart Hin Hin' Hne) as [Hm' _]. apply Hm'. exact Hm.
      * apply (steps_tables_not_cursor Hin). exact Hm.
    + apply Hcursors. intros key' L' Hin'.
      assert (Hne : key' <> key).
      { intro E. subst key'. apply Hnot. rewrite Hkeys.
        apply (in_map fst) in Hin'. exact Hin'. }
      apply In_firstn in Hin'.
      destruct (steps_apart Hin Hin' Hne) as [_ Hs]. exact Hs.
  - intros e E. right. apply Hfail. exact E.
  - apply (Htables Etl.SubjectT); [|discriminate].
    intros key L Hin. apply In_firstn in Hin. apply (steps_spare_subjects Hin).
  - apply Hcursors. intros key L Hin. apply In_firstn in Hin.
    apply (steps_spare_subjects Hin).
Qed.

End Run.

Lemma start_run_fresh (started : datetime) (date_from_s date_to_s : string)
  (runs : Pg.table) :
  Props.serial_fresh runs ->
  exists row,
    Backfill._start_run started date_from_s date_to_s runs
    = Ok ({| Pg.t_unique := Pg.t_unique runs; Pg.t_serial := Pg.t_serial runs;
             Pg.t_next := Pg.t_next runs + 1;
             Pg.t_rows := (Pg.t_rows runs ++ [row])%list |}, Pg.t_next runs)
    /\ row = [("id", VInt (Pg.t_next runs)); ("run_type", VStr "backfill");
              ("started_at", VDate started); ("status", VStr "running");
              ("summary_jsonb", VDict [("date_from", VStr date_from_s);
                                       ("date_to", VStr date_to_s)])].
Proof.
  intros (Hu & Hs & Hrows). eexists. split; [|reflexivity].
  destruct runs as [u s n rows]. cbn [Pg.t_unique Pg.t_serial Pg.t_next Pg.t_rows] in *.
  subst u s. unfold Backfill._start_run, Backfill.add, Pg.fill_serial.
  cbn [Pg.t_unique Pg.t_serial Pg.t_next Pg.t_rows Pg.get String.eqb Ascii.eqb Bool.eqb
       existsb].
  rewrite (@EngineProps.find_conflict_fresh _ rows n); [|reflexivity|exact Hrows].
  reflexivity.
Qed.

Lemma finish_run_rows (finished : datetime) (run_id : Z) (status : string)
  (summary : pyval) (rows : list Pg.row) (row : Pg.row) (t : Pg.table) :
  (forall r, In r rows -> Etl.id_is run_id r = false) ->
  Etl.id_is run_id row = true ->
  Pg.t_rows t = (rows ++ [row])%list ->
  Pg.t_rows (Backfill._finish_run finished run_id status summary t)
  = (rows ++ [fold_left (fun r cv => Pg.set (fst cv) (snd cv) r)
                [("finished_at", VDate finished); ("status", VStr status);
                 ("summary_jsonb", summary)] row])%list.
Proof.
  intros Hold Hrow Ht. unfold Backfill._finish_run, Pg.update_where, Pg.with_rows.
  cbn [Pg.t_rows]. rewrite Ht, map_app. cbn [map]. rewrite Hrow. f_equal.
  rewrite <- (map_id rows) at 2. apply map_ext_in. intros r Hr.
  rewrite (Hold r Hr). reflexivity.
Qed.

Section Record.

Variable parse_iso : pyval -> option datetime.
Variable to_float : pyval -> option Q.
Variable base_url : string.
Variable str_of_exn : exn -> string.
Variables date_from date_to : datetime.

(** X25.  The run record of [BackfillETL.run].  On an etl_runs table as
    declared, every run adds exactly one row, after the stored ones and
    without touching them, under the next id of the sequence; when the run
    ends the row carries [finished_at] and the status "success" with the
    summary if the run returned, "failed" with the error text if it raised:
    no run leaves its record "running" (the two record statements taken to
    succeed). *)
Theorem backfill_run_closes_its_record (started now finished : datetime)
  (date_from_s date_to_s : string) (db db' : Backfill.RunDb)
  (upstream : string -> list (result Etl.response)) (faults : string -> list Etl.fault)
  (evs : list (string * list Etl.event)) (out : result (list (string * Z))) :
  Props.serial_fresh (Backfill.etl_runs db) ->
  Backfill.run parse_iso to_float base_url str_of_exn date_from date_to
    started now finished date_from_s date_to_s db upstream faults = (db', evs, out) ->
  exists row,
    Pg.t_rows (Backfill.etl_runs db')
    = (Pg.t_rows (Backfill.etl_runs db) ++ [row])%list
    /\ Pg.get "id" row = Some (VInt (Pg.t_next (Backfill.etl_runs db)))
    /\ Pg.get "run_type" row = Some (VStr "backfill")
    /\ Pg.get "started_at" row = Some (VDate started)
    /\ Pg.get "finished_at" row = Some (VDate finished)
    /\ Pg.get "status" row
       = Some (VStr (match out with Ok _ => "success" | Raise _ => "failed" end))
    /\ Pg.get "summary_jsonb" row
       = Some (match out with
               | Ok summary => Backfill.summary_json summary
               | Raise e => VDict [("error", VStr (str_of_exn e))]
               end).
Proof.
  intros Hfresh H. unfold Backfill.run in H.
  destruct (start_run_fresh started date_from_s date_to_s Hfresh) as (row & Hstart & Hrow).
  rewrite Hstart in H.
  destruct (Backfill.run_loaders base_url _ now (Backfill.tables db) upstream faults)
    as [[tables1 evs1] r].
  assert (Hold : forall r0, In r0 (Pg.t_rows (Backfill.etl_runs db)) ->
                            Etl.id_is (Pg.t_next (Backfill.etl_runs db)) r0 = false).
  { intros r0 Hr0. destruct Hfresh as (_ & _ & Hrows).
    destruct (Hrows r0 Hr0) as (i & Hi & Hlt). unfold Etl.id_is. rewrite Hi.
    apply Z.eqb_neq. lia. }
  assert (Hnew : Etl.id_is (Pg.t_next (Backfill.etl_runs db)) row = true).
  { subst row. unfold Etl.id_is. cbn. apply Z.eqb_refl. }
  destruct r as [summary|e]; inversion H; subst db' evs out; clear H;
    cbn [Backfill.etl_runs];
    (erewrite finish_run_rows; [|exact Hold|exact Hnew|reflexivity]);
    eexists; (split; [reflexivity|]); subst row; cbn; repeat split; reflexivity.
Qed.

End Record.

Lemma backfill_run_in_order_witness :
  exists db' ev,
    Backfill.run Examples.no_parse Examples.no_float "https://ows" Cases.exn_text 0 1000
      1 5 9 "2024-01-01" "2025-12-31" Cases.empty_run_db Examples.one_page_then_failure
      Cases.no_faults
    = (db', [("trd_buy", ev)], Raise TransportError)
    /\ Etl.d_lots (Backfill.tables db') = Etl.d_lots Etl.declared_database
    /\ List.length (Pg.t_rows (Etl.d_trd_buy (Backfill.tables db'))) = 2%nat.
Proof.
  destruct (Backfill.run Examples.no_parse Examples.no_float "https://ows" Cases.exn_text
              0 1000 1 5 9 "2024-01-01" "2025-12-31" Cases.empty_run_db
              Examples.one_page_then_failure Cases.no_faults) as [[db' evs] out] eqn:E.
  destruct (@backfill_run_in_order Examples.no_parse Examples.no_float "https://ows"
              Cases.exn_text 0 1000 1 5 9 "2024-01-01" "2025-12-31" Cases.empty_run_db db'
              Examples.one_page_then_failure Cases.no_faults evs out E)
    as (_ & _ & Huntouched & _).
  vm_compute in E. inversion E; subst db' evs out. clear E.
  eexists. eexists. split; [reflexivity|]. split; [|reflexivity].
  refine (proj1 (Huntouched "lots" (Etl.lots_loader Examples.no_parse Examples.no_float)
                   (or_intror (or_introl eq_refl)) _) Etl.LotT (or_introl eq_refl)).
  cbn. intros [E|[]]. discriminate E.
Defined.

Lemma backfill_run_closes_its_record_witness :
  exists db' evs out row,
    Backfill.run Examples.no_parse Examples.no_float "https://ows" Cases.exn_text 0 1000
      1 5 9 "2024-01-01" "2025-12-31" Cases.empty_run_db Examples.one_page_then_failure
      Cases.no_faults = (db', evs, out)
    /\ Pg.t_rows (Backfill.etl_runs db') = [row]
    /\ Pg.get "status" row = Some (VStr "failed")
    /\ Pg.get "summary_jsonb" row = Some (VDict [("error", VStr "transport error")]).
Proof.
  destruct (Backfill.run Examples.no_parse Examples.no_float "https://ows" Cases.exn_text
              0 1000 1 5 9 "2024-01-01" "2025-12-31" Cases.empty_run_db
              Examples.one_page_then_failure Cases.no_faults) as [[db' evs] out] eqn:E.
  assert (Hfresh : Props.serial_fresh (Backfill.etl_runs Cases.empty_run_db)).
  { split; [reflexivity|]. split; [reflexivity|]. intros r []. }
  destruct (@backfill_run_closes_its_record Examples.no_parse Examples.no_float
              "https://ows" Cases.exn_text 0 1000 1 5 9 "2024-01-01" "2025-12-31"
              Cases.empty_run_db db' Examples.one_page_then_failure Cases.no_faults evs out
              Hfresh E) as (row & Hrows & _ & _ & _ & _ & Hstatus & Hsummary).
  exists db', evs, out, row. split; [reflexivity|]. split; [exact Hrows|].
  assert (Hout : out = Raise TransportError) by (vm_compute in E; inversion E; reflexivity).
  rewrite Hout in Hstatus, Hsummary. split; [exact Hstatus|exact Hsummary].
Defined.

End BackfillRunProps.
